(** * libavutil/opencl.c: the OpenCL wrapper of FFmpeg

    A shallow embedding of [src/libavutil/opencl.c]: the global environment
    [gpu_env], the option block [openclutils], the error translator, the kernel
    source registry and its compiler pass, the kernel handle manager, the
    reference-counted init/uninit pair and the buffer transfer functions.

    Conventions of the embedding.
    - C [int] values are [Z]; every [int] addition and subtraction is written
      with its 32-bit two's-complement wrap-around ([int32]).
    - Pointers and OpenCL handles are addresses in [Z]; [NULL] is [0].
    - A fixed-size C array is a [list]; an access outside the list is undefined
      behaviour of the C program and makes the embedded function return [None].
    - Calls into the OpenCL runtime, the allocator and the logger are recorded
      in a trace of [event]s; what the outside world answers (handles, status
      codes) is an explicit argument of the embedded function.
    - [LOCK_OPENCL]/[UNLOCK_OPENCL] bracket every entry point that touches
      [gpu_env]; the embedding therefore treats each entry point as one atomic
      step on the global state. *)

From Stdlib Require Import ZArith Lia.
From stdpp Require Import base list strings.

Local Open Scope Z_scope.

(** ** Machine integers *)

Definition INT_MIN : Z := - 2 ^ 31.
Definition INT_MAX : Z := 2 ^ 31 - 1.

(** Value of an [int] expression whose mathematical result is [z]. *)
Definition int32 (z : Z) : Z := (z + 2 ^ 31) mod 2 ^ 32 - 2 ^ 31.

(** Conversion to [unsigned int], as in the cast [(unsigned int)plane_num]. *)
Definition uint32 (z : Z) : Z := z mod 2 ^ 32.

(** Conversion to [size_t] (LP64), as in [buffer_size > cl_buffer_size]. *)
Definition size_t (z : Z) : Z := z mod 2 ^ 64.

Definition ptr : Type := Z.
Definition NULL : ptr := 0.

Definition cl_int : Type := Z.

(** ** Outcome of a C function

    [None] is undefined behaviour (an array access out of bounds); otherwise
    the function ran to its [return]. *)

Abbreviation M := option (only parsing).

Definition arr_get {A} (a : list A) (i : Z) : M A :=
  if i <? 0 then None else a !! Z.to_nat i.

Definition arr_set {A} (a : list A) (i : Z) (x : A) : M (list A) :=
  if i <? 0 then None
  else if (Z.to_nat i <? length a)%nat then Some (<[Z.to_nat i := x]> a)
  else None.

(** The result codes of libavutil/error.h the file returns:
    [0], [AVERROR(EINVAL)], [AVERROR(ENOMEM)] and [AVERROR_EXTERNAL].  The
    three error codes are negative, [0] is not. *)
Inductive av_ret : Type :=
| RET_OK
| AVERROR_EINVAL
| AVERROR_ENOMEM
| AVERROR_EXTERNAL.

(** The test [ret < 0]. *)
Definition ret_lt_0 (r : av_ret) : bool :=
  match r with RET_OK => false | _ => true end.

(** ** OpenCL status codes (CL/cl.h of OpenCL 1.2) *)

Module CL.
Definition SUCCESS : cl_int := 0.
Definition DEVICE_NOT_FOUND : cl_int := -1.
Definition DEVICE_NOT_AVAILABLE : cl_int := -2.
Definition COMPILER_NOT_AVAILABLE : cl_int := -3.
Definition MEM_OBJECT_ALLOCATION_FAILURE : cl_int := -4.
Definition OUT_OF_RESOURCES : cl_int := -5.
Definition OUT_OF_HOST_MEMORY : cl_int := -6.
Definition PROFILING_INFO_NOT_AVAILABLE : cl_int := -7.
Definition MEM_COPY_OVERLAP : cl_int := -8.
Definition IMAGE_FORMAT_MISMATCH : cl_int := -9.
Definition IMAGE_FORMAT_NOT_SUPPORTED : cl_int := -10.
Definition BUILD_PROGRAM_FAILURE : cl_int := -11.
Definition MAP_FAILURE : cl_int := -12.
Definition MISALIGNED_SUB_BUFFER_OFFSET : cl_int := -13.
Definition EXEC_STATUS_ERROR_FOR_EVENTS_IN_WAIT_LIST : cl_int := -14.
Definition COMPILE_PROGRAM_FAILURE : cl_int := -15.
Definition LINKER_NOT_AVAILABLE : cl_int := -16.
Definition LINK_PROGRAM_FAILURE : cl_int := -17.
Definition DEVICE_PARTITION_FAILED : cl_int := -18.
Definition KERNEL_ARG_INFO_NOT_AVAILABLE : cl_int := -19.
Definition INVALID_VALUE : cl_int := -30.
Definition INVALID_DEVICE_TYPE : cl_int := -31.
Definition INVALID_PLATFORM : cl_int := -32.
Definition INVALID_DEVICE : cl_int := -33.
Definition INVALID_CONTEXT : cl_int := -34.
Definition INVALID_QUEUE_PROPERTIES : cl_int := -35.
Definition INVALID_COMMAND_QUEUE : cl_int := -36.
Definition INVALID_HOST_PTR : cl_int := -37.
Definition INVALID_MEM_OBJECT : cl_int := -38.
Definition INVALID_IMAGE_FORMAT_DESCRIPTOR : cl_int := -39.
Definition INVALID_IMAGE_SIZE : cl_int := -40.
Definition INVALID_SAMPLER : cl_int := -41.
Definition INVALID_BINARY : cl_int := -42.
Definition INVALID_BUILD_OPTIONS : cl_int := -43.
Definition INVALID_PROGRAM : cl_int := -44.
Definition INVALID_PROGRAM_EXECUTABLE : cl_int := -45.
Definition INVALID_KERNEL_NAME : cl_int := -46.
Definition INVALID_KERNEL_DEFINITION : cl_int := -47.
Definition INVALID_KERNEL : cl_int := -48.
Definition INVALID_ARG_INDEX : cl_int := -49.
Definition INVALID_ARG_VALUE : cl_int := -50.
Definition INVALID_ARG_SIZE : cl_int := -51.
Definition INVALID_KERNEL_ARGS : cl_int := -52.
Definition INVALID_WORK_DIMENSION : cl_int := -53.
Definition INVALID_WORK_GROUP_SIZE : cl_int := -54.
Definition INVALID_WORK_ITEM_SIZE : cl_int := -55.
Definition INVALID_GLOBAL_OFFSET : cl_int := -56.
Definition INVALID_EVENT_WAIT_LIST : cl_int := -57.
Definition INVALID_EVENT : cl_int := -58.
Definition INVALID_OPERATION : cl_int := -59.
Definition INVALID_GL_OBJECT : cl_int := -60.
Definition INVALID_BUFFER_SIZE : cl_int := -61.
Definition INVALID_MIP_LEVEL : cl_int := -62.
Definition INVALID_GLOBAL_WORK_SIZE : cl_int := -63.
Definition INVALID_PROPERTY : cl_int := -64.
Definition INVALID_IMAGE_DESCRIPTOR : cl_int := -65.
Definition INVALID_COMPILER_OPTIONS : cl_int := -66.
Definition INVALID_LINKER_OPTIONS : cl_int := -67.
Definition INVALID_DEVICE_PARTITION_COUNT : cl_int := -68.
(** cl_ext.h: what [clGetPlatformIDs] answers when no platform is installed. *)
Definition PLATFORM_NOT_FOUND_KHR : cl_int := -1001.
(** [cl_bool] and [cl_map_flags]. *)
Definition TRUE : Z := 1.
Definition MAP_READ : Z := 1.
Definition MAP_WRITE : Z := 2.
End CL.

(** ** Error translator *)

Record OpenclErrorMsg : Type := {
  err_code : Z;
  err_str : string
}.

Definition opencl_err_msg : list OpenclErrorMsg := [
  {| err_code := CL.DEVICE_NOT_FOUND; err_str := "DEVICE NOT FOUND" |};
  {| err_code := CL.DEVICE_NOT_AVAILABLE; err_str := "DEVICE NOT AVAILABLE" |};
  {| err_code := CL.COMPILER_NOT_AVAILABLE; err_str := "COMPILER NOT AVAILABLE" |};
  {| err_code := CL.MEM_OBJECT_ALLOCATION_FAILURE; err_str := "MEM OBJECT ALLOCATION FAILURE" |};
  {| err_code := CL.OUT_OF_RESOURCES; err_str := "OUT OF RESOURCES" |};
  {| err_code := CL.OUT_OF_HOST_MEMORY; err_str := "OUT OF HOST MEMORY" |};
  {| err_code := CL.PROFILING_INFO_NOT_AVAILABLE; err_str := "PROFILING INFO NOT AVAILABLE" |};
  {| err_code := CL.MEM_COPY_OVERLAP; err_str := "MEM COPY OVERLAP" |};
  {| err_code := CL.IMAGE_FORMAT_MISMATCH; err_str := "IMAGE FORMAT MISMATCH" |};
  {| err_code := CL.IMAGE_FORMAT_NOT_SUPPORTED; err_str := "IMAGE FORMAT NOT_SUPPORTED" |};
  {| err_code := CL.BUILD_PROGRAM_FAILURE; err_str := "BUILD PROGRAM FAILURE" |};
  {| err_code := CL.MAP_FAILURE; err_str := "MAP FAILURE" |};
  {| err_code := CL.MISALIGNED_SUB_BUFFER_OFFSET; err_str := "MISALIGNED SUB BUFFER OFFSET" |};
  {| err_code := CL.EXEC_STATUS_ERROR_FOR_EVENTS_IN_WAIT_LIST; err_str := "EXEC STATUS ERROR FOR EVENTS IN WAIT LIST" |};
  {| err_code := CL.COMPILE_PROGRAM_FAILURE; err_str := "COMPILE PROGRAM FAILURE" |};
  {| err_code := CL.LINKER_NOT_AVAILABLE; err_str := "LINKER NOT AVAILABLE" |};
  {| err_code := CL.LINK_PROGRAM_FAILURE; err_str := "LINK PROGRAM FAILURE" |};
  {| err_code := CL.DEVICE_PARTITION_FAILED; err_str := "DEVICE PARTITION FAILED" |};
  {| err_code := CL.KERNEL_ARG_INFO_NOT_AVAILABLE; err_str := "KERNEL ARG INFO NOT AVAILABLE" |};
  {| err_code := CL.INVALID_VALUE; err_str := "INVALID VALUE" |};
  {| err_code := CL.INVALID_DEVICE_TYPE; err_str := "INVALID DEVICE TYPE" |};
  {| err_code := CL.INVALID_PLATFORM; err_str := "INVALID PLATFORM" |};
  {| err_code := CL.INVALID_DEVICE; err_str := "INVALID DEVICE" |};
  {| err_code := CL.INVALID_CONTEXT; err_str := "INVALID CONTEXT" |};
  {| err_code := CL.INVALID_QUEUE_PROPERTIES; err_str := "INVALID QUEUE PROPERTIES" |};
  {| err_code := CL.INVALID_COMMAND_QUEUE; err_str := "INVALID COMMAND QUEUE" |};
  {| err_code := CL.INVALID_HOST_PTR; err_str := "INVALID HOST PTR" |};
  {| err_code := CL.INVALID_MEM_OBJECT; err_str := "INVALID MEM OBJECT" |};
  {| err_code := CL.INVALID_IMAGE_FORMAT_DESCRIPTOR; err_str := "INVALID IMAGE FORMAT DESCRIPTOR" |};
  {| err_code := CL.INVALID_IMAGE_SIZE; err_str := "INVALID IMAGE SIZE" |};
  {| err_code := CL.INVALID_SAMPLER; err_str := "INVALID SAMPLER" |};
  {| err_code := CL.INVALID_BINARY; err_str := "INVALID BINARY" |};
  {| err_code := CL.INVALID_BUILD_OPTIONS; err_str := "INVALID BUILD OPTIONS" |};
  {| err_code := CL.INVALID_PROGRAM; err_str := "INVALID PROGRAM" |};
  {| err_code := CL.INVALID_PROGRAM_EXECUTABLE; err_str := "INVALID PROGRAM EXECUTABLE" |};
  {| err_code := CL.INVALID_KERNEL_NAME; err_str := "INVALID KERNEL NAME" |};
  {| err_code := CL.INVALID_KERNEL_DEFINITION; err_str := "INVALID KERNEL DEFINITION" |};
  {| err_code := CL.INVALID_KERNEL; err_str := "INVALID KERNEL" |};
  {| err_code := CL.INVALID_ARG_INDEX; err_str := "INVALID ARG INDEX" |};
  {| err_code := CL.INVALID_ARG_VALUE; err_str := "INVALID ARG VALUE" |};
  {| err_code := CL.INVALID_ARG_SIZE; err_str := "INVALID ARG_SIZE" |};
  {| err_code := CL.INVALID_KERNEL_ARGS; err_str := "INVALID KERNEL ARGS" |};
  {| err_code := CL.INVALID_WORK_DIMENSION; err_str := "INVALID WORK DIMENSION" |};
  {| err_code := CL.INVALID_WORK_GROUP_SIZE; err_str := "INVALID WORK GROUP SIZE" |};
  {| err_code := CL.INVALID_WORK_ITEM_SIZE; err_str := "INVALID WORK ITEM SIZE" |};
  {| err_code := CL.INVALID_GLOBAL_OFFSET; err_str := "INVALID GLOBAL OFFSET" |};
  {| err_code := CL.INVALID_EVENT_WAIT_LIST; err_str := "INVALID EVENT WAIT LIST" |};
  {| err_code := CL.INVALID_EVENT; err_str := "INVALID EVENT" |};
  {| err_code := CL.INVALID_OPERATION; err_str := "INVALID OPERATION" |};
  {| err_code := CL.INVALID_GL_OBJECT; err_str := "INVALID GL OBJECT" |};
  {| err_code := CL.INVALID_BUFFER_SIZE; err_str := "INVALID BUFFER SIZE" |};
  {| err_code := CL.INVALID_MIP_LEVEL; err_str := "INVALID MIP LEVEL" |};
  {| err_code := CL.INVALID_GLOBAL_WORK_SIZE; err_str := "INVALID GLOBAL WORK SIZE" |};
  {| err_code := CL.INVALID_PROPERTY; err_str := "INVALID PROPERTY" |};
  {| err_code := CL.INVALID_IMAGE_DESCRIPTOR; err_str := "INVALID IMAGE DESCRIPTOR" |};
  {| err_code := CL.INVALID_COMPILER_OPTIONS; err_str := "INVALID COMPILER OPTIONS" |};
  {| err_code := CL.INVALID_LINKER_OPTIONS; err_str := "INVALID LINKER OPTIONS" |};
  {| err_code := CL.INVALID_DEVICE_PARTITION_COUNT; err_str := "INVALID DEVICE PARTITION COUNT" |}
].

(** [sizeof(OpenclErrorMsg)] on LP64: a 4-byte [int], 4 bytes of padding and
    an 8-byte pointer. *)
Definition sizeof_OpenclErrorMsg : Z := 16.

(** [sizeof(opencl_err_msg)]: the size of the whole table in bytes. *)
Definition sizeof_opencl_err_msg : Z :=
  Z.of_nat (length opencl_err_msg) * sizeof_OpenclErrorMsg.

(** The loop [for (i = ...; i < bound; i++) if (tbl[i].err_code == status)
    return tbl[i].err_str;] followed by [return "unknown error";], with [n]
    iterations left.  [tbl[i]] outside the table is an out-of-bounds read. *)
Fixpoint errstr_loop (tbl : list OpenclErrorMsg) (status : cl_int)
    (i n : nat) : M string :=
  match n with
  | O => Some "unknown error"
  | S n' =>
      match tbl !! i with
      | None => None
      | Some e =>
          if err_code e =? status then Some (err_str e)
          else errstr_loop tbl status (S i) n'
      end
  end.

(** [opencl_errstr]: the loop bound is [sizeof(opencl_err_msg)]. *)
Definition opencl_errstr (status : cl_int) : M string :=
  errstr_loop opencl_err_msg status 0 (Z.to_nat sizeof_opencl_err_msg).

(** The string paired with [status] in a table (first match), if any. *)
Fixpoint table_lookup (tbl : list OpenclErrorMsg) (status : cl_int)
    : option string :=
  match tbl with
  | [] => None
  | e :: tbl' =>
      if err_code e =? status then Some (err_str e)
      else table_lookup tbl' status
  end.

(** ** Data model *)

Definition MAX_KERNEL_NUM : Z := 500.
Definition MAX_KERNEL_CODE_NUM : Z := 200.

Record KernelCode : Type := {
  is_compiled : Z;
  kernel_string : ptr
}.

(** The structures of opencl.h, with the fields opencl.c reads and writes. *)
Record AVOpenCLDeviceNode : Type := {
  dn_device_name : string;
  dn_device_type : Z;
  dn_device_id : ptr
}.

Record AVOpenCLPlatformNode : Type := {
  pn_platform_id : ptr;
  pn_platform_name : string;
  pn_device_num : Z;
  pn_device_node : list AVOpenCLDeviceNode
}.

Record AVOpenCLDeviceList : Type := {
  platform_num : Z;
  platform_node : list AVOpenCLPlatformNode
}.

Record AVOpenCLExternalEnv : Type := {
  ext_platform_id : ptr;
  ext_device_type : Z;
  ext_context : ptr;
  ext_device_id : ptr;
  ext_command_queue : ptr
}.

(** The caller's kernel handle: [env->command_queue], [env->kernel] and
    [env->kernel_name]. *)
Record AVOpenCLKernelEnv : Type := {
  kenv_command_queue : ptr;
  kenv_kernel : ptr;
  kenv_kernel_name : string
}.

Record GPUEnv : Type := {
  init_count : Z;
  platform_idx : Z;
  device_idx : Z;
  platform_id : ptr;
  device_type : Z;
  context : ptr;
  device_id : ptr;
  command_queue : ptr;
  program_count : Z;
  programs : list ptr;
  kernel_code_count : Z;
  kernel_code : list KernelCode;
  kernel_count : Z;
  is_user_created : Z;
  device_list : AVOpenCLDeviceList
}.

(** The option fields of [OpenclUtils]; [build_options] is a [char *] that is
    [NULL] ([None]) until the defaults are set. *)
Record OpenclUtils : Type := {
  init_flag : Z;
  opt_platform_idx : Z;
  opt_device_idx : Z;
  build_options : option string
}.

(** The two globals of the file. *)
Record world : Type := {
  gpu_env : GPUEnv;
  openclutils : OpenclUtils
}.

(** Field assignments [gpu_env.f = v]. *)
Definition set_init_count (v : Z) (g : GPUEnv) : GPUEnv :=
  {| init_count := v; platform_idx := platform_idx g; device_idx := device_idx g;
     platform_id := platform_id g; device_type := device_type g; context := context g;
     device_id := device_id g; command_queue := command_queue g;
     program_count := program_count g; programs := programs g;
     kernel_code_count := kernel_code_count g; kernel_code := kernel_code g;
     kernel_count := kernel_count g; is_user_created := is_user_created g;
     device_list := device_list g |}.

Definition set_platform_idx (v : Z) (g : GPUEnv) : GPUEnv :=
  {| init_count := init_count g; platform_idx := v; device_idx := device_idx g;
     platform_id := platform_id g; device_type := device_type g; context := context g;
     device_id := device_id g; command_queue := command_queue g;
     program_count := program_count g; programs := programs g;
     kernel_code_count := kernel_code_count g; kernel_code := kernel_code g;
     kernel_count := kernel_count g; is_user_created := is_user_created g;
     device_list := device_list g |}.

Definition set_device_idx (v : Z) (g : GPUEnv) : GPUEnv :=
  {| init_count := init_count g; platform_idx := platform_idx g; device_idx := v;
     platform_id := platform_id g; device_type := device_type g; context := context g;
     device_id := device_id g; command_queue := command_queue g;
     program_count := program_count g; programs := programs g;
     kernel_code_count := kernel_code_count g; kernel_code := kernel_code g;
     kernel_count := kernel_count g; is_user_created := is_user_created g;
     device_list := device_list g |}.

Definition set_platform_id (v : ptr) (g : GPUEnv) : GPUEnv :=
  {| init_count := init_count g; platform_idx := platform_idx g; device_idx := device_idx g;
     platform_id := v; device_type := device_type g; context := context g;
     device_id := device_id g; command_queue := command_queue g;
     program_count := program_count g; programs := programs g;
     kernel_code_count := kernel_code_count g; kernel_code := kernel_code g;
     kernel_count := kernel_count g; is_user_created := is_user_created g;
     device_list := device_list g |}.

Definition set_device_type (v : Z) (g : GPUEnv) : GPUEnv :=
  {| init_count := init_count g; platform_idx := platform_idx g; device_idx := device_idx g;
     platform_id := platform_id g; device_type := v; context := context g;
     device_id := device_id g; command_queue := command_queue g;
     program_count := program_count g; programs := programs g;
     kernel_code_count := kernel_code_count g; kernel_code := kernel_code g;
     kernel_count := kernel_count g; is_user_created := is_user_created g;
     device_list := device_list g |}.

Definition set_context (v : ptr) (g : GPUEnv) : GPUEnv :=
  {| init_count := init_count g; platform_idx := platform_idx g; device_idx := device_idx g;
     platform_id := platform_id g; device_type := device_type g; context := v;
     device_id := device_id g; command_queue := command_queue g;
     program_count := program_count g; programs := programs g;
     kernel_code_count := kernel_code_count g; kernel_code := kernel_code g;
     kernel_count := kernel_count g; is_user_created := is_user_created g;
     device_list := device_list g |}.

Definition set_device_id (v : ptr) (g : GPUEnv) : GPUEnv :=
  {| init_count := init_count g; platform_idx := platform_idx g; device_idx := device_idx g;
     platform_id := platform_id g; device_type := device_type g; context := context g;
     device_id := v; command_queue := command_queue g;
     program_count := program_count g; programs := programs g;
     kernel_code_count := kernel_code_count g; kernel_code := kernel_code g;
     kernel_count := kernel_count g; is_user_created := is_user_created g;
     device_list := device_list g |}.

Definition set_command_queue (v : ptr) (g : GPUEnv) : GPUEnv :=
  {| init_count := init_count g; platform_idx := platform_idx g; device_idx := device_idx g;
     platform_id := platform_id g; device_type := device_type g; context := context g;
     device_id := device_id g; command_queue := v;
     program_count := program_count g; programs := programs g;
     kernel_code_count := kernel_code_count g; kernel_code := kernel_code g;
     kernel_count := kernel_count g; is_user_created := is_user_created g;
     device_list := device_list g |}.

Definition set_program_count (v : Z) (g : GPUEnv) : GPUEnv :=
  {| init_count := init_count g; platform_idx := platform_idx g; device_idx := device_idx g;
     platform_id := platform_id g; device_type := device_type g; context := context g;
     device_id := device_id g; command_queue := command_queue g;
     program_count := v; programs := programs g;
     kernel_code_count := kernel_code_count g; kernel_code := kernel_code g;
     kernel_count := kernel_count g; is_user_created := is_user_created g;
     device_list := device_list g |}.

Definition set_programs (v : list ptr) (g : GPUEnv) : GPUEnv :=
  {| init_count := init_count g; platform_idx := platform_idx g; device_idx := device_idx g;
     platform_id := platform_id g; device_type := device_type g; context := context g;
     device_id := device_id g; command_queue := command_queue g;
     program_count := program_count g; programs := v;
     kernel_code_count := kernel_code_count g; kernel_code := kernel_code g;
     kernel_count := kernel_count g; is_user_created := is_user_created g;
     device_list := device_list g |}.

Definition set_kernel_code_count (v : Z) (g : GPUEnv) : GPUEnv :=
  {| init_count := init_count g; platform_idx := platform_idx g; device_idx := device_idx g;
     platform_id := platform_id g; device_type := device_type g; context := context g;
     device_id := device_id g; command_queue := command_queue g;
     program_count := program_count g; programs := programs g;
     kernel_code_count := v; kernel_code := kernel_code g;
     kernel_count := kernel_count g; is_user_created := is_user_created g;
     device_list := device_list g |}.

Definition set_kernel_code (v : list KernelCode) (g : GPUEnv) : GPUEnv :=
  {| init_count := init_count g; platform_idx := platform_idx g; device_idx := device_idx g;
     platform_id := platform_id g; device_type := device_type g; context := context g;
     device_id := device_id g; command_queue := command_queue g;
     program_count := program_count g; programs := programs g;
     kernel_code_count := kernel_code_count g; kernel_code := v;
     kernel_count := kernel_count g; is_user_created := is_user_created g;
     device_list := device_list g |}.

Definition set_kernel_count (v : Z) (g : GPUEnv) : GPUEnv :=
  {| init_count := init_count g; platform_idx := platform_idx g; device_idx := device_idx g;
     platform_id := platform_id g; device_type := device_type g; context := context g;
     device_id := device_id g; command_queue := command_queue g;
     program_count := program_count g; programs := programs g;
     kernel_code_count := kernel_code_count g; kernel_code := kernel_code g;
     kernel_count := v; is_user_created := is_user_created g;
     device_list := device_list g |}.

Definition set_is_user_created (v : Z) (g : GPUEnv) : GPUEnv :=
  {| init_count := init_count g; platform_idx := platform_idx g; device_idx := device_idx g;
     platform_id := platform_id g; device_type := device_type g; context := context g;
     device_id := device_id g; command_queue := command_queue g;
     program_count := program_count g; programs := programs g;
     kernel_code_count := kernel_code_count g; kernel_code := kernel_code g;
     kernel_count := kernel_count g; is_user_created := v;
     device_list := device_list g |}.

Definition set_device_list (v : AVOpenCLDeviceList) (g : GPUEnv) : GPUEnv :=
  {| init_count := init_count g; platform_idx := platform_idx g; device_idx := device_idx g;
     platform_id := platform_id g; device_type := device_type g; context := context g;
     device_id := device_id g; command_queue := command_queue g;
     program_count := program_count g; programs := programs g;
     kernel_code_count := kernel_code_count g; kernel_code := kernel_code g;
     kernel_count := kernel_count g; is_user_created := is_user_created g;
     device_list := v |}.

(** [static GPUEnv gpu_env;] and [static OpenclUtils openclutils = {&class};]:
    static storage, every field zero. *)
Definition gpu_env0 : GPUEnv :=
  {| init_count := 0; platform_idx := 0; device_idx := 0; platform_id := NULL;
     device_type := 0; context := NULL; device_id := NULL; command_queue := NULL;
     program_count := 0;
     programs := replicate (Z.to_nat MAX_KERNEL_CODE_NUM) NULL;
     kernel_code_count := 0;
     kernel_code := replicate (Z.to_nat MAX_KERNEL_CODE_NUM)
                      {| is_compiled := 0; kernel_string := NULL |};
     kernel_count := 0; is_user_created := 0;
     device_list := {| platform_num := 0; platform_node := [] |} |}.

Definition openclutils0 : OpenclUtils :=
  {| init_flag := 0; opt_platform_idx := 0; opt_device_idx := 0; build_options := None |}.

Definition world0 : world := {| gpu_env := gpu_env0; openclutils := openclutils0 |}.

(** ** Calls to the outside, as recorded in a trace *)

Inductive log_level : Type := AV_LOG_ERROR | AV_LOG_WARNING | AV_LOG_VERBOSE.

(** An argument of a log call.  [ArgErrstr r] is the value of
    [opencl_errstr(status)]: [None] when computing it read past the table. *)
Inductive log_arg : Type :=
| ArgInt (z : Z)
| ArgStr (s : string)
| ArgErrstr (r : option string).

Inductive event : Type :=
| av_log (level : log_level) (fmt : string) (args : list log_arg)
| av_mallocz (size : Z)
| av_opt_set_defaults
| av_opt_set
| av_opt_free
| get_device_list
| free_device_list (dl : AVOpenCLDeviceList)
| clCreateContextFromType (platform : ptr) (dtype : Z)
| clCreateCommandQueue (ctx dev : ptr)
| clCreateProgramWithSource (ctx : ptr) (source : string)
| clBuildProgram (prog dev : ptr) (options : option string)
| clCreateKernel (prog : ptr) (name : string)
| clReleaseKernel (k : ptr)
| clReleaseProgram (p : ptr)
| clReleaseCommandQueue (q : ptr)
| clReleaseContext (c : ptr)
| clCreateBuffer (ctx : ptr) (flags size : Z) (host_ptr : ptr)
| clReleaseMemObject (m : ptr)
| clEnqueueMapBuffer (q buf : ptr) (blocking flags offset size : Z)
| memcpy (dst src : ptr) (n : Z)
| clEnqueueUnmapMemObject (q buf mapped : ptr).

Definition trace : Type := list event.

(** [if (status != CL_SUCCESS) av_log(&openclutils, AV_LOG_ERROR, fmt,
    opencl_errstr(status));]  The message is [None] for a failing status
    that is not in the table: there [opencl_errstr] reads past the table, and
    what the trace shows behind this log line is not what the program
    does. *)
Definition log_failure (status : cl_int) (fmt : string) : trace :=
  if status =? CL.SUCCESS then []
  else [av_log AV_LOG_ERROR fmt [ArgErrstr (opencl_errstr status)]].

(** ** The option block

    [av_opt_set_defaults], [av_opt_set] and [av_opt_free] live in
    libavutil/opt.c, which is not part of the sources at hand. *)

(** Modelled from the spec: [av_opt_set_defaults] of libavutil/opt.c is
    missing; it stores the defaults of the [opencl_options] table,
    [platform_idx] and [device_idx] -1 and [build_options] "-I.". *)
Definition opt_set_defaults (u : OpenclUtils) : OpenclUtils :=
  {| init_flag := init_flag u; opt_platform_idx := -1; opt_device_idx := -1;
     build_options := Some "-I." |}.

(** Modelled from the spec: [av_opt_free] of libavutil/opt.c is missing; it
    releases the [build_options] string and leaves the pointer [NULL]. *)
Definition opt_free (u : OpenclUtils) : OpenclUtils :=
  {| init_flag := init_flag u; opt_platform_idx := opt_platform_idx u;
     opt_device_idx := opt_device_idx u; build_options := None |}.

Definition set_init_flag (v : Z) (u : OpenclUtils) : OpenclUtils :=
  {| init_flag := v; opt_platform_idx := opt_platform_idx u;
     opt_device_idx := opt_device_idx u; build_options := build_options u |}.

(** [if (!openclutils.init_flag) { av_opt_set_defaults(&openclutils);
    openclutils.init_flag = 1; }] *)
Definition ensure_defaults (u : OpenclUtils) : OpenclUtils * trace :=
  if init_flag u =? 0 then (set_init_flag 1 (opt_set_defaults u), [av_opt_set_defaults])
  else (u, []).

(** [av_opencl_set_option].  Modelled from the spec: [av_opt_set] of
    libavutil/opt.c is missing; [stored] is the content it leaves in the three
    option fields when it returns. *)
Definition av_opencl_set_option (stored : Z * Z * option string)
    (u : OpenclUtils) : OpenclUtils * trace :=
  let '(u1, tr) := ensure_defaults u in
  let '(p, d, b) := stored in
  ({| init_flag := init_flag u1; opt_platform_idx := p; opt_device_idx := d;
      build_options := b |}, tr ++ [av_opt_set]).

(** ** What the outside world answers *)

(** Answers to one compile pass: whether [av_mallocz] succeeds, the program
    and status of [clCreateProgramWithSource], the status of
    [clBuildProgram]. *)
Record compile_answers : Type := {
  ans_malloc : bool;
  ans_program : ptr * cl_int;
  ans_build : cl_int
}.

(** Answers to one [av_opencl_init]: the return code of [get_device_list] and
    the list it leaves in [gpu_env.device_list], the context and queue with
    their status, and the answers to the compile pass.  [get_device_list]
    only queries the OpenCL runtime and the allocator, and frees by itself
    what it had built when it fails; its outcome is an answer of the
    world. *)
Record init_answers : Type := {
  ans_device_list : av_ret * AVOpenCLDeviceList;
  ans_context : ptr * cl_int;
  ans_command_queue : ptr * cl_int;
  ans_compile : compile_answers
}.

(** Answers to one [av_opencl_uninit]: the status of each release call. *)
Record uninit_answers : Type := {
  ans_release_program : nat -> cl_int;
  ans_release_queue : cl_int;
  ans_release_context : cl_int
}.

(** ** Sequencing of stages that return a code

    A stage yields the environment, a return code and its trace; a negative
    code is returned at once ([if (ret < 0) return ret;]). *)
Definition stage : Type := option (GPUEnv * av_ret * trace).

Definition and_then (m : stage) (k : GPUEnv -> stage) : stage :=
  match m with
  | None => None
  | Some (g, r, tr) =>
      if ret_lt_0 r then Some (g, r, tr)
      else match k g with
           | None => None
           | Some (g', r', tr') => Some (g', r', tr ++ tr')
           end
  end.

Notation "m >>> k" := (and_then m k) (at level 61, left associativity).

Definition proceed (g : GPUEnv) : stage := Some (g, RET_OK, []).
Definition fail_with (g : GPUEnv) (r : av_ret) (tr : trace) : stage := Some (g, r, tr).

(** [free_device_list]: every node is freed, [platform_node] becomes [NULL]
    and [platform_num] 0. *)
Definition freed_device_list : AVOpenCLDeviceList :=
  {| platform_num := 0; platform_node := [] |}.

(** ** Kernel source registry *)

(** [for (i = ...; i < kernel_code_count; i++) if (kernel_code[i].kernel_string
    == kernel_code) goto end;] with [n] iterations left: is the pointer
    registered? *)
Fixpoint find_registered (kc : list KernelCode) (src : ptr)
    (i n : nat) : M bool :=
  match n with
  | O => Some false
  | S n' =>
      c ← kc !! i;
      if kernel_string c =? src then Some true
      else find_registered kc src (S i) n'
  end.

(** [av_opencl_register_kernel_code(const char *kernel_code)]; the argument
    is called [src] here, [kernel_code] being the field of [gpu_env]. *)
Definition av_opencl_register_kernel_code (src : ptr) (g : GPUEnv) : stage :=
  if kernel_code_count g >=? MAX_KERNEL_CODE_NUM then
    fail_with g AVERROR_EINVAL
      [av_log AV_LOG_ERROR
         "Could not register kernel code, maximum number of registered kernel code %d already reached\n"
         [ArgInt MAX_KERNEL_CODE_NUM]]
  else
    dup ← find_registered (kernel_code g) src 0 (Z.to_nat (kernel_code_count g));
    if dup : bool then
      Some (g, RET_OK,
            [av_log AV_LOG_WARNING "Same kernel code has been registered\n" []])
    else
      kc ← arr_set (kernel_code g) (kernel_code_count g)
             {| is_compiled := 0; kernel_string := src |};
      Some (set_kernel_code_count (int32 (kernel_code_count g + 1))
              (set_kernel_code kc g), RET_OK, []).

(** ** Kernel handle manager *)

(** [for (i = ...; i < program_count; i++) { env->kernel =
    clCreateKernel(programs[i], kernel_name, &status); if (status ==
    CL_SUCCESS) break; }] with [n] iterations left.  [kernel] and [status]
    are the current values of [env->kernel] and of the local [status], which
    is uninitialised ([None]) until the body has run once. *)
Fixpoint create_kernel_loop (answers : nat -> ptr * cl_int) (progs : list ptr)
    (kernel_name : string) (i n : nat) (kernel : ptr) (status : option cl_int)
    : M (ptr * option cl_int * trace) :=
  match n with
  | O => Some (kernel, status, [])
  | S n' =>
      p ← progs !! i;
      let '(k, st) := answers i in
      if st =? CL.SUCCESS then Some (k, Some st, [clCreateKernel p kernel_name])
      else
        '(k', st', tr) ← create_kernel_loop answers progs kernel_name (S i) n' k (Some st);
        Some (k', st', clCreateKernel p kernel_name :: tr)
  end.

Definition set_kenv_kernel (k : ptr) (env : AVOpenCLKernelEnv) : AVOpenCLKernelEnv :=
  {| kenv_command_queue := kenv_command_queue env; kenv_kernel := k;
     kenv_kernel_name := kenv_kernel_name env |}.

Section KernelHandles.

(** The constant of opencl.h that bounds a kernel name, terminator
    included; it is also the size of [env->kernel_name]. *)
Variable AV_OPENCL_MAX_KERNEL_NAME_SIZE : Z.

(** [answers i] is what [clCreateKernel] returns for [programs[i]].
    [av_strlcpy] (libavutil/avstring.c) copies the whole name: it has just
    been checked to fit [env->kernel_name]. *)
Definition av_opencl_create_kernel (env : AVOpenCLKernelEnv)
    (kernel_name : string) (answers : nat -> ptr * cl_int) (g : GPUEnv)
    : M (GPUEnv * AVOpenCLKernelEnv * av_ret * trace) :=
  if Z.of_nat (String.length kernel_name) + 1 >? AV_OPENCL_MAX_KERNEL_NAME_SIZE then
    Some (g, env, AVERROR_EINVAL,
          [av_log AV_LOG_ERROR "Created kernel name %s is too long\n"
             [ArgStr kernel_name]])
  else if kenv_kernel env =? NULL then
    if kernel_count g >=? MAX_KERNEL_NUM then
      Some (g, env, AVERROR_EINVAL,
            [av_log AV_LOG_ERROR
               "Could not create kernel with name '%s', maximum number of kernels %d already reached\n"
               [ArgStr kernel_name; ArgInt MAX_KERNEL_NUM]])
    else if program_count g =? 0 then
      Some (g, env, AVERROR_EINVAL,
            [av_log AV_LOG_ERROR
               "Program count of OpenCL is 0, can not create kernel\n" []])
    else
      '(k, status, tr) ← create_kernel_loop answers (programs g) kernel_name 0
                           (Z.to_nat (program_count g)) (kenv_kernel env) None;
      st ← status;
      if st =? CL.SUCCESS then
        Some (set_kernel_count (int32 (kernel_count g + 1)) g,
              {| kenv_command_queue := command_queue g; kenv_kernel := k;
                 kenv_kernel_name := kernel_name |},
              RET_OK, tr)
      else
        Some (g, set_kenv_kernel k env, AVERROR_EXTERNAL,
              tr ++ log_failure st "Could not create OpenCL kernel: %s\n")
  else Some (g, env, RET_OK, []).

End KernelHandles.

Definition av_opencl_release_kernel (env : AVOpenCLKernelEnv) (status : cl_int)
    (g : GPUEnv) : GPUEnv * AVOpenCLKernelEnv * trace :=
  if kenv_kernel env =? NULL then (g, env, [])
  else
    (set_kernel_count (int32 (kernel_count g - 1)) g,
     {| kenv_command_queue := NULL; kenv_kernel := NULL; kenv_kernel_name := "" |},
     clReleaseKernel (kenv_kernel env)
       :: log_failure status "Could not release kernel: %s\n").

(** ** Environment set-up *)

(** [for (i = ...; i < platform_num; i++) if (platform_node[i]->device_num)
    { platform_id = ...; platform_idx = i; break; }] with [n] iterations
    left. *)
Fixpoint first_usable_platform (nodes : list AVOpenCLPlatformNode) (i n : nat)
    (g : GPUEnv) : M GPUEnv :=
  match n with
  | O => Some g
  | S n' =>
      node ← nodes !! i;
      if pn_device_num node =? 0 then first_usable_platform nodes (S i) n' g
      else Some (set_platform_idx (Z.of_nat i) (set_platform_id (pn_platform_id node) g))
  end.

(** The platform choice of [init_opencl_env]. *)
Definition select_platform (g : GPUEnv) : stage :=
  let dl := device_list g in
  (if platform_idx g >=? 0 then
     if platform_num dl <? int32 (platform_idx g + 1) then
       fail_with g AVERROR_EINVAL
         [av_log AV_LOG_ERROR "User set platform index not exist\n" []]
     else
       node ← arr_get (platform_node dl) (platform_idx g);
       if pn_device_num node =? 0 then
         fail_with g AVERROR_EINVAL
           [av_log AV_LOG_ERROR
              "No devices in user specific platform with index %d\n"
              [ArgInt (platform_idx g)]]
       else proceed (set_platform_id (pn_platform_id node) g)
   else
     g' ← first_usable_platform (platform_node dl) 0 (Z.to_nat (platform_num dl)) g;
     proceed g')
  >>> fun g =>
    if platform_id g =? NULL then
      fail_with g AVERROR_EXTERNAL
        [av_log AV_LOG_ERROR "Could not get OpenCL platforms\n" []]
    else proceed g.

(** The device choice of [init_opencl_env]. *)
Definition select_device (g : GPUEnv) : stage :=
  let nodes := platform_node (device_list g) in
  (if device_idx g >=? 0 then
     node ← arr_get nodes (platform_idx g);
     if pn_device_num node <? int32 (device_idx g + 1) then
       fail_with g AVERROR_EINVAL
         [av_log AV_LOG_ERROR
            "Could not get OpenCL device idx %d in the user set platform\n"
            [ArgInt (platform_idx g)]]
     else proceed g
   else proceed (set_device_idx 0 g))
  >>> fun g =>
    pnode ← arr_get nodes (platform_idx g);
    dnode ← arr_get (pn_device_node pnode) (device_idx g);
    let g := set_device_type (dn_device_type dnode)
               (set_device_id (dn_device_id dnode) g) in
    Some (g, RET_OK,
          [av_log AV_LOG_VERBOSE "Platform Name: %s, device id: 0x%x\n"
             [ArgStr (pn_platform_name pnode); ArgInt (uint32 (device_id g))]]).

(** Context and command queue creation of [init_opencl_env]. *)
Definition create_context_and_queue (a : init_answers) (g : GPUEnv) : stage :=
  let '(ctx, status) := ans_context a in
  let call := clCreateContextFromType (platform_id g) (device_type g) in
  let g := set_context ctx g in
  if status =? CL.SUCCESS then
    let '(q, status) := ans_command_queue a in
    let call2 := clCreateCommandQueue (context g) (device_id g) in
    let g := set_command_queue q g in
    if status =? CL.SUCCESS then Some (g, RET_OK, [call; call2])
    else
      Some (g, AVERROR_EXTERNAL,
            [call; call2] ++
            log_failure status "Could not create OpenCL command queue: %s\n")
  else
    Some (g, AVERROR_EXTERNAL,
          [call] ++
          log_failure status "Could not get OpenCL context from device type: %s\n").

Definition init_opencl_env (ext_opencl_env : option AVOpenCLExternalEnv)
    (a : init_answers) (g : GPUEnv) : stage :=
  match ext_opencl_env with
  | Some ext =>
      if is_user_created g =? 0 then
        proceed
          (set_device_type (ext_device_type ext)
             (set_device_id (ext_device_id ext)
                (set_context (ext_context ext)
                   (set_command_queue (ext_command_queue ext)
                      (set_is_user_created 1
                         (set_platform_id (ext_platform_id ext) g))))))
      else proceed g
  | None =>
      if is_user_created g =? 0 then
        (if platform_num (device_list g) =? 0 then
           let '(ret, dl) := ans_device_list a in
           Some (set_device_list dl g, ret, [get_device_list])
         else proceed g)
        >>> select_platform
        >>> select_device
        >>> create_context_and_queue a
      else proceed g
  end.

(** ** Compiler pass, init and uninit *)

Definition set_is_compiled (v : Z) (c : KernelCode) : KernelCode :=
  {| is_compiled := v; kernel_string := kernel_string c |}.

Section Sources.

(** The caller's read-only memory: the C string a registered pointer points
    to, [None] where the pointer is not that of a string. *)
Variable cstring : ptr -> option string.

(** First loop of [compile_kernel_file]: [source_str_len += strlen(...)]
    over the fragments that are not compiled, [n] iterations left.  The
    strings lie in one address space: their total length is below the
    range of [size_t]. *)
Fixpoint source_len_loop (kc : list KernelCode) (i n : nat) (len : Z) : M Z :=
  match n with
  | O => Some len
  | S n' =>
      c ← kc !! i;
      if is_compiled c =? 0 then
        s ← cstring (kernel_string c);
        source_len_loop kc (S i) n' (len + Z.of_nat (String.length s))
      else source_len_loop kc (S i) n' len
  end.

(** Second loop: each fragment that is not compiled is copied behind the
    text gathered so far and its [is_compiled] is set to 1. *)
Fixpoint concat_loop (kc : list KernelCode) (i n : nat) (source_str : string)
    : M (list KernelCode * string) :=
  match n with
  | O => Some (kc, source_str)
  | S n' =>
      c ← kc !! i;
      if is_compiled c =? 0 then
        s ← cstring (kernel_string c);
        concat_loop (<[i := set_is_compiled 1 c]> kc) (S i) n'
          (source_str +:+ s)
      else concat_loop kc (S i) n' source_str
  end.

Definition compile_kernel_file (a : compile_answers)
    (build_opts : option string) (g : GPUEnv) : stage :=
  let n := Z.to_nat (kernel_code_count g) in
  source_str_len ← source_len_loop (kernel_code g) 0 n 0;
  if source_str_len =? 0 then proceed g
  else if negb (ans_malloc a) then
    fail_with g AVERROR_ENOMEM [av_mallocz (source_str_len + 1)]
  else
    '(kc, source_str) ← concat_loop (kernel_code g) 0 n "";
    let g := set_kernel_code kc g in
    let '(prog, status) := ans_program a in
    progs ← arr_set (programs g) (program_count g) prog;
    let tr := [av_mallocz (source_str_len + 1);
               clCreateProgramWithSource (context g) source_str] in
    let g := set_programs progs g in
    if status =? CL.SUCCESS then
      if prog =? NULL then
        fail_with g AVERROR_EXTERNAL
          (tr ++ [av_log AV_LOG_ERROR "Created program is NULL\n" []])
      else
        let tr := tr ++ [clBuildProgram prog (device_id g) build_opts] in
        if ans_build a =? CL.SUCCESS then
          Some (set_program_count (int32 (program_count g + 1)) g, RET_OK, tr)
        else
          fail_with g AVERROR_EXTERNAL
            (tr ++ log_failure (ans_build a) "Could not compile OpenCL kernel: %s\n")
    else
      fail_with g AVERROR_EXTERNAL
        (tr ++ log_failure status
                 "Could not create OpenCL program with source code: %s\n").

(** The part of [av_opencl_init] behind the first-init block. *)
Definition init_compile (a : init_answers) (u : OpenclUtils) (g : GPUEnv)
    : stage :=
  compile_kernel_file (ans_compile a) (build_options u) g
  >>> fun g =>
    if kernel_code_count g <=? 0 then
      fail_with g AVERROR_EINVAL
        [av_log AV_LOG_ERROR
           "No kernel code is registered, compile kernel file failed\n" []]
    else proceed (set_init_count (int32 (init_count g + 1)) g).

Definition av_opencl_init (ext_opencl_env : option AVOpenCLExternalEnv)
    (a : init_answers) (w : world) : M (world * av_ret * trace) :=
  let g := gpu_env w in
  if init_count g =? 0 then
    let '(u, tr0) := ensure_defaults (openclutils w) in
    let g := set_platform_idx (opt_platform_idx u)
               (set_device_idx (opt_device_idx u) g) in
    '(g, ret, tr) ← init_opencl_env ext_opencl_env a g >>> init_compile a u;
    Some ({| gpu_env := g; openclutils := u |}, ret, tr0 ++ tr)
  else
    '(g, ret, tr) ← init_compile a (openclutils w) g;
    Some ({| gpu_env := g; openclutils := openclutils w |}, ret, tr).

End Sources.

(** The release loop of [av_opencl_uninit] over [programs[i]],
    [i < program_count], with [n] iterations left. *)
Fixpoint release_programs (status : nat -> cl_int) (progs : list ptr)
    (i n : nat) : M (list ptr * trace) :=
  match n with
  | O => Some (progs, [])
  | S n' =>
      p ← progs !! i;
      if p =? NULL then release_programs status progs (S i) n'
      else
        '(progs', tr) ← release_programs status (<[i := NULL]> progs) (S i) n';
        Some (progs',
              clReleaseProgram p
                :: log_failure (status i) "Could not release OpenCL program: %s\n"
                ++ tr)
  end.

(** [if (gpu_env.command_queue) { status = clReleaseCommandQueue(...); ...
    gpu_env.command_queue = NULL; }] *)
Definition release_command_queue (status : cl_int) (g : GPUEnv) : GPUEnv * trace :=
  if command_queue g =? NULL then (g, [])
  else (set_command_queue NULL g,
        clReleaseCommandQueue (command_queue g)
          :: log_failure status "Could not release OpenCL command queue: %s\n").

Definition release_context (status : cl_int) (g : GPUEnv) : GPUEnv * trace :=
  if context g =? NULL then (g, [])
  else (set_context NULL g,
        clReleaseContext (context g)
          :: log_failure status "Could not release OpenCL context: %s\n").

(** The code behind the label [end:] of [av_opencl_uninit]. *)
Definition uninit_end (g : GPUEnv) (u : OpenclUtils) (tr : trace) : world * trace :=
  if (init_count g <=? 0) && (kernel_count g <=? 0) then
    ({| gpu_env := g; openclutils := opt_free u |}, tr ++ [av_opt_free])
  else ({| gpu_env := g; openclutils := u |}, tr).

(** [free_device_list] as [av_opencl_uninit] runs it on
    [gpu_env.device_list].  The inner loop, [for (j = ...; j < device_num;
    j++) av_freep(&device_node[j]);], reads every [device_node[j]] below
    [device_num]; the outer loop reads every [platform_node[i]] below
    [platform_num]; [n] iterations are left.  A read outside the array, or
    through the [NULL] pointer of a list that has no array, is undefined. *)
Fixpoint walk_device_nodes (ds : list AVOpenCLDeviceNode) (j n : nat) : M unit :=
  match n with
  | O => Some ()
  | S n' => _ ← ds !! j; walk_device_nodes ds (S j) n'
  end.

Fixpoint walk_platform_nodes (nodes : list AVOpenCLPlatformNode) (i n : nat)
    : M unit :=
  match n with
  | O => Some ()
  | S n' =>
      node ← nodes !! i;
      _ ← walk_device_nodes (pn_device_node node) 0 (Z.to_nat (pn_device_num node));
      walk_platform_nodes nodes (S i) n'
  end.

Definition walk_device_list (dl : AVOpenCLDeviceList) : M unit :=
  walk_platform_nodes (platform_node dl) 0 (Z.to_nat (platform_num dl)).

Definition av_opencl_uninit (a : uninit_answers) (w : world) : M (world * trace) :=
  let u := openclutils w in
  let g := set_init_count (int32 (init_count (gpu_env w) - 1)) (gpu_env w) in
  if negb (is_user_created g =? 0) then Some (uninit_end g u [])
  else if (init_count g >? 0) || (kernel_count g >? 0) then Some (uninit_end g u [])
  else
    '(progs, tr1) ← release_programs (ans_release_program a) (programs g) 0
                      (Z.to_nat (program_count g));
    let g := set_programs progs g in
    let '(g, tr2) := release_command_queue (ans_release_queue a) g in
    let '(g, tr3) := release_context (ans_release_context a) g in
    _ ← walk_device_list (device_list g);
    let tr4 := [free_device_list (device_list g)] in
    let g := set_device_list freed_device_list g in
    Some (uninit_end g u (tr1 ++ tr2 ++ tr3 ++ tr4)).

(** ** Buffers *)

(** [cl_buf] is the handle the caller's pointer refers to, [None] for a
    [NULL] pointer; the result is the handle after the call. *)
Definition av_opencl_buffer_release (cl_buf : option ptr) (status : cl_int)
    : option ptr * trace :=
  match cl_buf with
  | None => (None, [])
  | Some buf =>
      (Some NULL,
       clReleaseMemObject buf
         :: log_failure status "Could not release OpenCL buffer: %s\n")
  end.

(** [for (i = ...; i < plane_num; i++) buffer_size += plane_size[i];] *)
Fixpoint sum_plane_sizes (plane_size : list Z) (i n : nat) (buffer_size : Z) : M Z :=
  match n with
  | O => Some buffer_size
  | S n' =>
      sz ← plane_size !! i;
      sum_plane_sizes plane_size (S i) n' (int32 (buffer_size + sz))
  end.

(** [for (i = ...; i < plane_num; i++) { memcpy(temp, src_data[i],
    plane_size[i]); temp += plane_size[i]; }] *)
Fixpoint copy_planes (src_data : list ptr) (plane_size : list Z) (i n : nat)
    (temp : ptr) : M trace :=
  match n with
  | O => Some []
  | S n' =>
      src ← src_data !! i;
      sz ← plane_size !! i;
      tr ← copy_planes src_data plane_size (S i) n' (temp + sz);
      Some (memcpy temp src (size_t sz) :: tr)
  end.

(** [map] is the pointer and status of [clEnqueueMapBuffer], [unmap] the
    status of [clEnqueueUnmapMemObject]. *)
Definition av_opencl_buffer_write_image (map : ptr * cl_int) (unmap : cl_int)
    (g : GPUEnv) (dst_cl_buf : ptr) (cl_buffer_size : Z) (dst_cl_offset : Z)
    (src_data : list ptr) (plane_size : list Z) (plane_num : Z)
    : M (av_ret * trace) :=
  if uint32 plane_num >? 8 then Some (AVERROR_EINVAL, [])
  else
    buffer_size ← sum_plane_sizes plane_size 0 (Z.to_nat plane_num) 0;
    if size_t buffer_size >? cl_buffer_size then
      Some (AVERROR_EINVAL,
            [av_log AV_LOG_ERROR
               "Cannot write image to OpenCL buffer: buffer too small\n" []])
    else
      let '(mapped, status) := map in
      let tr := [clEnqueueMapBuffer (command_queue g) dst_cl_buf CL.TRUE
                   CL.MAP_WRITE 0 (size_t (int32 (buffer_size + dst_cl_offset)))] in
      if status =? CL.SUCCESS then
        copies ← copy_planes src_data plane_size 0 (Z.to_nat plane_num)
                   (mapped + dst_cl_offset);
        let tr := tr ++ copies
                  ++ [clEnqueueUnmapMemObject (command_queue g) dst_cl_buf mapped] in
        if unmap =? CL.SUCCESS then Some (RET_OK, tr)
        else
          Some (AVERROR_EXTERNAL,
                tr ++ log_failure unmap "Could not unmap OpenCL buffer: %s\n")
      else
        Some (AVERROR_EXTERNAL,
              tr ++ log_failure status "Could not map OpenCL buffer: %s\n").

(** ** Buffers: creation, plain transfers and reading planes *)

(** [answer] is the handle and status of [clCreateBuffer]; the result is the
    value stored in [*cl_buf], which is written whatever the status. *)
Definition av_opencl_buffer_create (answer : ptr * cl_int) (g : GPUEnv)
    (cl_buf_size flags : Z) (host_ptr : ptr) : ptr * av_ret * trace :=
  let '(buf, status) := answer in
  let call := clCreateBuffer (context g) flags cl_buf_size host_ptr in
  if status =? CL.SUCCESS then (buf, RET_OK, [call])
  else
    (buf, AVERROR_EXTERNAL,
     call :: log_failure status "Could not create OpenCL buffer: %s\n").

(** [buf_size] is a [size_t]; [sizeof(uint8_t)] is 1. *)
Definition av_opencl_buffer_write (map : ptr * cl_int) (unmap : cl_int)
    (g : GPUEnv) (dst_cl_buf src_buf : ptr) (buf_size : Z) : av_ret * trace :=
  let '(mapped, status) := map in
  let tr := [clEnqueueMapBuffer (command_queue g) dst_cl_buf CL.TRUE
               CL.MAP_WRITE 0 (size_t (1 * buf_size))] in
  if status =? CL.SUCCESS then
    let tr := tr ++ [memcpy mapped src_buf buf_size;
                     clEnqueueUnmapMemObject (command_queue g) dst_cl_buf mapped] in
    if unmap =? CL.SUCCESS then (RET_OK, tr)
    else
      (AVERROR_EXTERNAL,
       tr ++ log_failure unmap "Could not unmap OpenCL buffer: %s\n")
  else
    (AVERROR_EXTERNAL,
     tr ++ log_failure status "Could not map OpenCL buffer: %s\n").

Definition av_opencl_buffer_read (map : ptr * cl_int) (unmap : cl_int)
    (g : GPUEnv) (dst_buf src_cl_buf : ptr) (buf_size : Z) : av_ret * trace :=
  let '(mapped, status) := map in
  let tr := [clEnqueueMapBuffer (command_queue g) src_cl_buf CL.TRUE
               CL.MAP_READ 0 buf_size] in
  if status =? CL.SUCCESS then
    let tr := tr ++ [memcpy dst_buf mapped buf_size;
                     clEnqueueUnmapMemObject (command_queue g) src_cl_buf mapped] in
    if unmap =? CL.SUCCESS then (RET_OK, tr)
    else
      (AVERROR_EXTERNAL,
       tr ++ log_failure unmap "Could not unmap OpenCL buffer: %s\n")
  else
    (AVERROR_EXTERNAL,
     tr ++ log_failure status "Could not map OpenCL buffer: %s\n").

(** [for (i = ...; i < plane_num; i++) { memcpy(dst_data[i], temp,
    plane_size[i]); temp += plane_size[i]; }] *)
Fixpoint read_planes (dst_data : list ptr) (plane_size : list Z) (i n : nat)
    (temp : ptr) : M trace :=
  match n with
  | O => Some []
  | S n' =>
      dst ← dst_data !! i;
      sz ← plane_size !! i;
      tr ← read_planes dst_data plane_size (S i) n' (temp + sz);
      Some (memcpy dst temp (size_t sz) :: tr)
  end.

(** The local [ret] is 0 when it is tested, so the copy loop always runs. *)
Definition av_opencl_buffer_read_image (map : ptr * cl_int) (unmap : cl_int)
    (g : GPUEnv) (dst_data : list ptr) (plane_size : list Z) (plane_num : Z)
    (src_cl_buf : ptr) (cl_buffer_size : Z) : M (av_ret * trace) :=
  if uint32 plane_num >? 8 then Some (AVERROR_EINVAL, [])
  else
    buffer_size ← sum_plane_sizes plane_size 0 (Z.to_nat plane_num) 0;
    if size_t buffer_size >? cl_buffer_size then
      Some (AVERROR_EINVAL,
            [av_log AV_LOG_ERROR
               "Cannot write image to CPU buffer: OpenCL buffer too small\n" []])
    else
      let '(mapped, status) := map in
      let tr := [clEnqueueMapBuffer (command_queue g) src_cl_buf CL.TRUE
                   CL.MAP_READ 0 (size_t buffer_size)] in
      if status =? CL.SUCCESS then
        copies ← read_planes dst_data plane_size 0 (Z.to_nat plane_num) mapped;
        let tr := tr ++ copies
                  ++ [clEnqueueUnmapMemObject (command_queue g) src_cl_buf mapped] in
        if unmap =? CL.SUCCESS then Some (RET_OK, tr)
        else
          Some (AVERROR_EXTERNAL,
                tr ++ log_failure unmap "Could not unmap OpenCL buffer: %s\n")
      else
        Some (AVERROR_EXTERNAL,
              tr ++ log_failure status "Could not map OpenCL buffer: %s\n").

(** ** Calls on the global state and their runs *)

Inductive call : Type :=
| set_option (stored : Z * Z * option string)
| register_kernel_code (src : ptr)
| create_kernel (env : AVOpenCLKernelEnv) (kernel_name : string)
    (answers : nat -> ptr * cl_int)
| release_kernel (env : AVOpenCLKernelEnv) (status : cl_int)
| init (ext_opencl_env : option AVOpenCLExternalEnv) (a : init_answers)
| uninit (a : uninit_answers).

(** One entry of a run: the call, what it returned ([RET_OK] for a [void]
    function) and the trace it left. *)
Definition entry : Type := call * av_ret * trace.

Definition with_gpu_env (w : world) (s : stage) : M (world * av_ret * trace) :=
  '(g, r, tr) ← s;
  Some ({| gpu_env := g; openclutils := openclutils w |}, r, tr).

Section Runs.

Variable AV_OPENCL_MAX_KERNEL_NAME_SIZE : Z.
Variable cstring : ptr -> option string.

Definition step (c : call) (w : world) : M (world * av_ret * trace) :=
  match c with
  | set_option stored =>
      let '(u, tr) := av_opencl_set_option stored (openclutils w) in
      Some ({| gpu_env := gpu_env w; openclutils := u |}, RET_OK, tr)
  | register_kernel_code src =>
      with_gpu_env w (av_opencl_register_kernel_code src (gpu_env w))
  | create_kernel env kernel_name answers =>
      '(g, _, r, tr) ← av_opencl_create_kernel AV_OPENCL_MAX_KERNEL_NAME_SIZE
                         env kernel_name answers (gpu_env w);
      Some ({| gpu_env := g; openclutils := openclutils w |}, r, tr)
  | release_kernel env status =>
      let '(g, _, tr) := av_opencl_release_kernel env status (gpu_env w) in
      Some ({| gpu_env := g; openclutils := openclutils w |}, RET_OK, tr)
  | init ext_opencl_env a => av_opencl_init cstring ext_opencl_env a w
  | uninit a =>
      '(w', tr) ← av_opencl_uninit a w;
      Some (w', RET_OK, tr)
  end.

Fixpoint run (cs : list call) (w : world) : M (world * list entry) :=
  match cs with
  | [] => Some (w, [])
  | c :: cs' =>
      '(w1, r, tr) ← step c w;
      '(w2, h) ← run cs' w1;
      Some (w2, (c, r, tr) :: h)
  end.

End Runs.

(** ** Vocabulary of the properties *)

(** A release of one of the resources the environment holds: a compiled
    program, the command queue, the context or the cached device list. *)
Definition is_release (e : event) : bool :=
  match e with
  | clReleaseProgram _ | clReleaseCommandQueue _ | clReleaseContext _
  | free_device_list _ => true
  | _ => false
  end.

(** No event of a trace, or some event of it, falls in the class [f]. *)
Definition no_event (f : event -> bool) (tr : trace) : Prop :=
  Forall (fun e => f e = false) tr.

Definition some_event (f : event -> bool) (tr : trace) : Prop :=
  Exists (fun e => f e = true) tr.

(** Device discovery and the creation of a context or a command queue. *)
Definition is_discovery_or_creation (e : event) : bool :=
  match e with
  | get_device_list | clCreateContextFromType _ _ | clCreateCommandQueue _ _ => true
  | _ => false
  end.

Definition is_map (e : event) : bool :=
  match e with clEnqueueMapBuffer _ _ _ _ _ _ => true | _ => false end.

Definition is_create_kernel (e : event) : bool :=
  match e with clCreateKernel _ _ => true | _ => false end.

(** The entries of a run that are successful [av_opencl_init] calls, and those
    that are [av_opencl_uninit] calls. *)
Definition is_successful_init (x : entry) : bool :=
  match x with (init _ _, RET_OK, _) => true | _ => false end.

Definition is_uninit (x : entry) : bool :=
  match x with (uninit _, _, _) => true | _ => false end.

Definition count_entries (f : entry -> bool) (h : list entry) : Z :=
  Z.of_nat (length (filter (fun x => f x = true) h)).

(** The registered fragments a compile pass started in [g] submits: the
    indices below [kernel_code_count] whose [is_compiled] is 0. *)
Definition uncompiled_from (kc : list KernelCode) (i n : nat) : list nat :=
  filter (fun j => (is_compiled <$> kc !! j) = Some 0) (seq i n).

Definition pass_fragments (g : GPUEnv) : list nat :=
  uncompiled_from (kernel_code g) 0 (Z.to_nat (kernel_code_count g)).

(** The texts of the fragments [l] of the table [kc], one behind the other. *)
Fixpoint join_fragments (cstring : ptr -> option string) (kc : list KernelCode)
    (l : list nat) : option string :=
  match l with
  | [] => Some ""
  | i :: l' =>
      c ← kc !! i;
      s ← cstring (kernel_string c);
      t ← join_fragments cstring kc l';
      Some (s +:+ t)
  end.

(** The pointer [src] is registered in [g]. *)
Definition registered (g : GPUEnv) (src : ptr) : Prop :=
  ∃ i c, (i < Z.to_nat (kernel_code_count g))%nat ∧ kernel_code g !! i = Some c
         ∧ kernel_string c = src.

(** A stage started in [g] relates [g] to its result by [R] and leaves a
    trace in [T]. *)
Definition stage_sound (R : GPUEnv -> GPUEnv -> Prop) (T : trace -> Prop)
    (g : GPUEnv) (m : stage) : Prop :=
  ∀ g' r tr, m = Some (g', r, tr) → R g g' ∧ T tr.

(** What environment set-up leaves alone: the three counters and the two
    tables. *)
Definition setup_frame (g g' : GPUEnv) : Prop :=
  init_count g' = init_count g
  ∧ kernel_count g' = kernel_count g
  ∧ kernel_code_count g' = kernel_code_count g
  ∧ kernel_code g' = kernel_code g
  ∧ program_count g' = program_count g
  ∧ programs g' = programs g.

(** [kc'] is [kc] with some [is_compiled] flags raised from 0: same length,
    same pointers, and an entry whose flag is set is left as it is. *)
Definition flags_kept (kc kc' : list KernelCode) : Prop :=
  length kc' = length kc
  ∧ ∀ i c, kc !! i = Some c →
      ∃ c', kc' !! i = Some c' ∧ kernel_string c' = kernel_string c
            ∧ (is_compiled c ≠ 0 → c' = c).

(** What a compile pass leaves alone, and how it changes the source table. *)
Definition compile_frame (g g' : GPUEnv) : Prop :=
  init_count g' = init_count g
  ∧ kernel_count g' = kernel_count g
  ∧ kernel_code_count g' = kernel_code_count g
  ∧ flags_kept (kernel_code g) (kernel_code g')
  ∧ is_user_created g' = is_user_created g
  ∧ platform_id g' = platform_id g
  ∧ device_id g' = device_id g
  ∧ device_type g' = device_type g
  ∧ context g' = context g
  ∧ command_queue g' = command_queue g
  ∧ device_list g' = device_list g.

(** The provenance flag and the handles adopted with it. *)
Definition user_same (g g' : GPUEnv) : Prop :=
  is_user_created g' = is_user_created g
  ∧ platform_id g' = platform_id g
  ∧ device_id g' = device_id g
  ∧ device_type g' = device_type g
  ∧ context g' = context g
  ∧ command_queue g' = command_queue g.

(** Entry [i] of the source table is registered and marked compiled. *)
Definition compiled_at (g : GPUEnv) (i : nat) : Prop :=
  (i < Z.to_nat (kernel_code_count g))%nat
  ∧ ∃ c, kernel_code g !! i = Some c ∧ is_compiled c ≠ 0.

(** The count after a call, from the count before it and the code returned. *)
Definition next_init_count (c : call) (r : av_ret) (n : Z) : Z :=
  match c, r with
  | init _ _, RET_OK => int32 (n + 1)
  | uninit _, _ => int32 (n - 1)
  | _, _ => n
  end.

Definition is_uninit_call (c : call) : bool :=
  match c with uninit _ => true | _ => false end.

(** ** Sample worlds

    Concrete answers of the outside world and the states some short runs
    reach from [world0]; the properties below are exercised on them. *)

(** The value of [AV_OPENCL_MAX_KERNEL_NAME_SIZE] in opencl.h. *)
Definition sample_name_size : Z := 150.

(** Pointers 1, 2 and 3 are those of three small kernel sources, every
    other positive pointer that of an empty kernel. *)
Definition sample_cstring (p : ptr) : option string :=
  if p =? 1 then Some "kernel void f(global int *p) { p[0] = 1; }"
  else if p =? 2 then Some "kernel void g(global int *p) { p[0] = 2; }"
  else if p =? 3 then Some "kernel void h(global int *p) { p[0] = 3; }"
  else if 0 <? p then Some "kernel void k() { }"
  else None.

(** One platform with one GPU device; every OpenCL call succeeds. *)
Definition sample_device_list : AVOpenCLDeviceList :=
  {| platform_num := 1;
     platform_node :=
       [{| pn_platform_id := 7; pn_platform_name := "vendor"; pn_device_num := 1;
           pn_device_node :=
             [{| dn_device_name := "gpu"; dn_device_type := 4; dn_device_id := 8 |}] |}] |}.

Definition sample_init_answers : init_answers :=
  {| ans_device_list := (RET_OK, sample_device_list);
     ans_context := (11, CL.SUCCESS);
     ans_command_queue := (12, CL.SUCCESS);
     ans_compile := {| ans_malloc := true; ans_program := (21, CL.SUCCESS);
                       ans_build := CL.SUCCESS |} |}.

(** The same world, except that [clBuildProgram] reports a build failure. *)
Definition sample_build_failure : init_answers :=
  {| ans_device_list := (RET_OK, sample_device_list);
     ans_context := (11, CL.SUCCESS);
     ans_command_queue := (12, CL.SUCCESS);
     ans_compile := {| ans_malloc := true; ans_program := (21, CL.SUCCESS);
                       ans_build := CL.BUILD_PROGRAM_FAILURE |} |}.

Definition sample_uninit_answers : uninit_answers :=
  {| ans_release_program := fun _ => CL.SUCCESS;
     ans_release_queue := CL.SUCCESS;
     ans_release_context := CL.SUCCESS |}.

Definition sample_external_env : AVOpenCLExternalEnv :=
  {| ext_platform_id := 41; ext_device_type := 4; ext_context := 42;
     ext_device_id := 43; ext_command_queue := 44 |}.

Definition empty_kernel_env : AVOpenCLKernelEnv :=
  {| kenv_command_queue := NULL; kenv_kernel := NULL; kenv_kernel_name := "" |}.

Definition sample_run (cs : list call) : option (world * list entry) :=
  run sample_name_size sample_cstring cs world0.

Definition world_after (cs : list call) : world :=
  match sample_run cs with
  | Some (w, _) => w
  | None => world0
  end.

Definition history_after (cs : list call) : list entry :=
  match sample_run cs with
  | Some (_, h) => h
  | None => []
  end.

(** [n] registrations of the distinct pointers 1, ..., [n]. *)
Definition register_many (n : nat) : list call :=
  (fun i => register_kernel_code (Z.of_nat i)) <$> seq 1 n.

(** The registry after 200 distinct registrations. *)
Definition full_registry : GPUEnv := Eval vm_compute in gpu_env (world_after (register_many 200)).

(** The world in which a caller-supplied environment has been adopted and
    the trace of the init that adopted it. *)
Definition adopting_run : list call :=
  [register_kernel_code 1; init (Some sample_external_env) sample_init_answers].

Definition adopted_world : world := Eval vm_compute in world_after adopting_run.

Definition adoption_trace : trace := Eval vm_compute in match history_after adopting_run with [_; (_, _, tr)] => tr | _ => [] end.

(** Two registered sources, and the compile pass on them whose build fails. *)
Definition two_sources : GPUEnv := Eval vm_compute in gpu_env (world_after [register_kernel_code 1; register_kernel_code 2]).

Definition failed_pass_env : GPUEnv := Eval vm_compute in match compile_kernel_file sample_cstring (ans_compile sample_build_failure) (Some "-I.") two_sources with Some (g, _, _) => g | None => two_sources end.

Definition failed_pass_trace : trace := Eval vm_compute in match compile_kernel_file sample_cstring (ans_compile sample_build_failure) (Some "-I.") two_sources with Some (_, _, tr) => tr | None => [] end.

(** One registration, a successful init and the creation of 500 kernels on
    empty handles, and the environment they leave. *)
Definition fill_kernels : list call :=
  [register_kernel_code 1; init None sample_init_answers]
  ++ replicate 500 (create_kernel empty_kernel_env "f" (fun _ => (31, CL.SUCCESS))).

Definition full_kernels : GPUEnv := Eval vm_compute in gpu_env (world_after fill_kernels).

(** A run for the witness: two successful inits, one kernel created and
    released, and one uninit so far. *)
Definition gate_run : list call :=
  [register_kernel_code 1;
   init None sample_init_answers;
   init None sample_init_answers;
   create_kernel empty_kernel_env "f" (fun _ => (31, CL.SUCCESS));
   uninit sample_uninit_answers;
   release_kernel {| kenv_command_queue := 12; kenv_kernel := 31;
                     kenv_kernel_name := "f" |} CL.SUCCESS].

(** The calls made after the adoption in the witness: uninit down to count 0,
    then a registration and an init without descriptor. *)
Definition after_adoption : list call :=
  [uninit sample_uninit_answers; register_kernel_code 2;
   init None sample_init_answers].

(** The calls made after the failed pass in the witness: a third source is
    registered and the environment is initialised with a working compiler. *)
Definition after_failed_pass : list call :=
  [register_kernel_code 3; init None sample_init_answers].

(** ** Vocabulary of the further properties *)

(** A status the code can deal with: [CL_SUCCESS], for which nothing is
    logged, or a status whose message [opencl_errstr] finds in
    [opencl_err_msg].  For any other status the loop of [opencl_errstr]
    leaves the table, so the log call that prints its message has no defined
    behaviour: the trace records it as [ArgErrstr None], and what the trace
    shows behind it is not what the program does. *)
Definition known_status (status : cl_int) : Prop :=
  status = CL.SUCCESS ∨ is_Some (opencl_errstr status).

(** A log call that prints a message [opencl_errstr] did not find. *)
Definition reads_past_table (e : event) : bool :=
  match e with
  | av_log _ _ args =>
      existsb (fun x => match x with ArgErrstr None => true | _ => false end) args
  | _ => false
  end.

Definition uninit_statuses_known (a : uninit_answers) : Prop :=
  (∀ i, known_status (ans_release_program a i))
  ∧ known_status (ans_release_queue a)
  ∧ known_status (ans_release_context a).

(** Every status the runtime answers to the call [c] is a known one. *)
Definition known_statuses (c : call) : Prop :=
  match c with
  | create_kernel _ _ answers => ∀ i, known_status (answers i).2
  | release_kernel _ status => known_status status
  | init _ a =>
      known_status (ans_context a).2 ∧ known_status (ans_command_queue a).2
      ∧ known_status (ans_program (ans_compile a)).2
      ∧ known_status (ans_build (ans_compile a))
  | uninit a => uninit_statuses_known a
  | _ => True
  end.

(** The device list is one [free_device_list] can walk. *)
Definition walkable (dl : AVOpenCLDeviceList) : Prop := walk_device_list dl = Some ().

(** The list an [av_opencl_init] call is answered by [get_device_list] is
    one [free_device_list] can walk. *)
Definition answers_walkable_list (c : call) : Prop :=
  match c with
  | init _ a => walkable (ans_device_list a).2
  | _ => True
  end.

(** An uninit that no init matches, then a registration and a successful
    init. *)
Definition unmatched_uninit_run : list call :=
  [uninit sample_uninit_answers; register_kernel_code 1;
   init None sample_init_answers].

(** The calls [clCreateKernel(p, name)] for the programs [ps], in order. *)
Definition create_kernel_calls (kernel_name : string) (ps : list ptr) : trace :=
  (fun p => clCreateKernel p kernel_name) <$> ps.

(** Three compiled programs of which only the third knows the kernel. *)
Definition three_programs : GPUEnv :=
  set_program_count 3 (set_programs ([21; 22; 23] ++ replicate 197 NULL)
    (set_command_queue 12 gpu_env0)).

Definition third_program_answers (i : nat) : ptr * cl_int :=
  match i with
  | 2%nat => (31, CL.SUCCESS)
  | _ => (NULL, CL.INVALID_KERNEL_NAME)
  end.

(** A handle bound to kernel 31 by a successful creation in [three_programs]. *)
Definition bound_kernel_env : AVOpenCLKernelEnv :=
  {| kenv_command_queue := 12; kenv_kernel := 31; kenv_kernel_name := "h" |}.

(** The pointers registered in [g], in registration order. *)
Definition registered_pointers (g : GPUEnv) : list ptr :=
  kernel_string <$> take (Z.to_nat (kernel_code_count g)) (kernel_code g).

(** The two tables of [g] have their declared size and the counters that
    index them lie within it; every counted program accounts for at least one
    registered source that is no longer pending. *)
Definition tables_wf (g : GPUEnv) : Prop :=
  length (programs g) = Z.to_nat MAX_KERNEL_CODE_NUM
  ∧ length (kernel_code g) = Z.to_nat MAX_KERNEL_CODE_NUM
  ∧ 0 ≤ program_count g
  ∧ program_count g + Z.of_nat (length (pass_fragments g)) ≤ kernel_code_count g
  ∧ kernel_code_count g ≤ MAX_KERNEL_CODE_NUM.

(** How one call changes the two tables and their counters: not at all
    (the program handles apart, which keep their number), by appending a
    fresh source, or by a compile pass over the pending sources. *)
Definition tables_step (src_of : option ptr) (g g' : GPUEnv) : Prop :=
  (kernel_code_count g' = kernel_code_count g
   ∧ kernel_code g' = kernel_code g
   ∧ program_count g' = program_count g
   ∧ length (programs g') = length (programs g))
  ∨ (∃ src, src_of = Some src
       ∧ (0 ≤ kernel_code_count g < MAX_KERNEL_CODE_NUM)
       ∧ (Z.to_nat (kernel_code_count g) < length (kernel_code g))%nat
       ∧ (src ∉ registered_pointers g)
       ∧ kernel_code_count g' = kernel_code_count g + 1
       ∧ kernel_code g'
         = <[Z.to_nat (kernel_code_count g)
             := {| is_compiled := 0; kernel_string := src |}]> (kernel_code g)
       ∧ program_count g' = program_count g
       ∧ programs g' = programs g)
  ∨ (pass_fragments g ≠ []
     ∧ pass_fragments g' = []
     ∧ kernel_code_count g' = kernel_code_count g
     ∧ flags_kept (kernel_code g) (kernel_code g')
     ∧ (0 ≤ program_count g < Z.of_nat (length (programs g)))
     ∧ length (programs g') = length (programs g)
     ∧ (program_count g' = program_count g
        ∨ program_count g' = int32 (program_count g + 1))).

Definition registered_source (c : call) : option ptr :=
  match c with register_kernel_code src => Some src | _ => None end.

Definition is_init_call (c : call) : bool :=
  match c with init _ _ => true | _ => false end.

(** The entries of a run that bind a kernel (a successful creation on an
    empty handle) and those that give one back (a release of a handle that
    holds a kernel). *)
Definition binds_kernel (x : entry) : bool :=
  match x with
  | (create_kernel env _ _, RET_OK, _) => kenv_kernel env =? NULL
  | _ => false
  end.

Definition gives_back_kernel (x : entry) : bool :=
  match x with
  | (release_kernel env _, _, _) => negb (kenv_kernel env =? NULL)
  | _ => false
  end.

(** A source is registered and compiled, a second one is registered after
    the pass and is pending. *)
Definition pending_run : list call :=
  [register_kernel_code 1; init None sample_init_answers; register_kernel_code 2].

(** Two kernels are created and one of them is released. *)
Definition kernels_run : list call :=
  [register_kernel_code 1; init None sample_init_answers;
   create_kernel empty_kernel_env "f" (fun _ => (31, CL.SUCCESS));
   create_kernel empty_kernel_env "f" (fun _ => (32, CL.SUCCESS));
   release_kernel {| kenv_command_queue := 12; kenv_kernel := 31;
                     kenv_kernel_name := "f" |} CL.SUCCESS].

(** A platform list whose only platform has no device, and the answers of a
    world that enumerates it. *)
Definition no_device_list : AVOpenCLDeviceList :=
  {| platform_num := 1;
     platform_node :=
       [{| pn_platform_id := 7; pn_platform_name := "vendor"; pn_device_num := 0;
           pn_device_node := [] |}] |}.

Definition no_device_answers : init_answers :=
  {| ans_device_list := (RET_OK, no_device_list);
     ans_context := (11, CL.SUCCESS);
     ans_command_queue := (12, CL.SUCCESS);
     ans_compile := {| ans_malloc := true; ans_program := (21, CL.SUCCESS);
                       ans_build := CL.SUCCESS |} |}.

(** An environment set up once and torn down again. *)
Definition torn_down_run : list call :=
  [register_kernel_code 1; init None sample_init_answers;
   uninit sample_uninit_answers].

Definition torn_down_world : world := Eval vm_compute in world_after torn_down_run.

(** Two platforms, the first without device, the second with a CPU and a
    GPU device. *)
Definition two_platform_list : AVOpenCLDeviceList :=
  {| platform_num := 2;
     platform_node :=
       [{| pn_platform_id := 7; pn_platform_name := "first"; pn_device_num := 0;
           pn_device_node := [] |};
        {| pn_platform_id := 9; pn_platform_name := "second"; pn_device_num := 2;
           pn_device_node :=
             [{| dn_device_name := "cpu"; dn_device_type := 2; dn_device_id := 51 |};
              {| dn_device_name := "gpu"; dn_device_type := 4; dn_device_id := 52 |}] |}] |}.

(** The environment [av_opencl_init] hands to [init_opencl_env] when the
    options have their defaults and the list above is cached. *)
Definition two_platform_env : GPUEnv :=
  set_platform_idx (-1) (set_device_idx (-1) (set_device_list two_platform_list gpu_env0)).

(** The device list [init_opencl_env] selects from: the cached one, or the
    one [get_device_list] has just built when none was cached. *)
Definition list_in_use (a : init_answers) (g : GPUEnv) : AVOpenCLDeviceList :=
  if platform_num (device_list g) =? 0 then (ans_device_list a).2
  else device_list g.

(** The list of [two_platform_list] is cached and the options ask for
    platform 1 and device 2, one past the two devices of that platform. *)
Definition device_index_env : GPUEnv :=
  set_platform_idx 1 (set_device_idx 2 (set_device_list two_platform_list gpu_env0)).

(** A release of a handle of the OpenCL runtime. *)
Definition is_handle_release (e : event) : bool :=
  match e with
  | clReleaseProgram _ | clReleaseCommandQueue _ | clReleaseContext _ => true
  | _ => false
  end.

Definition handle_releases (tr : list event) : list event :=
  filter (fun e => is_handle_release e = true) tr.

(** The handles among [ps] that are not [NULL]. *)
Definition live_handles (ps : list ptr) : list ptr :=
  filter (fun p => p ≠ NULL) ps.

(** The releases a tear-down of [g] owes: the programs below
    [program_count] in table order, then the queue, then the context, each
    if it is not [NULL]. *)
Definition owed_releases (g : GPUEnv) : trace :=
  (clReleaseProgram <$> live_handles (take (Z.to_nat (program_count g)) (programs g)))
  ++ (if command_queue g =? NULL then [] else [clReleaseCommandQueue (command_queue g)])
  ++ (if context g =? NULL then [] else [clReleaseContext (context g)]).

(** The world in which one source is compiled and the environment is
    initialised once. *)
Definition initialised_world : world := Eval vm_compute in world_after [register_kernel_code 1; init None sample_init_answers].

(** After the tear-down: the source is registered and initialised again, and
    a kernel of it is asked for. *)
Definition after_teardown : list call :=
  [register_kernel_code 1; init None sample_init_answers;
   create_kernel empty_kernel_env "f" (fun _ => (NULL, CL.INVALID_PROGRAM))].

(** From [g] to [g'] no program is counted out and no slot below
    [program_count] that holds [NULL] is filled again. *)
Definition null_programs_kept (g g' : GPUEnv) : Prop :=
  program_count g ≤ program_count g'
  ∧ ∀ j, (j < Z.to_nat (program_count g))%nat →
         programs g !! j = Some NULL → programs g' !! j = Some NULL.

Definition reinitialised_world : world := Eval vm_compute in world_after (torn_down_run ++ after_teardown).

Definition reinitialised_history : list entry :=
  drop 3 (history_after (torn_down_run ++ after_teardown)).

(** Offset of plane [i] in a packed image: the sizes of the [i] planes
    before it, added up. *)
Definition plane_offset (plane_size : list Z) (i : nat) : Z :=
  foldr Z.add 0 (take i plane_size).

Definition is_memcpy (e : event) : bool :=
  match e with memcpy _ _ _ => true | _ => false end.

Definition is_unmap (e : event) : bool :=
  match e with clEnqueueUnmapMemObject _ _ _ => true | _ => false end.

(** The one log line of a failing [status], which is a code of the error
    table. *)
Definition failure_line (status : cl_int) (log : trace) : Prop :=
  ∃ fmt msg, status ≠ CL.SUCCESS ∧ opencl_errstr status = Some msg
             ∧ log = [av_log AV_LOG_ERROR fmt [ArgErrstr (Some msg)]].

(** What a transfer of a buffer owes its caller, [map] and [unmap] being the
    answers of the runtime, [r] the code returned and [tr] the calls made, in
    their order.  The trace has one of three shapes.  A rejected argument:
    no call to the runtime, at most one log line.  A failed map: the map
    call and the log line of its status, nothing copied, nothing unmapped.
    A successful map: the map call first, then copies only, then the unmap
    of the same buffer on the same queue at the address the map returned,
    then the log line of the unmap status if that failed; 0 is returned
    exactly when the unmap succeeded. *)
Definition well_bracketed (map : ptr * cl_int) (unmap : cl_int) (r : av_ret)
    (tr : trace) : Prop :=
  (r = AVERROR_EINVAL ∧ (tr = [] ∨ ∃ msg, tr = [av_log AV_LOG_ERROR msg []]))
  ∨ (∃ q buf flags size log,
       map.2 ≠ CL.SUCCESS ∧ r = AVERROR_EXTERNAL
       ∧ tr = clEnqueueMapBuffer q buf CL.TRUE flags 0 size :: log
       ∧ failure_line map.2 log)
  ∨ (∃ q buf flags size copies log,
       map.2 = CL.SUCCESS
       ∧ r = (if unmap =? CL.SUCCESS then RET_OK else AVERROR_EXTERNAL)
       ∧ tr = clEnqueueMapBuffer q buf CL.TRUE flags 0 size
              :: copies ++ clEnqueueUnmapMemObject q buf map.1 :: log
       ∧ Forall (fun e => is_memcpy e = true) copies
       ∧ (unmap = CL.SUCCESS ∧ log = [] ∨ failure_line unmap log)).

(** A three-plane image of 4 + 2 + 2 bytes. *)
Definition sample_planes : list ptr := [100; 200; 300].
Definition sample_plane_size : list Z := [4; 2; 2].

(** ** Device enumeration

    [get_device_list] builds the list on the heap: [platform_node] is an
    array of pointers to platform nodes, each of which points to an array of
    pointers to device nodes.  A pointer is [None] when it is [NULL]; the
    arrays have the length they were allocated with.  The queries to the
    runtime and the allocator are answered from outside; only the log lines
    are recorded.  A result is [None] when the code has no defined behaviour:
    an access outside an array or through [NULL], the message of a status
    that [opencl_errstr] does not find, or the release of a pointer that was
    never assigned. *)
Module DeviceList.

(** CL/cl.h *)
Definition CL_DEVICE_TYPE_DEFAULT : Z := 1.
Definition CL_DEVICE_TYPE_CPU : Z := 2.
Definition CL_DEVICE_TYPE_GPU : Z := 4.

(** [static const cl_device_type device_type[]] *)
Definition device_type : list Z :=
  [CL_DEVICE_TYPE_GPU; CL_DEVICE_TYPE_CPU; CL_DEVICE_TYPE_DEFAULT].

(** [AVOpenCLPlatformNode] and [AVOpenCLDeviceList] as they lie in memory. *)
Record platform_mem : Type := {
  pm_platform_id : ptr;
  pm_platform_name : string;
  pm_device_num : Z;
  pm_device_node : option (list (option AVOpenCLDeviceNode))
}.

Record list_mem : Type := {
  lm_platform_num : Z;
  lm_platform_node : option (list (option platform_mem))
}.

Definition set_pm_device_node (v : option (list (option AVOpenCLDeviceNode)))
    (node : platform_mem) : platform_mem :=
  {| pm_platform_id := pm_platform_id node;
     pm_platform_name := pm_platform_name node;
     pm_device_num := pm_device_num node; pm_device_node := v |}.

Definition set_pm_device_num (v : Z) (node : platform_mem) : platform_mem :=
  {| pm_platform_id := pm_platform_id node;
     pm_platform_name := pm_platform_name node;
     pm_device_num := v; pm_device_node := pm_device_node node |}.

(** [for (j = ...; j < device_num; j++) av_freep(&device_node[j]);] with [n]
    iterations left. *)
Fixpoint free_device_nodes (arr : option (list (option AVOpenCLDeviceNode)))
    (j n : nat) : M (option (list (option AVOpenCLDeviceNode))) :=
  match n with
  | O => Some arr
  | S n' =>
      a ← arr;
      _ ← a !! j;
      free_device_nodes (Some (<[j := None]> a)) (S j) n'
  end.

(** The outer loop of [free_device_list], with [n] iterations left. *)
Fixpoint free_platform_nodes (nodes : option (list (option platform_mem)))
    (i n : nat) : M (option (list (option platform_mem))) :=
  match n with
  | O => Some nodes
  | S n' =>
      ns ← nodes;
      cell ← ns !! i;
      match cell with
      | None => free_platform_nodes nodes (S i) n'
      | Some node =>
          _ ← free_device_nodes (pm_device_node node) 0
                (Z.to_nat (pm_device_num node));
          free_platform_nodes (Some (<[i := None]> ns)) (S i) n'
      end
  end.

(** [free_device_list] on a list that is not [NULL]. *)
Definition free_device_list (dl : list_mem) : M list_mem :=
  _ ← free_platform_nodes (lm_platform_node dl) 0 (Z.to_nat (lm_platform_num dl));
  Some {| lm_platform_num := 0; lm_platform_node := None |}.

(** What the runtime and the allocator answer to one enumeration.  An
    allocation is answered by whether it succeeds; a query by its status and
    the content it leaves in the memory it was given.  [device_count a i j]
    is the value the count query for platform [i] and device type [j] writes
    to [devices_num[j]], [None] if it writes nothing. *)
Record answers : Type := {
  platform_count : cl_int * Z;
  alloc_platform_ids : bool;
  platform_ids : cl_int * (nat -> ptr);
  alloc_platform_node : bool;
  alloc_devices_num : bool;
  alloc_platform : nat -> bool;
  platform_name : nat -> string;
  device_count : nat -> nat -> option Z;
  alloc_device_node : nat -> bool;
  alloc_device_ids : nat -> nat -> bool;
  device_ids : nat -> nat -> cl_int * (nat -> ptr);
  alloc_device : nat -> nat -> nat -> bool;
  device_name : nat -> nat -> nat -> cl_int * string
}.

(** [av_mallocz(count * size)]: a negative [count] converts to a size no
    allocator can serve. *)
Definition av_mallocz_array (ok : bool) (count : Z) : bool := ok && (0 <=? count).

(** [for (j = ...; j < 3; j++) { clGetDeviceIDs(..., &devices_num[j]);
    total_devices_num += devices_num[j]; }] with [n] iterations left. *)
Fixpoint count_loop (a : answers) (i : nat) (devices_num : list Z) (j n : nat)
    (total : Z) : M (list Z * Z) :=
  match n with
  | O => Some (devices_num, total)
  | S n' =>
      old ← devices_num !! j;
      let c := match device_count a i j with Some c => c | None => old end in
      count_loop a i (<[j := c]> devices_num) (S j) n' (int32 (total + c))
  end.

(** [for (k = ...; k < devices_num[j]; k++)] with [n] iterations left: the
    node is stored at [device_node[device_num]] before its name is asked for,
    and [device_num] is raised only when the name was obtained. *)
Fixpoint device_loop (a : answers) (i j : nat) (dtype : Z) (ids : nat -> ptr)
    (node : platform_mem) (k n : nat) : M (platform_mem * av_ret * trace) :=
  match n with
  | O => Some (node, RET_OK, [])
  | S n' =>
      arr ← pm_device_node node;
      if alloc_device a i j k then
        let '(status, name) := device_name a i j k in
        arr' ← arr_set arr (pm_device_num node)
                 (Some {| dn_device_name := name; dn_device_type := dtype;
                          dn_device_id := ids k |});
        let node := set_pm_device_node (Some arr') node in
        if status =? CL.SUCCESS then
          device_loop a i j dtype ids
            (set_pm_device_num (int32 (pm_device_num node + 1)) node) (S k) n'
        else
          msg ← opencl_errstr status;
          '(node', r, tr) ← device_loop a i j dtype ids node (S k) n';
          Some (node', r,
                av_log AV_LOG_WARNING "Could not get device name: %s\n"
                  [ArgErrstr (Some msg)] :: tr)
      else
        arr' ← arr_set arr (pm_device_num node) None;
        Some (set_pm_device_node (Some arr') node, AVERROR_ENOMEM, [])
  end.

(** [for (j = ...; j < 3; j++) if (devices_num[j]) { ... }] with [n]
    iterations left. *)
Fixpoint type_loop (a : answers) (i : nat) (devices_num : list Z)
    (node : platform_mem) (j n : nat) : M (platform_mem * av_ret * trace) :=
  match n with
  | O => Some (node, RET_OK, [])
  | S n' =>
      c ← devices_num !! j;
      dtype ← device_type !! j;
      if c =? 0 then type_loop a i devices_num node (S j) n'
      else if negb (av_mallocz_array (alloc_device_ids a i j) c) then
        Some (node, AVERROR_ENOMEM, [])
      else
        let '(status, ids) := device_ids a i j in
        if status =? CL.SUCCESS then
          '(node1, r, tr) ← device_loop a i j dtype ids node 0 (Z.to_nat c);
          if ret_lt_0 r then Some (node1, r, tr)
          else
            '(node2, r2, tr2) ← type_loop a i devices_num node1 (S j) n';
            Some (node2, r2, tr ++ tr2)
        else
          msg ← opencl_errstr status;
          '(node2, r2, tr2) ← type_loop a i devices_num node (S j) n';
          Some (node2, r2,
                av_log AV_LOG_WARNING "Could not get device ID: %s:\n"
                  [ArgErrstr (Some msg)] :: tr2)
  end.

(** [for (i = ...; i < platform_num; i++)] with [n] iterations left.
    [devices_num] is allocated once and keeps its content from one platform
    to the next. *)
Fixpoint platform_loop (a : answers) (ids : nat -> ptr)
    (nodes : list (option platform_mem)) (devices_num : list Z) (i n : nat)
    : M (list (option platform_mem) * av_ret * trace) :=
  match n with
  | O => Some (nodes, RET_OK, [])
  | S n' =>
      if alloc_platform a i then
        let node := {| pm_platform_id := ids i; pm_platform_name := platform_name a i;
                       pm_device_num := 0; pm_device_node := None |} in
        '(devices_num, total) ← count_loop a i devices_num 0
                                  (length device_type) 0;
        if av_mallocz_array (alloc_device_node a i) total then
          let node := set_pm_device_node (Some (replicate (Z.to_nat total) None)) node in
          '(node, r, tr) ← type_loop a i devices_num node 0 (length device_type);
          nodes ← arr_set nodes (Z.of_nat i) (Some node);
          if ret_lt_0 r then Some (nodes, r, tr)
          else
            '(nodes2, r2, tr2) ← platform_loop a ids nodes devices_num (S i) n';
            Some (nodes2, r2, tr ++ tr2)
        else
          nodes ← arr_set nodes (Z.of_nat i) (Some node);
          Some (nodes, AVERROR_ENOMEM, [])
      else
        nodes ← arr_set nodes (Z.of_nat i) None;
        Some (nodes, AVERROR_ENOMEM, [])
  end.

Definition set_lm_platform_node (v : option (list (option platform_mem)))
    (dl : list_mem) : list_mem :=
  {| lm_platform_num := lm_platform_num dl; lm_platform_node := v |}.

(** [av_log(&openclutils, level, fmt, opencl_errstr(status));] for a
    [status] that is not [CL_SUCCESS]. *)
Definition log_status (level : log_level) (fmt : string) (status : cl_int)
    : M trace :=
  msg ← opencl_errstr status;
  Some [av_log level fmt [ArgErrstr (Some msg)]].

(** The part of [get_device_list] between the allocation of [platform_ids]
    and the label [end:].  The last component of the result tells whether the
    local pointer [devices_num], which is declared without an initialiser,
    has been assigned by then. *)
Definition build_list (a : answers) (dl : list_mem)
    : M (list_mem * av_ret * trace * bool) :=
  let '(status, ids) := platform_ids a in
  if status =? CL.SUCCESS then
    if av_mallocz_array (alloc_platform_node a) (lm_platform_num dl) then
      let nodes := replicate (Z.to_nat (lm_platform_num dl)) None in
      if alloc_devices_num a then
        '(nodes, r, tr) ← platform_loop a ids nodes
                            (replicate (length device_type) 0) 0
                            (Z.to_nat (lm_platform_num dl));
        Some (set_lm_platform_node (Some nodes) dl, r, tr, true)
      else Some (set_lm_platform_node (Some nodes) dl, AVERROR_ENOMEM, [], true)
    else Some (set_lm_platform_node None dl, AVERROR_ENOMEM, [], false)
  else
    tr ← log_status AV_LOG_ERROR "Could not get OpenCL platform ids: %s\n" status;
    Some (dl, AVERROR_EXTERNAL, tr, false).

(** The code behind the label [end:]: [av_freep(&platform_ids);
    av_freep(&devices_num); av_freep(&device_ids); if (ret < 0)
    free_device_list(device_list); return ret;].  [platform_ids] and
    [device_ids] are [NULL] or allocated; [av_freep(&devices_num)] passes to
    [free] whatever the variable holds, which is undefined when it was never
    assigned. *)
Definition get_device_list_end (dl : list_mem) (ret : av_ret) (tr : trace)
    (devices_num_assigned : bool) : M (list_mem * av_ret * trace) :=
  if devices_num_assigned then
    if ret_lt_0 ret then
      dl ← free_device_list dl;
      Some (dl, ret, tr)
    else Some (dl, ret, tr)
  else None.

Definition get_device_list (a : answers) (dl : list_mem)
    : M (list_mem * av_ret * trace) :=
  let '(status, n) := platform_count a in
  let dl := {| lm_platform_num := n; lm_platform_node := lm_platform_node dl |} in
  if status =? CL.SUCCESS then
    if av_mallocz_array (alloc_platform_ids a) n then
      '(dl, ret, tr, assigned) ← build_list a dl;
      get_device_list_end dl ret tr assigned
    else Some (dl, AVERROR_ENOMEM, [])
  else
    tr ← log_status AV_LOG_ERROR "Could not get OpenCL platform ids: %s\n" status;
    Some (dl, AVERROR_EXTERNAL, tr).

(** [av_opencl_get_device_list]: the result is the list [*device_list]
    points to afterwards, [None] for [NULL]. *)
Definition av_opencl_get_device_list (alloc_list : bool) (a : answers)
    : M (option list_mem * av_ret * trace) :=
  if alloc_list then
    '(dl, ret, tr) ← get_device_list a
                       {| lm_platform_num := 0; lm_platform_node := None |};
    if ret_lt_0 ret then
      _ ← free_device_list dl;
      Some (None, ret,
            tr ++ [av_log AV_LOG_ERROR
                     "Could not get device list from environment\n" []])
    else Some (Some dl, ret, tr)
  else
    Some (None, AVERROR_ENOMEM,
          [av_log AV_LOG_ERROR "Could not allocate opencl device list\n" []]).

(** [av_opencl_free_device_list]: [free_device_list] returns at once for a
    [NULL] list. *)
Definition av_opencl_free_device_list (dl : option list_mem) : M (option list_mem) :=
  match dl with
  | None => Some None
  | Some l => _ ← free_device_list l; Some None
  end.

End DeviceList.

(** *** Vocabulary of device enumeration *)

(** The platform node [node] has a device array of [size] slots whose first
    [device_num] slots hold the device nodes [ds], in this order. *)
Definition node_lists (size : nat) (node : DeviceList.platform_mem)
    (ds : list AVOpenCLDeviceNode) : Prop :=
  ∃ arr, DeviceList.pm_device_node node = Some arr
         ∧ length arr = size
         ∧ DeviceList.pm_device_num node = Z.of_nat (length ds)
         ∧ take (length ds) arr = Some <$> ds.

(** A platform node [free_device_list] can walk: it is [NULL], or its device
    array is [NULL] and counts no device, or it lists its devices. *)
Definition cell_freeable (cell : option DeviceList.platform_mem) : Prop :=
  match cell with
  | None => True
  | Some node =>
      (DeviceList.pm_device_node node = None ∧ DeviceList.pm_device_num node = 0)
      ∨ ∃ size ds, node_lists size node ds
  end.

(** The counts in [devices_num] after the count queries for platform [i],
    [old] being the counts before: a query that writes nothing leaves the
    old count. *)
Definition written_counts (a : DeviceList.answers) (i : nat) (old : list Z)
    : list Z :=
  imap (fun j c => default c (DeviceList.device_count a i j)) old.

(** The counts before the enumeration of platform [i]: zero for the first
    platform, then what the platform before left. *)
Fixpoint counts_before (a : DeviceList.answers) (i : nat) : list Z :=
  match i with
  | O => replicate (length DeviceList.device_type) 0
  | S i' => written_counts a i' (counts_before a i')
  end.

Definition counts_at (a : DeviceList.answers) (i : nat) : list Z :=
  written_counts a i (counts_before a i).

(** The device nodes of platform [i] for the device type of index [j] and
    the identifiers [ids]: one for each of the devices [k], ..., [k + n - 1]
    whose name could be read, in this order. *)
Definition named_devices (a : DeviceList.answers) (i j : nat) (dtype : Z)
    (ids : nat -> ptr) (k n : nat) : list AVOpenCLDeviceNode :=
  omap (fun k => if (DeviceList.device_name a i j k).1 =? CL.SUCCESS
                 then Some {| dn_device_name := (DeviceList.device_name a i j k).2;
                              dn_device_type := dtype;
                              dn_device_id := ids k |}
                 else None)
       (seq k n).

(** The devices of platform [i] for the device type of index [j], of which
    [c] were counted: none when their identifiers could not be read. *)
Definition devices_of_type (a : DeviceList.answers) (i j : nat) (c : Z)
    : list AVOpenCLDeviceNode :=
  match DeviceList.device_type !! j with
  | Some dtype =>
      if (DeviceList.device_ids a i j).1 =? CL.SUCCESS
      then named_devices a i j dtype (DeviceList.device_ids a i j).2 0 (Z.to_nat c)
      else []
  | None => []
  end.

(** The devices of platform [i] for the [n] device types from index [j] on,
    in the order of [device_type]. *)
Definition listed_from (a : DeviceList.answers) (i : nat) (counts : list Z)
    (j n : nat) : list AVOpenCLDeviceNode :=
  mjoin ((fun j => devices_of_type a i j (default 0 (counts !! j))) <$> seq j n).

(** The node of platform [i] as a finished enumeration leaves it: it
    carries the identifier and the name of the platform, its array has one
    slot for each device counted, and its first [device_num] slots list the
    devices whose name could be read: GPUs, then CPUs, then default
    devices. *)
Definition node_complete (a : DeviceList.answers) (ids : nat -> ptr) (i : nat)
    (node : DeviceList.platform_mem) : Prop :=
  DeviceList.pm_platform_id node = ids i
  ∧ DeviceList.pm_platform_name node = DeviceList.platform_name a i
  ∧ node_lists (Z.to_nat (foldr Z.add 0 (counts_at a i))) node
      (listed_from a i (counts_at a i) 0 (length DeviceList.device_type)).

(** The list of a successful enumeration of [n] platforms with the
    identifiers [ids]. *)
Definition list_complete (a : DeviceList.answers) (n : Z) (ids : nat -> ptr)
    (dl : DeviceList.list_mem) : Prop :=
  DeviceList.lm_platform_num dl = n
  ∧ ∃ nodes, DeviceList.lm_platform_node dl = Some nodes
             ∧ length nodes = Z.to_nat n
             ∧ ∀ i, (i < length nodes)%nat →
                 ∃ node, nodes !! i = Some (Some node)
                         ∧ node_complete a ids i node.

(** Every allocation of the enumeration succeeds. *)
Definition allocations_succeed (a : DeviceList.answers) : Prop :=
  DeviceList.alloc_devices_num a = true
  ∧ (∀ i, DeviceList.alloc_platform a i = true)
  ∧ (∀ i, DeviceList.alloc_device_node a i = true)
  ∧ (∀ i j, DeviceList.alloc_device_ids a i j = true)
  ∧ (∀ i j k, DeviceList.alloc_device a i j k = true).

(** The statuses of the identifier and name queries are [CL_SUCCESS] or
    codes of the error table. *)
Definition device_statuses_known (a : DeviceList.answers) : Prop :=
  (∀ i j, known_status (DeviceList.device_ids a i j).1)
  ∧ (∀ i j k, known_status (DeviceList.device_name a i j k).1).

(** The largest device count for which three counts add up in an [int]. *)
Definition MAX_DEVICE_COUNT : Z := INT_MAX / 3.

(** The count queries of [a] write counts between 0 and
    [MAX_DEVICE_COUNT]. *)
Definition counts_sane (a : DeviceList.answers) : Prop :=
  ∀ i j c, DeviceList.device_count a i j = Some c → 0 ≤ c ∧ c ≤ MAX_DEVICE_COUNT.

Definition empty_list : DeviceList.list_mem :=
  {| DeviceList.lm_platform_num := 0; DeviceList.lm_platform_node := None |}.

(** The three counts lie between 0 and [MAX_DEVICE_COUNT]. *)
Definition counts_ok (counts : list Z) : Prop :=
  length counts = 3%nat
  ∧ ∀ k c, counts !! k = Some c → 0 ≤ c ∧ c ≤ MAX_DEVICE_COUNT.

(** A world with two platforms: the first has a GPU whose name cannot be
    read and a CPU; for the second the count queries write nothing and the
    identifier queries fail.  Every allocation succeeds. *)
Definition sample_enumeration : DeviceList.answers :=
  {| DeviceList.platform_count := (CL.SUCCESS, 2);
     DeviceList.alloc_platform_ids := true;
     DeviceList.platform_ids := (CL.SUCCESS, fun i => 7 + Z.of_nat i);
     DeviceList.alloc_platform_node := true;
     DeviceList.alloc_devices_num := true;
     DeviceList.alloc_platform := fun _ => true;
     DeviceList.platform_name := fun _ => "vendor";
     DeviceList.device_count :=
       fun i j => match i, j with
                  | O, O => Some 1
                  | O, 1%nat => Some 1
                  | O, _ => Some 0
                  | _, _ => None
                  end;
     DeviceList.alloc_device_node := fun _ => true;
     DeviceList.alloc_device_ids := fun _ _ => true;
     DeviceList.device_ids :=
       fun i j => match i with
                  | O => (CL.SUCCESS, fun k => 50 + Z.of_nat j)
                  | _ => (CL.DEVICE_NOT_FOUND, fun _ => NULL)
                  end;
     DeviceList.alloc_device := fun _ _ _ => true;
     DeviceList.device_name :=
       fun i j k => match i, j with
                    | O, O => (CL.INVALID_DEVICE, "")
                    | _, _ => (CL.SUCCESS, "device")
                    end |}.

(** The same world, in which the identifiers of the platforms cannot be
    read. *)
Definition failing_enumeration : DeviceList.answers :=
  {| DeviceList.platform_count := (CL.SUCCESS, 2);
     DeviceList.alloc_platform_ids := true;
     DeviceList.platform_ids := (CL.OUT_OF_HOST_MEMORY, fun _ => NULL);
     DeviceList.alloc_platform_node := true;
     DeviceList.alloc_devices_num := true;
     DeviceList.alloc_platform := fun _ => true;
     DeviceList.platform_name := fun _ => "vendor";
     DeviceList.device_count := fun _ _ => Some 0;
     DeviceList.alloc_device_node := fun _ => true;
     DeviceList.alloc_device_ids := fun _ _ => true;
     DeviceList.device_ids := fun _ _ => (CL.SUCCESS, fun _ => NULL);
     DeviceList.alloc_device := fun _ _ _ => true;
     DeviceList.device_name := fun _ _ _ => (CL.SUCCESS, "device") |}.

(** The same world, in which the array of platform identifiers cannot be
    allocated. *)
Definition unallocated_enumeration : DeviceList.answers :=
  {| DeviceList.platform_count := (CL.SUCCESS, 2);
     DeviceList.alloc_platform_ids := false;
     DeviceList.platform_ids := (CL.SUCCESS, fun i => 7 + Z.of_nat i);
     DeviceList.alloc_platform_node := true;
     DeviceList.alloc_devices_num := true;
     DeviceList.alloc_platform := fun _ => true;
     DeviceList.platform_name := fun _ => "vendor";
     DeviceList.device_count := fun _ _ => Some 0;
     DeviceList.alloc_device_node := fun _ => true;
     DeviceList.alloc_device_ids := fun _ _ => true;
     DeviceList.device_ids := fun _ _ => (CL.SUCCESS, fun _ => NULL);
     DeviceList.alloc_device := fun _ _ _ => true;
     DeviceList.device_name := fun _ _ _ => (CL.SUCCESS, "device") |}.

(** What [av_opencl_init] is answered in that world: [get_device_list]
    returns [AVERROR(ENOMEM)] and leaves a list that counts two platforms and
    has no array.  The state after a registration and this init. *)
Definition counted_list : AVOpenCLDeviceList :=
  {| platform_num := 2; platform_node := [] |}.

Definition unallocated_answers : init_answers :=
  {| ans_device_list := (AVERROR_ENOMEM, counted_list);
     ans_context := (11, CL.SUCCESS);
     ans_command_queue := (12, CL.SUCCESS);
     ans_compile := {| ans_malloc := true; ans_program := (21, CL.SUCCESS);
                       ans_build := CL.SUCCESS |} |}.

Definition failed_init_run : list call :=
  [register_kernel_code 1; init None unallocated_answers].

Definition failed_init_world : world := Eval vm_compute in world_after failed_init_run.

(** The list [get_device_list] builds in that world, and its log. *)
Definition sample_enumerated : DeviceList.list_mem := Eval vm_compute in match DeviceList.get_device_list sample_enumeration empty_list with Some (dl, _, _) => dl | None => empty_list end.

Definition sample_enumeration_log : trace := Eval vm_compute in match DeviceList.get_device_list sample_enumeration empty_list with Some (_, _, tr) => tr | None => [] end.

(** * Properties *)

(** ** The sample states are reached *)

Lemma full_registry_reached :
  sample_run (register_many 200)
  = Some ({| gpu_env := full_registry; openclutils := openclutils0 |},
          history_after (register_many 200)).
Proof. vm_compute. reflexivity. Qed.

(** All 502 calls of [fill_kernels] return 0. *)
Lemma full_kernels_reached :
  gpu_env <$> (fst <$> sample_run fill_kernels) = Some full_kernels
  ∧ forallb (fun x : entry => negb (ret_lt_0 x.1.2)) (history_after fill_kernels)
    = true.
Proof. split; vm_compute; reflexivity. Qed.

Lemma adopted_world_reached :
  fst <$> sample_run adopting_run = Some adopted_world.
Proof. vm_compute. reflexivity. Qed.

Lemma two_sources_reached :
  gpu_env <$> (fst <$> sample_run [register_kernel_code 1; register_kernel_code 2])
  = Some two_sources.
Proof. vm_compute. reflexivity. Qed.

(** ** Error translator *)

Lemma errstr_loop_known (tbl : list OpenclErrorMsg) (status : cl_int) (s : string) :
  ∀ (n i : nat),
    table_lookup (drop i tbl) status = Some s →
    (length tbl ≤ i + n)%nat →
    errstr_loop tbl status i n = Some s.
Proof.
  induction n as [|n IH]; intros i Hl Hn.
  - rewrite drop_ge in Hl by lia. discriminate.
  - simpl. destruct (tbl !! i) as [e|] eqn:He.
    + rewrite (drop_S _ _ _ He) in Hl. simpl in Hl.
      destruct (err_code e =? status); [exact Hl|].
      apply IH; [exact Hl | lia].
    + apply lookup_ge_None in He. rewrite drop_ge in Hl by lia. discriminate.
Qed.

Lemma errstr_loop_unknown (tbl : list OpenclErrorMsg) (status : cl_int) :
  ∀ (n i : nat),
    table_lookup (drop i tbl) status = None →
    (i ≤ length tbl)%nat →
    errstr_loop tbl status i n =
      if (i + n <=? length tbl)%nat then Some "unknown error" else None.
Proof.
  induction n as [|n IH]; intros i Hl Hi.
  - simpl. replace (i + 0)%nat with i by lia.
    destruct (Nat.leb_spec i (length tbl)); [reflexivity | lia].
  - simpl. destruct (tbl !! i) as [e|] eqn:He.
    + pose proof (lookup_lt_Some _ _ _ He) as Hlt.
      rewrite (drop_S _ _ _ He) in Hl. simpl in Hl.
      destruct (err_code e =? status); [discriminate|].
      rewrite (IH (S i) Hl Hlt).
      replace (i + S n)%nat with (S i + n)%nat by lia. reflexivity.
    + apply lookup_ge_None in He.
      destruct (Nat.leb_spec (i + S n) (length tbl)); [lia | reflexivity].
Qed.

(** A code of the table is translated to the string paired with it. *)
Lemma opencl_errstr_known (status : cl_int) (s : string) :
  table_lookup opencl_err_msg status = Some s → opencl_errstr status = Some s.
Proof.
  intros H. unfold opencl_errstr. apply errstr_loop_known; [exact H|].
  vm_compute. lia.
Qed.

(** A code that is not in the table makes the loop read [opencl_err_msg[58]]:
    the bound is the byte size of the table, not its number of entries. *)
Lemma opencl_errstr_unknown (status : cl_int) :
  table_lookup opencl_err_msg status = None → opencl_errstr status = None.
Proof.
  intros H. unfold opencl_errstr.
  rewrite errstr_loop_unknown; [reflexivity | exact H | simpl; lia].
Qed.

(** With the number of entries as its bound the same loop returns the fixed
    string for every code that is not in the table. *)
Lemma errstr_loop_with_entry_count (status : cl_int) :
  table_lookup opencl_err_msg status = None →
  errstr_loop opencl_err_msg status 0 (length opencl_err_msg) = Some "unknown error".
Proof.
  intros H. rewrite errstr_loop_unknown; [reflexivity | exact H | simpl; lia].
Qed.

(** Whatever the size of one entry, as long as it is more than one byte, the
    byte size of the table as loop bound makes the loop read past the table
    for a code that is not in it. *)
Lemma errstr_loop_byte_bound (status : cl_int) (entry_size : Z) :
  2 ≤ entry_size →
  table_lookup opencl_err_msg status = None →
  errstr_loop opencl_err_msg status 0
    (Z.to_nat (Z.of_nat (length opencl_err_msg) * entry_size)) = None.
Proof.
  intros Hs H. rewrite errstr_loop_unknown; [|exact H | simpl; lia].
  destruct (Nat.leb_spec
              (0 + Z.to_nat (Z.of_nat (length opencl_err_msg) * entry_size))
              (length opencl_err_msg)) as [Hle|]; [|reflexivity].
  simpl length in Hle. lia.
Qed.

(** C3 (defect): [CL_PLATFORM_NOT_FOUND_KHR] (-1001) is not in the message
    table, and [opencl_errstr] does not return "unknown error" for it: the loop
    runs up to [sizeof(opencl_err_msg)] = 928 and reads past the 58 entries of
    the table.  For a code of the table, e.g. [CL_INVALID_MEM_OBJECT], the
    paired string is returned. *)
Theorem opencl_errstr_reads_past_table :
  table_lookup opencl_err_msg CL.PLATFORM_NOT_FOUND_KHR = None
  ∧ opencl_errstr CL.PLATFORM_NOT_FOUND_KHR = None
  ∧ opencl_errstr CL.PLATFORM_NOT_FOUND_KHR ≠ Some "unknown error"
  ∧ opencl_errstr CL.INVALID_MEM_OBJECT = Some "INVALID MEM OBJECT".
Proof.
  assert (H : table_lookup opencl_err_msg CL.PLATFORM_NOT_FOUND_KHR = None)
    by reflexivity.
  split; [exact H|].
  rewrite (opencl_errstr_unknown _ H).
  split; [reflexivity|]. split; [discriminate|].
  apply opencl_errstr_known. reflexivity.
Qed.

(** ** Buffers *)

(** A [NULL] pointer makes [av_opencl_buffer_release] return at once. *)
Lemma buffer_release_null_pointer (status : cl_int) :
  av_opencl_buffer_release None status = (None, []).
Proof. reflexivity. Qed.

(** The sibling [av_opencl_release_kernel] tests the handle before it calls
    the runtime: on an empty handle it does nothing. *)
Lemma release_kernel_empty_handle (env : AVOpenCLKernelEnv) (status : cl_int)
    (g : GPUEnv) :
  kenv_kernel env = NULL →
  av_opencl_release_kernel env status g = (g, env, []).
Proof. intros H. unfold av_opencl_release_kernel. rewrite H. reflexivity. Qed.

(** C8 (defect): on a handle that holds no buffer, [av_opencl_buffer_release]
    is not a no-op: it calls [clReleaseMemObject(NULL)] whatever the handle
    holds, and logs the failure the runtime reports for the null object
    ([CL_INVALID_MEM_OBJECT]).  Only the [NULL] pointer is tested; afterwards
    the handle holds nothing. *)
Theorem buffer_release_empty_handle_calls_runtime :
  (∀ status, ∃ tr,
      av_opencl_buffer_release (Some NULL) status
      = (Some NULL, clReleaseMemObject NULL :: tr))
  ∧ av_opencl_buffer_release (Some NULL) CL.INVALID_MEM_OBJECT
    = (Some NULL,
       [clReleaseMemObject NULL;
        av_log AV_LOG_ERROR "Could not release OpenCL buffer: %s\n"
          [ArgErrstr (Some "INVALID MEM OBJECT")]])
  ∧ (∀ status, av_opencl_buffer_release None status = (None, [])).
Proof.
  split; [|split].
  - intros status. eexists. reflexivity.
  - reflexivity.
  - intros status. reflexivity.
Qed.

(** A plane count above 8 (negative counts included, by the cast to
    [unsigned int]) is rejected before anything else happens. *)
Lemma write_image_plane_count (map : ptr * cl_int) (unmap : cl_int) (g : GPUEnv)
    (dst_cl_buf : ptr) (cl_buffer_size dst_cl_offset : Z) (src_data : list ptr)
    (plane_size : list Z) (plane_num : Z) :
  8 < uint32 plane_num →
  av_opencl_buffer_write_image map unmap g dst_cl_buf cl_buffer_size
    dst_cl_offset src_data plane_size plane_num = Some (AVERROR_EINVAL, []).
Proof.
  intros H. unfold av_opencl_buffer_write_image.
  destruct (Z.gtb_spec (uint32 plane_num) 8); [reflexivity | lia].
Qed.

(** The capacity test compares the sum of the plane sizes alone with the
    declared size: a sum above it is rejected without mapping. *)
Lemma write_image_sum_too_large (map : ptr * cl_int) (unmap : cl_int) (g : GPUEnv)
    (dst_cl_buf : ptr) (cl_buffer_size dst_cl_offset : Z) (src_data : list ptr)
    (plane_size : list Z) (plane_num buffer_size : Z) :
  uint32 plane_num ≤ 8 →
  sum_plane_sizes plane_size 0 (Z.to_nat plane_num) 0 = Some buffer_size →
  cl_buffer_size < size_t buffer_size →
  ∃ tr, av_opencl_buffer_write_image map unmap g dst_cl_buf cl_buffer_size
          dst_cl_offset src_data plane_size plane_num = Some (AVERROR_EINVAL, tr)
        ∧ filter (fun e => is_map e = true) tr = [].
Proof.
  intros H8 Hs Hc. unfold av_opencl_buffer_write_image.
  destruct (Z.gtb_spec (uint32 plane_num) 8); [lia|].
  rewrite Hs. simpl.
  destruct (Z.gtb_spec (size_t buffer_size) cl_buffer_size); [|lia].
  eexists. split; reflexivity.
Qed.

(** C4 (defect): one plane of 10 bytes written at offset 5 into a buffer
    declared 10 bytes large needs 15 bytes.  The call is not rejected: the
    capacity test leaves [dst_cl_offset] out, the buffer is mapped for
    [buffer_size + dst_cl_offset] = 15 bytes and, when the runtime maps it,
    the plane is copied to bytes 5..14 and the call returns 0. *)
Theorem write_image_ignores_offset_in_capacity_test :
  ∀ (g : GPUEnv) (dst_cl_buf src mapped : ptr),
    (∀ (map : ptr * cl_int) (unmap : cl_int), ∃ r tr,
        av_opencl_buffer_write_image map unmap g dst_cl_buf 10 5 [src] [10] 1
        = Some (r, clEnqueueMapBuffer (command_queue g) dst_cl_buf CL.TRUE
                     CL.MAP_WRITE 0 15 :: tr)
        ∧ r ≠ AVERROR_EINVAL)
    ∧ av_opencl_buffer_write_image (mapped, CL.SUCCESS) CL.SUCCESS g dst_cl_buf
        10 5 [src] [10] 1
      = Some (RET_OK,
              [clEnqueueMapBuffer (command_queue g) dst_cl_buf CL.TRUE
                 CL.MAP_WRITE 0 15;
               memcpy (mapped + 5) src 10;
               clEnqueueUnmapMemObject (command_queue g) dst_cl_buf mapped]).
Proof.
  intros g dst_cl_buf src mapped. split; [|reflexivity].
  intros [m status] unmap. unfold av_opencl_buffer_write_image. simpl.
  destruct (status =? CL.SUCCESS); simpl.
  - destruct (unmap =? CL.SUCCESS); eexists _, _; (split; [reflexivity | discriminate]).
  - eexists _, _. split; [reflexivity | discriminate].
Qed.

(** ** Machine integers *)

Lemma int32_small (z : Z) : INT_MIN ≤ z ≤ INT_MAX → int32 z = z.
Proof.
  unfold INT_MIN, INT_MAX, int32. intros H.
  rewrite Z.mod_small by lia. lia.
Qed.

Lemma int32_range (z : Z) : INT_MIN ≤ int32 z ≤ INT_MAX.
Proof.
  unfold INT_MIN, INT_MAX, int32.
  pose proof (Z.mod_pos_bound (z + 2 ^ 31) (2 ^ 32) ltac:(lia)). lia.
Qed.

(** ** Kernel source registry *)

Lemma find_registered_true (kc : list KernelCode) (src : ptr) (j : nat)
    (c : KernelCode) :
  kc !! j = Some c → kernel_string c = src →
  ∀ (n i : nat), (i ≤ j < i + n)%nat → find_registered kc src i n = Some true.
Proof.
  intros Hj Hc. induction n as [|n IH]; intros i Hi; [lia|].
  simpl. destruct (kc !! i) as [d|] eqn:Hd.
  - simpl. destruct (Z.eqb_spec (kernel_string d) src) as [|Hne]; [reflexivity|].
    apply IH. destruct (decide (i = j)) as [->|]; [|lia].
    rewrite Hj in Hd. congruence.
  - apply lookup_ge_None in Hd. apply lookup_lt_Some in Hj. lia.
Qed.

Lemma find_registered_inv (kc : list KernelCode) (src : ptr) :
  ∀ (n i : nat), find_registered kc src i n = Some true →
    ∃ j c, (i ≤ j < i + n)%nat ∧ kc !! j = Some c ∧ kernel_string c = src.
Proof.
  induction n as [|n IH]; intros i H; [discriminate|].
  simpl in H. destruct (kc !! i) as [d|] eqn:Hd; [|discriminate]. simpl in H.
  destruct (Z.eqb_spec (kernel_string d) src) as [Heq|Hne].
  - exists i, d. split; [lia | split; assumption].
  - destruct (IH _ H) as (j & c & Hj & Hc & Hs).
    exists j, c. split; [lia | split; assumption].
Qed.

(** A full table rejects every registration and is left as it was. *)
Lemma register_full (g : GPUEnv) (src : ptr) :
  MAX_KERNEL_CODE_NUM ≤ kernel_code_count g →
  av_opencl_register_kernel_code src g
  = Some (g, AVERROR_EINVAL,
          [av_log AV_LOG_ERROR
             "Could not register kernel code, maximum number of registered kernel code %d already reached\n"
             [ArgInt MAX_KERNEL_CODE_NUM]]).
Proof.
  intros H. unfold av_opencl_register_kernel_code.
  destruct (Z.geb_spec (kernel_code_count g) MAX_KERNEL_CODE_NUM); [reflexivity | lia].
Qed.

(** Below capacity a registered pointer is found and nothing is changed. *)
Lemma register_duplicate (g : GPUEnv) (src : ptr) :
  registered g src → kernel_code_count g < MAX_KERNEL_CODE_NUM →
  av_opencl_register_kernel_code src g
  = Some (g, RET_OK,
          [av_log AV_LOG_WARNING "Same kernel code has been registered\n" []]).
Proof.
  intros (j & c & Hj & Hc & Hs) Hlt. unfold av_opencl_register_kernel_code.
  destruct (Z.geb_spec (kernel_code_count g) MAX_KERNEL_CODE_NUM); [lia|].
  rewrite (find_registered_true _ _ _ _ Hc Hs) by lia. reflexivity.
Qed.

(** A registration that succeeds leaves its pointer registered. *)
Lemma register_registers (g g' : GPUEnv) (src : ptr) (tr : trace) :
  av_opencl_register_kernel_code src g = Some (g', RET_OK, tr) →
  registered g' src.
Proof.
  unfold av_opencl_register_kernel_code.
  destruct (Z.geb_spec (kernel_code_count g) MAX_KERNEL_CODE_NUM) as [|Hlt];
    [discriminate|].
  destruct (find_registered _ _ _ _) as [[|]|] eqn:Hf; simpl; [| |discriminate].
  - intros [= <- <-]. apply find_registered_inv in Hf.
    destruct Hf as (j & c & Hj & Hc & Hs). exists j, c.
    split; [lia | split; assumption].
  - unfold arr_set.
    destruct (Z.ltb_spec (kernel_code_count g) 0) as [|Hge]; [discriminate|].
    destruct (Nat.ltb_spec (Z.to_nat (kernel_code_count g)) (length (kernel_code g)))
      as [Hin|]; [|discriminate].
    simpl. intros [= <- <-].
    exists (Z.to_nat (kernel_code_count g)), {| is_compiled := 0; kernel_string := src |}.
    simpl. rewrite int32_small by (unfold INT_MIN, INT_MAX, MAX_KERNEL_CODE_NUM in *; lia).
    split; [lia|]. split; [|reflexivity].
    apply list_lookup_insert_eq. exact Hin.
Qed.

(** C7 (as amended): registering a pointer that is already registered leaves
    the environment, hence the size and the content of the source table,
    unchanged in every state; it returns success whenever the table holds
    fewer than [MAX_KERNEL_CODE_NUM] (200) entries.  On a full table the
    capacity test, which comes first, rejects the call. *)
Theorem register_registered_source (g : GPUEnv) (src : ptr) :
  registered g src →
  ∃ r tr,
    av_opencl_register_kernel_code src g = Some (g, r, tr)
    ∧ (kernel_code_count g < MAX_KERNEL_CODE_NUM → r = RET_OK)
    ∧ (MAX_KERNEL_CODE_NUM ≤ kernel_code_count g → r = AVERROR_EINVAL).
Proof.
  intros Hreg.
  destruct (Z.lt_ge_cases (kernel_code_count g) MAX_KERNEL_CODE_NUM) as [Hlt|Hge].
  - eexists _, _. split; [apply register_duplicate; assumption|].
    split; [reflexivity | lia].
  - eexists _, _. split; [apply register_full; assumption|].
    split; [lia | reflexivity].
Qed.

Lemma full_registry_registered_1 : registered full_registry 1.
Proof.
  exists 0%nat, {| is_compiled := 0; kernel_string := 1 |}.
  split; [vm_compute; lia | split; reflexivity].
Qed.

(** Witness: pointer 1 registered twice in a row from the initial state. *)
Lemma register_registered_source_witness :
  registered (gpu_env (world_after [register_kernel_code 1])) 1
  ∧ ∃ r tr,
      av_opencl_register_kernel_code 1 (gpu_env (world_after [register_kernel_code 1]))
        = Some (gpu_env (world_after [register_kernel_code 1]), r, tr)
      ∧ (kernel_code_count (gpu_env (world_after [register_kernel_code 1]))
           < MAX_KERNEL_CODE_NUM → r = RET_OK)
      ∧ (MAX_KERNEL_CODE_NUM
           ≤ kernel_code_count (gpu_env (world_after [register_kernel_code 1]))
         → r = AVERROR_EINVAL).
Proof.
  assert (H : registered (gpu_env (world_after [register_kernel_code 1])) 1).
  { exists 0%nat, {| is_compiled := 0; kernel_string := 1 |}.
    split; [vm_compute; lia | split; reflexivity]. }
  split; [exact H|].
  exact (register_registered_source _ 1 H).
Defined.

(** Counterexample to C7 as stated: after 200 distinct registrations pointer 1
    is registered, and registering it again returns [AVERROR(EINVAL)]. *)
Lemma register_registered_source_full_table :
  ¬ (∀ (g : GPUEnv) (src : ptr),
        registered g src →
        ∃ tr, av_opencl_register_kernel_code src g = Some (g, RET_OK, tr)).
Proof.
  intros H. destruct (H full_registry 1 full_registry_registered_1) as [tr Htr].
  rewrite register_full in Htr by (vm_compute; discriminate).
  discriminate.
Qed.

(** ** Capacity limits *)

(** C6: with [MAX_KERNEL_CODE_NUM] (200) entries in the source table a further
    registration returns [AVERROR(EINVAL)] with the capacity diagnostic and
    leaves the environment unchanged; with [MAX_KERNEL_NUM] (500) live kernels
    [av_opencl_create_kernel] on an empty handle returns [AVERROR(EINVAL)],
    calls [clCreateKernel] not once and leaves the environment, live count
    included, and the handle unchanged; for a name that fits, the diagnostic
    is the capacity one. *)
Theorem capacity_limits (name_size : Z) (g1 g2 : GPUEnv) (src : ptr)
    (env : AVOpenCLKernelEnv) (kernel_name : string)
    (answers : nat -> ptr * cl_int) :
  kernel_code_count g1 = MAX_KERNEL_CODE_NUM →
  kernel_count g2 = MAX_KERNEL_NUM →
  kenv_kernel env = NULL →
  av_opencl_register_kernel_code src g1
  = Some (g1, AVERROR_EINVAL,
          [av_log AV_LOG_ERROR
             "Could not register kernel code, maximum number of registered kernel code %d already reached\n"
             [ArgInt MAX_KERNEL_CODE_NUM]])
  ∧ ∃ tr,
      av_opencl_create_kernel name_size env kernel_name answers g2
      = Some (g2, env, AVERROR_EINVAL, tr)
      ∧ filter (fun e => is_create_kernel e = true) tr = []
      ∧ (Z.of_nat (String.length kernel_name) + 1 ≤ name_size →
         tr = [av_log AV_LOG_ERROR
                 "Could not create kernel with name '%s', maximum number of kernels %d already reached\n"
                 [ArgStr kernel_name; ArgInt MAX_KERNEL_NUM]]).
Proof.
  intros H1 H2 He. split; [apply register_full; lia|].
  unfold av_opencl_create_kernel.
  destruct (Z.gtb_spec (Z.of_nat (String.length kernel_name) + 1) name_size).
  - eexists. split; [reflexivity|]. split; [reflexivity | lia].
  - rewrite He, H2. simpl. eexists. split; [reflexivity|].
    split; [reflexivity|]. intros _. reflexivity.
Qed.

(** Witness: the 201st distinct registration and the 501st kernel creation. *)
Lemma capacity_limits_witness :
  kernel_code_count full_registry = MAX_KERNEL_CODE_NUM
  ∧ kernel_count full_kernels = MAX_KERNEL_NUM
  ∧ av_opencl_register_kernel_code 201 full_registry
    = Some (full_registry, AVERROR_EINVAL,
            [av_log AV_LOG_ERROR
               "Could not register kernel code, maximum number of registered kernel code %d already reached\n"
               [ArgInt MAX_KERNEL_CODE_NUM]])
  ∧ ∃ tr,
      av_opencl_create_kernel sample_name_size empty_kernel_env "f"
        (fun _ => (31, CL.SUCCESS)) full_kernels
      = Some (full_kernels, empty_kernel_env, AVERROR_EINVAL, tr)
      ∧ filter (fun e => is_create_kernel e = true) tr = []
      ∧ (Z.of_nat (String.length "f") + 1 ≤ sample_name_size →
         tr = [av_log AV_LOG_ERROR
                 "Could not create kernel with name '%s', maximum number of kernels %d already reached\n"
                 [ArgStr "f"; ArgInt MAX_KERNEL_NUM]]).
Proof.
  split; [reflexivity|]. split; [reflexivity|].
  exact (capacity_limits sample_name_size full_registry full_kernels 201
           empty_kernel_env "f" (fun _ => (31, CL.SUCCESS))
           eq_refl eq_refl eq_refl).
Defined.

(** ** Traces and stages *)

Lemma no_event_nil (f : event -> bool) : no_event f [].
Proof. apply Forall_nil_2. Qed.

Lemma no_event_cons (f : event -> bool) (e : event) (tr : trace) :
  f e = false → no_event f tr → no_event f (e :: tr).
Proof. intros He Htr. apply Forall_cons_2; assumption. Qed.

Lemma no_event_app (f : event -> bool) (tr1 tr2 : trace) :
  no_event f tr1 → no_event f tr2 → no_event f (tr1 ++ tr2).
Proof. apply Forall_app_2. Qed.

Lemma no_event_log_failure (f : event -> bool) (status : cl_int) (fmt : string) :
  (∀ l m a, f (av_log l m a) = false) → no_event f (log_failure status fmt).
Proof.
  intros H. unfold log_failure. destruct (status =? CL.SUCCESS).
  - apply no_event_nil.
  - apply no_event_cons; [apply H | apply no_event_nil].
Qed.

Lemma no_event_some_event (f : event -> bool) (tr : trace) :
  no_event f tr → some_event f tr → False.
Proof.
  unfold no_event, some_event. rewrite Forall_forall, Exists_exists.
  intros Hn (e & He & Hf). specialize (Hn e He). congruence.
Qed.

(** Closes goals [no_event f tr] for a trace written out in the code. *)
Ltac quiet :=
  repeat first
    [ apply no_event_nil
    | apply no_event_log_failure; intros; reflexivity
    | apply no_event_cons; [reflexivity|]
    | apply no_event_app ].

Lemma ret_lt_0_false (r : av_ret) : ret_lt_0 r = false → r = RET_OK.
Proof. destruct r; [reflexivity | discriminate..]. Qed.

(** The two ways a sequence of stages returns. *)
Lemma and_then_inv (m : stage) (k : GPUEnv -> stage) (g' : GPUEnv) (r : av_ret)
    (tr : trace) :
  m >>> k = Some (g', r, tr) →
  (m = Some (g', r, tr) ∧ ret_lt_0 r = true)
  ∨ ∃ g1 tr1 tr2,
      m = Some (g1, RET_OK, tr1) ∧ k g1 = Some (g', r, tr2) ∧ tr = tr1 ++ tr2.
Proof.
  unfold and_then. destruct m as [[[g1 r1] tr1]|]; [|discriminate].
  destruct (ret_lt_0 r1) eqn:Hr.
  - intros [= <- <- <-]. left. split; [reflexivity | exact Hr].
  - apply ret_lt_0_false in Hr. subst r1.
    destruct (k g1) as [[[g2 r2] tr2]|] eqn:Hk; [|discriminate].
    intros [= <- <- <-]. right. exists g1, tr1, tr2.
    split; [reflexivity | split; [exact Hk | reflexivity]].
Qed.

Lemma and_then_sound (R : GPUEnv -> GPUEnv -> Prop) (T : trace -> Prop)
    (g : GPUEnv) (m : stage) (k : GPUEnv -> stage) :
  (∀ a b c, R a b → R b c → R a c) →
  (∀ t1 t2, T t1 → T t2 → T (t1 ++ t2)) →
  stage_sound R T g m →
  (∀ g1, stage_sound R T g1 (k g1)) →
  stage_sound R T g (m >>> k).
Proof.
  intros Htrans Happ Hm Hk g' r tr H.
  apply and_then_inv in H.
  destruct H as [[H _]|(g1 & tr1 & tr2 & H1 & H2 & ->)].
  - apply (Hm _ _ _ H).
  - destruct (Hm _ _ _ H1) as [HR1 HT1]. destruct (Hk _ _ _ _ H2) as [HR2 HT2].
    split; [exact (Htrans _ _ _ HR1 HR2) | exact (Happ _ _ HT1 HT2)].
Qed.

(** ** Uninit under external provenance *)

Lemma uninit_end_gpu_env (g : GPUEnv) (u : OpenclUtils) (tr : trace) :
  gpu_env (uninit_end g u tr).1 = g
  ∧ ((uninit_end g u tr).2 = tr ∨ (uninit_end g u tr).2 = tr ++ [av_opt_free]).
Proof.
  unfold uninit_end.
  destruct ((init_count g <=? 0) && (kernel_count g <=? 0)); simpl; auto.
Qed.

(** C2: when the environment was supplied by the caller
    ([is_user_created] set), [av_opencl_uninit] returns, for every value of the
    reference count, with the count decremented and every other field of
    [gpu_env] as it was; it calls no release function on the programs, the
    queue, the context or the device list: apart from the possible
    [av_opt_free] of the option block its trace is empty. *)
Theorem uninit_external_releases_nothing (a : uninit_answers) (w : world) :
  is_user_created (gpu_env w) ≠ 0 →
  ∃ w' tr,
    av_opencl_uninit a w = Some (w', tr)
    ∧ gpu_env w' = set_init_count (int32 (init_count (gpu_env w) - 1)) (gpu_env w)
    ∧ no_event is_release tr
    ∧ (tr = [] ∨ tr = [av_opt_free])
    ∧ platform_idx (gpu_env w') = platform_idx (gpu_env w)
    ∧ device_idx (gpu_env w') = device_idx (gpu_env w)
    ∧ platform_id (gpu_env w') = platform_id (gpu_env w)
    ∧ device_type (gpu_env w') = device_type (gpu_env w)
    ∧ context (gpu_env w') = context (gpu_env w)
    ∧ device_id (gpu_env w') = device_id (gpu_env w)
    ∧ command_queue (gpu_env w') = command_queue (gpu_env w)
    ∧ program_count (gpu_env w') = program_count (gpu_env w)
    ∧ programs (gpu_env w') = programs (gpu_env w)
    ∧ kernel_code_count (gpu_env w') = kernel_code_count (gpu_env w)
    ∧ kernel_code (gpu_env w') = kernel_code (gpu_env w)
    ∧ kernel_count (gpu_env w') = kernel_count (gpu_env w)
    ∧ is_user_created (gpu_env w') = is_user_created (gpu_env w)
    ∧ device_list (gpu_env w') = device_list (gpu_env w).
Proof.
  intros Hu. unfold av_opencl_uninit. simpl.
  destruct (Z.eqb_spec (is_user_created (gpu_env w)) 0) as [|_]; [contradiction|].
  simpl.
  destruct (uninit_end_gpu_env
              (set_init_count (int32 (init_count (gpu_env w) - 1)) (gpu_env w))
              (openclutils w) []) as [Hg Ht].
  destruct (uninit_end _ _ _) as [w' tr]. simpl in Hg, Ht.
  exists w', tr. split; [reflexivity|].
  rewrite Hg. split; [reflexivity|].
  split.
  { destruct Ht as [->| ->]; quiet. }
  split; [exact Ht|].
  repeat split.
Qed.

(** Witness: a caller-supplied environment, initialised once, then
    uninitialised. *)
Lemma uninit_external_releases_nothing_witness :
  let w := world_after [register_kernel_code 1;
                        init (Some sample_external_env) sample_init_answers] in
  is_user_created (gpu_env w) ≠ 0
  ∧ ∃ w' tr,
      av_opencl_uninit sample_uninit_answers w = Some (w', tr)
      ∧ gpu_env w' = set_init_count (int32 (init_count (gpu_env w) - 1)) (gpu_env w)
      ∧ no_event is_release tr.
Proof.
  intros w.
  assert (H : is_user_created (gpu_env w) ≠ 0) by (vm_compute; discriminate).
  split; [exact H|].
  destruct (uninit_external_releases_nothing sample_uninit_answers w H)
    as (w' & tr & H1 & H2 & H3 & _).
  exists w', tr. split; [exact H1 | split; [exact H2 | exact H3]].
Defined.

(** ** Frames of the stages of init *)

Lemma setup_frame_refl (g : GPUEnv) : setup_frame g g.
Proof. repeat split. Qed.

Lemma setup_frame_trans (a b c : GPUEnv) :
  setup_frame a b → setup_frame b c → setup_frame a c.
Proof.
  unfold setup_frame. intros (?&?&?&?&?&?) (?&?&?&?&?&?).
  repeat split; congruence.
Qed.

Lemma first_usable_platform_frame (nodes : list AVOpenCLPlatformNode) (g : GPUEnv) :
  ∀ (n i : nat) (g' : GPUEnv),
    first_usable_platform nodes i n g = Some g' → setup_frame g g'.
Proof.
  induction n as [|n IH]; intros i g' H; simpl in H.
  - injection H as <-. apply setup_frame_refl.
  - destruct (nodes !! i) as [node|]; [|discriminate]. simpl in H.
    destruct (pn_device_num node =? 0).
    + exact (IH _ _ H).
    + injection H as <-. repeat split.
Qed.

(** Leaves of a stage: every [return] of the code is inspected. *)
Ltac stage_leaves H :=
  repeat match type of H with
         | context [if ?b then _ else _] => destruct b
         | context [let '(_, _) := ?p in _] => destruct p
         | context [mbind _ ?m] => destruct m; simpl in H
         | fail_with _ _ _ = Some _ => unfold fail_with in H
         | proceed _ = Some _ => unfold proceed in H
         | None = Some _ => discriminate H
         | Some _ = Some _ => injection H as <- <- <-
         end.

Lemma select_platform_sound (g : GPUEnv) :
  stage_sound setup_frame (no_event is_release) g (select_platform g).
Proof.
  unfold select_platform.
  apply and_then_sound;
    [exact setup_frame_trans | apply no_event_app | |].
  - intros g' r tr H.
    destruct (platform_idx g >=? 0).
    + stage_leaves H; (split; [repeat split | quiet]).
    + destruct (first_usable_platform _ _ _ _) as [g1|] eqn:Hf; [|discriminate].
      simpl in H. unfold proceed in H. injection H as <- <- <-.
      split; [exact (first_usable_platform_frame _ _ _ _ _ Hf) | quiet].
  - intros g1 g' r tr H.
    stage_leaves H; (split; [repeat split | quiet]).
Qed.

Lemma select_device_sound (g : GPUEnv) :
  stage_sound setup_frame (no_event is_release) g (select_device g).
Proof.
  unfold select_device.
  apply and_then_sound;
    [exact setup_frame_trans | apply no_event_app | |].
  - intros g' r tr H.
    stage_leaves H; (split; [repeat split | quiet]).
  - intros g1 g' r tr H.
    stage_leaves H; (split; [repeat split | quiet]).
Qed.

Lemma create_context_and_queue_sound (a : init_answers) (g : GPUEnv) :
  stage_sound setup_frame (no_event is_release) g (create_context_and_queue a g).
Proof.
  intros g' r tr H. unfold create_context_and_queue in H.
  stage_leaves H; (split; [repeat split | quiet]).
Qed.

(** [init_opencl_env] leaves counters and tables alone and releases nothing;
    on an environment supplied by the caller it does nothing at all. *)
Lemma init_opencl_env_sound (ext : option AVOpenCLExternalEnv) (a : init_answers)
    (g g' : GPUEnv) (r : av_ret) (tr : trace) :
  init_opencl_env ext a g = Some (g', r, tr) →
  setup_frame g g' ∧ no_event is_release tr
  ∧ (is_user_created g ≠ 0 → g' = g ∧ r = RET_OK ∧ tr = []).
Proof.
  unfold init_opencl_env. intros H.
  destruct (Z.eqb_spec (is_user_created g) 0) as [Hu|Hu].
  - assert (setup_frame g g' ∧ no_event is_release tr) as [H1 H2].
    { destruct ext as [ext|].
      - unfold proceed in H. injection H as <- <- <-. split; [repeat split | quiet].
      - revert g' r tr H.
        repeat (apply and_then_sound;
                [exact setup_frame_trans | apply no_event_app | |]).
        + intros g' r tr H.
          stage_leaves H; (split; [repeat split | quiet]).
        + apply select_platform_sound.
        + apply select_device_sound.
        + apply create_context_and_queue_sound. }
    split; [exact H1|]. split; [exact H2|]. intros; contradiction.
  - assert (g' = g ∧ r = RET_OK ∧ tr = []) as (-> & -> & ->).
    { destruct ext; unfold proceed in H; injection H as <- <- <-; repeat split. }
    split; [apply setup_frame_refl|]. split; [quiet|]. intros _. repeat split.
Qed.

(** ** The compiler pass *)

Lemma flags_kept_refl (kc : list KernelCode) : flags_kept kc kc.
Proof. split; [reflexivity|]. intros i c H. exists c. auto. Qed.

Lemma flags_kept_trans (a b c : list KernelCode) :
  flags_kept a b → flags_kept b c → flags_kept a c.
Proof.
  intros [Hl1 H1] [Hl2 H2]. split; [congruence|].
  intros i x Hx. destruct (H1 _ _ Hx) as (y & Hy & Hs1 & Hk1).
  destruct (H2 _ _ Hy) as (z & Hz & Hs2 & Hk2).
  exists z. split; [exact Hz|]. split; [congruence|].
  intros Hc. specialize (Hk1 Hc). subst y. exact (Hk2 Hc).
Qed.

Lemma flags_kept_mark (kc : list KernelCode) (i : nat) (c : KernelCode) :
  kc !! i = Some c → is_compiled c = 0 →
  flags_kept kc (<[i := set_is_compiled 1 c]> kc).
Proof.
  intros Hi Hc. split; [apply length_insert|].
  intros j d Hj. destruct (decide (i = j)) as [->|Hne].
  - rewrite Hi in Hj. injection Hj as <-.
    exists (set_is_compiled 1 c).
    split; [apply list_lookup_insert_eq; eapply lookup_lt_Some; eassumption|].
    split; [reflexivity | intros; contradiction].
  - exists d. rewrite list_lookup_insert_ne by assumption. auto.
Qed.

Section SourcesFacts.

Variable cstring : ptr -> option string.

Lemma concat_loop_flags_kept :
  ∀ (n : nat) (kc : list KernelCode) (i : nat) (acc : string)
    (kc' : list KernelCode) (src : string),
    concat_loop cstring kc i n acc = Some (kc', src) → flags_kept kc kc'.
Proof.
  induction n as [|n IH]; intros kc i acc kc' src H; simpl in H.
  - injection H as <- <-. apply flags_kept_refl.
  - destruct (kc !! i) as [c|] eqn:Hc; [|discriminate]. simpl in H.
    destruct (Z.eqb_spec (is_compiled c) 0) as [Hz|Hz].
    + destruct (cstring (kernel_string c)); [|discriminate]. simpl in H.
      eapply flags_kept_trans; [apply (flags_kept_mark _ _ _ Hc Hz)|].
      exact (IH _ _ _ _ _ H).
    + exact (IH _ _ _ _ _ H).
Qed.

(** After the second loop every entry it visited has its flag set. *)
Lemma concat_loop_marks :
  ∀ (n : nat) (kc : list KernelCode) (i : nat) (acc : string)
    (kc' : list KernelCode) (src : string),
    concat_loop cstring kc i n acc = Some (kc', src) →
    ∀ j, (i ≤ j < i + n)%nat →
      ∃ c', kc' !! j = Some c' ∧ is_compiled c' ≠ 0.
Proof.
  induction n as [|n IH]; intros kc i acc kc' src H j Hj; [lia|].
  simpl in H.
  destruct (kc !! i) as [c|] eqn:Hc; [|discriminate]. simpl in H.
  destruct (decide (j = i)) as [->|Hne].
  - (* the entry at [i] is set now and kept by the rest of the loop *)
    destruct (Z.eqb_spec (is_compiled c) 0) as [Hz|Hz].
    + destruct (cstring (kernel_string c)); [|discriminate]. simpl in H.
      destruct (concat_loop_flags_kept _ _ _ _ _ _ H) as [_ Hk].
      destruct (Hk i (set_is_compiled 1 c)) as (c' & Hc' & _ & Heq).
      { apply list_lookup_insert_eq. eapply lookup_lt_Some; eassumption. }
      exists c'. split; [exact Hc'|]. rewrite Heq; simpl; discriminate.
    + destruct (concat_loop_flags_kept _ _ _ _ _ _ H) as [_ Hk].
      destruct (Hk i c Hc) as (c' & Hc' & _ & Heq).
      exists c'. split; [exact Hc'|]. rewrite (Heq Hz). exact Hz.
  - destruct (is_compiled c =? 0).
    + destruct (cstring (kernel_string c)); [|discriminate]. simpl in H.
      apply (IH _ _ _ _ _ H). lia.
    + apply (IH _ _ _ _ _ H). lia.
Qed.

Lemma compile_frame_refl (g : GPUEnv) : compile_frame g g.
Proof. unfold compile_frame. split_and!; try reflexivity. apply flags_kept_refl. Qed.

Lemma compile_kernel_file_sound (a : compile_answers) (bo : option string)
    (g : GPUEnv) :
  stage_sound compile_frame
    (fun tr => no_event is_release tr ∧ no_event is_discovery_or_creation tr)
    g (compile_kernel_file cstring a bo g).
Proof.
  intros g' r tr H. unfold compile_kernel_file in H.
  destruct (source_len_loop _ _ _ _ _) as [len|]; [|discriminate]. simpl in H.
  destruct (len =? 0).
  { unfold proceed in H. injection H as <- <- <-.
    split; [apply compile_frame_refl | split; quiet]. }
  destruct (negb (ans_malloc a)).
  { unfold fail_with in H. injection H as <- <- <-.
    split; [apply compile_frame_refl | split; quiet]. }
  destruct (concat_loop _ _ _ _ _) as [[kc src]|] eqn:Hloop; [|discriminate].
  simpl in H. apply concat_loop_flags_kept in Hloop.
  destruct (ans_program a) as [prog status].
  destruct (arr_set _ _ _) as [progs|]; [|discriminate]. simpl in H.
  assert (Hf : ∀ g1, g1 = set_programs progs (set_kernel_code kc g)
                     ∨ g1 = set_program_count
                              (int32 (program_count (set_programs progs (set_kernel_code kc g)) + 1))
                              (set_programs progs (set_kernel_code kc g)) →
                     compile_frame g g1).
  { intros g1 [-> | ->]; unfold compile_frame; simpl;
      (split_and!; try reflexivity; exact Hloop). }
  stage_leaves H;
    (split; [apply Hf; auto | split; quiet]).
Qed.

(** When a pass reports [AVERROR_EXTERNAL] (program creation or the build
    failed) the program count is what it was and every entry below
    [kernel_code_count] is marked compiled. *)
Lemma compile_kernel_file_failure (a : compile_answers) (bo : option string)
    (g g' : GPUEnv) (tr : trace) :
  compile_kernel_file cstring a bo g = Some (g', AVERROR_EXTERNAL, tr) →
  program_count g' = program_count g
  ∧ ∀ j, (j < Z.to_nat (kernel_code_count g))%nat →
      ∃ c', kernel_code g' !! j = Some c' ∧ is_compiled c' ≠ 0.
Proof.
  intros H. unfold compile_kernel_file in H.
  destruct (source_len_loop _ _ _ _ _) as [len|]; [|discriminate]. simpl in H.
  destruct (len =? 0); [discriminate|].
  destruct (negb (ans_malloc a)); [discriminate|].
  destruct (concat_loop _ _ _ _ _) as [[kc src]|] eqn:Hloop; [|discriminate].
  simpl in H.
  pose proof (concat_loop_marks _ _ _ _ _ _ Hloop) as Hm.
  destruct (ans_program a) as [prog status].
  destruct (arr_set _ _ _) as [progs|]; [|discriminate]. simpl in H.
  stage_leaves H; simplify_eq; simpl;
    (split; [reflexivity | intros j Hj; apply Hm; lia]).
Qed.

End SourcesFacts.

(** ** Frames of the entry points *)

Lemma user_same_refl (g : GPUEnv) : user_same g g.
Proof. repeat split. Qed.

Lemma user_same_trans (a b c : GPUEnv) : user_same a b → user_same b c → user_same a c.
Proof.
  unfold user_same. intros (?&?&?&?&?&?) (?&?&?&?&?&?). repeat split; congruence.
Qed.

Lemma compiled_at_flags_kept (g g' : GPUEnv) (i : nat) :
  kernel_code_count g' = kernel_code_count g →
  flags_kept (kernel_code g) (kernel_code g') →
  compiled_at g i → compiled_at g' i.
Proof.
  intros Hc [_ Hk] [Hi (c & Hl & Hz)]. split; [rewrite Hc; exact Hi|].
  destruct (Hk _ _ Hl) as (c' & Hl' & _ & Heq).
  exists c'. split; [exact Hl'|]. rewrite (Heq Hz). exact Hz.
Qed.

Lemma register_frame (src : ptr) (g g' : GPUEnv) (r : av_ret) (tr : trace) :
  av_opencl_register_kernel_code src g = Some (g', r, tr) →
  init_count g' = init_count g
  ∧ kernel_count g' = kernel_count g
  ∧ user_same g g'
  ∧ (∀ i, compiled_at g i → compiled_at g' i)
  ∧ no_event is_release tr
  ∧ no_event is_discovery_or_creation tr.
Proof.
  unfold av_opencl_register_kernel_code. intros H.
  destruct (Z.geb_spec (kernel_code_count g) MAX_KERNEL_CODE_NUM) as [|Hlt].
  { unfold fail_with in H. simplify_eq. split_and!; auto using user_same_refl; quiet. }
  destruct (find_registered _ _ _ _) as [[|]|]; simpl in H; [| |discriminate].
  { simplify_eq. split_and!; auto using user_same_refl; quiet. }
  unfold arr_set in H.
  destruct (Z.ltb_spec (kernel_code_count g) 0) as [|Hge]; [discriminate|].
  destruct (Nat.ltb_spec (Z.to_nat (kernel_code_count g)) (length (kernel_code g)));
    [|discriminate].
  simpl in H. simplify_eq. simpl.
  split_and!; try reflexivity; try quiet; [repeat split|].
  intros i [Hi (c & Hc & Hz)]. split; simpl.
  - rewrite int32_small by (unfold INT_MIN, INT_MAX, MAX_KERNEL_CODE_NUM in *; lia). lia.
  - exists c. rewrite list_lookup_insert_ne by lia. auto.
Qed.

Lemma create_kernel_loop_quiet (answers : nat -> ptr * cl_int) (progs : list ptr)
    (kernel_name : string) :
  ∀ (n i : nat) (k : ptr) (st : option cl_int) (k' : ptr) (st' : option cl_int)
    (tr' : trace),
    create_kernel_loop answers progs kernel_name i n k st = Some (k', st', tr') →
    no_event is_release tr' ∧ no_event is_discovery_or_creation tr'.
Proof.
  induction n as [|n IH]; intros i k st k' st' tr' Hl; simpl in Hl.
  - simplify_eq. split; quiet.
  - destruct (progs !! i) as [p|]; simpl in Hl; [|discriminate].
    destruct (answers i) as [k1 st1].
    destruct (st1 =? CL.SUCCESS).
    + simplify_eq. split; quiet.
    + destruct (create_kernel_loop answers progs kernel_name (S i) n k1 (Some st1))
        as [[[k2 st2] tr2]|] eqn:Hr; simpl in Hl; [|discriminate].
      simplify_eq. destruct (IH _ _ _ _ _ _ Hr).
      split; apply no_event_cons; auto.
Qed.

Lemma create_kernel_frame (name_size : Z) (env env' : AVOpenCLKernelEnv)
    (kernel_name : string) (answers : nat -> ptr * cl_int) (g g' : GPUEnv)
    (r : av_ret) (tr : trace) :
  av_opencl_create_kernel name_size env kernel_name answers g = Some (g', env', r, tr) →
  (g' = g ∨ g' = set_kernel_count (int32 (kernel_count g + 1)) g)
  ∧ no_event is_release tr
  ∧ no_event is_discovery_or_creation tr.
Proof.
  unfold av_opencl_create_kernel. intros H.
  destruct (_ >? name_size); [simplify_eq; split_and!; auto; quiet|].
  destruct (kenv_kernel env =? NULL); [|simplify_eq; split_and!; auto; quiet].
  destruct (kernel_count g >=? MAX_KERNEL_NUM); [simplify_eq; split_and!; auto; quiet|].
  destruct (program_count g =? 0); [simplify_eq; split_and!; auto; quiet|].
  destruct (create_kernel_loop _ _ _ _ _ _ _) as [[[k st] tr1]|] eqn:Hr;
    simpl in H; [|discriminate].
  destruct st as [st|]; simpl in H; [|discriminate].
  destruct (create_kernel_loop_quiet _ _ _ _ _ _ _ _ _ _ Hr) as [Hq1 Hq2].
  destruct (st =? CL.SUCCESS); simplify_eq.
  - split_and!; auto.
  - split_and!; auto; apply no_event_app; auto; quiet.
Qed.

Lemma release_kernel_frame (env env' : AVOpenCLKernelEnv) (status : cl_int)
    (g g' : GPUEnv) (tr : trace) :
  av_opencl_release_kernel env status g = (g', env', tr) →
  (g' = g ∨ g' = set_kernel_count (int32 (kernel_count g - 1)) g)
  ∧ no_event is_release tr
  ∧ no_event is_discovery_or_creation tr.
Proof.
  unfold av_opencl_release_kernel. intros H.
  destruct (kenv_kernel env =? NULL); simplify_eq; split_and!; auto; quiet.
Qed.

Section InitFacts.

Variable cstring : ptr -> option string.

Lemma init_compile_sound (a : init_answers) (u : OpenclUtils) (g g' : GPUEnv)
    (r : av_ret) (tr : trace) :
  init_compile cstring a u g = Some (g', r, tr) →
  init_count g' = next_init_count (init None a) r (init_count g)
  ∧ kernel_count g' = kernel_count g
  ∧ kernel_code_count g' = kernel_code_count g
  ∧ flags_kept (kernel_code g) (kernel_code g')
  ∧ user_same g g'
  ∧ no_event is_release tr
  ∧ no_event is_discovery_or_creation tr.
Proof.
  unfold init_compile. intros H. apply and_then_inv in H.
  destruct H as [[H Hr]|(g1 & tr1 & tr2 & H1 & H2 & ->)].
  - destruct (compile_kernel_file_sound _ _ _ _ _ _ _ H)
      as [(?&?&?&?&?&?&?&?&?&?&?) [? ?]].
    split_and!; try assumption; [|repeat split; assumption].
    destruct r; [discriminate | assumption..].
  - destruct (compile_kernel_file_sound _ _ _ _ _ _ _ H1)
      as [(?&?&?&?&?&?&?&?&?&?&?) [? ?]].
    destruct (kernel_code_count g1 <=? 0).
    + unfold fail_with in H2. simplify_eq. simpl.
      split_and!; try assumption; [repeat split; assumption | |];
        apply no_event_app; auto; quiet.
    + unfold proceed in H2. simplify_eq. simpl.
      split_and!; try assumption; [congruence | repeat split; assumption | |];
        apply no_event_app; auto; quiet.
Qed.

Lemma av_opencl_init_sound (ext : option AVOpenCLExternalEnv) (a : init_answers)
    (w w' : world) (r : av_ret) (tr : trace) :
  av_opencl_init cstring ext a w = Some (w', r, tr) →
  init_count (gpu_env w') = next_init_count (init ext a) r (init_count (gpu_env w))
  ∧ kernel_count (gpu_env w') = kernel_count (gpu_env w)
  ∧ kernel_code_count (gpu_env w') = kernel_code_count (gpu_env w)
  ∧ flags_kept (kernel_code (gpu_env w)) (kernel_code (gpu_env w'))
  ∧ (is_user_created (gpu_env w) ≠ 0 →
     user_same (gpu_env w) (gpu_env w') ∧ no_event is_discovery_or_creation tr)
  ∧ no_event is_release tr.
Proof.
  unfold av_opencl_init. intros H.
  destruct (init_count (gpu_env w) =? 0).
  - destruct (ensure_defaults (openclutils w)) as [u tr0] eqn:Hd.
    assert (Hq0 : no_event is_release tr0 ∧ no_event is_discovery_or_creation tr0).
    { unfold ensure_defaults in Hd. destruct (init_flag _ =? 0); simplify_eq; split; quiet. }
    destruct Hq0 as [Hq0 Hq0'].
    set (g0 := set_platform_idx (opt_platform_idx u)
                 (set_device_idx (opt_device_idx u) (gpu_env w))) in H.
    destruct (init_opencl_env ext a g0 >>> init_compile cstring a u)
      as [[[g1 r1] tr1]|] eqn:Hs; [|discriminate].
    simpl in H. simplify_eq. simpl.
    apply and_then_inv in Hs.
    destruct Hs as [[Hs Hr]|(g2 & tr2 & tr3 & Hs1 & Hs2 & ->)].
    + destruct (init_opencl_env_sound _ _ _ _ _ _ Hs) as ((?&?&?&Hkc&?&?) & ? & Hu).
      split_and!; try assumption.
      * destruct r; [discriminate | assumption..].
      * rewrite Hkc. apply flags_kept_refl.
      * intros Hne. destruct (Hu Hne) as (-> & -> & ->). discriminate.
      * apply no_event_app; assumption.
    + destruct (init_opencl_env_sound _ _ _ _ _ _ Hs1) as ((?&?&?&Hkc&?&?) & ? & Hu).
      destruct (init_compile_sound _ _ _ _ _ _ Hs2) as (Hic&?&?&Hf&?&?&?).
      simpl in *. split_and!.
      * rewrite Hic, H. reflexivity.
      * congruence.
      * congruence.
      * rewrite Hkc in Hf. exact Hf.
      * intros Hne. destruct (Hu Hne) as (-> & _ & ->).
        split; [assumption|]. apply no_event_app; [assumption|].
        apply no_event_app; [quiet | assumption].
      * apply no_event_app; [assumption|]. apply no_event_app; assumption.
  - destruct (init_compile cstring a (openclutils w) (gpu_env w))
      as [[[g1 r1] tr1]|] eqn:Hs; [|discriminate].
    simpl in H. simplify_eq. simpl.
    destruct (init_compile_sound _ _ _ _ _ _ Hs) as (?&?&?&?&?&?&?).
    split_and!; try assumption. intros _. split; assumption.
Qed.

End InitFacts.

(** ** Uninit *)

Lemma release_programs_no_discovery (status : nat -> cl_int) :
  ∀ (n i : nat) (progs progs' : list ptr) (tr : trace),
    release_programs status progs i n = Some (progs', tr) →
    no_event is_discovery_or_creation tr.
Proof.
  induction n as [|n IH]; intros i progs progs' tr H; simpl in H.
  - simplify_eq. quiet.
  - destruct (progs !! i) as [p|]; simpl in H; [|discriminate].
    destruct (p =? NULL); [exact (IH _ _ _ _ H)|].
    destruct (release_programs status (<[i:=NULL]> progs) (S i) n)
      as [[progs1 tr1]|] eqn:Hr; simpl in H; [|discriminate].
    simplify_eq. apply no_event_cons; [reflexivity|].
    apply no_event_app; [quiet | exact (IH _ _ _ _ Hr)].
Qed.

Lemma uninit_end_trace (g : GPUEnv) (u : OpenclUtils) (tr : trace)
    (f : event -> bool) :
  f av_opt_free = false → no_event f tr → no_event f (uninit_end g u tr).2.
Proof.
  intros Hf Htr. destruct (uninit_end_gpu_env g u tr) as [_ [-> | ->]];
    [exact Htr|].
  apply no_event_app; [exact Htr|]. apply no_event_cons; [exact Hf | apply no_event_nil].
Qed.

(** The gate is closed: the environment is supplied by the caller, or the
    decremented count is still positive, or a kernel is live.  Then
    [av_opencl_uninit] only stores the decremented count. *)
Lemma uninit_closed_gate (a : uninit_answers) (w : world) :
  is_user_created (gpu_env w) ≠ 0
  ∨ 0 < int32 (init_count (gpu_env w) - 1)
  ∨ 0 < kernel_count (gpu_env w) →
  ∃ w' tr,
    av_opencl_uninit a w = Some (w', tr)
    ∧ gpu_env w' = set_init_count (int32 (init_count (gpu_env w) - 1)) (gpu_env w)
    ∧ (tr = [] ∨ tr = [av_opt_free]).
Proof.
  intros Hgate. unfold av_opencl_uninit. simpl.
  set (g := set_init_count (int32 (init_count (gpu_env w) - 1)) (gpu_env w)).
  destruct (uninit_end_gpu_env g (openclutils w) []) as [Hg Ht].
  destruct (uninit_end g (openclutils w) []) as [w' tr] eqn:He. simpl in Hg, Ht.
  exists w', tr.
  destruct (Z.eqb_spec (is_user_created (gpu_env w)) 0) as [Hu|Hu]; simpl.
  - destruct (Z.gtb_spec (int32 (init_count (gpu_env w) - 1)) 0);
      destruct (Z.gtb_spec (kernel_count (gpu_env w)) 0); simpl;
      try (split; [reflexivity | split; assumption]).
    lia.
  - split; [reflexivity | split; assumption].
Qed.

Lemma release_command_queue_spec (status : cl_int) (g g' : GPUEnv) (tr : trace) :
  release_command_queue status g = (g', tr) →
  g' = set_command_queue NULL g
  ∧ command_queue g' = NULL
  ∧ (command_queue g ≠ NULL → clReleaseCommandQueue (command_queue g) ∈ tr)
  ∧ no_event is_discovery_or_creation tr.
Proof.
  unfold release_command_queue.
  destruct (Z.eqb_spec (command_queue g) NULL) as [Hq|Hq]; intros [= <- <-].
  - split_and!; [rewrite <- Hq; destruct g; reflexivity | assumption | contradiction | quiet].
  - split_and!; [reflexivity | reflexivity | intros _; apply list_elem_of_here | quiet].
Qed.

Lemma release_context_spec (status : cl_int) (g g' : GPUEnv) (tr : trace) :
  release_context status g = (g', tr) →
  g' = set_context NULL g
  ∧ context g' = NULL
  ∧ (context g ≠ NULL → clReleaseContext (context g) ∈ tr)
  ∧ no_event is_discovery_or_creation tr.
Proof.
  unfold release_context.
  destruct (Z.eqb_spec (context g) NULL) as [Hq|Hq]; intros [= <- <-].
  - split_and!; [rewrite <- Hq; destruct g; reflexivity | assumption | contradiction | quiet].
  - split_and!; [reflexivity | reflexivity | intros _; apply list_elem_of_here | quiet].
Qed.

(** The gate is open: the environment is self-owned, the decremented count is
    not positive and no kernel is live.  Then the queue and the context are
    released if they are set, every program below [program_count] that is
    set is released, and the device list is freed. *)
Lemma uninit_open_gate (a : uninit_answers) (w w' : world) (tr : trace) :
  is_user_created (gpu_env w) = 0 →
  int32 (init_count (gpu_env w) - 1) ≤ 0 →
  kernel_count (gpu_env w) ≤ 0 →
  av_opencl_uninit a w = Some (w', tr) →
  init_count (gpu_env w') = int32 (init_count (gpu_env w) - 1)
  ∧ kernel_count (gpu_env w') = kernel_count (gpu_env w)
  ∧ kernel_code_count (gpu_env w') = kernel_code_count (gpu_env w)
  ∧ kernel_code (gpu_env w') = kernel_code (gpu_env w)
  ∧ is_user_created (gpu_env w') = 0
  ∧ command_queue (gpu_env w') = NULL
  ∧ context (gpu_env w') = NULL
  ∧ device_list (gpu_env w') = freed_device_list
  ∧ some_event is_release tr
  ∧ (command_queue (gpu_env w) ≠ NULL →
     clReleaseCommandQueue (command_queue (gpu_env w)) ∈ tr)
  ∧ (context (gpu_env w) ≠ NULL → clReleaseContext (context (gpu_env w)) ∈ tr)
  ∧ no_event is_discovery_or_creation tr.
Proof.
  intros Hu Hc Hk. unfold av_opencl_uninit. simpl. rewrite Hu. simpl.
  destruct (Z.gtb_spec (int32 (init_count (gpu_env w) - 1)) 0); [lia|].
  destruct (Z.gtb_spec (kernel_count (gpu_env w)) 0); [lia|]. simpl.
  destruct (release_programs _ _ _ _) as [[progs tr1]|] eqn:Hr; simpl; [|discriminate].
  pose proof (release_programs_no_discovery _ _ _ _ _ _ Hr) as Hd1.
  destruct (release_command_queue _ _) as [g2 tr2] eqn:Hq.
  apply release_command_queue_spec in Hq. destruct Hq as (-> & _ & Hq & Hd2).
  destruct (release_context _ _) as [g3 tr3] eqn:Hx.
  apply release_context_spec in Hx. destruct Hx as (-> & _ & Hx & Hd3).
  simpl in Hq, Hx.
  destruct (walk_device_list _) as [[]|]; simpl; [|discriminate].
  match goal with
  | |- Some (uninit_end ?g ?u ?t) = _ → _ =>
      destruct (uninit_end_gpu_env g u t) as [Hg Ht];
      pose proof (uninit_end_trace g u t is_discovery_or_creation eq_refl) as Hd;
      destruct (uninit_end g u t) as [w1 t1]; simpl in Hg, Ht, Hd
  end.
  intros [= <- <-]. rewrite Hg. simpl.
  assert (Hsub : ∀ e, e ∈ tr1 ++ tr2 ++ tr3 ++ [free_device_list (device_list (gpu_env w))]
                      → e ∈ t1).
  { intros e He. destruct Ht as [-> | ->]; [exact He|].
    apply elem_of_app. left. exact He. }
  split_and!; try reflexivity; try assumption.
  - unfold some_event. rewrite Exists_exists.
    exists (free_device_list (device_list (gpu_env w))). split; [|reflexivity].
    apply Hsub. rewrite !elem_of_app. right. right. right. apply list_elem_of_here.
  - intros Hne. apply Hsub. rewrite !elem_of_app. right. left. exact (Hq Hne).
  - intros Hne. apply Hsub. rewrite !elem_of_app. right. right. left. exact (Hx Hne).
  - apply Hd. repeat apply no_event_app; try assumption. quiet.
Qed.

Lemma uninit_gate_cases (g : GPUEnv) :
  (is_user_created g ≠ 0 ∨ 0 < int32 (init_count g - 1) ∨ 0 < kernel_count g)
  ∨ (is_user_created g = 0 ∧ int32 (init_count g - 1) ≤ 0 ∧ kernel_count g ≤ 0).
Proof.
  destruct (decide (is_user_created g = 0)); [|auto].
  destruct (Z.lt_ge_cases 0 (int32 (init_count g - 1))); [auto|].
  destruct (Z.lt_ge_cases 0 (kernel_count g)); auto.
Qed.

Lemma uninit_frame (a : uninit_answers) (w w' : world) (tr : trace) :
  av_opencl_uninit a w = Some (w', tr) →
  init_count (gpu_env w') = int32 (init_count (gpu_env w) - 1)
  ∧ kernel_count (gpu_env w') = kernel_count (gpu_env w)
  ∧ kernel_code_count (gpu_env w') = kernel_code_count (gpu_env w)
  ∧ kernel_code (gpu_env w') = kernel_code (gpu_env w)
  ∧ (is_user_created (gpu_env w) ≠ 0 → user_same (gpu_env w) (gpu_env w'))
  ∧ no_event is_discovery_or_creation tr.
Proof.
  intros H. destruct (uninit_gate_cases (gpu_env w)) as [Hg|(Hu & Hc & Hk)].
  - destruct (uninit_closed_gate a w Hg) as (w1 & tr1 & H1 & Hw & Ht).
    rewrite H1 in H. injection H as <- <-. rewrite Hw. simpl.
    split_and!; try reflexivity.
    + intros _. repeat split.
    + destruct Ht as [-> | ->]; quiet.
  - destruct (uninit_open_gate a w w' tr Hu Hc Hk H)
      as (?&?&?&?&?&?&?&?&?&?&?&?).
    split_and!; try assumption. intros; contradiction.
Qed.

(** ** Steps and runs *)

Section RunFacts.

Variable name_size : Z.
Variable cstring : ptr -> option string.

Lemma step_init_count (c : call) (w w' : world) (r : av_ret) (tr : trace) :
  step name_size cstring c w = Some (w', r, tr) →
  init_count (gpu_env w') = next_init_count c r (init_count (gpu_env w)).
Proof.
  destruct c as [stored|src|env kernel_name answers|env status|ext a|a];
    simpl; intros H.
  - destruct (av_opencl_set_option _ _). simplify_eq. reflexivity.
  - destruct (av_opencl_register_kernel_code _ _) as [[[g1 r1] tr1]|] eqn:E;
      simpl in H; [|discriminate].
    simplify_eq. simpl. apply register_frame in E. tauto.
  - destruct (av_opencl_create_kernel _ _ _ _ _) as [[[[g1 e1] r1] tr1]|] eqn:E;
      simpl in H; [|discriminate].
    simplify_eq. simpl. apply create_kernel_frame in E.
    destruct E as [[-> | ->] _]; reflexivity.
  - destruct (av_opencl_release_kernel _ _ _) as [[g1 e1] tr1] eqn:E.
    simplify_eq. simpl. apply release_kernel_frame in E.
    destruct E as [[-> | ->] _]; reflexivity.
  - apply av_opencl_init_sound in H. tauto.
  - destruct (av_opencl_uninit a w) as [[w1 tr1]|] eqn:E; simpl in H; [|discriminate].
    simplify_eq. apply uninit_frame in E. tauto.
Qed.

(** Only [av_opencl_uninit] releases programs, queue, context or device
    list. *)
Lemma step_release_only_in_uninit (c : call) (w w' : world) (r : av_ret)
    (tr : trace) :
  step name_size cstring c w = Some (w', r, tr) →
  is_uninit_call c = false → no_event is_release tr.
Proof.
  destruct c as [stored|src|env kernel_name answers|env status|ext a|a];
    simpl; intros H Hc; [| | | | |discriminate].
  - unfold av_opencl_set_option, ensure_defaults in H.
    destruct (init_flag _ =? 0); destruct stored as [[? ?] ?]; simplify_eq; quiet.
  - destruct (av_opencl_register_kernel_code _ _) as [[[g1 r1] tr1]|] eqn:E;
      simpl in H; [|discriminate].
    simplify_eq. apply register_frame in E. tauto.
  - destruct (av_opencl_create_kernel _ _ _ _ _) as [[[[g1 e1] r1] tr1]|] eqn:E;
      simpl in H; [|discriminate].
    simplify_eq. apply create_kernel_frame in E. tauto.
  - destruct (av_opencl_release_kernel _ _ _) as [[g1 e1] tr1] eqn:E.
    simplify_eq. apply release_kernel_frame in E. tauto.
  - apply av_opencl_init_sound in H. tauto.
Qed.

(** Once [is_user_created] is set, no call changes it or the adopted handles,
    and no call discovers devices or creates a context or a queue. *)
Lemma step_user_created (c : call) (w w' : world) (r : av_ret) (tr : trace) :
  step name_size cstring c w = Some (w', r, tr) →
  is_user_created (gpu_env w) ≠ 0 →
  user_same (gpu_env w) (gpu_env w') ∧ no_event is_discovery_or_creation tr.
Proof.
  destruct c as [stored|src|env kernel_name answers|env status|ext a|a];
    simpl; intros H Hu.
  - unfold av_opencl_set_option, ensure_defaults in H.
    destruct (init_flag _ =? 0); destruct stored as [[? ?] ?]; simplify_eq;
      (split; [apply user_same_refl | quiet]).
  - destruct (av_opencl_register_kernel_code _ _) as [[[g1 r1] tr1]|] eqn:E;
      simpl in H; [|discriminate].
    simplify_eq. apply register_frame in E. simpl. tauto.
  - destruct (av_opencl_create_kernel _ _ _ _ _) as [[[[g1 e1] r1] tr1]|] eqn:E;
      simpl in H; [|discriminate].
    simplify_eq. apply create_kernel_frame in E. simpl.
    destruct E as [[-> | ->] [_ ?]]; (split; [repeat split | assumption]).
  - destruct (av_opencl_release_kernel _ _ _) as [[g1 e1] tr1] eqn:E.
    simplify_eq. apply release_kernel_frame in E. simpl.
    destruct E as [[-> | ->] [_ ?]]; (split; [repeat split | assumption]).
  - apply av_opencl_init_sound in H. destruct H as (_&_&_&_&H&_). exact (H Hu).
  - destruct (av_opencl_uninit a w) as [[w1 tr1]|] eqn:E; simpl in H; [|discriminate].
    simplify_eq. apply uninit_frame in E. destruct E as (_&_&_&_&H&?).
    split; [exact (H Hu) | assumption].
Qed.

(** An entry that is registered and marked compiled stays so. *)
Lemma step_compiled_at (c : call) (w w' : world) (r : av_ret) (tr : trace)
    (i : nat) :
  step name_size cstring c w = Some (w', r, tr) →
  compiled_at (gpu_env w) i → compiled_at (gpu_env w') i.
Proof.
  destruct c as [stored|src|env kernel_name answers|env status|ext a|a];
    simpl; intros H Hi.
  - destruct (av_opencl_set_option _ _). simplify_eq. exact Hi.
  - destruct (av_opencl_register_kernel_code _ _) as [[[g1 r1] tr1]|] eqn:E;
      simpl in H; [|discriminate].
    simplify_eq. apply register_frame in E. simpl. destruct E as (_&_&_&E&_).
    exact (E _ Hi).
  - destruct (av_opencl_create_kernel _ _ _ _ _) as [[[[g1 e1] r1] tr1]|] eqn:E;
      simpl in H; [|discriminate].
    simplify_eq. apply create_kernel_frame in E. simpl.
    destruct E as [[-> | ->] _]; exact Hi.
  - destruct (av_opencl_release_kernel _ _ _) as [[g1 e1] tr1] eqn:E.
    simplify_eq. apply release_kernel_frame in E. simpl.
    destruct E as [[-> | ->] _]; exact Hi.
  - apply av_opencl_init_sound in H. destruct H as (_&_&Hc&Hf&_).
    exact (compiled_at_flags_kept _ _ _ Hc Hf Hi).
  - destruct (av_opencl_uninit a w) as [[w1 tr1]|] eqn:E; simpl in H; [|discriminate].
    simplify_eq. apply uninit_frame in E. destruct E as (_&_&Hc&Hk&_).
    destruct Hi as [Hi Hx]. split; [rewrite Hc; exact Hi | rewrite Hk; exact Hx].
Qed.

(** A run splits at every call. *)
Lemma run_cons_inv (c : call) (cs : list call) (w w' : world) (h : list entry) :
  run name_size cstring (c :: cs) w = Some (w', h) →
  ∃ w1 r tr h',
    step name_size cstring c w = Some (w1, r, tr)
    ∧ run name_size cstring cs w1 = Some (w', h')
    ∧ h = (c, r, tr) :: h'.
Proof.
  simpl. intros H.
  destruct (step name_size cstring c w) as [[[w1 r] tr]|] eqn:Hs;
    simpl in H; [|discriminate].
  destruct (run name_size cstring cs w1) as [[w2 h']|] eqn:Hr;
    simpl in H; [|discriminate].
  simplify_eq. exists w1, r, tr, h'.
  split; [reflexivity | split; [exact Hr | reflexivity]].
Qed.

Lemma run_length (cs : list call) :
  ∀ (w w' : world) (h : list entry),
    run name_size cstring cs w = Some (w', h) → length h = length cs.
Proof.
  induction cs as [|c cs IH]; intros w w' h H.
  - simpl in H. simplify_eq. reflexivity.
  - apply run_cons_inv in H. destruct H as (w1 & r & tr & h' & _ & Hr & ->).
    simpl. f_equal. exact (IH _ _ _ Hr).
Qed.

(** A property of the world that every step preserves holds after a run. *)
Lemma run_invariant (P : world -> Prop) :
  (∀ c w w' r tr, P w → step name_size cstring c w = Some (w', r, tr) → P w') →
  ∀ (cs : list call) (w w' : world) (h : list entry),
    P w → run name_size cstring cs w = Some (w', h) → P w'.
Proof.
  intros Hstep. induction cs as [|c cs IH]; intros w w' h HP H.
  - simpl in H. simplify_eq. exact HP.
  - apply run_cons_inv in H. destruct H as (w1 & r & tr & h' & Hs & Hr & ->).
    exact (IH _ _ _ (Hstep _ _ _ _ _ HP Hs) Hr).
Qed.

(** Under an invariant, what holds of every step holds of every entry. *)
Lemma run_entries (P : world -> Prop) (Q : entry -> Prop) :
  (∀ c w w' r tr, P w → step name_size cstring c w = Some (w', r, tr) → P w') →
  (∀ c w w' r tr, P w → step name_size cstring c w = Some (w', r, tr) → Q (c, r, tr)) →
  ∀ (cs : list call) (w w' : world) (h : list entry),
    P w → run name_size cstring cs w = Some (w', h) → Forall Q h.
Proof.
  intros Hstep HQ. induction cs as [|c cs IH]; intros w w' h HP H.
  - simpl in H. simplify_eq. apply Forall_nil_2.
  - apply run_cons_inv in H. destruct H as (w1 & r & tr & h' & Hs & Hr & ->).
    apply Forall_cons_2; [exact (HQ _ _ _ _ _ HP Hs)|].
    exact (IH _ _ _ (Hstep _ _ _ _ _ HP Hs) Hr).
Qed.

(** The history of a run cut at an entry: the run up to it, the step itself. *)
Lemma run_split (cs : list call) :
  ∀ (w w' : world) (h h1 h2 : list entry) (x : entry),
    run name_size cstring cs w = Some (w', h) → h = h1 ++ x :: h2 →
    ∃ cs1 w1 w2,
      run name_size cstring cs1 w = Some (w1, h1)
      ∧ step name_size cstring x.1.1 w1 = Some (w2, x.1.2, x.2)
      ∧ (length cs1 < length cs)%nat.
Proof.
  induction cs as [|c cs IH]; intros w w' h h1 h2 x H Hh.
  - simpl in H. simplify_eq. destruct h1; discriminate.
  - apply run_cons_inv in H. destruct H as (w1 & r & tr & h' & Hs & Hr & ->).
    destruct h1 as [|y h1]; simpl in Hh; injection Hh as <- ->.
    + exists [], w, w1. simpl. split; [reflexivity|]. split; [exact Hs | lia].
    + destruct (IH _ _ _ _ _ _ Hr eq_refl) as (cs1 & wa & wb & H1 & H2 & Hl).
      exists (c :: cs1), wa, wb. simpl. rewrite Hs. simpl. rewrite H1. simpl.
      split; [reflexivity|]. split; [exact H2 | lia].
Qed.

End RunFacts.

(** ** What a compile pass submits *)

Lemma string_app_assoc (a b c : string) : (a +:+ b) +:+ c = a +:+ (b +:+ c).
Proof.
  induction a as [|x a IH]; [reflexivity|].
  change (String x ((a +:+ b) +:+ c) = String x (a +:+ (b +:+ c))).
  rewrite IH. reflexivity.
Qed.

Lemma string_app_nil_r (a : string) : a +:+ "" = a.
Proof.
  induction a as [|x a IH]; [reflexivity|].
  change (String x (a +:+ "") = String x a). rewrite IH. reflexivity.
Qed.

Lemma uncompiled_from_S (kc : list KernelCode) (i n : nat) :
  uncompiled_from kc i (S n)
  = if decide ((is_compiled <$> kc !! i) = Some 0)
    then i :: uncompiled_from kc (S i) n
    else uncompiled_from kc (S i) n.
Proof. unfold uncompiled_from. simpl. rewrite filter_cons. reflexivity. Qed.

Lemma uncompiled_from_bounds (kc : list KernelCode) (i n j : nat) :
  j ∈ uncompiled_from kc i n →
  (i ≤ j < i + n)%nat ∧ (is_compiled <$> kc !! j) = Some 0.
Proof.
  unfold uncompiled_from. rewrite list_elem_of_filter, elem_of_seq. tauto.
Qed.

Lemma uncompiled_from_insert (kc : list KernelCode) (j : nat) (x : KernelCode) :
  ∀ (n i : nat), (j < i)%nat →
    uncompiled_from (<[j := x]> kc) i n = uncompiled_from kc i n.
Proof.
  induction n as [|n IH]; intros i Hj; [reflexivity|].
  rewrite !uncompiled_from_S, list_lookup_insert_ne by lia.
  rewrite IH by lia. reflexivity.
Qed.

Lemma join_fragments_insert (cstring : ptr -> option string)
    (kc : list KernelCode) (j : nat) (x : KernelCode) (l : list nat) :
  (∀ k, k ∈ l → (j < k)%nat) →
  join_fragments cstring (<[j := x]> kc) l = join_fragments cstring kc l.
Proof.
  induction l as [|k l IH]; intros H; [reflexivity|]. simpl.
  rewrite list_lookup_insert_ne by (specialize (H k (list_elem_of_here _ _)); lia).
  rewrite IH; [reflexivity|]. intros k' Hk'. apply H. apply list_elem_of_further. exact Hk'.
Qed.

(** The second loop of the pass gathers the texts of the fragments that are
    not compiled, in table order. *)
Lemma concat_loop_source (cstring : ptr -> option string) :
  ∀ (n : nat) (kc : list KernelCode) (i : nat) (acc : string)
    (kc' : list KernelCode) (src : string),
    concat_loop cstring kc i n acc = Some (kc', src) →
    ∃ t, join_fragments cstring kc (uncompiled_from kc i n) = Some t
         ∧ src = acc +:+ t.
Proof.
  induction n as [|n IH]; intros kc i acc kc' src H; simpl in H.
  - simplify_eq. exists "". split; [reflexivity|]. symmetry. apply string_app_nil_r.
  - rewrite uncompiled_from_S.
    destruct (kc !! i) as [c|] eqn:Hc; simpl in H; [|discriminate]. simpl.
    destruct (Z.eqb_spec (is_compiled c) 0) as [Hz|Hz].
    + destruct (cstring (kernel_string c)) as [s|] eqn:Hs; simpl in H; [|discriminate].
      destruct (IH _ _ _ _ _ H) as (t & Ht & ->).
      rewrite uncompiled_from_insert in Ht by lia.
      rewrite join_fragments_insert in Ht
        by (intros k Hk; apply uncompiled_from_bounds in Hk; lia).
      rewrite decide_True by (rewrite Hz; reflexivity).
      exists (s +:+ t). simpl. rewrite Hc. simpl. rewrite Hs. simpl. rewrite Ht. simpl.
      split; [reflexivity | apply string_app_assoc].
    + rewrite decide_False by (intros [= Hx]; contradiction).
      exact (IH _ _ _ _ _ H).
Qed.

(** Every source a compile pass hands to [clCreateProgramWithSource] is the
    concatenation of the texts of [pass_fragments]. *)
Lemma compile_submits_pass_fragments (cstring : ptr -> option string)
    (a : compile_answers) (bo : option string) (g g' : GPUEnv) (r : av_ret)
    (tr : trace) (ctx : ptr) (src : string) :
  compile_kernel_file cstring a bo g = Some (g', r, tr) →
  clCreateProgramWithSource ctx src ∈ tr →
  join_fragments cstring (kernel_code g) (pass_fragments g) = Some src.
Proof.
  intros H Hin. unfold compile_kernel_file in H.
  destruct (source_len_loop _ _ _ _ _) as [len|]; simpl in H; [|discriminate].
  destruct (len =? 0); [unfold proceed in H; simplify_eq; inversion Hin|].
  destruct (negb (ans_malloc a)).
  { unfold fail_with in H. simplify_eq.
    apply list_elem_of_singleton in Hin. discriminate. }
  destruct (concat_loop _ _ _ _ _) as [[kc s]|] eqn:Hloop; simpl in H; [|discriminate].
  apply concat_loop_source in Hloop. destruct Hloop as (t & Ht & ->).
  simpl in Ht. unfold pass_fragments. rewrite Ht. f_equal.
  destruct (ans_program a) as [prog status].
  destruct (arr_set _ _ _) as [progs|]; simpl in H; [|discriminate].
  assert (Hlog : ∀ st fmt, clCreateProgramWithSource ctx src ∉ log_failure st fmt).
  { intros st fmt. unfold log_failure. destruct (st =? CL.SUCCESS).
    - apply not_elem_of_nil.
    - rewrite list_elem_of_singleton. discriminate. }
  stage_leaves H; simplify_eq;
    repeat (rewrite ?elem_of_app, ?elem_of_cons in Hin);
    repeat match goal with
           | Hx : _ ∨ _ |- _ => destruct Hx as [Hx|Hx]
           | Hx : clCreateProgramWithSource _ _ = _ |- _ => inversion Hx; clear Hx
           | Hx : _ ∈ [] |- _ => inversion Hx
           | Hx : _ ∈ log_failure _ _ |- _ => destruct (Hlog _ _ Hx)
           end; subst; try reflexivity.
Qed.

(** ** The reference count along a run *)

Lemma count_entries_cons (f : entry -> bool) (x : entry) (h : list entry) :
  count_entries f (x :: h) = (if f x then 1 else 0) + count_entries f h.
Proof.
  unfold count_entries. rewrite filter_cons.
  destruct (decide (f x = true)) as [E|E].
  - rewrite E. simpl length. lia.
  - destruct (f x); [contradiction | lia].
Qed.

Lemma count_entries_nonneg (f : entry -> bool) (h : list entry) :
  0 ≤ count_entries f h.
Proof. unfold count_entries. lia. Qed.

Lemma count_entries_app (f : entry -> bool) (h1 h2 : list entry) :
  count_entries f (h1 ++ h2) = count_entries f h1 + count_entries f h2.
Proof. unfold count_entries. rewrite filter_app, length_app. lia. Qed.

Lemma next_init_count_entry (c : call) (r : av_ret) (tr : trace) (n : Z) :
  Z.abs n + 1 ≤ INT_MAX →
  next_init_count c r n
  = n + (if is_successful_init (c, r, tr) then 1 else 0)
      - (if is_uninit (c, r, tr) then 1 else 0).
Proof.
  intros Hn. unfold INT_MAX in Hn.
  destruct c, r; simpl; try lia;
    (rewrite int32_small by (unfold INT_MIN, INT_MAX; lia); lia).
Qed.

Section CountFacts.

Variable name_size : Z.
Variable cstring : ptr -> option string.

(** As long as the counter cannot wrap, it is the count before the run plus
    the successful inits minus the uninits of the run. *)
Lemma run_init_count (cs : list call) :
  ∀ (w w' : world) (h : list entry),
    run name_size cstring cs w = Some (w', h) →
    Z.abs (init_count (gpu_env w)) + Z.of_nat (length cs) ≤ INT_MAX →
    init_count (gpu_env w')
    = init_count (gpu_env w) + count_entries is_successful_init h
      - count_entries is_uninit h.
Proof.
  induction cs as [|c cs IH]; intros w w' h H Hb.
  - simpl in H. simplify_eq. unfold count_entries. simpl. lia.
  - apply run_cons_inv in H. destruct H as (w1 & r & tr & h' & Hs & Hr & ->).
    apply step_init_count in Hs.
    rewrite (next_init_count_entry c r tr) in Hs by (simpl length in Hb; lia).
    rewrite !count_entries_cons.
    rewrite (IH _ _ _ Hr).
    + rewrite Hs. lia.
    + rewrite Hs. simpl length in Hb.
      destruct (is_successful_init (c, r, tr)), (is_uninit (c, r, tr)); lia.
Qed.

End CountFacts.

Lemma count_entries_le_length (h : list entry) :
  count_entries is_successful_init h + count_entries is_uninit h
  ≤ Z.of_nat (length h).
Proof.
  induction h as [|x h IH].
  - unfold count_entries. simpl. lia.
  - rewrite !count_entries_cons. simpl length.
    destruct x as [[c r] tr]. destruct c, r; simpl; lia.
Qed.

(** C5 (as amended): in every state reached from the uninitialised one by at
    most [INT_MAX] calls, [init_count] is the number of successful
    [av_opencl_init] calls minus the number of [av_opencl_uninit] calls made
    so far; it is therefore not negative in every reachable state in which the
    uninit calls do not outnumber the successful init calls. *)
Theorem init_count_counts_inits (name_size : Z) (cstring : ptr -> option string)
    (cs : list call) (w : world) (h : list entry) :
  Z.of_nat (length cs) ≤ INT_MAX →
  run name_size cstring cs world0 = Some (w, h) →
  init_count (gpu_env w)
  = count_entries is_successful_init h - count_entries is_uninit h
  ∧ (count_entries is_uninit h ≤ count_entries is_successful_init h →
     0 ≤ init_count (gpu_env w)).
Proof.
  intros Hb H.
  pose proof (run_init_count name_size cstring cs world0 w h H) as Hc.
  simpl in Hc. specialize (Hc Hb). split; lia.
Qed.

(** Witness: two successful inits and one uninit leave the count at 1. *)
Lemma init_count_counts_inits_witness :
  ∃ w h,
    sample_run [register_kernel_code 1; init None sample_init_answers;
                init None sample_init_answers; uninit sample_uninit_answers]
    = Some (w, h)
    ∧ init_count (gpu_env w)
      = count_entries is_successful_init h - count_entries is_uninit h
    ∧ (count_entries is_uninit h ≤ count_entries is_successful_init h →
       0 ≤ init_count (gpu_env w))
    ∧ init_count (gpu_env w) = 1.
Proof.
  eexists _, _. split; [vm_compute; reflexivity|].
  split; [|split; [|reflexivity]];
    apply (init_count_counts_inits sample_name_size sample_cstring
             [register_kernel_code 1; init None sample_init_answers;
              init None sample_init_answers; uninit sample_uninit_answers]);
    first [ vm_compute; discriminate | vm_compute; reflexivity ].
Defined.

(** Counterexample to C5 as stated: one [av_opencl_uninit] call in the
    uninitialised state leaves [init_count] at -1. *)
Lemma init_count_negative_after_unmatched_uninit :
  ¬ (∀ (name_size : Z) (cstring : ptr -> option string) (cs : list call)
       (w : world) (h : list entry),
        run name_size cstring cs world0 = Some (w, h) →
        0 ≤ init_count (gpu_env w)).
Proof.
  intros H.
  specialize (H sample_name_size sample_cstring [uninit sample_uninit_answers]).
  vm_compute in H. specialize (H _ _ eq_refl). apply H. reflexivity.
Qed.

(** ** Release gate of uninit *)

(** C1 (as amended): take any state [w] reached from the uninitialised one
    (by at most [INT_MAX] calls).  In the run that led to it, programs, queue,
    context and device list were released by [av_opencl_uninit] calls only,
    and each such call was at least the N-th uninit, N being the number of
    successful inits before it, and was made in a self-owned state whose live
    kernel count was not positive.  If the environment of [w] is self-owned,
    the next [av_opencl_uninit] releases something only if the decremented
    count is not positive and the live kernel count is not positive; when
    the call is matched by an init (the count is at least 1) and the live
    count is not negative, a release means that both are exactly 0
    afterwards.  With a positive live kernel count, or with the decremented
    count still positive, the call releases nothing and changes [init_count]
    only.  With the gate open it does release: the device list is freed and
    queue and context are [NULL] afterwards. *)
Theorem uninit_release_gate (name_size : Z) (cstring : ptr -> option string)
    (cs : list call) (w : world) (h : list entry) :
  Z.of_nat (length cs) ≤ INT_MAX →
  run name_size cstring cs world0 = Some (w, h) →
  (∀ (h1 : list entry) c r tr (h2 : list entry),
      h = h1 ++ (c, r, tr) :: h2 → some_event is_release tr →
      is_uninit_call c = true
      ∧ count_entries is_successful_init h1 ≤ count_entries is_uninit h1 + 1
      ∧ ∃ cs1 w1,
          run name_size cstring cs1 world0 = Some (w1, h1)
          ∧ is_user_created (gpu_env w1) = 0
          ∧ kernel_count (gpu_env w1) ≤ 0)
  ∧ (is_user_created (gpu_env w) = 0 →
     ∀ a w' tr,
       av_opencl_uninit a w = Some (w', tr) →
       (some_event is_release tr →
        int32 (init_count (gpu_env w) - 1) ≤ 0 ∧ kernel_count (gpu_env w) ≤ 0)
       ∧ (0 < kernel_count (gpu_env w) ∨ 0 < int32 (init_count (gpu_env w) - 1) →
          no_event is_release tr
          ∧ gpu_env w'
            = set_init_count (int32 (init_count (gpu_env w) - 1)) (gpu_env w))
       ∧ (1 ≤ init_count (gpu_env w) → 0 ≤ kernel_count (gpu_env w) →
          some_event is_release tr →
          init_count (gpu_env w') = 0 ∧ kernel_count (gpu_env w') = 0)
       ∧ (int32 (init_count (gpu_env w) - 1) ≤ 0 → kernel_count (gpu_env w) ≤ 0 →
          some_event is_release tr
          ∧ command_queue (gpu_env w') = NULL
          ∧ context (gpu_env w') = NULL
          ∧ device_list (gpu_env w') = freed_device_list)).
Proof.
  intros Hb H. split.
  - intros h1 c r tr h2 Hh Hrel.
    destruct (run_split name_size cstring cs _ _ _ _ _ _ H Hh)
      as (cs1 & w1 & w2 & H1 & Hs & Hl). simpl in Hs.
    destruct (is_uninit_call c) eqn:Hc.
    + split; [reflexivity|].
      destruct c as [| | | | |a]; try discriminate. simpl in Hs.
      destruct (av_opencl_uninit a w1) as [[w3 tr3]|] eqn:Hu; simpl in Hs;
        [|discriminate].
      simplify_eq.
      pose proof (run_init_count name_size cstring cs1 world0 w1 h1 H1) as Hc1.
      simpl in Hc1. specialize (Hc1 ltac:(lia)).
      pose proof (run_length name_size cstring cs1 _ _ _ H1) as Hlen.
      pose proof (count_entries_nonneg is_successful_init h1).
      pose proof (count_entries_nonneg is_uninit h1).
      pose proof (count_entries_le_length h1) as Hsmall.
      destruct (uninit_gate_cases (gpu_env w1)) as [Hg|(Hg0 & Hg & Hg2)].
      * destruct (uninit_closed_gate a w1 Hg) as (w4 & tr4 & H4 & _ & Ht).
        rewrite H4 in Hu. simplify_eq.
        exfalso. eapply no_event_some_event; [|exact Hrel].
        destruct Ht as [-> | ->]; quiet.
      * rewrite int32_small in Hg by (unfold INT_MIN, INT_MAX in *; lia).
        split; [lia|]. exists cs1, w1. split; [exact H1 | split; assumption].
    + exfalso.
      apply (no_event_some_event is_release tr); [|exact Hrel].
      exact (step_release_only_in_uninit _ _ _ _ _ _ _ Hs Hc).
  - intros Hu a w' tr Hun. split_and!.
    + intros Hrel.
      destruct (uninit_gate_cases (gpu_env w)) as [Hg|(_ & Hg1 & Hg2)];
        [|split; assumption].
      destruct (uninit_closed_gate a w Hg) as (w4 & tr4 & H4 & _ & Ht).
      rewrite H4 in Hun. simplify_eq.
      exfalso. eapply no_event_some_event; [|exact Hrel].
      destruct Ht as [-> | ->]; quiet.
    + intros Hg.
      destruct (uninit_closed_gate a w) as (w4 & tr4 & H4 & Hw & Ht); [tauto|].
      rewrite H4 in Hun. simplify_eq.
      split; [destruct Ht as [-> | ->]; quiet | exact Hw].
    + intros Hic Hkc Hrel.
      pose proof (run_init_count name_size cstring cs world0 w h H) as Hc1.
      simpl in Hc1. specialize (Hc1 Hb).
      pose proof (run_length name_size cstring cs _ _ _ H) as Hlen.
      pose proof (count_entries_nonneg is_successful_init h).
      pose proof (count_entries_nonneg is_uninit h).
      pose proof (count_entries_le_length h) as Hsmall.
      destruct (uninit_gate_cases (gpu_env w)) as [Hg|(_ & Hg1 & Hg2)].
      * destruct (uninit_closed_gate a w Hg) as (w4 & tr4 & H4 & _ & Ht).
        rewrite H4 in Hun. simplify_eq.
        exfalso. eapply no_event_some_event; [|exact Hrel].
        destruct Ht as [-> | ->]; quiet.
      * destruct (uninit_open_gate a w w' tr Hu Hg1 Hg2 Hun) as (E1&E2&_).
        rewrite E1, E2.
        rewrite int32_small in Hg1 |- * by (unfold INT_MIN, INT_MAX in *; lia).
        lia.
    + intros Hg1 Hg2.
      destruct (uninit_open_gate a w w' tr Hu Hg1 Hg2 Hun)
        as (_&_&_&_&_&?&?&?&?&_).
      split_and!; assumption.
Qed.

(** Witness: after [gate_run] the second uninit finds the gate open and
    releases program, queue, context and device list. *)
Lemma uninit_release_gate_witness :
  Z.of_nat (length gate_run) ≤ INT_MAX
  ∧ run sample_name_size sample_cstring gate_run world0
    = Some (world_after gate_run, history_after gate_run)
  ∧ is_user_created (gpu_env (world_after gate_run)) = 0
  ∧ (∃ w',
       av_opencl_uninit sample_uninit_answers (world_after gate_run)
       = Some (w', [clReleaseProgram 21; clReleaseCommandQueue 12;
                    clReleaseContext 11; free_device_list sample_device_list;
                    av_opt_free]))
  ∧ ∀ a w' tr,
      av_opencl_uninit a (world_after gate_run) = Some (w', tr) →
      some_event is_release tr →
      int32 (init_count (gpu_env (world_after gate_run)) - 1) ≤ 0
      ∧ kernel_count (gpu_env (world_after gate_run)) ≤ 0.
Proof.
  assert (Hlen : Z.of_nat (length gate_run) ≤ INT_MAX) by (vm_compute; discriminate).
  assert (Hrun : run sample_name_size sample_cstring gate_run world0
                 = Some (world_after gate_run, history_after gate_run))
    by (vm_compute; reflexivity).
  assert (Hu : is_user_created (gpu_env (world_after gate_run)) = 0)
    by (vm_compute; reflexivity).
  split; [exact Hlen|]. split; [exact Hrun|]. split; [exact Hu|].
  split; [eexists; vm_compute; reflexivity|].
  intros a w' tr Hun.
  exact (proj1 (proj2 (uninit_release_gate sample_name_size sample_cstring
                         gate_run (world_after gate_run) (history_after gate_run)
                         Hlen Hrun) Hu a w' tr Hun)).
Defined.

(** Counterexample to C1 as stated: after an [av_opencl_uninit] that no
    init matches, one successful [av_opencl_init] is followed by an
    [av_opencl_uninit] that releases the compiled program and frees the
    device list, although the decremented count it finds is -1 and has not
    "reached 0". *)
Lemma uninit_releases_below_zero :
  ¬ (∀ (name_size : Z) (cstring : ptr -> option string) (cs : list call)
       (w : world) (h : list entry) (a : uninit_answers) (w' : world)
       (tr : trace),
        run name_size cstring cs world0 = Some (w, h) →
        is_user_created (gpu_env w) = 0 →
        av_opencl_uninit a w = Some (w', tr) →
        some_event is_release tr →
        init_count (gpu_env w') = 0 ∧ kernel_count (gpu_env w') = 0).
Proof.
  intros H.
  assert (Hrun : run sample_name_size sample_cstring unmatched_uninit_run world0
                 = Some (world_after unmatched_uninit_run,
                         history_after unmatched_uninit_run))
    by (vm_compute; reflexivity).
  assert (Hu : ∃ w' tr,
             av_opencl_uninit sample_uninit_answers
               (world_after unmatched_uninit_run) = Some (w', tr)
             ∧ tr = [clReleaseProgram 21; free_device_list freed_device_list;
                     av_opt_free]
             ∧ init_count (gpu_env w') = -1).
  { eexists _, _. split; [vm_compute; reflexivity|]. split; reflexivity. }
  destruct Hu as (w' & tr & Hu & -> & Hneg).
  destruct (H _ _ _ _ _ _ _ _ Hrun ltac:(vm_compute; reflexivity) Hu) as [H0 _].
  - constructor. reflexivity.
  - rewrite Hneg in H0. discriminate.
Qed.

(** ** Provenance *)

Section ProvenanceFacts.

Variable name_size : Z.
Variable cstring : ptr -> option string.

(** From a state whose [is_user_created] is set, no run changes the flag or
    the handles, and no call of the run discovers devices or creates a context
    or a queue. *)
Lemma user_created_kept (cs : list call) (w w' : world) (h : list entry) :
  is_user_created (gpu_env w) ≠ 0 →
  run name_size cstring cs w = Some (w', h) →
  user_same (gpu_env w) (gpu_env w')
  ∧ Forall (fun x : entry => no_event is_discovery_or_creation x.2) h.
Proof.
  intros Hu H.
  set (P := fun w1 : world => user_same (gpu_env w) (gpu_env w1)).
  assert (Hstep : ∀ c w1 w2 r tr,
             P w1 → step name_size cstring c w1 = Some (w2, r, tr) → P w2).
  { intros c w1 w2 r tr HP Hs. unfold P in *.
    eapply user_same_trans; [exact HP|].
    apply (step_user_created _ _ _ _ _ _ _ Hs).
    destruct HP as [-> _]. exact Hu. }
  split.
  - exact (run_invariant name_size cstring P Hstep cs w w' h (user_same_refl _) H).
  - apply (run_entries name_size cstring P _ Hstep) with (cs := cs) (w := w) (w' := w');
      [|apply user_same_refl | exact H].
    intros c w1 w2 r tr HP Hs. simpl.
    apply (step_user_created _ _ _ _ _ _ _ Hs).
    destruct HP as [-> _]. exact Hu.
Qed.

End ProvenanceFacts.

(** Given a descriptor, [init_opencl_env] on a self-owned environment adopts
    it: no call to the runtime, the flag set, the five handles copied. *)
Lemma init_opencl_env_adopts (ext : AVOpenCLExternalEnv) (a : init_answers)
    (g : GPUEnv) :
  is_user_created g = 0 →
  ∃ g1,
    init_opencl_env (Some ext) a g = Some (g1, RET_OK, [])
    ∧ is_user_created g1 = 1
    ∧ platform_id g1 = ext_platform_id ext
    ∧ device_id g1 = ext_device_id ext
    ∧ device_type g1 = ext_device_type ext
    ∧ context g1 = ext_context ext
    ∧ command_queue g1 = ext_command_queue ext.
Proof.
  intros Hu. unfold init_opencl_env. rewrite Hu.
  change (0 =? 0) with true. cbv iota. unfold proceed.
  eexists. split; [reflexivity|].
  repeat (split; [lazy; reflexivity|]). lazy. reflexivity.
Qed.

(** C9: an [av_opencl_init] that is given an external descriptor in a fresh
    self-owned state sets [is_user_created] to 1 and adopts the descriptor's
    platform, device, device type, context and queue, whatever it returns.
    From then on no sequence of calls, [av_opencl_uninit] down to count 0
    included, clears the flag or changes one of these handles, and no later
    call, an [av_opencl_init] without descriptor included, runs device
    discovery or creates a context or a queue. *)
Theorem adopted_environment_is_kept (name_size : Z)
    (cstring : ptr -> option string) (w w1 : world) (ext : AVOpenCLExternalEnv)
    (a : init_answers) (r : av_ret) (tr : trace) :
  init_count (gpu_env w) = 0 →
  is_user_created (gpu_env w) = 0 →
  av_opencl_init cstring (Some ext) a w = Some (w1, r, tr) →
  (is_user_created (gpu_env w1) = 1
   ∧ platform_id (gpu_env w1) = ext_platform_id ext
   ∧ device_id (gpu_env w1) = ext_device_id ext
   ∧ device_type (gpu_env w1) = ext_device_type ext
   ∧ context (gpu_env w1) = ext_context ext
   ∧ command_queue (gpu_env w1) = ext_command_queue ext)
  ∧ ∀ (cs : list call) (w2 : world) (h : list entry),
      run name_size cstring cs w1 = Some (w2, h) →
      user_same (gpu_env w1) (gpu_env w2)
      ∧ Forall (fun x : entry => no_event is_discovery_or_creation x.2) h.
Proof.
  intros Hic Hu H.
  assert (Ha : is_user_created (gpu_env w1) = 1
               ∧ platform_id (gpu_env w1) = ext_platform_id ext
               ∧ device_id (gpu_env w1) = ext_device_id ext
               ∧ device_type (gpu_env w1) = ext_device_type ext
               ∧ context (gpu_env w1) = ext_context ext
               ∧ command_queue (gpu_env w1) = ext_command_queue ext).
  { unfold av_opencl_init in H. rewrite Hic in H.
    change (0 =? 0) with true in H. cbv iota in H.
    destruct (ensure_defaults (openclutils w)) as [u tr0].
    set (g0 := set_platform_idx (opt_platform_idx u)
                 (set_device_idx (opt_device_idx u) (gpu_env w))) in H.
    assert (Hu0 : is_user_created g0 = 0) by exact Hu.
    destruct (init_opencl_env_adopts ext a g0 Hu0)
      as (g1 & Hadopt & E1 & E2 & E3 & E4 & E5 & E6).
    clearbody g0.
    destruct (init_opencl_env (Some ext) a g0 >>> init_compile cstring a u)
      as [[[g2 r2] tr2]|] eqn:Hs; [|discriminate H].
    injection H as <- <- <-.
    apply and_then_inv in Hs.
    destruct Hs as [[Hs Hr]|(g1' & tr1 & tr3 & Hs1 & Hs2 & ->)].
    - rewrite Hadopt in Hs. injection Hs as <- <- <-. discriminate Hr.
    - rewrite Hadopt in Hs1. injection Hs1 as <- <-.
      apply init_compile_sound in Hs2. destruct Hs2 as (_&_&_&_&Hs&_).
      destruct Hs as (H1&H2&H3&H4&H5&H6).
      change (gpu_env {| gpu_env := g2; openclutils := u |}) with g2.
      rewrite H1, H2, H3, H4, H5, H6.
      repeat split; assumption. }
  split; [exact Ha|].
  intros cs w2 h Hr.
  apply (user_created_kept name_size cstring cs w1 w2 h); [|exact Hr].
  destruct Ha as [-> _]. discriminate.
Qed.

(** Witness: the sample descriptor is adopted, the count is driven to 0 and
    the environment is initialised again without descriptor. *)
Lemma adopted_environment_is_kept_witness :
  init_count (gpu_env (world_after [register_kernel_code 1])) = 0
  ∧ is_user_created (gpu_env (world_after [register_kernel_code 1])) = 0
  ∧ av_opencl_init sample_cstring (Some sample_external_env) sample_init_answers
      (world_after [register_kernel_code 1])
    = Some (adopted_world, RET_OK, adoption_trace)
  ∧ run sample_name_size sample_cstring after_adoption adopted_world
    = Some (world_after (adopting_run ++ after_adoption),
            drop 2 (history_after (adopting_run ++ after_adoption)))
  ∧ user_same (gpu_env adopted_world)
      (gpu_env (world_after (adopting_run ++ after_adoption)))
  ∧ context (gpu_env (world_after (adopting_run ++ after_adoption))) = 42.
Proof.
  assert (H1 : init_count (gpu_env (world_after [register_kernel_code 1])) = 0)
    by (vm_compute; reflexivity).
  assert (H2 : is_user_created (gpu_env (world_after [register_kernel_code 1])) = 0)
    by (vm_compute; reflexivity).
  assert (H3 : av_opencl_init sample_cstring (Some sample_external_env)
                 sample_init_answers (world_after [register_kernel_code 1])
               = Some (adopted_world, RET_OK, adoption_trace))
    by (vm_compute; reflexivity).
  assert (H4 : run sample_name_size sample_cstring after_adoption adopted_world
               = Some (world_after (adopting_run ++ after_adoption),
                       drop 2 (history_after (adopting_run ++ after_adoption))))
    by (vm_compute; reflexivity).
  split; [exact H1|]. split; [exact H2|]. split; [exact H3|]. split; [exact H4|].
  split; [|vm_compute; reflexivity].
  exact (proj1 (proj2 (adopted_environment_is_kept sample_name_size sample_cstring
                         (world_after [register_kernel_code 1]) adopted_world
                         sample_external_env sample_init_answers RET_OK
                         adoption_trace H1 H2 H3)
                 after_adoption _ _ H4)).
Defined.

(** ** Failed compile passes *)

Lemma compiled_at_not_pending (g : GPUEnv) (i : nat) :
  compiled_at g i → i ∉ pass_fragments g.
Proof.
  intros [_ (c & Hc & Hz)] Hin. unfold pass_fragments in Hin.
  apply uncompiled_from_bounds in Hin. destruct Hin as [_ Hin].
  rewrite Hc in Hin. simpl in Hin. injection Hin as Hin. contradiction.
Qed.

Lemma pass_fragments_below_count (g : GPUEnv) (i : nat) :
  i ∈ pass_fragments g → (i < Z.to_nat (kernel_code_count g))%nat.
Proof.
  unfold pass_fragments. intros Hin. apply uncompiled_from_bounds in Hin. lia.
Qed.

(** A pass that reports [AVERROR_EXTERNAL] has called
    [clCreateProgramWithSource]. *)
Lemma compile_failure_submits (cstring : ptr -> option string)
    (a : compile_answers) (bo : option string) (g g' : GPUEnv) (tr : trace) :
  compile_kernel_file cstring a bo g = Some (g', AVERROR_EXTERNAL, tr) →
  ∃ src, clCreateProgramWithSource (context g) src ∈ tr.
Proof.
  intros H. unfold compile_kernel_file in H.
  destruct (source_len_loop _ _ _ _ _) as [len|]; simpl in H; [|discriminate].
  destruct (len =? 0); [discriminate|].
  destruct (negb (ans_malloc a)); [discriminate|].
  destruct (concat_loop _ _ _ _ _) as [[kc src]|]; simpl in H; [|discriminate].
  destruct (ans_program a) as [prog status].
  destruct (arr_set _ _ _) as [progs|]; simpl in H; [|discriminate].
  exists src.
  stage_leaves H; simplify_eq;
    repeat (rewrite ?elem_of_app, ?elem_of_cons); auto 10.
Qed.

(** C10: let a compile pass report [AVERROR_EXTERNAL], that is, let program
    creation or the build fail after the pending fragments have been
    concatenated.  The pass has submitted the concatenation of the texts of
    [pass_fragments], the program count is what it was, and every fragment of
    the pass is marked compiled in the state the pass returns.  From that
    state on, whatever calls follow, each fragment of the pass stays marked,
    and any compile pass run on the source table of a state reached later
    submits the concatenation of fragments none of which is a fragment of the
    failed pass. *)
Theorem failed_pass_fragments_stay_compiled (name_size : Z)
    (cstring : ptr -> option string) (a : compile_answers) (bo : option string)
    (g g' : GPUEnv) (tr : trace) :
  compile_kernel_file cstring a bo g = Some (g', AVERROR_EXTERNAL, tr) →
  program_count g' = program_count g
  ∧ (∃ src, clCreateProgramWithSource (context g) src ∈ tr
            ∧ join_fragments cstring (kernel_code g) (pass_fragments g) = Some src)
  ∧ (∀ i, i ∈ pass_fragments g → compiled_at g' i)
  ∧ ∀ (i : nat) (u : OpenclUtils) (cs : list call) (w : world) (h : list entry),
      i ∈ pass_fragments g →
      run name_size cstring cs {| gpu_env := g'; openclutils := u |} = Some (w, h) →
      compiled_at (gpu_env w) i
      ∧ ∀ (g1 g2 : GPUEnv) (a1 : compile_answers) (bo1 : option string)
          (r1 : av_ret) (tr1 : trace) (ctx : ptr) (src : string),
          kernel_code g1 = kernel_code (gpu_env w) →
          kernel_code_count g1 = kernel_code_count (gpu_env w) →
          compile_kernel_file cstring a1 bo1 g1 = Some (g2, r1, tr1) →
          clCreateProgramWithSource ctx src ∈ tr1 →
          join_fragments cstring (kernel_code g1) (pass_fragments g1) = Some src
          ∧ i ∉ pass_fragments g1.
Proof.
  intros H.
  destruct (compile_kernel_file_failure _ _ _ _ _ _ H) as [Hpc Hmark].
  destruct (compile_kernel_file_sound _ _ _ _ _ _ _ H) as [(_&_&Hcount&_) _].
  assert (Hafter : ∀ i, i ∈ pass_fragments g → compiled_at g' i).
  { intros i Hi. apply pass_fragments_below_count in Hi.
    split; [rewrite Hcount; exact Hi | exact (Hmark i Hi)]. }
  split; [exact Hpc|]. split.
  { destruct (compile_failure_submits _ _ _ _ _ _ H) as [src Hsrc].
    exists src. split; [exact Hsrc|].
    exact (compile_submits_pass_fragments _ _ _ _ _ _ _ _ _ H Hsrc). }
  split; [exact Hafter|].
  intros i u cs w h Hi Hrun.
  assert (Hw : compiled_at (gpu_env w) i).
  { apply (run_invariant name_size cstring (fun w1 => compiled_at (gpu_env w1) i))
      with (cs := cs) (w := {| gpu_env := g'; openclutils := u |}) (h := h);
      [|exact (Hafter i Hi) | exact Hrun].
    intros c w1 w2 r0 tr0 HP Hs. exact (step_compiled_at _ _ _ _ _ _ _ _ Hs HP). }
  split; [exact Hw|].
  intros g1 g2 a1 bo1 r1 tr1 ctx src Hk Hc Hpass Hin.
  split; [exact (compile_submits_pass_fragments _ _ _ _ _ _ _ _ _ Hpass Hin)|].
  apply compiled_at_not_pending.
  destruct Hw as [Hlt Hx]. split; [rewrite Hc; exact Hlt | rewrite Hk; exact Hx].
Qed.

(** Witness: sources 1 and 2 are registered, the build of the pass fails, a
    third source is registered and compiled: the later pass submits source 3
    alone. *)
Lemma failed_pass_fragments_stay_compiled_witness :
  compile_kernel_file sample_cstring (ans_compile sample_build_failure)
    (Some "-I.") two_sources
  = Some (failed_pass_env, AVERROR_EXTERNAL, failed_pass_trace)
  ∧ pass_fragments two_sources = [0%nat; 1%nat]
  ∧ program_count failed_pass_env = program_count two_sources
  ∧ compiled_at failed_pass_env 0
  ∧ (∃ w h,
       run sample_name_size sample_cstring after_failed_pass
         {| gpu_env := failed_pass_env; openclutils := openclutils0 |}
       = Some (w, h)
       ∧ pass_fragments (gpu_env w) = []
       ∧ (clCreateProgramWithSource 11 "kernel void h(global int *p) { p[0] = 3; }"
          ∈ concat (snd <$> h)))
  ∧ ∀ (w : world) (h : list entry),
      run sample_name_size sample_cstring after_failed_pass
        {| gpu_env := failed_pass_env; openclutils := openclutils0 |}
      = Some (w, h) →
      compiled_at (gpu_env w) 0.
Proof.
  assert (H : compile_kernel_file sample_cstring (ans_compile sample_build_failure)
                (Some "-I.") two_sources
              = Some (failed_pass_env, AVERROR_EXTERNAL, failed_pass_trace))
    by (vm_compute; reflexivity).
  assert (Hp : pass_fragments two_sources = [0%nat; 1%nat])
    by (vm_compute; reflexivity).
  assert (H0 : (0%nat) ∈ pass_fragments two_sources)
    by (rewrite Hp; apply list_elem_of_here).
  pose proof (failed_pass_fragments_stay_compiled sample_name_size sample_cstring
                _ _ _ _ _ H) as (Hpc & _ & Hmark & Hlater).
  split; [exact H|]. split; [exact Hp|]. split; [exact Hpc|].
  split; [exact (Hmark _ H0)|].
  split.
  - eexists _, _. split; [vm_compute; reflexivity|].
    split; [vm_compute; reflexivity|].
    vm_compute. repeat first [apply list_elem_of_here | apply list_elem_of_further].
  - intros w h Hrun.
    exact (proj1 (Hlater 0%nat openclutils0 after_failed_pass w h H0 Hrun)).
Defined.

(** * Further properties *)

(** ** Logs of known statuses *)

Lemma log_failure_known (status : cl_int) (fmt : string) :
  known_status status → no_event reads_past_table (log_failure status fmt).
Proof.
  intros [->|[msg H]]; unfold log_failure; [apply no_event_nil|].
  destruct (status =? CL.SUCCESS); [apply no_event_nil|].
  rewrite H. apply no_event_cons; [reflexivity|apply no_event_nil].
Qed.

(** Closes goals [no_event reads_past_table tr] for a trace written out in
    the code, the statuses it logs being known. *)
Ltac within_table :=
  repeat first
    [ apply no_event_nil
    | apply log_failure_known; first [assumption | eauto]
    | apply no_event_cons; [reflexivity|]
    | apply no_event_app ].


(** ** Kernel handles: search order, failure and round trip *)

Lemma create_kernel_loop_first_match (answers : nat -> ptr * cl_int)
    (progs : list ptr) (kernel_name : string) (j : nat) :
  (j < length progs)%nat →
  (∀ m, (m < j)%nat → (answers m).2 ≠ CL.SUCCESS) →
  (answers j).2 = CL.SUCCESS →
  ∀ (n i : nat) (k : ptr) (st : option cl_int), (i ≤ j < i + n)%nat →
    create_kernel_loop answers progs kernel_name i n k st
    = Some ((answers j).1, Some CL.SUCCESS,
            create_kernel_calls kernel_name (take (S j - i) (drop i progs))).
Proof.
  intros Hlen Hfail Hok. induction n as [|n IH]; intros i k st Hi; [lia|].
  destruct (lookup_lt_is_Some_2 progs i ltac:(lia)) as [p Hp].
  cbn [create_kernel_loop]. rewrite Hp. cbn [mbind option_bind].
  rewrite (drop_S _ _ _ Hp).
  destruct (decide (i = j)) as [->|Hne].
  - destruct (answers j) as [k0 st0] eqn:Ha. simpl in Hok. subst st0.
    replace (S j - j)%nat with 1%nat by lia. reflexivity.
  - specialize (Hfail i ltac:(lia)).
    destruct (answers i) as [k0 st0] eqn:Ha. simpl in Hfail.
    destruct (st0 =? CL.SUCCESS) eqn:E; [apply Z.eqb_eq in E; contradiction|].
    rewrite (IH (S i) k0 (Some st0)) by lia.
    replace (S j - i)%nat with (S (S j - S i)) by lia. reflexivity.
Qed.

Lemma create_kernel_loop_no_match (answers : nat -> ptr * cl_int)
    (progs : list ptr) (kernel_name : string) :
  ∀ (n i : nat) (k : ptr) (st : option cl_int),
    (i + n ≤ length progs)%nat →
    (∀ m, (i ≤ m < i + n)%nat → (answers m).2 ≠ CL.SUCCESS) →
    create_kernel_loop answers progs kernel_name i n k st
    = Some (match n with O => k | S n' => (answers (i + n')%nat).1 end,
            match n with O => st | S n' => Some (answers (i + n')%nat).2 end,
            create_kernel_calls kernel_name (take n (drop i progs))).
Proof.
  induction n as [|n IH]; intros i k st Hlen Hfail.
  - reflexivity.
  - destruct (lookup_lt_is_Some_2 progs i ltac:(lia)) as [p Hp].
    cbn [create_kernel_loop]. rewrite Hp. cbn [mbind option_bind].
    rewrite (drop_S _ _ _ Hp).
    pose proof (Hfail i ltac:(lia)) as Hi.
    destruct (answers i) as [k0 st0] eqn:Ha. simpl in Hi.
    destruct (st0 =? CL.SUCCESS) eqn:E; [apply Z.eqb_eq in E; contradiction|].
    rewrite (IH (S i) k0 (Some st0)) by (try lia; intros m Hm; apply Hfail; lia).
    destruct n as [|n']; cbn [mbind option_bind].
    + rewrite Nat.add_0_r, Ha. reflexivity.
    + replace (S i + n')%nat with (i + S n')%nat by lia. reflexivity.
Qed.

(** X1: on an empty handle, [av_opencl_create_kernel] asks the programs in
    table order and stops at the first that knows the name: the kernel it
    binds is that program's, the calls made are those for the programs up to
    it and no further, and [kernel_count] goes up by one. *)
Theorem create_kernel_first_match (name_size : Z) (env : AVOpenCLKernelEnv)
    (kernel_name : string) (answers : nat -> ptr * cl_int) (g : GPUEnv) (j : nat) :
  Z.of_nat (String.length kernel_name) + 1 ≤ name_size →
  kenv_kernel env = NULL →
  kernel_count g < MAX_KERNEL_NUM →
  (j < Z.to_nat (program_count g))%nat →
  (j < length (programs g))%nat →
  (∀ m, (m < j)%nat → (answers m).2 ≠ CL.SUCCESS) →
  (answers j).2 = CL.SUCCESS →
  av_opencl_create_kernel name_size env kernel_name answers g
  = Some (set_kernel_count (int32 (kernel_count g + 1)) g,
          {| kenv_command_queue := command_queue g;
             kenv_kernel := (answers j).1;
             kenv_kernel_name := kernel_name |},
          RET_OK,
          create_kernel_calls kernel_name (take (S j) (programs g))).
Proof.
  intros Hname Henv Hcount Hj Hlen Hfail Hok.
  unfold av_opencl_create_kernel.
  destruct (_ >? name_size) eqn:E1; [apply Z.gtb_lt in E1; lia|].
  rewrite Henv. change (NULL =? NULL) with true. cbn match.
  destruct (kernel_count g >=? MAX_KERNEL_NUM) eqn:E2;
    [apply Z.geb_le in E2; lia|].
  destruct (program_count g =? 0) eqn:E3; [apply Z.eqb_eq in E3; lia|].
  rewrite (create_kernel_loop_first_match answers (programs g) kernel_name j
             Hlen Hfail Hok) by lia.
  cbn [mbind option_bind]. rewrite Nat.sub_0_r. reflexivity.
Qed.

Lemma create_kernel_first_match_witness :
  av_opencl_create_kernel sample_name_size empty_kernel_env "h"
    third_program_answers three_programs
  = Some (set_kernel_count 1 three_programs,
          {| kenv_command_queue := 12; kenv_kernel := 31; kenv_kernel_name := "h" |},
          RET_OK,
          [clCreateKernel 21 "h"; clCreateKernel 22 "h"; clCreateKernel 23 "h"]).
Proof.
  apply (create_kernel_first_match sample_name_size empty_kernel_env "h"
           third_program_answers three_programs 2).
  - vm_compute. discriminate.
  - reflexivity.
  - reflexivity.
  - vm_compute. lia.
  - vm_compute. lia.
  - intros m Hm. destruct m as [|[|m]]; [discriminate|discriminate|lia].
  - reflexivity.
Defined.

(** X2: when no program knows the name, every program below
    [program_count] has been asked once, in table order; the call fails with
    [AVERROR_EXTERNAL], [kernel_count] and the rest of the environment are
    as before, and the handle holds what the last [clCreateKernel]
    returned.  The status the last program answered is the one that is
    logged: it is taken to be a code of the error table, and its message is
    the one log line. *)
Theorem create_kernel_no_match (name_size : Z) (env : AVOpenCLKernelEnv)
    (kernel_name : string) (answers : nat -> ptr * cl_int) (g : GPUEnv) (n : nat)
    (msg : string) :
  Z.of_nat (String.length kernel_name) + 1 ≤ name_size →
  kenv_kernel env = NULL →
  kernel_count g < MAX_KERNEL_NUM →
  program_count g = Z.of_nat (S n) →
  (S n ≤ length (programs g))%nat →
  (∀ m, (m ≤ n)%nat → (answers m).2 ≠ CL.SUCCESS) →
  opencl_errstr (answers n).2 = Some msg →
  av_opencl_create_kernel name_size env kernel_name answers g
  = Some (g, set_kenv_kernel (answers n).1 env, AVERROR_EXTERNAL,
          create_kernel_calls kernel_name (take (S n) (programs g))
          ++ [av_log AV_LOG_ERROR "Could not create OpenCL kernel: %s\n"
                [ArgErrstr (Some msg)]]).
Proof.
  intros Hname Henv Hcount Hpc Hlen Hfail Hmsg.
  unfold av_opencl_create_kernel.
  destruct (_ >? name_size) eqn:E1; [apply Z.gtb_lt in E1; lia|].
  rewrite Henv. change (NULL =? NULL) with true. cbn match.
  destruct (kernel_count g >=? MAX_KERNEL_NUM) eqn:E2;
    [apply Z.geb_le in E2; lia|].
  destruct (program_count g =? 0) eqn:E3; [apply Z.eqb_eq in E3; lia|].
  rewrite Hpc, Nat2Z.id.
  rewrite (create_kernel_loop_no_match answers (programs g) kernel_name (S n) 0)
    by (try lia; intros m Hm; apply Hfail; lia).
  cbn [mbind option_bind Nat.add].
  specialize (Hfail n ltac:(lia)).
  destruct ((answers n).2 =? CL.SUCCESS) eqn:E4; [apply Z.eqb_eq in E4; contradiction|].
  unfold log_failure. rewrite E4, Hmsg. reflexivity.
Qed.

Lemma create_kernel_no_match_witness :
  av_opencl_create_kernel sample_name_size empty_kernel_env "nowhere"
    (fun _ => (NULL, CL.INVALID_KERNEL_NAME)) three_programs
  = Some (three_programs, empty_kernel_env, AVERROR_EXTERNAL,
          [clCreateKernel 21 "nowhere"; clCreateKernel 22 "nowhere";
           clCreateKernel 23 "nowhere";
           av_log AV_LOG_ERROR "Could not create OpenCL kernel: %s\n"
             [ArgErrstr (Some "INVALID KERNEL NAME")]]).
Proof.
  apply (create_kernel_no_match sample_name_size empty_kernel_env "nowhere"
           (fun _ => (NULL, CL.INVALID_KERNEL_NAME)) three_programs 2
           "INVALID KERNEL NAME").
  - vm_compute. discriminate.
  - reflexivity.
  - reflexivity.
  - reflexivity.
  - vm_compute. lia.
  - intros m Hm. discriminate.
  - vm_compute. reflexivity.
Defined.

Lemma set_kernel_count_undo (g : GPUEnv) (v : Z) :
  set_kernel_count (kernel_count g) (set_kernel_count v g) = g.
Proof. destruct g. reflexivity. Qed.

(** X3: a handle bound by a successful [av_opencl_create_kernel] keeps its
    kernel when it is passed to [av_opencl_create_kernel] again (no call to
    the runtime, nothing changes), and [av_opencl_release_kernel] on it
    releases that kernel, empties the handle and puts the environment back
    to what it was before the creation, the status of the release being
    [CL_SUCCESS] or a code of the error table; a failing status is logged
    and changes nothing else. *)
Theorem create_then_release_round_trip (name_size : Z)
    (env env' : AVOpenCLKernelEnv) (kernel_name other_name : string)
    (answers answers' : nat -> ptr * cl_int) (status : cl_int)
    (g g' : GPUEnv) (tr : trace) :
  INT_MIN ≤ kernel_count g →
  kenv_kernel env = NULL →
  av_opencl_create_kernel name_size env kernel_name answers g
    = Some (g', env', RET_OK, tr) →
  kenv_kernel env' ≠ NULL →
  Z.of_nat (String.length other_name) + 1 ≤ name_size →
  known_status status →
  av_opencl_create_kernel name_size env' other_name answers' g'
    = Some (g', env', RET_OK, [])
  ∧ av_opencl_release_kernel env' status g'
    = (g, empty_kernel_env,
       clReleaseKernel (kenv_kernel env')
         :: log_failure status "Could not release kernel: %s\n")
  ∧ no_event reads_past_table
      (log_failure status "Could not release kernel: %s\n").
Proof.
  intros Hmin Henv Hcreate Hbound Hother Hknown.
  assert (Hne : (kenv_kernel env' =? NULL) = false)
    by (apply Z.eqb_neq; exact Hbound).
  split; [|split; [|by apply log_failure_known]].
  - unfold av_opencl_create_kernel.
    destruct (_ >? name_size) eqn:E1; [apply Z.gtb_lt in E1; lia|].
    rewrite Hne. reflexivity.
  - unfold av_opencl_release_kernel. rewrite Hne.
    unfold av_opencl_create_kernel in Hcreate.
    destruct (_ >? name_size); [discriminate|].
    rewrite Henv in Hcreate. change (NULL =? NULL) with true in Hcreate.
    cbn match in Hcreate.
    destruct (kernel_count g >=? MAX_KERNEL_NUM) eqn:E2; [discriminate|].
    rewrite Z.geb_leb in E2. apply Z.leb_gt in E2. unfold MAX_KERNEL_NUM in E2.
    destruct (program_count g =? 0); [discriminate|].
    destruct (create_kernel_loop _ _ _ _ _ _ _) as [[[k st] tr0]|];
      [|discriminate].
    cbn [mbind option_bind] in Hcreate.
    destruct st as [st|]; [|discriminate]. cbn [mbind option_bind] in Hcreate.
    destruct (st =? CL.SUCCESS); [|discriminate].
    injection Hcreate as <- <- <-.
    cbn [kernel_count set_kernel_count].
    rewrite (int32_small (kernel_count g + 1))
      by (unfold INT_MIN, INT_MAX in *; lia).
    replace (kernel_count g + 1 - 1) with (kernel_count g) by lia.
    rewrite (int32_small (kernel_count g)) by (unfold INT_MIN, INT_MAX in *; lia).
    rewrite set_kernel_count_undo. reflexivity.
Qed.

Lemma create_then_release_round_trip_witness :
  INT_MIN ≤ kernel_count three_programs
  ∧ av_opencl_create_kernel sample_name_size empty_kernel_env "h"
      third_program_answers three_programs
    = Some (set_kernel_count 1 three_programs, bound_kernel_env, RET_OK,
            [clCreateKernel 21 "h"; clCreateKernel 22 "h"; clCreateKernel 23 "h"])
  ∧ av_opencl_create_kernel sample_name_size bound_kernel_env "f"
      third_program_answers (set_kernel_count 1 three_programs)
    = Some (set_kernel_count 1 three_programs, bound_kernel_env, RET_OK, [])
  ∧ av_opencl_release_kernel bound_kernel_env CL.INVALID_KERNEL
      (set_kernel_count 1 three_programs)
    = (three_programs, empty_kernel_env,
       [clReleaseKernel 31;
        av_log AV_LOG_ERROR "Could not release kernel: %s\n"
          [ArgErrstr (Some "INVALID KERNEL")]])
  ∧ no_event reads_past_table
      [av_log AV_LOG_ERROR "Could not release kernel: %s\n"
         [ArgErrstr (Some "INVALID KERNEL")]].
Proof.
  assert (H1 : INT_MIN ≤ kernel_count three_programs) by (vm_compute; discriminate).
  assert (H2 : av_opencl_create_kernel sample_name_size empty_kernel_env "h"
                 third_program_answers three_programs
               = Some (set_kernel_count 1 three_programs, bound_kernel_env, RET_OK,
                       [clCreateKernel 21 "h"; clCreateKernel 22 "h";
                        clCreateKernel 23 "h"])) by reflexivity.
  split; [exact H1|]. split; [exact H2|].
  apply (create_then_release_round_trip sample_name_size empty_kernel_env
           bound_kernel_env "h" "f" third_program_answers third_program_answers
           CL.INVALID_KERNEL three_programs (set_kernel_count 1 three_programs) _
           H1 eq_refl H2).
  - vm_compute. discriminate.
  - vm_compute. discriminate.
  - right. vm_compute. by eexists.
Defined.

(** ** The registry holds each pointer once *)

Lemma find_registered_false (kc : list KernelCode) (src : ptr) :
  ∀ (n i : nat), find_registered kc src i n = Some false →
    ∀ j c, (i ≤ j < i + n)%nat → kc !! j = Some c → kernel_string c ≠ src.
Proof.
  induction n as [|n IH]; intros i H j c Hj Hjc; [lia|].
  cbn [find_registered] in H.
  destruct (kc !! i) as [c0|] eqn:Hc; [|discriminate].
  cbn [mbind option_bind] in H.
  destruct (kernel_string c0 =? src) eqn:E; [discriminate|].
  destruct (decide (j = i)) as [->|Hne].
  - rewrite Hc in Hjc. injection Hjc as <-. apply Z.eqb_neq. exact E.
  - apply (IH (S i) H j c); [lia|exact Hjc].
Qed.

Lemma find_registered_defined (kc : list KernelCode) (src : ptr) :
  ∀ (n i : nat), (i + n ≤ length kc)%nat →
    ∃ b, find_registered kc src i n = Some b.
Proof.
  induction n as [|n IH]; intros i Hlen; [exists false; reflexivity|].
  destruct (lookup_lt_is_Some_2 kc i ltac:(lia)) as [c Hc].
  cbn [find_registered]. rewrite Hc. cbn [mbind option_bind].
  destruct (kernel_string c =? src); [exists true; reflexivity|].
  apply IH. lia.
Qed.

Lemma elem_of_registered_pointers (g : GPUEnv) (src : ptr) :
  src ∈ registered_pointers g ↔ registered g src.
Proof.
  unfold registered_pointers, registered. rewrite list_elem_of_fmap. split.
  - intros (c & -> & Hc). apply list_elem_of_lookup in Hc as [i Hi].
    apply lookup_take_Some in Hi as [Hi Hlt]. exists i, c. done.
  - intros (i & c & Hlt & Hi & <-). exists c. split; [done|].
    apply list_elem_of_lookup. exists i. apply lookup_take_Some. done.
Qed.

Lemma register_tables (src : ptr) (g g' : GPUEnv) (r : av_ret) (tr : trace) :
  0 ≤ kernel_code_count g →
  av_opencl_register_kernel_code src g = Some (g', r, tr) →
  (g' = g
   ∨ (r = RET_OK ∧ tr = []
      ∧ g' = set_kernel_code_count (int32 (kernel_code_count g + 1))
               (set_kernel_code
                  (<[Z.to_nat (kernel_code_count g)
                     := {| is_compiled := 0; kernel_string := src |}]>
                     (kernel_code g)) g)))
  ∧ tables_step (Some src) g g'.
Proof.
  intros Hpos H. unfold av_opencl_register_kernel_code in H.
  destruct (kernel_code_count g >=? MAX_KERNEL_CODE_NUM) eqn:E.
  { unfold fail_with in H. injection H as <- <- <-.
    split; [by left|]. left. done. }
  rewrite Z.geb_leb in E. apply Z.leb_gt in E.
  destruct (find_registered _ _ _ _) as [[|]|] eqn:Hf; [| |discriminate];
    cbn [mbind option_bind] in H.
  { injection H as <- <- <-. split; [by left|]. left. done. }
  unfold arr_set in H.
  destruct (kernel_code_count g <? 0) eqn:E0; [apply Z.ltb_lt in E0; lia|].
  destruct (Z.to_nat (kernel_code_count g) <? length (kernel_code g))%nat eqn:E1;
    [|discriminate].
  apply Nat.ltb_lt in E1. cbn [mbind option_bind] in H.
  injection H as <- <- <-. split; [right; done|].
  right. left. exists src.
  cbn [kernel_code_count kernel_code program_count programs
       set_kernel_code_count set_kernel_code].
  split_and!; try done.
  - rewrite elem_of_registered_pointers. intros (j & c & Hj & Hc & Hs).
    exact (find_registered_false _ _ _ _ Hf j c ltac:(lia) Hc Hs).
  - apply int32_small. unfold INT_MIN, INT_MAX, MAX_KERNEL_CODE_NUM in *. lia.
Qed.

(** ** The tables stay within their bounds *)

Lemma nothing_pending (kc : list KernelCode) :
  ∀ (n i : nat),
    (∀ j, (i ≤ j < i + n)%nat → ∃ c, kc !! j = Some c ∧ is_compiled c ≠ 0) →
    uncompiled_from kc i n = [].
Proof.
  induction n as [|n IH]; intros i H; [reflexivity|].
  rewrite uncompiled_from_S.
  destruct (H i ltac:(lia)) as (c & Hc & Hne).
  rewrite decide_False by (rewrite Hc; simpl; congruence).
  apply IH. intros j Hj. apply H. lia.
Qed.

Lemma uncompiled_from_insert_above (kc : list KernelCode) (j : nat)
    (x : KernelCode) :
  ∀ (n i : nat), (i + n ≤ j)%nat →
    uncompiled_from (<[j := x]> kc) i n = uncompiled_from kc i n.
Proof.
  induction n as [|n IH]; intros i Hj; [reflexivity|].
  rewrite !uncompiled_from_S, IH by lia.
  rewrite list_lookup_insert_ne by lia. reflexivity.
Qed.

Lemma uncompiled_from_snoc (kc : list KernelCode) (n : nat) :
  uncompiled_from kc 0 (S n)
  = uncompiled_from kc 0 n
    ++ (if decide ((is_compiled <$> kc !! n) = Some 0) then [n] else []).
Proof.
  unfold uncompiled_from. rewrite seq_S, filter_app. f_equal.
Qed.

Section TableFacts.

Variable name_size : Z.
Variable cstring : ptr -> option string.

Lemma source_len_loop_pending (kc : list KernelCode) :
  ∀ (n i : nat) (len len' : Z),
    source_len_loop cstring kc i n len = Some len' →
    uncompiled_from kc i n = [] → len' = len.
Proof.
  induction n as [|n IH]; intros i len len' H Hnone.
  - simpl in H. congruence.
  - cbn [source_len_loop] in H. rewrite uncompiled_from_S in Hnone.
    destruct (kc !! i) as [c|] eqn:Hc; [|discriminate].
    cbn [mbind option_bind] in H. simpl in Hnone.
    destruct (is_compiled c =? 0) eqn:E.
    + apply Z.eqb_eq in E. rewrite decide_True in Hnone by congruence.
      discriminate.
    + apply Z.eqb_neq in E. rewrite decide_False in Hnone by congruence.
      eapply IH; eassumption.
Qed.

Lemma source_len_loop_idle (kc : list KernelCode) :
  ∀ (n i : nat) (len : Z),
    (i + n ≤ length kc)%nat → uncompiled_from kc i n = [] →
    source_len_loop cstring kc i n len = Some len.
Proof.
  induction n as [|n IH]; intros i len Hlen Hnone; [reflexivity|].
  cbn [source_len_loop]. rewrite uncompiled_from_S in Hnone.
  destruct (lookup_lt_is_Some_2 kc i ltac:(lia)) as [c Hc].
  rewrite Hc in *. cbn [mbind option_bind]. simpl in Hnone.
  destruct (is_compiled c =? 0) eqn:E.
  - apply Z.eqb_eq in E. rewrite decide_True in Hnone by congruence.
    discriminate.
  - apply Z.eqb_neq in E. rewrite decide_False in Hnone by congruence.
    apply IH; [lia|exact Hnone].
Qed.

Lemma compile_kernel_file_tables (a : compile_answers) (bo : option string)
    (g g' : GPUEnv) (r : av_ret) (tr : trace) :
  compile_kernel_file cstring a bo g = Some (g', r, tr) →
  g' = g ∨ tables_step None g g'.
Proof.
  intros H. unfold compile_kernel_file in H.
  destruct (source_len_loop _ _ _ _ _) as [len|] eqn:Hlen; [|discriminate].
  cbn [mbind option_bind] in H.
  destruct (len =? 0) eqn:E0.
  { unfold proceed in H. injection H as <- <- <-. by left. }
  apply Z.eqb_neq in E0.
  destruct (negb (ans_malloc a)).
  { unfold fail_with in H. injection H as <- <- <-. by left. }
  destruct (concat_loop _ _ _ _ _) as [[kc src]|] eqn:Hcat; [|discriminate].
  cbn [mbind option_bind] in H.
  destruct (ans_program a) as [prog status].
  cbn [programs program_count set_kernel_code] in H.
  unfold arr_set in H.
  destruct (program_count g <? 0) eqn:E1; [discriminate|].
  destruct (Z.to_nat (program_count g) <? length (programs g))%nat eqn:E2;
    [|discriminate].
  apply Z.ltb_ge in E1. apply Nat.ltb_lt in E2.
  cbn [mbind option_bind] in H.
  right. right. right.
  assert (Hpending : pass_fragments g ≠ []).
  { intros Hnone. apply E0.
    exact (source_len_loop_pending _ _ _ _ _ Hlen Hnone). }
  assert (Hkept := concat_loop_flags_kept cstring _ _ _ _ _ _ Hcat).
  assert (Hdone : uncompiled_from kc 0 (Z.to_nat (kernel_code_count g)) = []).
  { apply nothing_pending.
    exact (concat_loop_marks cstring _ _ _ _ _ _ Hcat). }
  assert (Hen : ∀ g1,
             kernel_code g1 = kc → kernel_code_count g1 = kernel_code_count g →
             length (programs g1) = length (programs g) →
             (program_count g1 = program_count g
              ∨ program_count g1 = int32 (program_count g + 1)) →
             pass_fragments g1 = []
             ∧ kernel_code_count g1 = kernel_code_count g
             ∧ flags_kept (kernel_code g) (kernel_code g1)
             ∧ 0 ≤ program_count g < Z.of_nat (length (programs g))
             ∧ length (programs g1) = length (programs g)
             ∧ (program_count g1 = program_count g
                ∨ program_count g1 = int32 (program_count g + 1))).
  { intros g1 H1 H2 H3 H4. unfold pass_fragments. rewrite H1, H2.
    split_and!; try done; lia. }
  destruct (status =? CL.SUCCESS);
    [destruct (prog =? NULL); [|destruct (ans_build a =? CL.SUCCESS)]|];
    unfold fail_with in H; injection H as <- <- <-;
    (split; [exact Hpending|]); apply Hen; try reflexivity;
    cbn [programs set_programs set_program_count set_kernel_code program_count];
    rewrite ?length_insert; auto.
Qed.

Lemma release_programs_length (status : nat -> cl_int) :
  ∀ (n i : nat) (progs progs' : list ptr) (tr : trace),
    release_programs status progs i n = Some (progs', tr) →
    length progs' = length progs.
Proof.
  induction n as [|n IH]; intros i progs progs' tr H.
  - simpl in H. by simplify_eq.
  - cbn [release_programs] in H.
    destruct (progs !! i) as [p|]; [|discriminate].
    cbn [mbind option_bind] in H.
    destruct (p =? NULL); [eauto|].
    destruct (release_programs status (<[i:=NULL]> progs) (S i) n)
      as [[progs1 tr1]|] eqn:Hr; [|discriminate].
    cbn [mbind option_bind] in H. simplify_eq.
    rewrite (IH _ _ _ _ Hr). apply length_insert.
Qed.

Lemma uninit_end_result (g : GPUEnv) (u : OpenclUtils) (tr tr' : trace) (w : world) :
  uninit_end g u tr = (w, tr') → gpu_env w = g.
Proof.
  intros H. destruct (uninit_end_gpu_env g u tr) as [E _].
  rewrite H in E. exact E.
Qed.

Lemma tables_step_same (s : option ptr) (g g' : GPUEnv) :
  kernel_code_count g' = kernel_code_count g →
  kernel_code g' = kernel_code g →
  program_count g' = program_count g →
  length (programs g') = length (programs g) →
  tables_step s g g'.
Proof. intros. left. done. Qed.

Lemma tables_step_frame (s : option ptr) (g1 g2 g3 : GPUEnv) :
  setup_frame g1 g2 → tables_step s g2 g3 → tables_step s g1 g3.
Proof.
  intros (_ & _ & Hc & Hk & Hp & Hs) H.
  unfold tables_step, registered_pointers, pass_fragments in *.
  rewrite Hc, Hk, Hp, Hs in H. exact H.
Qed.

Lemma init_compile_tables (a : init_answers) (u : OpenclUtils) (g g' : GPUEnv)
    (r : av_ret) (tr : trace) :
  init_compile cstring a u g = Some (g', r, tr) → tables_step None g g'.
Proof.
  intros H. unfold init_compile in H.
  apply and_then_inv in H as [[H _]|(g1 & tr1 & tr2 & H & Hk & ->)].
  - apply compile_kernel_file_tables in H as [->|H]; [|exact H].
    by apply tables_step_same.
  - assert (Hg : kernel_code_count g' = kernel_code_count g1
                 ∧ kernel_code g' = kernel_code g1
                 ∧ program_count g' = program_count g1
                 ∧ programs g' = programs g1).
    { destruct (kernel_code_count g1 <=? 0); unfold fail_with, proceed in Hk;
        injection Hk as <- <- <-; done. }
    destruct Hg as (Hc & Hkc & Hp & Hs).
    apply compile_kernel_file_tables in H as [->|H].
    + apply tables_step_same; congruence.
    + unfold tables_step, registered_pointers, pass_fragments in *.
      rewrite Hc, Hkc, Hp, Hs. exact H.
Qed.

Lemma step_tables (c : call) (w w' : world) (r : av_ret) (tr : trace) :
  0 ≤ kernel_code_count (gpu_env w) →
  step name_size cstring c w = Some (w', r, tr) →
  tables_step (registered_source c) (gpu_env w) (gpu_env w').
Proof.
  intros Hpos H. destruct c as [stored|src|env nm answers|env st|ext a|a];
    cbn [step registered_source] in H |- *.
  - destruct (av_opencl_set_option stored (openclutils w)) as [u tr0].
    simplify_eq. by apply tables_step_same.
  - unfold with_gpu_env in H.
    destruct (av_opencl_register_kernel_code src (gpu_env w))
      as [[[g1 r1] tr1]|] eqn:Hr; [|discriminate].
    cbn [mbind option_bind] in H. simplify_eq. cbn [gpu_env].
    exact (proj2 (register_tables _ _ _ _ _ Hpos Hr)).
  - destruct (av_opencl_create_kernel _ _ _ _ _) as [[[[g1 env1] r1] tr1]|] eqn:Hc;
      [|discriminate].
    cbn [mbind option_bind] in H. simplify_eq. cbn [gpu_env].
    apply create_kernel_frame in Hc as [[->| ->] _]; by apply tables_step_same.
  - destruct (av_opencl_release_kernel env st (gpu_env w)) as [[g1 env1] tr1] eqn:Hc.
    simplify_eq. cbn [gpu_env].
    apply release_kernel_frame in Hc as [[->| ->] _]; by apply tables_step_same.
  - unfold av_opencl_init in H.
    destruct (init_count (gpu_env w) =? 0).
    + destruct (ensure_defaults (openclutils w)) as [u tr0].
      destruct (_ >>> _) as [[[g1 r1] tr1]|] eqn:Hi; [|discriminate].
      cbn [mbind option_bind] in H. simplify_eq. cbn [gpu_env].
      apply and_then_inv in Hi as [[Hi _]|(g2 & tr2 & tr3 & Hi & Hk & ->)].
      * apply init_opencl_env_sound in Hi as [(_ & _ & Hc & Hk & Hp & Hs) _].
        cbn [set_platform_idx set_device_idx kernel_code_count kernel_code
             program_count programs] in *.
        apply tables_step_same; congruence.
      * apply init_opencl_env_sound in Hi as [Hf _].
        apply init_compile_tables in Hk.
        assert (Hf0 : setup_frame (gpu_env w) g2).
        { destruct Hf as (? & ? & ? & ? & ? & ?).
          cbn [set_platform_idx set_device_idx kernel_code_count kernel_code
               program_count programs init_count kernel_count] in *. done. }
        exact (tables_step_frame _ _ _ _ Hf0 Hk).
    + destruct (init_compile _ _ _ _) as [[[g1 r1] tr1]|] eqn:Hi; [|discriminate].
      cbn [mbind option_bind] in H. simplify_eq. cbn [gpu_env].
      exact (init_compile_tables _ _ _ _ _ _ Hi).
  - destruct (av_opencl_uninit a w) as [[w1 tr1]|] eqn:Hu; [|discriminate].
    cbn [mbind option_bind] in H. simplify_eq.
    unfold av_opencl_uninit in Hu.
    destruct (negb _).
    { injection Hu as Hu. rewrite (uninit_end_result _ _ _ _ _ Hu).
      by apply tables_step_same. }
    destruct (_ || _).
    { injection Hu as Hu. rewrite (uninit_end_result _ _ _ _ _ Hu).
      by apply tables_step_same. }
    cbn [programs program_count set_init_count] in Hu.
    destruct (release_programs _ _ _ _) as [[progs tr1]|] eqn:Hr; [|discriminate].
    cbn [mbind option_bind] in Hu.
    apply release_programs_length in Hr.
    destruct (release_command_queue _ _) as [g2 tr2] eqn:Hq.
    destruct (release_context _ _) as [g3 tr3] eqn:Hx.
    apply release_command_queue_spec in Hq as [-> _].
    apply release_context_spec in Hx as [-> _].
    destruct (walk_device_list _) as [[]|]; [|discriminate].
    cbn [mbind option_bind] in Hu.
    injection Hu as Hu. rewrite (uninit_end_result _ _ _ _ _ Hu).
    by apply tables_step_same.
Qed.

End TableFacts.

Lemma tables_wf_step (s : option ptr) (g g' : GPUEnv) :
  tables_wf g → tables_step s g g' → tables_wf g'.
Proof.
  intros (Hp & Hk & Hpc & Hsum & Hmax) H. unfold tables_wf.
  destruct H as [(Hc & Hkc & Hpc' & Hlen)
                |[(src & _ & Hc & Hlt & _ & Hc' & Hkc & Hpc' & Hps)
                 |(Hpend & Hnone & Hc & Hkept & Hrange & Hlen & Hpc')]].
  - unfold pass_fragments in *. rewrite Hc, Hkc, Hpc', Hlen. done.
  - unfold pass_fragments in *. rewrite Hc', Hkc, Hpc', Hps, length_insert.
    replace (Z.to_nat (kernel_code_count g + 1))
      with (S (Z.to_nat (kernel_code_count g))) by lia.
    rewrite uncompiled_from_snoc, uncompiled_from_insert_above by lia.
    rewrite list_lookup_insert_eq by exact Hlt. cbn [fmap option_fmap option_map is_compiled].
    rewrite decide_True by reflexivity. rewrite length_app. cbn [length].
    unfold MAX_KERNEL_CODE_NUM in *. split_and!; try done; lia.
  - rewrite Hnone, Hc, Hlen. destruct Hkept as [Hkl _]. rewrite Hkl.
    assert (1 ≤ Z.of_nat (length (pass_fragments g))).
    { destruct (pass_fragments g); [done|]. cbn [length]. lia. }
    assert (int32 (program_count g + 1) = program_count g + 1).
    { apply int32_small. unfold INT_MIN, INT_MAX, MAX_KERNEL_CODE_NUM in *.
      rewrite Hp in Hrange. lia. }
    cbn [length]. split_and!; try done; destruct Hpc' as [-> | ->]; lia.
Qed.

Lemma tables_wf_world0 : tables_wf gpu_env0.
Proof. unfold tables_wf. vm_compute. split_and!; (reflexivity || discriminate). Qed.

Lemma tables_wf_count (g : GPUEnv) : tables_wf g → 0 ≤ kernel_code_count g.
Proof. intros (_ & _ & ? & ? & _). lia. Qed.

Lemma flags_kept_pointers (kc kc' : list KernelCode) (n : nat) :
  flags_kept kc kc' →
  kernel_string <$> take n kc' = kernel_string <$> take n kc.
Proof.
  intros [Hlen Hk]. apply list_eq. intros i.
  rewrite !list_lookup_fmap.
  destruct (decide (i < n)%nat) as [Hi|Hi].
  - rewrite !lookup_take_lt by exact Hi.
    destruct (kc !! i) as [c|] eqn:Hc.
    + destruct (Hk i c Hc) as (c' & -> & Hs & _). simpl. congruence.
    + apply lookup_ge_None in Hc. rewrite <- Hlen in Hc.
      apply lookup_ge_None in Hc. rewrite Hc. reflexivity.
  - rewrite !lookup_take_ge by lia. reflexivity.
Qed.

Lemma registered_pointers_step (s : option ptr) (g g' : GPUEnv) :
  tables_step s g g' →
  registered_pointers g' = registered_pointers g
  ∨ ∃ src, s = Some src ∧ (src ∉ registered_pointers g)
           ∧ registered_pointers g' = registered_pointers g ++ [src].
Proof.
  intros [(Hc & Hkc & _)
         |[(src & Hs & Hc & Hlt & Hfresh & Hc' & Hkc & _)
          |(_ & _ & Hc & Hkept & _)]]; unfold registered_pointers in *.
  - left. rewrite Hc, Hkc. reflexivity.
  - right. exists src. split_and!; try done.
    rewrite Hc', Hkc.
    replace (Z.to_nat (kernel_code_count g + 1))
      with (S (Z.to_nat (kernel_code_count g))) by lia.
    erewrite take_S_r by (apply list_lookup_insert_eq; exact Hlt).
    rewrite take_insert_ge by lia. rewrite fmap_app. reflexivity.
  - left. rewrite Hc. apply flags_kept_pointers. exact Hkept.
Qed.

Lemma create_kernel_loop_defined (answers : nat -> ptr * cl_int)
    (progs : list ptr) (kernel_name : string) :
  ∀ (n i : nat) (k : ptr) (st : option cl_int),
    (i + n ≤ length progs)%nat →
    ∃ k' st' tr, create_kernel_loop answers progs kernel_name i n k st
                 = Some (k', st', tr)
                 ∧ (st' = None → st = None ∧ n = O).
Proof.
  induction n as [|n IH]; intros i k st Hlen.
  - exists k, st, []. done.
  - destruct (lookup_lt_is_Some_2 progs i ltac:(lia)) as [p Hp].
    cbn [create_kernel_loop]. rewrite Hp. cbn [mbind option_bind].
    destruct (answers i) as [k0 st0].
    destruct (st0 =? CL.SUCCESS).
    + eexists _, _, _. split; [reflexivity|]. discriminate.
    + destruct (IH (S i) k0 (Some st0) ltac:(lia)) as (k' & st' & tr & -> & Hst).
      cbn [mbind option_bind]. eexists _, _, _. split; [reflexivity|].
      intros E. destruct (Hst E) as [? _]. discriminate.
Qed.

Lemma release_programs_defined (status : nat -> cl_int) :
  ∀ (n i : nat) (progs : list ptr),
    (i + n ≤ length progs)%nat →
    ∃ progs' tr, release_programs status progs i n = Some (progs', tr).
Proof.
  induction n as [|n IH]; intros i progs Hlen.
  - eexists _, _. reflexivity.
  - cbn [release_programs].
    destruct (progs !! i) as [p|] eqn:Hp;
      [|apply lookup_ge_None in Hp; unfold ptr in *; lia].
    cbn [mbind option_bind].
    destruct (p =? NULL); [apply IH; lia|].
    destruct (IH (S i) (<[i:=NULL]> progs)) as (progs' & tr & ->).
    { rewrite length_insert. lia. }
    cbn [mbind option_bind]. eexists _, _. reflexivity.
Qed.

Section TableRuns.

Variable name_size : Z.
Variable cstring : ptr -> option string.

Lemma run_tables_wf (cs : list call) (w w' : world) (h : list entry) :
  tables_wf (gpu_env w) →
  run name_size cstring cs w = Some (w', h) →
  tables_wf (gpu_env w').
Proof.
  intros Hwf. revert cs w w' h Hwf.
  apply (run_invariant name_size cstring (fun w => tables_wf (gpu_env w))).
  intros c w w' r tr Hw Hs.
  eapply tables_wf_step; [exact Hw|].
  eapply step_tables; [|exact Hs]. by apply tables_wf_count.
Qed.

Lemma step_defined (c : call) (w : world) :
  tables_wf (gpu_env w) → is_init_call c = false →
  walkable (device_list (gpu_env w)) →
  ∃ w' r tr, step name_size cstring c w = Some (w', r, tr).
Proof.
  intros (Hp & Hk & Hpc & Hsum & Hmax) Hc Hwalk.
  assert (Hcount : 0 ≤ kernel_code_count (gpu_env w)) by lia.
  unfold MAX_KERNEL_CODE_NUM in *.
  destruct c as [stored|src|env nm answers|env st|ext a|a]; [| | | |discriminate|];
    cbn [step].
  - destruct (av_opencl_set_option _ _). eexists _, _, _. reflexivity.
  - unfold with_gpu_env, av_opencl_register_kernel_code, fail_with.
    destruct (_ >=? _) eqn:E; cbn [mbind option_bind];
      [eexists _, _, _; reflexivity|].
    rewrite Z.geb_leb in E. apply Z.leb_gt in E. unfold MAX_KERNEL_CODE_NUM in E.
    destruct (find_registered_defined (kernel_code (gpu_env w)) src
                (Z.to_nat (kernel_code_count (gpu_env w))) 0 ltac:(lia))
      as [[|] ->]; cbn [mbind option_bind]; [eexists _, _, _; reflexivity|].
    unfold arr_set.
    destruct (_ <? 0) eqn:E0; [apply Z.ltb_lt in E0; lia|].
    destruct (_ <? _)%nat eqn:E1; [|apply Nat.ltb_ge in E1; lia].
    cbn [mbind option_bind]. eexists _, _, _. reflexivity.
  - unfold av_opencl_create_kernel.
    destruct (_ >? name_size); cbn [mbind option_bind];
      [eexists _, _, _; reflexivity|].
    destruct (kenv_kernel env =? NULL); cbn [mbind option_bind];
      [|eexists _, _, _; reflexivity].
    destruct (_ >=? _); cbn [mbind option_bind]; [eexists _, _, _; reflexivity|].
    destruct (program_count (gpu_env w) =? 0) eqn:E; cbn [mbind option_bind];
      [eexists _, _, _; reflexivity|].
    apply Z.eqb_neq in E.
    destruct (create_kernel_loop_defined answers (programs (gpu_env w)) nm
                (Z.to_nat (program_count (gpu_env w))) 0 (kenv_kernel env) None
                ltac:(lia)) as (k' & st' & tr & -> & Hst).
    cbn [mbind option_bind].
    destruct st' as [st'|]; [|destruct (Hst eq_refl); lia].
    cbn [mbind option_bind].
    destruct (st' =? CL.SUCCESS); eexists _, _, _; reflexivity.
  - destruct (av_opencl_release_kernel _ _ _) as [[? ?] ?].
    eexists _, _, _. reflexivity.
  - unfold av_opencl_uninit.
    destruct (negb _); cbn [mbind option_bind];
      [destruct (uninit_end _ _ _); eexists _, _, _; reflexivity|].
    destruct (_ || _); cbn [mbind option_bind];
      [destruct (uninit_end _ _ _); eexists _, _, _; reflexivity|].
    cbn [programs program_count set_init_count].
    destruct (release_programs_defined (ans_release_program a)
                (Z.to_nat (program_count (gpu_env w))) 0 (programs (gpu_env w))
                ltac:(lia)) as (progs' & tr & ->).
    cbn [mbind option_bind].
    destruct (release_command_queue _ _) as [g2 tr2] eqn:Hq.
    apply release_command_queue_spec in Hq as [-> _].
    destruct (release_context _ _) as [g3 tr3] eqn:Hx.
    apply release_context_spec in Hx as [-> _].
    cbn [device_list set_context set_command_queue set_programs set_init_count].
    unfold walkable in Hwalk. rewrite Hwalk. cbn [mbind option_bind].
    destruct (uninit_end _ _ _). cbn [mbind option_bind].
    eexists _, _, _. reflexivity.
Qed.

End TableRuns.

(** X4: along every run from the initial state the two tables keep their
    200 slots and the counters that index them stay inside:
    [0 <= program_count], [program_count] plus the number of pending
    sources is at most [kernel_code_count], which is at most 200.  So a
    compile pass that has something to compile finds
    [programs[program_count]] inside the table. *)
Theorem tables_stay_in_bounds (name_size : Z) (cstring : ptr -> option string)
    (cs : list call) (w : world) (h : list entry) :
  run name_size cstring cs world0 = Some (w, h) →
  tables_wf (gpu_env w)
  ∧ (pass_fragments (gpu_env w) ≠ [] →
     program_count (gpu_env w) < Z.of_nat (length (programs (gpu_env w)))).
Proof.
  intros H.
  assert (Hwf := run_tables_wf name_size cstring cs world0 w h tables_wf_world0 H).
  split; [exact Hwf|].
  destruct Hwf as (Hp & _ & _ & Hsum & Hmax). intros Hne. rewrite Hp.
  destruct (pass_fragments (gpu_env w)); [done|]. cbn [length] in Hsum.
  unfold MAX_KERNEL_CODE_NUM in *. lia.
Qed.

Lemma tables_stay_in_bounds_witness :
  run sample_name_size sample_cstring pending_run world0
  = Some (world_after pending_run, history_after pending_run)
  ∧ pass_fragments (gpu_env (world_after pending_run)) = [1%nat]
  ∧ program_count (gpu_env (world_after pending_run)) = 1
  ∧ tables_wf (gpu_env (world_after pending_run))
  ∧ (pass_fragments (gpu_env (world_after pending_run)) ≠ [] →
     program_count (gpu_env (world_after pending_run))
     < Z.of_nat (length (programs (gpu_env (world_after pending_run))))).
Proof.
  assert (Hrun : run sample_name_size sample_cstring pending_run world0
                 = Some (world_after pending_run, history_after pending_run))
    by (vm_compute; reflexivity).
  split; [exact Hrun|]. split; [vm_compute; reflexivity|].
  split; [vm_compute; reflexivity|].
  exact (tables_stay_in_bounds sample_name_size sample_cstring pending_run
           (world_after pending_run) (history_after pending_run) Hrun).
Defined.

(** *** Known statuses and walkable lists along runs *)

Lemma create_kernel_loop_known (answers : nat -> ptr * cl_int) (progs : list ptr)
    (kernel_name : string) :
  (∀ i, known_status (answers i).2) →
  ∀ (n i : nat) (k : ptr) (st : option cl_int) (k' : ptr) (st' : option cl_int)
    (tr' : trace),
    create_kernel_loop answers progs kernel_name i n k st = Some (k', st', tr') →
    no_event reads_past_table tr'
    ∧ ∀ s, st' = Some s → st = Some s ∨ known_status s.
Proof.
  intros Hknown. induction n as [|n IH]; intros i k st k' st' tr' Hl; simpl in Hl.
  - simplify_eq. split; [within_table|]. intros s Hs. by left.
  - destruct (progs !! i) as [p|]; simpl in Hl; [|discriminate].
    pose proof (Hknown i) as Hi.
    destruct (answers i) as [k1 st1]. cbn [snd] in Hi.
    destruct (st1 =? CL.SUCCESS).
    + simplify_eq. split; [within_table|]. intros s Hs. simplify_eq. by right.
    + destruct (create_kernel_loop answers progs kernel_name (S i) n k1 (Some st1))
        as [[[k2 st2] tr2]|] eqn:Hr; simpl in Hl; [|discriminate].
      simplify_eq. destruct (IH _ _ _ _ _ _ Hr) as [Hq Hs].
      split; [apply no_event_cons; [reflexivity|exact Hq]|].
      intros s Hs'. destruct (Hs s Hs') as [?|?]; [simplify_eq|]; by right.
Qed.

Lemma release_programs_known (status : nat -> cl_int) :
  (∀ i, known_status (status i)) →
  ∀ (n i : nat) (progs progs' : list ptr) (tr : trace),
    release_programs status progs i n = Some (progs', tr) →
    no_event reads_past_table tr.
Proof.
  intros Hknown. induction n as [|n IH]; intros i progs progs' tr H; simpl in H.
  - simplify_eq. within_table.
  - destruct (progs !! i) as [p|]; simpl in H; [|discriminate].
    destruct (p =? NULL); [exact (IH _ _ _ _ H)|].
    destruct (release_programs status (<[i:=NULL]> progs) (S i) n)
      as [[progs1 tr1]|] eqn:Hr; simpl in H; [|discriminate].
    simplify_eq. apply no_event_cons; [reflexivity|].
    apply no_event_app; [within_table | exact (IH _ _ _ _ Hr)].
Qed.

Lemma uninit_known (a : uninit_answers) (w w' : world) (tr : trace) :
  uninit_statuses_known a →
  av_opencl_uninit a w = Some (w', tr) →
  no_event reads_past_table tr.
Proof.
  intros (Hp & Hq & Hc) H. unfold av_opencl_uninit in H.
  assert (Hend : ∀ g u t w1 t1, no_event reads_past_table t →
            uninit_end g u t = (w1, t1) → no_event reads_past_table t1).
  { intros g u t w1 t1 Ht He.
    destruct (uninit_end_gpu_env g u t) as [_ Hcases]. rewrite He in Hcases.
    cbn [snd] in Hcases. destruct Hcases as [-> | ->]; [exact Ht|].
    apply no_event_app; [exact Ht|within_table]. }
  destruct (negb _).
  { injection H as H. eapply Hend; [|exact H]. within_table. }
  destruct (_ || _).
  { injection H as H. eapply Hend; [|exact H]. within_table. }
  destruct (release_programs _ _ _ _) as [[progs tr1]|] eqn:Hr; [|discriminate].
  cbn [mbind option_bind] in H.
  apply (release_programs_known _ Hp) in Hr.
  unfold release_command_queue, release_context in H.
  destruct (command_queue _ =? NULL); destruct (context _ =? NULL);
    (destruct (walk_device_list _) as [[]|]; [|discriminate]);
    cbn [mbind option_bind] in H; injection H as H;
    (eapply Hend; [|exact H]); within_table; exact Hr.
Qed.

Section KnownRuns.

Variable name_size : Z.
Variable cstring : ptr -> option string.

Lemma step_known (c : call) (w w' : world) (r : av_ret) (tr : trace) :
  is_init_call c = false → known_statuses c →
  step name_size cstring c w = Some (w', r, tr) →
  no_event reads_past_table tr.
Proof.
  intros Hc Hknown H.
  destruct c as [stored|src|env nm answers|env st|ext a|a]; [| | | |discriminate|];
    cbn [step known_statuses] in H, Hknown.
  - unfold av_opencl_set_option, ensure_defaults in H.
    destruct (init_flag _ =? 0); destruct stored as [[? ?] ?];
      simplify_eq; within_table.
  - unfold with_gpu_env, av_opencl_register_kernel_code, fail_with in H.
    destruct (_ >=? _); cbn [mbind option_bind] in H; [simplify_eq; within_table|].
    destruct (find_registered _ _ _ _) as [[|]|]; cbn [mbind option_bind] in H;
      [simplify_eq; within_table| |discriminate].
    destruct (arr_set _ _ _); cbn [mbind option_bind] in H; [|discriminate].
    simplify_eq. within_table.
  - destruct (av_opencl_create_kernel _ _ _ _ _) as [[[[g1 e1] r1] tr1]|] eqn:Hk;
      cbn [mbind option_bind] in H; [|discriminate].
    simplify_eq. unfold av_opencl_create_kernel in Hk.
    destruct (_ >? name_size); [simplify_eq; within_table|].
    destruct (kenv_kernel env =? NULL); [|simplify_eq; within_table].
    destruct (_ >=? _); [simplify_eq; within_table|].
    destruct (program_count (gpu_env w) =? 0); [simplify_eq; within_table|].
    destruct (create_kernel_loop _ _ _ _ _ _ _) as [[[k st] tr1]|] eqn:Hl;
      cbn [mbind option_bind] in Hk; [|discriminate].
    destruct (create_kernel_loop_known answers _ _ Hknown _ _ _ _ _ _ _ Hl)
      as [Hq Hs].
    destruct st as [st|]; cbn [mbind option_bind] in Hk; [|discriminate].
    destruct (Hs st eq_refl) as [?|Hst]; [discriminate|].
    destruct (st =? CL.SUCCESS); simplify_eq; [exact Hq|].
    apply no_event_app; [exact Hq|within_table].
  - destruct (av_opencl_release_kernel _ _ _) as [[g1 e1] tr1] eqn:Hk.
    simplify_eq. unfold av_opencl_release_kernel in Hk.
    destruct (kenv_kernel env =? NULL); simplify_eq; within_table.
  - destruct (av_opencl_uninit a w) as [[w1 tr1]|] eqn:Hu;
      cbn [mbind option_bind] in H; [|discriminate].
    simplify_eq. exact (uninit_known a w w' tr Hknown Hu).
Qed.

Lemma first_usable_platform_device_list (nodes : list AVOpenCLPlatformNode)
    (g : GPUEnv) :
  ∀ (n i : nat) (g' : GPUEnv),
    first_usable_platform nodes i n g = Some g' →
    device_list g' = device_list g.
Proof.
  induction n as [|n IH]; intros i g' H; simpl in H.
  - by simplify_eq.
  - destruct (nodes !! i) as [node|]; [|discriminate]. simpl in H.
    destruct (pn_device_num node =? 0); [exact (IH _ _ H)|].
    by simplify_eq.
Qed.

(** The cached device list changes only when [get_device_list] answers a
    new one or [av_opencl_uninit] frees it. *)
Lemma init_opencl_env_device_list (ext : option AVOpenCLExternalEnv)
    (a : init_answers) (g g' : GPUEnv) (r : av_ret) (tr : trace) :
  init_opencl_env ext a g = Some (g', r, tr) →
  device_list g' = device_list g ∨ device_list g' = (ans_device_list a).2.
Proof.
  unfold init_opencl_env. intros H.
  set (R := fun g1 g2 : GPUEnv =>
              device_list g2 = device_list g1
              ∨ device_list g2 = (ans_device_list a).2).
  assert (Htrans : ∀ x y z, R x y → R y z → R x z).
  { unfold R. intros x y z [Hxy|Hxy] [Hyz|Hyz]; rewrite ?Hyz, ?Hxy; auto. }
  assert (Hframe : ∀ g1 g2, setup_frame g1 g2 → True) by done.
  destruct ext as [ext|].
  - destruct (is_user_created g =? 0); unfold proceed in H; simplify_eq; by left.
  - destruct (is_user_created g =? 0); [|unfold proceed in H; simplify_eq; by left].
    enough (Hs : stage_sound R (fun _ => True) g
                   ((if platform_num (device_list g) =? 0
                     then let '(ret, dl) := ans_device_list a in
                          Some (set_device_list dl g, ret, [get_device_list])
                     else proceed g)
                    >>> select_platform >>> select_device
                    >>> create_context_and_queue a))
      by exact (proj1 (Hs _ _ _ H)).
    repeat (apply and_then_sound; [exact Htrans | done | |]).
    + intros g1 r1 tr1 H1. split; [|done].
      destruct (platform_num (device_list g) =? 0).
      * destruct (ans_device_list a) as [ret dl]. simplify_eq. by right.
      * unfold proceed in H1. simplify_eq. by left.
    + intros g0 g1 r1 tr1 H1. split; [|done]. left.
      unfold select_platform in H1.
      match type of H1 with
      | ?m >>> _ = _ =>
          assert (Hfirst : ∀ g2 r2 t2, m = Some (g2, r2, t2) →
                    device_list g2 = device_list g0)
      end.
      { intros g2 r2 t2 H2. destruct (platform_idx g0 >=? 0).
        - stage_leaves H2; simplify_eq; reflexivity.
        - destruct (first_usable_platform _ _ _ _) as [g3|] eqn:Hf; [|discriminate].
          unfold proceed in H2. cbn [mbind option_bind] in H2. simplify_eq.
          by destruct (first_usable_platform_device_list _ _ _ _ _ Hf). }
      apply and_then_inv in H1 as [[H1 _]|(g2 & t2 & t3 & H1 & H2 & _)].
      * exact (Hfirst _ _ _ H1).
      * rewrite <- (Hfirst _ _ _ H1). stage_leaves H2; simplify_eq; reflexivity.
    + intros g0 g1 r1 tr1 H1. split; [|done]. left.
      unfold select_device in H1.
      apply and_then_inv in H1 as [[H1 _]|(g2 & t2 & t3 & H1 & H2 & _)].
      * stage_leaves H1; simplify_eq; reflexivity.
      * assert (Hd : device_list g2 = device_list g0)
          by (stage_leaves H1; simplify_eq; reflexivity).
        rewrite <- Hd.
        destruct (arr_get (platform_node (device_list g0)) (platform_idx g2))
          as [pnode|]; simpl in H2; [|discriminate].
        destruct (arr_get (pn_device_node pnode) (device_idx g2)) as [dnode|];
          simpl in H2; [|discriminate].
        by simplify_eq.
    + intros g0 g1 r1 tr1 H1. split; [|done]. left.
      unfold create_context_and_queue in H1.
      stage_leaves H1; simplify_eq; reflexivity.
Qed.

Lemma step_device_list (c : call) (w w' : world) (r : av_ret) (tr : trace) :
  step name_size cstring c w = Some (w', r, tr) →
  device_list (gpu_env w') = device_list (gpu_env w)
  ∨ device_list (gpu_env w') = freed_device_list
  ∨ ∃ ext a, c = init ext a ∧ device_list (gpu_env w') = (ans_device_list a).2.
Proof.
  intros H.
  destruct c as [stored|src|env nm answers|env st|ext a|a]; cbn [step] in H.
  - destruct (av_opencl_set_option _ _). simplify_eq. by left.
  - unfold with_gpu_env in H.
    destruct (av_opencl_register_kernel_code _ _) as [[[g1 r1] tr1]|] eqn:Hr;
      cbn [mbind option_bind] in H; [|discriminate].
    simplify_eq. left. cbn [gpu_env].
    unfold av_opencl_register_kernel_code, fail_with in Hr.
    destruct (_ >=? _); [by simplify_eq|].
    destruct (find_registered _ _ _ _) as [[|]|]; cbn [mbind option_bind] in Hr;
      [by simplify_eq| |discriminate].
    destruct (arr_set _ _ _); cbn [mbind option_bind] in Hr; [|discriminate].
    by simplify_eq.
  - destruct (av_opencl_create_kernel _ _ _ _ _) as [[[[g1 e1] r1] tr1]|] eqn:Hk;
      cbn [mbind option_bind] in H; [|discriminate].
    simplify_eq. left. cbn [gpu_env].
    by destruct (create_kernel_frame _ _ _ _ _ _ _ _ _ Hk) as [[-> | ->] _].
  - destruct (av_opencl_release_kernel _ _ _) as [[g1 e1] tr1] eqn:Hk.
    simplify_eq. left. cbn [gpu_env].
    by destruct (release_kernel_frame _ _ _ _ _ _ Hk) as [[-> | ->] _].
  - unfold av_opencl_init in H.
    destruct (init_count (gpu_env w) =? 0).
    + destruct (ensure_defaults (openclutils w)) as [u tr0].
      destruct (_ >>> _) as [[[g1 r1] tr1]|] eqn:Hi; [|discriminate].
      cbn [mbind option_bind] in H. simplify_eq. cbn [gpu_env].
      assert (Hd : ∀ g2 r2 tr2,
                init_opencl_env ext a
                  (set_platform_idx (opt_platform_idx u)
                     (set_device_idx (opt_device_idx u) (gpu_env w)))
                = Some (g2, r2, tr2) →
                device_list g2 = device_list (gpu_env w)
                ∨ device_list g2 = (ans_device_list a).2).
      { intros g2 r2 tr2 H2. exact (init_opencl_env_device_list _ _ _ _ _ _ H2). }
      apply and_then_inv in Hi as [[Hi _]|(g2 & tr2 & tr3 & Hi & Hk & ->)].
      * destruct (Hd _ _ _ Hi) as [-> | ->]; [by left|]. right. right. by exists ext, a.
      * unfold init_compile in Hk.
        assert (Hc : device_list g1 = device_list g2).
        { apply and_then_inv in Hk as [[Hk _]|(g3 & t3 & t4 & Hk & Hk2 & _)].
          - by destruct (compile_kernel_file_sound _ _ _ _ _ _ _ Hk)
              as [(?&?&?&?&?&?&?&?&?&?&?) _].
          - destruct (compile_kernel_file_sound _ _ _ _ _ _ _ Hk)
              as [(?&?&?&?&?&?&?&?&?&?&Hdl) _].
            rewrite <- Hdl.
            destruct (kernel_code_count g3 <=? 0);
              unfold fail_with, proceed in Hk2; by simplify_eq. }
        rewrite Hc.
        destruct (Hd _ _ _ Hi) as [-> | ->]; [by left|]. right. right. by exists ext, a.
    + destruct (init_compile _ _ _ _) as [[[g1 r1] tr1]|] eqn:Hk; [|discriminate].
      cbn [mbind option_bind] in H. simplify_eq. cbn [gpu_env]. left.
      unfold init_compile in Hk.
      apply and_then_inv in Hk as [[Hk _]|(g3 & t3 & t4 & Hk & Hk2 & _)].
      * by destruct (compile_kernel_file_sound _ _ _ _ _ _ _ Hk)
          as [(?&?&?&?&?&?&?&?&?&?&?) _].
      * destruct (compile_kernel_file_sound _ _ _ _ _ _ _ Hk)
          as [(?&?&?&?&?&?&?&?&?&?&Hdl) _].
        rewrite <- Hdl.
        destruct (kernel_code_count g3 <=? 0);
          unfold fail_with, proceed in Hk2; by simplify_eq.
  - destruct (av_opencl_uninit a w) as [[w1 tr1]|] eqn:Hu;
      cbn [mbind option_bind] in H; [|discriminate].
    simplify_eq.
    destruct (uninit_gate_cases (gpu_env w)) as [Hg|(Hg0 & Hg1 & Hg2)].
    + destruct (uninit_closed_gate a w Hg) as (w4 & tr4 & H4 & Hw & _).
      rewrite H4 in Hu. simplify_eq. left. by rewrite Hw.
    + right. left.
      by destruct (uninit_open_gate a w w' tr Hg0 Hg1 Hg2 Hu)
        as (_&_&_&_&_&_&_&?&_).
Qed.

Lemma walkable_freed : walkable freed_device_list.
Proof. reflexivity. Qed.

Lemma run_walkable (cs : list call) :
  Forall answers_walkable_list cs →
  ∀ (w w' : world) (h : list entry),
    walkable (device_list (gpu_env w)) →
    run name_size cstring cs w = Some (w', h) →
    walkable (device_list (gpu_env w')).
Proof.
  induction 1 as [|c cs Hc _ IH]; intros w w' h Hw H.
  - simpl in H. by simplify_eq.
  - apply run_cons_inv in H as (w1 & r & tr & h' & Hs & Hr & ->).
    apply (IH w1 w' h'); [|exact Hr].
    destruct (step_device_list c w w1 r tr Hs) as [-> | [-> | (ext & a & -> & ->)]];
      [exact Hw|exact walkable_freed|exact Hc].
Qed.

End KnownRuns.

(** X5: take a state reached from the initial one by a run in which every
    [av_opencl_init] was answered a device list that [free_device_list] can
    walk.  There, registering a source, creating or releasing a kernel,
    setting an option and uninit run to their return when the statuses the
    runtime answers them are codes of the error table: none of them indexes
    [kernel_code], [programs] or the cached device list out of bounds, and
    no log call prints a message that [opencl_errstr] did not find. *)
Theorem calls_stay_inside_tables (name_size : Z) (cstring : ptr -> option string)
    (cs : list call) (w : world) (h : list entry) (c : call) :
  run name_size cstring cs world0 = Some (w, h) →
  Forall answers_walkable_list cs →
  is_init_call c = false →
  known_statuses c →
  ∃ w' r tr,
    step name_size cstring c w = Some (w', r, tr)
    ∧ no_event reads_past_table tr.
Proof.
  intros H Hlists Hc Hknown.
  destruct (step_defined name_size cstring c w) as (w' & r & tr & Hs).
  - exact (run_tables_wf name_size cstring cs world0 w h tables_wf_world0 H).
  - exact Hc.
  - exact (run_walkable name_size cstring cs Hlists world0 w h walkable_freed H).
  - exists w', r, tr. split; [exact Hs|].
    exact (step_known name_size cstring c w w' r tr Hc Hknown Hs).
Qed.

Lemma calls_stay_inside_tables_witness :
  run sample_name_size sample_cstring pending_run world0
  = Some (world_after pending_run, history_after pending_run)
  ∧ Forall answers_walkable_list pending_run
  ∧ known_statuses (uninit sample_uninit_answers)
  ∧ ∃ w' r tr,
      step sample_name_size sample_cstring (uninit sample_uninit_answers)
        (world_after pending_run)
      = Some (w', r, tr)
      ∧ no_event reads_past_table tr.
Proof.
  assert (Hrun : run sample_name_size sample_cstring pending_run world0
                 = Some (world_after pending_run, history_after pending_run))
    by (vm_compute; reflexivity).
  assert (Hlists : Forall answers_walkable_list pending_run)
    by (repeat constructor).
  assert (Hknown : known_statuses (uninit sample_uninit_answers))
    by (repeat split; intros; by left).
  split; [exact Hrun|]. split; [exact Hlists|]. split; [exact Hknown|].
  exact (calls_stay_inside_tables sample_name_size sample_cstring pending_run
           (world_after pending_run) (history_after pending_run)
           (uninit sample_uninit_answers) Hrun Hlists eq_refl Hknown).
Defined.

(** ** The registry grows by fresh pointers only *)

(** X6: whatever is called, the list of registered pointers only grows at
    its end, and by pointers it does not hold yet: a registered source is
    never dropped or moved, and no pointer is registered twice. *)
Theorem registry_grows_without_duplicates (name_size : Z)
    (cstring : ptr -> option string) (cs : list call) (w w' : world)
    (h : list entry) :
  tables_wf (gpu_env w) →
  NoDup (registered_pointers (gpu_env w)) →
  run name_size cstring cs w = Some (w', h) →
  NoDup (registered_pointers (gpu_env w'))
  ∧ registered_pointers (gpu_env w) `prefix_of` registered_pointers (gpu_env w').
Proof.
  intros Hwf Hnd Hrun.
  enough (tables_wf (gpu_env w')
          ∧ NoDup (registered_pointers (gpu_env w'))
          ∧ registered_pointers (gpu_env w)
              `prefix_of` registered_pointers (gpu_env w')) by tauto.
  revert Hrun.
  apply (run_invariant name_size cstring
           (fun w1 => tables_wf (gpu_env w1)
                      ∧ NoDup (registered_pointers (gpu_env w1))
                      ∧ registered_pointers (gpu_env w)
                          `prefix_of` registered_pointers (gpu_env w1)));
    [|done].
  intros c w1 w2 r tr (Hwf1 & Hnd1 & Hpre) Hs.
  assert (Hst := step_tables name_size cstring c w1 w2 r tr
                   (tables_wf_count _ Hwf1) Hs).
  split; [exact (tables_wf_step _ _ _ Hwf1 Hst)|].
  destruct (registered_pointers_step _ _ _ Hst) as [->|(src & _ & Hfresh & ->)];
    [done|].
  split.
  - apply NoDup_app. split_and!; [exact Hnd1| |apply NoDup_singleton].
    intros x Hx Hx'. apply list_elem_of_singleton in Hx'. by subst.
  - etrans; [exact Hpre|]. by apply prefix_app_r.
Qed.

Lemma registry_grows_without_duplicates_witness :
  tables_wf (gpu_env world0)
  ∧ NoDup (registered_pointers (gpu_env world0))
  ∧ registered_pointers (gpu_env (world_after pending_run)) = [1; 2]
  ∧ NoDup (registered_pointers (gpu_env (world_after pending_run)))
  ∧ registered_pointers (gpu_env world0)
      `prefix_of` registered_pointers (gpu_env (world_after pending_run)).
Proof.
  assert (Hnd : NoDup (registered_pointers (gpu_env world0)))
    by (vm_compute; constructor).
  split; [exact tables_wf_world0|]. split; [exact Hnd|].
  split; [vm_compute; reflexivity|].
  apply (registry_grows_without_duplicates sample_name_size sample_cstring
           pending_run world0 (world_after pending_run)
           (history_after pending_run) tables_wf_world0 Hnd).
  vm_compute. reflexivity.
Defined.

(** ** The live kernel count *)

Section KernelCountFacts.

Variable name_size : Z.
Variable cstring : ptr -> option string.

Lemma step_kernel_count (c : call) (w w' : world) (r : av_ret) (tr : trace) :
  step name_size cstring c w = Some (w', r, tr) →
  Z.abs (kernel_count (gpu_env w)) + 1 ≤ INT_MAX →
  kernel_count (gpu_env w) ≤ MAX_KERNEL_NUM →
  kernel_count (gpu_env w')
  = kernel_count (gpu_env w) + (if binds_kernel (c, r, tr) then 1 else 0)
    - (if gives_back_kernel (c, r, tr) then 1 else 0)
  ∧ kernel_count (gpu_env w') ≤ MAX_KERNEL_NUM.
Proof.
  intros H Hb Hmax.
  destruct c as [stored|src|env nm answers|env st|ext a|a];
    cbn [step binds_kernel gives_back_kernel] in H |- *.
  - destruct (av_opencl_set_option stored (openclutils w)) as [u tr0].
    simplify_eq. cbn [gpu_env]. split; [lia|done].
  - unfold with_gpu_env in H.
    destruct (av_opencl_register_kernel_code src (gpu_env w))
      as [[[g1 r1] tr1]|] eqn:Hr; [|discriminate].
    cbn [mbind option_bind] in H. simplify_eq. cbn [gpu_env].
    apply register_frame in Hr as (_ & -> & _). split; [|done].
    destruct r; lia.
  - unfold av_opencl_create_kernel in H.
    destruct (_ >? name_size); cbn [mbind option_bind] in H;
      [simplify_eq; cbn [gpu_env]; split; [lia|done]|].
    destruct (kenv_kernel env =? NULL); cbn [mbind option_bind] in H;
      [|simplify_eq; cbn [gpu_env]; split; [lia|done]].
    destruct (_ >=? _) eqn:E; cbn [mbind option_bind] in H;
      [simplify_eq; cbn [gpu_env]; split; [lia|done]|].
    rewrite Z.geb_leb in E. apply Z.leb_gt in E.
    destruct (program_count (gpu_env w) =? 0); cbn [mbind option_bind] in H;
      [simplify_eq; cbn [gpu_env]; split; [lia|done]|].
    destruct (create_kernel_loop _ _ _ _ _ _ _) as [[[k st] tr0]|];
      [|discriminate].
    cbn [mbind option_bind] in H. destruct st as [st|]; [|discriminate].
    cbn [mbind option_bind] in H.
    destruct (st =? CL.SUCCESS); cbn [mbind option_bind] in H; simplify_eq;
      cbn [gpu_env]; [|split; [lia|done]].
    cbn [kernel_count set_kernel_count].
    rewrite int32_small by (unfold INT_MIN, INT_MAX, MAX_KERNEL_NUM in *; lia).
    split; lia.
  - unfold av_opencl_release_kernel in H.
    destruct (kenv_kernel env =? NULL); simplify_eq; cbn [gpu_env negb];
      [split; [lia|done]|].
    cbn [kernel_count set_kernel_count].
    rewrite int32_small by (unfold INT_MIN, INT_MAX in *; lia).
    split; lia.
  - apply av_opencl_init_sound in H as (_ & -> & _). split; [|done].
    destruct r; lia.
  - destruct (av_opencl_uninit a w) as [[w1 tr1]|] eqn:Hu; [|discriminate].
    cbn [mbind option_bind] in H. simplify_eq.
    apply uninit_frame in Hu as (_ & -> & _). split; [lia|done].
Qed.

Lemma run_kernel_count (cs : list call) :
  ∀ (w w' : world) (h : list entry),
    run name_size cstring cs w = Some (w', h) →
    Z.abs (kernel_count (gpu_env w)) + Z.of_nat (length cs) ≤ INT_MAX →
    kernel_count (gpu_env w) ≤ MAX_KERNEL_NUM →
    kernel_count (gpu_env w')
    = kernel_count (gpu_env w) + count_entries binds_kernel h
      - count_entries gives_back_kernel h
    ∧ kernel_count (gpu_env w') ≤ MAX_KERNEL_NUM.
Proof.
  induction cs as [|c cs IH]; intros w w' h H Hb Hmax.
  - simpl in H. simplify_eq. unfold count_entries. simpl. split; [lia|done].
  - apply run_cons_inv in H as (w1 & r & tr & h' & Hs & Hr & ->).
    cbn [length] in Hb.
    destruct (step_kernel_count _ _ _ _ _ Hs ltac:(lia) Hmax) as [E1 Hmax1].
    destruct (IH _ _ _ Hr) as [E2 Hmax2]; [|exact Hmax1|].
    + rewrite E1. destruct (binds_kernel _), (gives_back_kernel _); lia.
    + rewrite !count_entries_cons. split; [lia|done].
Qed.

End KernelCountFacts.

(** X7: [kernel_count] is the number of kernels callers hold: along a run
    from the initial state (of at most [INT_MAX] calls) it is the number of
    creations that bound an empty handle minus the number of releases of a
    handle that held a kernel, and it never exceeds [MAX_KERNEL_NUM]. *)
Theorem kernel_count_counts_live_kernels (name_size : Z)
    (cstring : ptr -> option string) (cs : list call) (w : world)
    (h : list entry) :
  Z.of_nat (length cs) ≤ INT_MAX →
  run name_size cstring cs world0 = Some (w, h) →
  kernel_count (gpu_env w)
  = count_entries binds_kernel h - count_entries gives_back_kernel h
  ∧ kernel_count (gpu_env w) ≤ MAX_KERNEL_NUM.
Proof.
  intros Hb H.
  destruct (run_kernel_count name_size cstring cs world0 w h H) as [E Hmax].
  - simpl. lia.
  - simpl. unfold MAX_KERNEL_NUM. lia.
  - simpl in E. split; [lia|done].
Qed.

Lemma kernel_count_counts_live_kernels_witness :
  Z.of_nat (length kernels_run) ≤ INT_MAX
  ∧ run sample_name_size sample_cstring kernels_run world0
    = Some (world_after kernels_run, history_after kernels_run)
  ∧ count_entries binds_kernel (history_after kernels_run) = 2
  ∧ count_entries gives_back_kernel (history_after kernels_run) = 1
  ∧ kernel_count (gpu_env (world_after kernels_run))
    = count_entries binds_kernel (history_after kernels_run)
      - count_entries gives_back_kernel (history_after kernels_run)
  ∧ kernel_count (gpu_env (world_after kernels_run)) ≤ MAX_KERNEL_NUM.
Proof.
  assert (Hb : Z.of_nat (length kernels_run) ≤ INT_MAX)
    by (vm_compute; discriminate).
  assert (Hrun : run sample_name_size sample_cstring kernels_run world0
                 = Some (world_after kernels_run, history_after kernels_run))
    by (vm_compute; reflexivity).
  split; [exact Hb|]. split; [exact Hrun|].
  split; [vm_compute; reflexivity|]. split; [vm_compute; reflexivity|].
  exact (kernel_count_counts_live_kernels sample_name_size sample_cstring
           kernels_run _ _ Hb Hrun).
Defined.

(** ** Compile passes: what one pass does, and that it is not repeated *)

Lemma string_length_app (a b : string) :
  String.length (a +:+ b) = (String.length a + String.length b)%nat.
Proof.
  induction a as [|x a IH]; [reflexivity|].
  change (S (String.length (a +:+ b)) = S (String.length a + String.length b)).
  by rewrite IH.
Qed.

Section PassFacts.

Variable cstring : ptr -> option string.

Lemma source_len_loop_all_compiled (kc : list KernelCode) :
  ∀ (n i : nat) (len : Z),
    (∀ j, (i ≤ j < i + n)%nat → ∃ c, kc !! j = Some c ∧ is_compiled c ≠ 0) →
    source_len_loop cstring kc i n len = Some len.
Proof.
  induction n as [|n IH]; intros i len H; [reflexivity|].
  cbn [source_len_loop].
  destruct (H i ltac:(lia)) as (c & -> & Hc). cbn [mbind option_bind].
  apply Z.eqb_neq in Hc. rewrite Hc. apply IH. intros j Hj. apply H. lia.
Qed.

Lemma source_len_loop_join (kc : list KernelCode) :
  ∀ (n i : nat) (len : Z) (t : string),
    (i + n ≤ length kc)%nat →
    join_fragments cstring kc (uncompiled_from kc i n) = Some t →
    source_len_loop cstring kc i n len = Some (len + Z.of_nat (String.length t)).
Proof.
  induction n as [|n IH]; intros i len t Hlen Hj.
  - simpl in Hj. injection Hj as <-. simpl. f_equal. lia.
  - cbn [source_len_loop]. rewrite uncompiled_from_S in Hj.
    destruct (lookup_lt_is_Some_2 kc i ltac:(lia)) as [c Hc].
    rewrite Hc in *. cbn [mbind option_bind]. simpl in Hj.
    destruct (is_compiled c =? 0) eqn:E.
    + apply Z.eqb_eq in E. rewrite decide_True in Hj by congruence.
      cbn [join_fragments] in Hj. rewrite Hc in Hj. cbn [mbind option_bind] in Hj.
      destruct (cstring (kernel_string c)) as [s|]; [|discriminate].
      cbn [mbind option_bind] in Hj |- *.
      destruct (join_fragments _ _ _) as [t'|] eqn:Ht; [|discriminate].
      cbn [mbind option_bind] in Hj. injection Hj as <-.
      rewrite (IH (S i) _ t') by (try lia; exact Ht).
      rewrite string_length_app. f_equal. lia.
    + apply Z.eqb_neq in E. rewrite decide_False in Hj by congruence.
      apply IH; [lia|exact Hj].
Qed.

Lemma concat_loop_join :
  ∀ (n : nat) (kc : list KernelCode) (i : nat) (acc t : string),
    (i + n ≤ length kc)%nat →
    join_fragments cstring kc (uncompiled_from kc i n) = Some t →
    ∃ kc', concat_loop cstring kc i n acc = Some (kc', acc +:+ t).
Proof.
  induction n as [|n IH]; intros kc i acc t Hlen Hj.
  - simpl in Hj. injection Hj as <-. exists kc. simpl.
    by rewrite string_app_nil_r.
  - cbn [concat_loop]. rewrite uncompiled_from_S in Hj.
    destruct (lookup_lt_is_Some_2 kc i ltac:(lia)) as [c Hc].
    rewrite Hc in *. cbn [mbind option_bind]. simpl in Hj.
    destruct (is_compiled c =? 0) eqn:E.
    + apply Z.eqb_eq in E. rewrite decide_True in Hj by congruence.
      cbn [join_fragments] in Hj. rewrite Hc in Hj. cbn [mbind option_bind] in Hj.
      destruct (cstring (kernel_string c)) as [s|]; [|discriminate].
      cbn [mbind option_bind] in Hj |- *.
      destruct (join_fragments _ _ _) as [t'|] eqn:Ht; [|discriminate].
      cbn [mbind option_bind] in Hj. injection Hj as <-.
      destruct (IH (<[i := set_is_compiled 1 c]> kc) (S i) (acc +:+ s) t')
        as [kc' Hk].
      { rewrite length_insert. lia. }
      { rewrite uncompiled_from_insert by lia.
        rewrite join_fragments_insert; [exact Ht|].
        intros k Hk. apply uncompiled_from_bounds in Hk. lia. }
      exists kc'. rewrite Hk. by rewrite string_app_assoc.
    + apply Z.eqb_neq in E. rewrite decide_False in Hj by congruence.
      apply IH; [lia|exact Hj].
Qed.

End PassFacts.

(** X8: a compile pass over pending sources whose texts join to the
    non-empty string [src] runs to its return when the allocator and the
    runtime answer with success: it submits [src] once, builds one program
    for all pending sources together, stores it at
    [programs[program_count]], raises [program_count] by one and leaves no
    source pending. *)
Theorem compile_pass_builds_one_program (cstring : ptr -> option string)
    (a : compile_answers) (bo : option string) (g : GPUEnv) (src : string)
    (prog : ptr) :
  tables_wf g →
  join_fragments cstring (kernel_code g) (pass_fragments g) = Some src →
  src ≠ "" →
  ans_malloc a = true →
  ans_program a = (prog, CL.SUCCESS) →
  prog ≠ NULL →
  ans_build a = CL.SUCCESS →
  ∃ g',
    compile_kernel_file cstring a bo g
    = Some (g', RET_OK,
            [av_mallocz (Z.of_nat (String.length src) + 1);
             clCreateProgramWithSource (context g) src;
             clBuildProgram prog (device_id g) bo])
    ∧ program_count g' = program_count g + 1
    ∧ programs g' = <[Z.to_nat (program_count g) := prog]> (programs g)
    ∧ pass_fragments g' = []
    ∧ kernel_code_count g' = kernel_code_count g
    ∧ flags_kept (kernel_code g) (kernel_code g').
Proof.
  intros (Hp & Hk & Hpc & Hsum & Hmax) Hj Hsrc Hm Hprog Hnull Hbuild.
  unfold MAX_KERNEL_CODE_NUM in *.
  assert (Hn : (0 + Z.to_nat (kernel_code_count g) ≤ length (kernel_code g))%nat)
    by lia.
  assert (Hpend : pass_fragments g ≠ []).
  { intros E. rewrite E in Hj. simpl in Hj. congruence. }
  assert (Hlt : program_count g < 200).
  { destruct (pass_fragments g); [done|]. cbn [length] in Hsum. lia. }
  destruct (concat_loop_join cstring _ _ _ "" src Hn Hj) as [kc Hcat].
  change ("" +:+ src) with src in Hcat.
  unfold compile_kernel_file.
  rewrite (source_len_loop_join cstring _ _ _ 0 src Hn Hj).
  cbn [mbind option_bind]. rewrite Z.add_0_l.
  destruct (Z.of_nat (String.length src) =? 0) eqn:E0.
  { apply Z.eqb_eq in E0. destruct src; [done|]. simpl in E0. lia. }
  rewrite Hm. cbn [negb]. rewrite Hcat. cbn [mbind option_bind].
  rewrite Hprog. cbn [programs program_count set_kernel_code].
  unfold arr_set.
  destruct (program_count g <? 0) eqn:E1; [apply Z.ltb_lt in E1; lia|].
  destruct (Z.to_nat (program_count g) <? length (programs g))%nat eqn:E2;
    [|apply Nat.ltb_ge in E2; lia].
  cbn [mbind option_bind]. change (CL.SUCCESS =? CL.SUCCESS) with true. cbn match.
  destruct (prog =? NULL) eqn:E3; [apply Z.eqb_eq in E3; contradiction|].
  rewrite Hbuild. change (CL.SUCCESS =? CL.SUCCESS) with true. cbn match.
  eexists. split; [reflexivity|].
  cbn [program_count programs kernel_code kernel_code_count set_program_count
       set_programs set_kernel_code].
  split_and!; try reflexivity.
  - apply int32_small. unfold INT_MIN, INT_MAX. lia.
  - unfold pass_fragments.
    cbn [kernel_code kernel_code_count set_program_count set_programs
         set_kernel_code].
    apply nothing_pending.
    exact (concat_loop_marks cstring _ _ _ _ _ _ Hcat).
  - exact (concat_loop_flags_kept cstring _ _ _ _ _ _ Hcat).
Qed.

Lemma compile_pass_builds_one_program_witness :
  tables_wf two_sources
  ∧ ∃ g',
      compile_kernel_file sample_cstring (ans_compile sample_init_answers)
        (Some "-I.") two_sources
      = Some (g', RET_OK,
              [av_mallocz 85;
               clCreateProgramWithSource (context two_sources)
                 "kernel void f(global int *p) { p[0] = 1; }kernel void g(global int *p) { p[0] = 2; }";
               clBuildProgram 21 (device_id two_sources) (Some "-I.")])
      ∧ program_count g' = program_count two_sources + 1
      ∧ programs g'
        = <[Z.to_nat (program_count two_sources) := 21]> (programs two_sources)
      ∧ pass_fragments g' = []
      ∧ kernel_code_count g' = kernel_code_count two_sources
      ∧ flags_kept (kernel_code two_sources) (kernel_code g').
Proof.
  assert (Hwf : tables_wf two_sources).
  { unfold tables_wf. vm_compute. split_and!; (reflexivity || discriminate). }
  split; [exact Hwf|].
  apply (compile_pass_builds_one_program sample_cstring
           (ans_compile sample_init_answers) (Some "-I.") two_sources
           "kernel void f(global int *p) { p[0] = 1; }kernel void g(global int *p) { p[0] = 2; }"
           21 Hwf).
  - vm_compute. reflexivity.
  - discriminate.
  - reflexivity.
  - reflexivity.
  - discriminate.
  - reflexivity.
Defined.

(** X9: a compile pass is not repeated.  When a pass has returned anything
    but [AVERROR(ENOMEM)] (success, or a failure of the runtime to create or
    build the program), the pass that follows it directly finds nothing to
    do: it returns 0, calls nothing and leaves the environment as it is,
    whatever the allocator and the runtime would answer. *)
Theorem compile_pass_is_not_repeated (cstring : ptr -> option string)
    (a a' : compile_answers) (bo bo' : option string) (g g' : GPUEnv)
    (r : av_ret) (tr : trace) :
  compile_kernel_file cstring a bo g = Some (g', r, tr) →
  r ≠ AVERROR_ENOMEM →
  compile_kernel_file cstring a' bo' g' = Some (g', RET_OK, []).
Proof.
  intros H Hr. unfold compile_kernel_file in H.
  destruct (source_len_loop _ _ _ _ _) as [len|] eqn:Hlen; [|discriminate].
  cbn [mbind option_bind] in H.
  destruct (len =? 0) eqn:E0.
  { unfold proceed in H. injection H as <- <- <-.
    unfold compile_kernel_file. rewrite Hlen. cbn [mbind option_bind].
    rewrite E0. reflexivity. }
  destruct (negb (ans_malloc a)).
  { unfold fail_with in H. injection H as <- <- <-. contradiction. }
  destruct (concat_loop _ _ _ _ _) as [[kc src]|] eqn:Hcat; [|discriminate].
  cbn [mbind option_bind] in H.
  assert (Hdone := concat_loop_marks cstring _ _ _ _ _ _ Hcat).
  assert (Hidle : ∀ g1, kernel_code g1 = kc →
                    kernel_code_count g1 = kernel_code_count g →
                    compile_kernel_file cstring a' bo' g1 = Some (g1, RET_OK, [])).
  { intros g1 H1 H2. unfold compile_kernel_file. rewrite H1, H2.
    rewrite (source_len_loop_all_compiled cstring kc _ 0 0 Hdone).
    reflexivity. }
  destruct (ans_program a) as [prog status].
  destruct (arr_set _ _ _) as [progs|]; [|discriminate].
  cbn [mbind option_bind] in H.
  destruct (status =? CL.SUCCESS);
    [destruct (prog =? NULL); [|destruct (ans_build a =? CL.SUCCESS)]|];
    unfold fail_with in H; injection H as <- <- <-; apply Hidle; reflexivity.
Qed.

Lemma compile_pass_is_not_repeated_witness :
  compile_kernel_file sample_cstring (ans_compile sample_build_failure)
    (Some "-I.") two_sources
  = Some (failed_pass_env, AVERROR_EXTERNAL, failed_pass_trace)
  ∧ compile_kernel_file sample_cstring (ans_compile sample_init_answers)
      (Some "-I.") failed_pass_env
    = Some (failed_pass_env, RET_OK, []).
Proof.
  assert (H : compile_kernel_file sample_cstring (ans_compile sample_build_failure)
                (Some "-I.") two_sources
              = Some (failed_pass_env, AVERROR_EXTERNAL, failed_pass_trace))
    by (vm_compute; reflexivity).
  split; [exact H|].
  apply (compile_pass_is_not_repeated sample_cstring
           (ans_compile sample_build_failure) (ans_compile sample_init_answers)
           (Some "-I.") (Some "-I.") two_sources failed_pass_env
           AVERROR_EXTERNAL failed_pass_trace H).
  discriminate.
Defined.

(** ** Init: what it needs, what it leaves alone, how it selects *)

Section InitMore.

Variable cstring : ptr -> option string.

Lemma init_compile_empty (a : init_answers) (u : OpenclUtils) (g : GPUEnv) :
  kernel_code_count g ≤ 0 →
  init_compile cstring a u g
  = Some (g, AVERROR_EINVAL,
          [av_log AV_LOG_ERROR
             "No kernel code is registered, compile kernel file failed\n" []]).
Proof.
  intros H. unfold init_compile, compile_kernel_file.
  replace (Z.to_nat (kernel_code_count g)) with O by lia.
  cbn [source_len_loop mbind option_bind]. change (0 =? 0) with true. cbn match.
  unfold proceed, and_then. cbn [ret_lt_0].
  destruct (kernel_code_count g <=? 0) eqn:E; [reflexivity|].
  apply Z.leb_gt in E. lia.
Qed.

Lemma init_without_source (ext : option AVOpenCLExternalEnv) (a : init_answers)
    (w w' : world) (r : av_ret) (tr : trace) :
  kernel_code_count (gpu_env w) ≤ 0 →
  av_opencl_init cstring ext a w = Some (w', r, tr) →
  r ≠ RET_OK.
Proof.
  intros Hk H. unfold av_opencl_init in H.
  destruct (init_count (gpu_env w) =? 0).
  - destruct (ensure_defaults (openclutils w)) as [u tr0].
    destruct (_ >>> _) as [[[g1 r1] tr1]|] eqn:Hi; [|discriminate].
    cbn [mbind option_bind] in H. simplify_eq.
    apply and_then_inv in Hi as [[_ Hneg]|(g2 & tr2 & tr3 & Hi & Hc & ->)].
    + destruct r; [discriminate|done..].
    + apply init_opencl_env_sound in Hi as [(_ & _ & Hcount & _) _].
      cbn [set_platform_idx set_device_idx kernel_code_count] in Hcount.
      rewrite init_compile_empty in Hc by lia. by simplify_eq.
  - rewrite init_compile_empty in H by exact Hk.
    cbn [mbind option_bind] in H. by simplify_eq.
Qed.

End InitMore.

(** X10: with no source registered, [av_opencl_init] never succeeds and
    never counts: whatever the world answers, it returns an error and
    [init_count] is as before.  Yet a first init that was given a descriptor
    has adopted it by then: it fails with [AVERROR(EINVAL)], and the
    environment is marked as created by the user and holds the caller's
    context and queue. *)
Theorem init_needs_a_registered_source (cstring : ptr -> option string)
    (ext : option AVOpenCLExternalEnv) (a : init_answers) (w : world) :
  kernel_code_count (gpu_env w) ≤ 0 →
  (∀ w' r tr,
      av_opencl_init cstring ext a w = Some (w', r, tr) →
      r ≠ RET_OK ∧ init_count (gpu_env w') = init_count (gpu_env w))
  ∧ (∀ e, ext = Some e → init_count (gpu_env w) = 0 →
       is_user_created (gpu_env w) = 0 →
       ∃ w' tr,
         av_opencl_init cstring ext a w = Some (w', AVERROR_EINVAL, tr)
         ∧ init_count (gpu_env w') = 0
         ∧ is_user_created (gpu_env w') = 1
         ∧ context (gpu_env w') = ext_context e
         ∧ command_queue (gpu_env w') = ext_command_queue e).
Proof.
  intros Hk. split.
  - intros w' r tr H.
    assert (Hr := init_without_source cstring ext a w w' r tr Hk H).
    split; [exact Hr|].
    apply av_opencl_init_sound in H as [-> _].
    destruct r; [contradiction|reflexivity..].
  - intros e -> Hi Hu. unfold av_opencl_init. rewrite Hi.
    change (0 =? 0) with true. cbn match.
    destruct (ensure_defaults (openclutils w)) as [u tr0].
    destruct (init_opencl_env_adopts e a
                (set_platform_idx (opt_platform_idx u)
                   (set_device_idx (opt_device_idx u) (gpu_env w))))
      as (g1 & Hadopt & Hu1 & _ & _ & _ & Hc1 & Hq1); [exact Hu|].
    assert (Hf := init_opencl_env_sound _ _ _ _ _ _ Hadopt).
    destruct Hf as [(Hic & _ & Hkc & _) _].
    cbn [set_platform_idx set_device_idx init_count kernel_code_count] in Hic, Hkc.
    rewrite Hadopt. clear Hadopt. unfold and_then. cbn [ret_lt_0].
    rewrite init_compile_empty by lia. cbn [mbind option_bind].
    eexists _, _. split; [reflexivity|]. cbn [gpu_env].
    split_and!; congruence.
Qed.

Lemma init_needs_a_registered_source_witness :
  kernel_code_count (gpu_env world0) ≤ 0
  ∧ av_opencl_init sample_cstring (Some sample_external_env) sample_init_answers
      world0
    = Some ({| gpu_env :=
                 set_device_type 4 (set_device_id 43 (set_context 42
                   (set_command_queue 44 (set_is_user_created 1
                      (set_platform_id 41 (set_platform_idx (-1)
                         (set_device_idx (-1) gpu_env0)))))));
               openclutils := set_init_flag 1 (opt_set_defaults openclutils0) |},
            AVERROR_EINVAL,
            [av_opt_set_defaults;
             av_log AV_LOG_ERROR
               "No kernel code is registered, compile kernel file failed\n" []])
  ∧ (∀ w' r tr,
        av_opencl_init sample_cstring (Some sample_external_env)
          sample_init_answers world0 = Some (w', r, tr) →
        r ≠ RET_OK ∧ init_count (gpu_env w') = init_count (gpu_env world0)).
Proof.
  assert (Hk : kernel_code_count (gpu_env world0) ≤ 0) by (vm_compute; discriminate).
  split; [exact Hk|]. split; [vm_compute; reflexivity|].
  exact (proj1 (init_needs_a_registered_source sample_cstring
                  (Some sample_external_env) sample_init_answers world0 Hk)).
Defined.

(** X11: when the environment is initialised already ([init_count] is not
    0), [av_opencl_init] only runs a compile pass: the options, the
    provenance flag, the platform, the device, the context, the queue and
    the cached device list are left as they are, a descriptor passed with the
    call is ignored, and nothing is discovered, created or released. *)
Theorem init_when_initialised_only_compiles (cstring : ptr -> option string)
    (ext : option AVOpenCLExternalEnv) (a : init_answers) (w w' : world)
    (r : av_ret) (tr : trace) :
  init_count (gpu_env w) ≠ 0 →
  av_opencl_init cstring ext a w = Some (w', r, tr) →
  openclutils w' = openclutils w
  ∧ user_same (gpu_env w) (gpu_env w')
  ∧ device_list (gpu_env w') = device_list (gpu_env w)
  ∧ no_event is_discovery_or_creation tr
  ∧ no_event is_release tr.
Proof.
  intros Hi H. unfold av_opencl_init in H.
  destruct (init_count (gpu_env w) =? 0) eqn:E; [apply Z.eqb_eq in E; contradiction|].
  destruct (init_compile _ _ _ _) as [[[g1 r1] tr1]|] eqn:Hc; [|discriminate].
  cbn [mbind option_bind] in H. simplify_eq. cbn [gpu_env openclutils].
  assert (Hs := init_compile_sound cstring _ _ _ _ _ _ Hc).
  destruct Hs as (_ & _ & _ & _ & Hu & Hrel & Hdisc).
  split_and!; try done.
  unfold init_compile in Hc.
  apply and_then_inv in Hc as [[Hc _]|(g2 & tr2 & tr3 & Hc & Hk & ->)].
  - apply compile_kernel_file_sound in Hc as [Hf _].
    destruct Hf as (_ & _ & _ & _ & _ & _ & _ & _ & _ & _ & Hd). exact Hd.
  - apply compile_kernel_file_sound in Hc as [Hf _].
    destruct Hf as (_ & _ & _ & _ & _ & _ & _ & _ & _ & _ & Hd).
    destruct (kernel_code_count g2 <=? 0); unfold fail_with, proceed in Hk;
      simplify_eq; exact Hd.
Qed.

Lemma init_when_initialised_only_compiles_witness :
  init_count (gpu_env (world_after pending_run)) ≠ 0
  ∧ (∃ w' tr,
       av_opencl_init sample_cstring (Some sample_external_env)
         sample_init_answers (world_after pending_run)
       = Some (w', RET_OK, tr)
       ∧ init_count (gpu_env w') = 2
       ∧ is_user_created (gpu_env w') = 0
       ∧ context (gpu_env w') = 11)
  ∧ ∀ w' r tr,
      av_opencl_init sample_cstring (Some sample_external_env)
        sample_init_answers (world_after pending_run) = Some (w', r, tr) →
      openclutils w' = openclutils (world_after pending_run)
      ∧ user_same (gpu_env (world_after pending_run)) (gpu_env w')
      ∧ device_list (gpu_env w') = device_list (gpu_env (world_after pending_run))
      ∧ no_event is_discovery_or_creation tr
      ∧ no_event is_release tr.
Proof.
  assert (Hi : init_count (gpu_env (world_after pending_run)) ≠ 0)
    by (vm_compute; discriminate).
  split; [exact Hi|]. split.
  - eexists _, _. split; [vm_compute; reflexivity|]. vm_compute. done.
  - intros w' r tr.
    exact (init_when_initialised_only_compiles sample_cstring
             (Some sample_external_env) sample_init_answers
             (world_after pending_run) w' r tr Hi).
Defined.

Lemma and_then_ok (m : stage) (k : GPUEnv -> stage) (g1 g2 : GPUEnv)
    (r : av_ret) (tr1 tr2 : trace) :
  m = Some (g1, RET_OK, tr1) → k g1 = Some (g2, r, tr2) →
  m >>> k = Some (g2, r, tr1 ++ tr2).
Proof. intros -> Hk. unfold and_then. cbn [ret_lt_0]. by rewrite Hk. Qed.

Lemma and_then_stop (m : stage) (k : GPUEnv -> stage) (g1 : GPUEnv)
    (r : av_ret) (tr1 : trace) :
  m = Some (g1, r, tr1) → r ≠ RET_OK → m >>> k = Some (g1, r, tr1).
Proof. intros -> Hr. unfold and_then. by destruct r. Qed.

Lemma and_then_undefined (m : stage) (k : GPUEnv -> stage) (g1 : GPUEnv)
    (tr1 : trace) :
  m = Some (g1, RET_OK, tr1) → k g1 = None → m >>> k = None.
Proof. intros -> Hk. unfold and_then. cbn [ret_lt_0]. by rewrite Hk. Qed.

Lemma first_usable_platform_finds (nodes : list AVOpenCLPlatformNode)
    (g : GPUEnv) (j : nat) (node : AVOpenCLPlatformNode) :
  nodes !! j = Some node → pn_device_num node ≠ 0 →
  (∀ i n, (i < j)%nat → nodes !! i = Some n → pn_device_num n = 0) →
  ∀ (k i : nat), (i ≤ j < i + k)%nat →
    first_usable_platform nodes i k g
    = Some (set_platform_idx (Z.of_nat j) (set_platform_id (pn_platform_id node) g)).
Proof.
  intros Hj Hdev Hbefore. induction k as [|k IH]; intros i Hi; [lia|].
  cbn [first_usable_platform].
  destruct (decide (i = j)) as [->|Hne].
  - rewrite Hj. cbn [mbind option_bind].
    apply Z.eqb_neq in Hdev. rewrite Hdev. reflexivity.
  - destruct (lookup_lt_is_Some_2 nodes i) as [n Hn].
    { apply lookup_lt_Some in Hj. lia. }
    rewrite Hn. cbn [mbind option_bind].
    rewrite (Hbefore i n ltac:(lia) Hn). change (0 =? 0) with true. cbn match.
    apply IH. lia.
Qed.

Lemma first_usable_platform_none (nodes : list AVOpenCLPlatformNode) (g : GPUEnv) :
  (∀ i n, nodes !! i = Some n → pn_device_num n = 0) →
  ∀ (k i : nat), (i + k ≤ length nodes)%nat →
    first_usable_platform nodes i k g = Some g.
Proof.
  intros Hnone. induction k as [|k IH]; intros i Hi; [reflexivity|].
  cbn [first_usable_platform].
  destruct (lookup_lt_is_Some_2 nodes i ltac:(lia)) as [n Hn].
  rewrite Hn. cbn [mbind option_bind].
  rewrite (Hnone i n Hn). change (0 =? 0) with true. cbn match.
  apply IH. lia.
Qed.

Lemma select_platform_default (g : GPUEnv) (j : nat) (node : AVOpenCLPlatformNode) :
  platform_idx g < 0 →
  (j < Z.to_nat (platform_num (device_list g)))%nat →
  platform_node (device_list g) !! j = Some node →
  (∀ i n, (i < j)%nat → platform_node (device_list g) !! i = Some n →
          pn_device_num n = 0) →
  pn_device_num node ≠ 0 → pn_platform_id node ≠ NULL →
  ∃ g1, select_platform g = Some (g1, RET_OK, [])
        ∧ platform_idx g1 = Z.of_nat j
        ∧ platform_id g1 = pn_platform_id node
        ∧ device_idx g1 = device_idx g
        ∧ device_list g1 = device_list g.
Proof.
  intros Hidx Hj Hnode Hbefore Hdev Hpid. unfold select_platform.
  destruct (platform_idx g >=? 0) eqn:E;
    [rewrite Z.geb_leb in E; apply Z.leb_le in E; lia|].
  rewrite (first_usable_platform_finds _ g j node Hnode Hdev Hbefore) by lia.
  cbn [mbind option_bind]. unfold proceed, and_then. cbn [ret_lt_0].
  cbn [platform_id set_platform_idx set_platform_id].
  apply Z.eqb_neq in Hpid. rewrite Hpid.
  eexists. split; [reflexivity|]. done.
Qed.

Lemma select_device_default (g : GPUEnv) (j : nat) (node : AVOpenCLPlatformNode)
    (dev : AVOpenCLDeviceNode) :
  device_idx g < 0 →
  platform_idx g = Z.of_nat j →
  platform_node (device_list g) !! j = Some node →
  pn_device_node node !! 0%nat = Some dev →
  ∃ g2, select_device g
        = Some (g2, RET_OK,
                [av_log AV_LOG_VERBOSE "Platform Name: %s, device id: 0x%x\n"
                   [ArgStr (pn_platform_name node);
                    ArgInt (uint32 (dn_device_id dev))]])
        ∧ platform_idx g2 = platform_idx g
        ∧ platform_id g2 = platform_id g
        ∧ device_idx g2 = 0
        ∧ device_id g2 = dn_device_id dev
        ∧ device_type g2 = dn_device_type dev.
Proof.
  intros Hidx Hp Hnode Hdev. unfold select_device.
  destruct (device_idx g >=? 0) eqn:E;
    [rewrite Z.geb_leb in E; apply Z.leb_le in E; lia|].
  unfold proceed, and_then. cbn [ret_lt_0].
  cbn [platform_idx device_idx set_device_idx]. rewrite Hp.
  unfold arr_get.
  destruct (Z.of_nat j <? 0) eqn:E1; [apply Z.ltb_lt in E1; lia|].
  rewrite Nat2Z.id, Hnode. cbn [mbind option_bind].
  change (0 <? 0) with false. cbn match. change (Z.to_nat 0) with O.
  rewrite Hdev. cbn [mbind option_bind].
  eexists. split; [reflexivity|]. done.
Qed.

Lemma create_context_and_queue_ok (a : init_answers) (g : GPUEnv) (ctx q : ptr) :
  ans_context a = (ctx, CL.SUCCESS) →
  ans_command_queue a = (q, CL.SUCCESS) →
  ∃ g3, create_context_and_queue a g
        = Some (g3, RET_OK,
                [clCreateContextFromType (platform_id g) (device_type g);
                 clCreateCommandQueue ctx (device_id g)])
        ∧ context g3 = ctx ∧ command_queue g3 = q
        ∧ platform_idx g3 = platform_idx g
        ∧ platform_id g3 = platform_id g
        ∧ device_idx g3 = device_idx g
        ∧ device_id g3 = device_id g
        ∧ device_type g3 = device_type g.
Proof.
  intros Hc Hq. unfold create_context_and_queue. rewrite Hc, Hq.
  change (CL.SUCCESS =? CL.SUCCESS) with true. cbn match.
  eexists. split; [reflexivity|]. done.
Qed.

(** X12: with the default options (both indices negative) and a device
    list at hand, [init_opencl_env] selects the first platform of the list
    that has a device, and the first device of that platform; the context is
    created for that platform and that device's type, the queue for that
    device, and the two indices are set to the selection. *)
Theorem init_selects_first_platform_with_devices (a : init_answers) (g : GPUEnv)
    (j : nat) (node : AVOpenCLPlatformNode) (dev : AVOpenCLDeviceNode)
    (ctx q : ptr) :
  is_user_created g = 0 →
  platform_num (device_list g) ≠ 0 →
  platform_idx g < 0 →
  device_idx g < 0 →
  (j < Z.to_nat (platform_num (device_list g)))%nat →
  platform_node (device_list g) !! j = Some node →
  (∀ i n, (i < j)%nat → platform_node (device_list g) !! i = Some n →
          pn_device_num n = 0) →
  pn_device_num node ≠ 0 →
  pn_platform_id node ≠ NULL →
  pn_device_node node !! 0%nat = Some dev →
  ans_context a = (ctx, CL.SUCCESS) →
  ans_command_queue a = (q, CL.SUCCESS) →
  ∃ g',
    init_opencl_env None a g
    = Some (g', RET_OK,
            [av_log AV_LOG_VERBOSE "Platform Name: %s, device id: 0x%x\n"
               [ArgStr (pn_platform_name node); ArgInt (uint32 (dn_device_id dev))];
             clCreateContextFromType (pn_platform_id node) (dn_device_type dev);
             clCreateCommandQueue ctx (dn_device_id dev)])
    ∧ platform_idx g' = Z.of_nat j
    ∧ platform_id g' = pn_platform_id node
    ∧ device_idx g' = 0
    ∧ device_id g' = dn_device_id dev
    ∧ device_type g' = dn_device_type dev
    ∧ context g' = ctx
    ∧ command_queue g' = q.
Proof.
  intros Hu Hnum Hpi Hdi Hj Hnode Hbefore Hdev Hpid Hfirst Hc Hq.
  destruct (select_platform_default g j node Hpi Hj Hnode Hbefore Hdev Hpid)
    as (g1 & H1 & Hpi1 & Hpid1 & Hdi1 & Hdl1).
  destruct (select_device_default g1 j node dev) as (g2 & H2 & Hpi2 & Hpid2 & Hdi2 & Hid2 & Hty2);
    [lia|exact Hpi1|by rewrite Hdl1|exact Hfirst|].
  destruct (create_context_and_queue_ok a g2 ctx q Hc Hq)
    as (g3 & H3 & Hc3 & Hq3 & Hpi3 & Hpid3 & Hdi3 & Hid3 & Hty3).
  exists g3. split.
  - unfold init_opencl_env. rewrite Hu. change (0 =? 0) with true. cbn match.
    apply Z.eqb_neq in Hnum. rewrite Hnum.
    rewrite (and_then_ok (proceed g) select_platform g g1 RET_OK [] [] eq_refl H1).
    rewrite (and_then_ok _ select_device g1 g2 RET_OK _ _ eq_refl H2).
    rewrite (and_then_ok _ (create_context_and_queue a) g2 g3 RET_OK _ _ eq_refl H3).
    rewrite Hpid2, Hpid1, Hty2, Hid2. reflexivity.
  - split_and!; congruence.
Qed.

Lemma init_selects_first_platform_with_devices_witness :
  is_user_created two_platform_env = 0
  ∧ platform_idx two_platform_env < 0
  ∧ device_idx two_platform_env < 0
  ∧ ∃ g',
      init_opencl_env None sample_init_answers two_platform_env
      = Some (g', RET_OK,
              [av_log AV_LOG_VERBOSE "Platform Name: %s, device id: 0x%x\n"
                 [ArgStr "second"; ArgInt 51];
               clCreateContextFromType 9 2;
               clCreateCommandQueue 11 51])
      ∧ platform_idx g' = 1
      ∧ platform_id g' = 9
      ∧ device_idx g' = 0
      ∧ device_id g' = 51
      ∧ device_type g' = 2
      ∧ context g' = 11
      ∧ command_queue g' = 12.
Proof.
  split; [reflexivity|]. split; [reflexivity|]. split; [reflexivity|].
  apply (init_selects_first_platform_with_devices sample_init_answers
           two_platform_env 1
           {| pn_platform_id := 9; pn_platform_name := "second"; pn_device_num := 2;
              pn_device_node :=
                [{| dn_device_name := "cpu"; dn_device_type := 2; dn_device_id := 51 |};
                 {| dn_device_name := "gpu"; dn_device_type := 4; dn_device_id := 52 |}] |}
           {| dn_device_name := "cpu"; dn_device_type := 2; dn_device_id := 51 |}
           11 12).
  - reflexivity.
  - vm_compute. discriminate.
  - reflexivity.
  - reflexivity.
  - vm_compute. lia.
  - reflexivity.
  - intros i n Hi Hn. destruct i as [|i]; [|lia].
    vm_compute in Hn. injection Hn as <-. reflexivity.
  - vm_compute. discriminate.
  - vm_compute. discriminate.
  - reflexivity.
  - reflexivity.
  - reflexivity.
Defined.

Lemma init_opencl_env_cached (a : init_answers) (g : GPUEnv) :
  is_user_created g = 0 →
  platform_num (device_list g) ≠ 0 →
  init_opencl_env None a g
  = proceed g >>> select_platform >>> select_device >>> create_context_and_queue a.
Proof.
  intros Hu Hn. unfold init_opencl_env. rewrite Hu.
  change (0 =? 0) with true. cbn match.
  apply Z.eqb_neq in Hn. by rewrite Hn.
Qed.

(** X13: a platform or device index set by the user is checked against the
    cached device list before anything is created: an index past the last
    platform, a platform without device, and a device index past the last
    device of the platform each make [init_opencl_env] return
    [AVERROR(EINVAL)]; no context or queue has been asked for.  (The message
    for the device index prints the platform index.) *)
Theorem init_validates_configured_indices (a : init_answers) (g : GPUEnv) :
  is_user_created g = 0 →
  platform_num (device_list g) ≠ 0 →
  0 ≤ platform_idx g →
  platform_idx g < INT_MAX →
  (platform_num (device_list g) ≤ platform_idx g →
   init_opencl_env None a g
   = Some (g, AVERROR_EINVAL,
           [av_log AV_LOG_ERROR "User set platform index not exist\n" []]))
  ∧ ∀ node,
      platform_idx g < platform_num (device_list g) →
      platform_node (device_list g) !! Z.to_nat (platform_idx g) = Some node →
      (pn_device_num node = 0 →
       init_opencl_env None a g
       = Some (g, AVERROR_EINVAL,
               [av_log AV_LOG_ERROR
                  "No devices in user specific platform with index %d\n"
                  [ArgInt (platform_idx g)]]))
      ∧ (pn_device_num node ≠ 0 → pn_platform_id node ≠ NULL →
         0 ≤ device_idx g → device_idx g < INT_MAX →
         pn_device_num node ≤ device_idx g →
         init_opencl_env None a g
         = Some (set_platform_id (pn_platform_id node) g, AVERROR_EINVAL,
                 [av_log AV_LOG_ERROR
                    "Could not get OpenCL device idx %d in the user set platform\n"
                    [ArgInt (platform_idx g)]])).
Proof.
  intros Hu Hn Hp0 Hp1.
  assert (Hge : (platform_idx g >=? 0) = true)
    by (rewrite Z.geb_leb; apply Z.leb_le; exact Hp0).
  assert (Hint : int32 (platform_idx g + 1) = platform_idx g + 1)
    by (apply int32_small; unfold INT_MIN, INT_MAX in *; lia).
  assert (Hneg : (platform_idx g <? 0) = false) by (apply Z.ltb_ge; exact Hp0).
  rewrite (init_opencl_env_cached a g Hu Hn). split.
  - intros Hpast.
    assert (H1 : select_platform g
                 = Some (g, AVERROR_EINVAL,
                         [av_log AV_LOG_ERROR "User set platform index not exist\n" []])).
    { unfold select_platform. rewrite Hge, Hint.
      destruct (platform_num (device_list g) <? platform_idx g + 1) eqn:E;
        [|apply Z.ltb_ge in E; lia].
      reflexivity. }
    rewrite (and_then_ok (proceed g) select_platform g g _ [] _ eq_refl H1).
    reflexivity.
  - intros node Hin Hnode. split.
    + intros Hzero.
      assert (H1 : select_platform g
                   = Some (g, AVERROR_EINVAL,
                           [av_log AV_LOG_ERROR
                              "No devices in user specific platform with index %d\n"
                              [ArgInt (platform_idx g)]])).
      { unfold select_platform. rewrite Hge, Hint.
        destruct (platform_num (device_list g) <? platform_idx g + 1) eqn:E;
          [apply Z.ltb_lt in E; lia|].
        unfold arr_get. rewrite Hneg, Hnode. cbn [mbind option_bind].
        rewrite Hzero. reflexivity. }
      rewrite (and_then_ok (proceed g) select_platform g g _ [] _ eq_refl H1).
      reflexivity.
    + intros Hdev Hpid Hd0 Hd1 Hpast.
      assert (H1 : select_platform g
                   = Some (set_platform_id (pn_platform_id node) g, RET_OK, [])).
      { unfold select_platform. rewrite Hge, Hint.
        destruct (platform_num (device_list g) <? platform_idx g + 1) eqn:E;
          [apply Z.ltb_lt in E; lia|].
        unfold arr_get. rewrite Hneg, Hnode. cbn [mbind option_bind].
        apply Z.eqb_neq in Hdev. rewrite Hdev.
        unfold proceed, and_then. cbn [ret_lt_0 platform_id set_platform_id].
        apply Z.eqb_neq in Hpid. rewrite Hpid. reflexivity. }
      assert (H2 : select_device (set_platform_id (pn_platform_id node) g)
                   = Some (set_platform_id (pn_platform_id node) g, AVERROR_EINVAL,
                           [av_log AV_LOG_ERROR
                              "Could not get OpenCL device idx %d in the user set platform\n"
                              [ArgInt (platform_idx g)]])).
      { unfold select_device.
        cbn [device_idx device_list platform_idx set_platform_id].
        destruct (device_idx g >=? 0) eqn:E;
          [|rewrite Z.geb_leb in E; apply Z.leb_gt in E; lia].
        unfold arr_get. rewrite Hneg, Hnode. cbn [mbind option_bind].
        rewrite (int32_small (device_idx g + 1))
          by (unfold INT_MIN, INT_MAX in *; lia).
        destruct (pn_device_num node <? device_idx g + 1) eqn:E1;
          [|apply Z.ltb_ge in E1; lia].
        reflexivity. }
      rewrite (and_then_ok (proceed g) select_platform g _ _ [] _ eq_refl H1).
      rewrite (and_then_ok _ select_device _ _ _ _ _ eq_refl H2).
      reflexivity.
Qed.

Lemma init_validates_configured_indices_witness :
  is_user_created device_index_env = 0
  ∧ platform_num (device_list device_index_env) ≠ 0
  ∧ 0 ≤ platform_idx device_index_env
  ∧ platform_idx device_index_env < INT_MAX
  ∧ init_opencl_env None sample_init_answers device_index_env
    = Some (set_platform_id 9 device_index_env, AVERROR_EINVAL,
            [av_log AV_LOG_ERROR
               "Could not get OpenCL device idx %d in the user set platform\n"
               [ArgInt 1]]).
Proof.
  assert (H1 : is_user_created device_index_env = 0) by reflexivity.
  assert (H2 : platform_num (device_list device_index_env) ≠ 0)
    by (vm_compute; discriminate).
  assert (H3 : 0 ≤ platform_idx device_index_env) by (vm_compute; discriminate).
  assert (H4 : platform_idx device_index_env < INT_MAX) by (vm_compute; reflexivity).
  split_and!; try assumption.
  apply (proj2 (init_validates_configured_indices sample_init_answers
                  device_index_env H1 H2 H3 H4)
           {| pn_platform_id := 9; pn_platform_name := "second"; pn_device_num := 2;
              pn_device_node :=
                [{| dn_device_name := "cpu"; dn_device_type := 2; dn_device_id := 51 |};
                 {| dn_device_name := "gpu"; dn_device_type := 4; dn_device_id := 52 |}] |}).
  - vm_compute. reflexivity.
  - reflexivity.
  - vm_compute. discriminate.
  - vm_compute. discriminate.
  - vm_compute. discriminate.
  - vm_compute. reflexivity.
  - vm_compute. discriminate.
Defined.

Lemma init_opencl_env_list_in_use (a : init_answers) (g : GPUEnv) :
  is_user_created g = 0 →
  (platform_num (device_list g) = 0 → (ans_device_list a).1 = RET_OK) →
  ∃ g0 tr0,
    init_opencl_env None a g
    = Some (g0, RET_OK, tr0) >>> select_platform >>> select_device
      >>> create_context_and_queue a
    ∧ device_list g0 = list_in_use a g
    ∧ platform_idx g0 = platform_idx g
    ∧ device_idx g0 = device_idx g
    ∧ platform_id g0 = platform_id g
    ∧ (tr0 = [] ∨ tr0 = [get_device_list]).
Proof.
  intros Hu Hret. unfold init_opencl_env, list_in_use. rewrite Hu.
  change (0 =? 0) with true. cbn match.
  destruct (platform_num (device_list g) =? 0) eqn:E.
  - apply Z.eqb_eq in E. specialize (Hret E).
    destruct (ans_device_list a) as [ret dl]. simpl in Hret. subst ret.
    eexists _, _. split; [reflexivity|]. split_and!; try done. by right.
  - eexists _, _. split; [reflexivity|]. split_and!; try done. by left.
Qed.

(** X14: with a negative platform index, [init_opencl_env] tells that no
    platform has a device by [gpu_env->platform_id] still being [NULL]
    after the search, and the search leaves it as it was.  When it was
    [NULL] the function returns [AVERROR_EXTERNAL].  When it was not (an
    earlier environment has left its platform there, [av_opencl_uninit]
    does not reset it), the function goes on with the platform index still
    negative and reads [platform_node[platform_idx]] before the first
    platform node: an access out of bounds. *)
Theorem no_platform_check_relies_on_null_platform_id (a : init_answers)
    (g : GPUEnv) :
  is_user_created g = 0 →
  (platform_num (device_list g) = 0 → (ans_device_list a).1 = RET_OK) →
  platform_idx g < 0 →
  (Z.to_nat (platform_num (list_in_use a g))
   ≤ length (platform_node (list_in_use a g)))%nat →
  (∀ i n, platform_node (list_in_use a g) !! i = Some n → pn_device_num n = 0) →
  (platform_id g = NULL →
   ∃ g' tr0,
     init_opencl_env None a g
     = Some (g', AVERROR_EXTERNAL,
             tr0 ++ [av_log AV_LOG_ERROR "Could not get OpenCL platforms\n" []])
     ∧ (tr0 = [] ∨ tr0 = [get_device_list]))
  ∧ (platform_id g ≠ NULL → init_opencl_env None a g = None).
Proof.
  intros Hu Hret Hidx Hlen Hnone.
  destruct (init_opencl_env_list_in_use a g Hu Hret)
    as (g0 & tr0 & -> & Hdl & Hpi & Hdi & Hpid & Htr).
  rewrite <- Hdl in Hlen, Hnone. rewrite <- Hpi in Hidx. rewrite <- Hpid.
  clear Hdl Hpi Hdi Hpid Hu Hret g.
  assert (Hge : (platform_idx g0 >=? 0) = false)
    by (rewrite Z.geb_leb; apply Z.leb_gt; exact Hidx).
  assert (Hsearch : first_usable_platform (platform_node (device_list g0)) 0
                      (Z.to_nat (platform_num (device_list g0))) g0 = Some g0)
    by (apply first_usable_platform_none; [exact Hnone|lia]).
  split.
  - intros Hnull.
    assert (H1 : select_platform g0
                 = Some (g0, AVERROR_EXTERNAL,
                         [av_log AV_LOG_ERROR "Could not get OpenCL platforms\n" []])).
    { unfold select_platform. rewrite Hge, Hsearch. cbn [mbind option_bind].
      unfold proceed, and_then. cbn [ret_lt_0]. rewrite Hnull. reflexivity. }
    exists g0, tr0. split; [|exact Htr].
    rewrite (and_then_ok (Some (g0, RET_OK, tr0)) select_platform g0 g0 _ tr0 _
               eq_refl H1).
    reflexivity.
  - intros Hstale.
    assert (H1 : select_platform g0 = Some (g0, RET_OK, [])).
    { unfold select_platform. rewrite Hge, Hsearch. cbn [mbind option_bind].
      unfold proceed, and_then. cbn [ret_lt_0].
      apply Z.eqb_neq in Hstale. rewrite Hstale. reflexivity. }
    assert (H2 : select_device g0 = None).
    { unfold select_device, arr_get.
      destruct (platform_idx g0 <? 0) eqn:E; [|apply Z.ltb_ge in E; lia].
      destruct (device_idx g0 >=? 0); [reflexivity|].
      unfold proceed, and_then. cbn [ret_lt_0 platform_idx set_device_idx].
      rewrite E. reflexivity. }
    rewrite (and_then_ok (Some (g0, RET_OK, tr0)) select_platform g0 g0 _ tr0 _
               eq_refl H1).
    rewrite (and_then_undefined _ select_device g0 _ eq_refl H2).
    reflexivity.
Qed.

(** The scenario is reached: an environment is set up and torn down, and
    the platform enumerated by the next init has no device. *)
Lemma no_platform_check_relies_on_null_platform_id_witness :
  run sample_name_size sample_cstring torn_down_run world0
  = Some (torn_down_world, history_after torn_down_run)
  ∧ platform_id (gpu_env torn_down_world) = 7
  ∧ av_opencl_init sample_cstring None no_device_answers torn_down_world = None
  ∧ init_opencl_env None no_device_answers
      (set_platform_idx (-1) (set_device_idx (-1) (gpu_env torn_down_world)))
    = None.
Proof.
  split; [vm_compute; reflexivity|]. split; [reflexivity|].
  split; [vm_compute; reflexivity|].
  apply (no_platform_check_relies_on_null_platform_id no_device_answers
           (set_platform_idx (-1) (set_device_idx (-1) (gpu_env torn_down_world)))).
  - reflexivity.
  - reflexivity.
  - reflexivity.
  - vm_compute. lia.
  - intros i n Hn. destruct i as [|i]; vm_compute in Hn; [|discriminate].
    injection Hn as <-. reflexivity.
  - vm_compute. discriminate.
Defined.

(** ** Tear-down *)

Lemma handle_releases_app (tr1 tr2 : trace) :
  handle_releases (tr1 ++ tr2) = handle_releases tr1 ++ handle_releases tr2.
Proof. apply filter_app. Qed.

Lemma handle_releases_log_failure (status : cl_int) (fmt : string) :
  handle_releases (log_failure status fmt) = [].
Proof. unfold log_failure. by destruct (status =? CL.SUCCESS). Qed.

Lemma handle_releases_cons (e : event) (tr : trace) :
  handle_releases (e :: tr)
  = if is_handle_release e then e :: handle_releases tr else handle_releases tr.
Proof.
  unfold handle_releases. rewrite filter_cons.
  destruct (is_handle_release e); [rewrite decide_True by done|
                                   rewrite decide_False by done]; reflexivity.
Qed.

Lemma live_handles_cons (p : ptr) (ps : list ptr) :
  live_handles (p :: ps)
  = if p =? NULL then live_handles ps else p :: live_handles ps.
Proof.
  unfold live_handles. rewrite filter_cons.
  destruct (p =? NULL) eqn:E.
  - apply Z.eqb_eq in E. by rewrite decide_False by (intros H; apply H; exact E).
  - apply Z.eqb_neq in E. by rewrite decide_True by exact E.
Qed.

Lemma release_programs_spec (status : nat -> cl_int) :
  ∀ (n i : nat) (progs progs' : list ptr) (tr : trace),
    release_programs status progs i n = Some (progs', tr) →
    handle_releases tr = clReleaseProgram <$> live_handles (take n (drop i progs))
    ∧ (∀ j, (i ≤ j < i + n)%nat → progs' !! j = Some NULL)
    ∧ (∀ j, ¬ (i ≤ j < i + n)%nat → progs' !! j = progs !! j).
Proof.
  induction n as [|n IH]; intros i progs progs' tr H.
  - simpl in H. simplify_eq. split_and!; [done|intros; lia|done].
  - cbn [release_programs] in H.
    destruct (progs !! i) as [p|] eqn:Hp; [|discriminate].
    cbn [mbind option_bind] in H.
    assert (Hd : drop i progs = p :: drop (S i) progs) by exact (drop_S _ _ _ Hp).
    rewrite Hd. cbn [take]. rewrite live_handles_cons.
    destruct (p =? NULL) eqn:E.
    + apply Z.eqb_eq in E. subst p.
      apply IH in H as (Htr & Hnull & Hsame). split_and!; [exact Htr| |].
      * intros j Hj. destruct (decide (j = i)) as [->|Hne].
        -- rewrite Hsame by lia. exact Hp.
        -- apply Hnull. lia.
      * intros j Hj. apply Hsame. lia.
    + destruct (release_programs status (<[i:=NULL]> progs) (S i) n)
        as [[progs1 tr1]|] eqn:Hr; [|discriminate].
      cbn [mbind option_bind] in H. simplify_eq.
      apply IH in Hr as (Htr & Hnull & Hsame).
      assert (Hlt : (i < length progs)%nat) by (eapply lookup_lt_Some; exact Hp).
      split_and!.
      * rewrite handle_releases_cons. cbn [is_handle_release].
        rewrite handle_releases_app, handle_releases_log_failure, Htr.
        cbn [app fmap list_fmap]. do 3 f_equal.
        rewrite drop_insert_lt by lia. reflexivity.
      * intros j Hj. destruct (decide (j = i)) as [->|Hne].
        -- rewrite Hsame by lia. by apply list_lookup_insert_eq.
        -- apply Hnull. lia.
      * intros j Hj. rewrite Hsame by lia.
        apply list_lookup_insert_ne. lia.
Qed.

Lemma release_command_queue_releases (status : cl_int) (g : GPUEnv) :
  handle_releases (release_command_queue status g).2
  = if command_queue g =? NULL then [] else [clReleaseCommandQueue (command_queue g)].
Proof.
  unfold release_command_queue. destruct (command_queue g =? NULL); [done|].
  cbn [snd]. rewrite handle_releases_cons. cbn [is_handle_release].
  by rewrite handle_releases_log_failure.
Qed.

Lemma release_context_releases (status : cl_int) (g : GPUEnv) :
  handle_releases (release_context status g).2
  = if context g =? NULL then [] else [clReleaseContext (context g)].
Proof.
  unfold release_context. destruct (context g =? NULL); [done|].
  cbn [snd]. rewrite handle_releases_cons. cbn [is_handle_release].
  by rewrite handle_releases_log_failure.
Qed.

Lemma uninit_end_releases (g : GPUEnv) (u : OpenclUtils) (tr : trace) :
  handle_releases (uninit_end g u tr).2 = handle_releases tr.
Proof.
  destruct (uninit_end_gpu_env g u tr) as [_ [-> | ->]]; [done|].
  rewrite handle_releases_app. cbn. by rewrite app_nil_r.
Qed.


(** With its gate open, [av_opencl_uninit] returns only if it could walk
    the cached device list. *)
Lemma uninit_open_walkable (a : uninit_answers) (w w' : world) (tr : trace) :
  is_user_created (gpu_env w) = 0 →
  int32 (init_count (gpu_env w) - 1) ≤ 0 →
  kernel_count (gpu_env w) ≤ 0 →
  av_opencl_uninit a w = Some (w', tr) →
  walkable (device_list (gpu_env w)).
Proof.
  intros Hu Hi Hk H. unfold av_opencl_uninit in H.
  cbn [is_user_created init_count kernel_count programs program_count
       set_init_count] in H.
  rewrite Hu in H. change (negb (0 =? 0)) with false in H. cbn match in H.
  destruct (int32 (init_count (gpu_env w) - 1) >? 0) eqn:E1;
    [apply Z.gtb_lt in E1; lia|].
  destruct (kernel_count (gpu_env w) >? 0) eqn:E2; [apply Z.gtb_lt in E2; lia|].
  cbn [orb] in H.
  destruct (release_programs _ _ _ _) as [[progs tr1]|]; [|discriminate].
  cbn [mbind option_bind] in H.
  destruct (release_command_queue _ _) as [g2 tr2] eqn:Hq.
  apply release_command_queue_spec in Hq as [-> _].
  destruct (release_context _ _) as [g3 tr3] eqn:Hx.
  apply release_context_spec in Hx as [-> _].
  cbn [device_list set_context set_command_queue set_programs set_init_count] in H.
  unfold walkable.
  by destruct (walk_device_list (device_list (gpu_env w))) as [[]|].
Qed.

Lemma uninit_tears_down (a : uninit_answers) (w : world) :
  is_user_created (gpu_env w) = 0 →
  int32 (init_count (gpu_env w) - 1) ≤ 0 →
  kernel_count (gpu_env w) ≤ 0 →
  (Z.to_nat (program_count (gpu_env w)) ≤ length (programs (gpu_env w)))%nat →
  walkable (device_list (gpu_env w)) →
  ∃ w' tr,
    av_opencl_uninit a w = Some (w', tr)
    ∧ device_list (gpu_env w') = freed_device_list
    ∧ handle_releases tr = owed_releases (gpu_env w)
    ∧ program_count (gpu_env w') = program_count (gpu_env w)
    ∧ (∀ j, (j < Z.to_nat (program_count (gpu_env w)))%nat →
            programs (gpu_env w') !! j = Some NULL)
    ∧ (∀ j, (Z.to_nat (program_count (gpu_env w)) ≤ j)%nat →
            programs (gpu_env w') !! j = programs (gpu_env w) !! j)
    ∧ command_queue (gpu_env w') = NULL
    ∧ context (gpu_env w') = NULL
    ∧ is_user_created (gpu_env w') = 0.
Proof.
  intros Hu Hi Hk Hlen Hwalk. unfold av_opencl_uninit.
  cbn [is_user_created init_count kernel_count programs program_count set_init_count].
  rewrite Hu. change (negb (0 =? 0)) with false. cbn match.
  destruct (int32 (init_count (gpu_env w) - 1) >? 0) eqn:E1;
    [apply Z.gtb_lt in E1; lia|].
  destruct (kernel_count (gpu_env w) >? 0) eqn:E2; [apply Z.gtb_lt in E2; lia|].
  cbn [orb].
  destruct (release_programs_defined (ans_release_program a)
              (Z.to_nat (program_count (gpu_env w))) 0 (programs (gpu_env w))
              ltac:(lia)) as (progs' & tr1 & Hr).
  rewrite Hr. cbn [mbind option_bind].
  apply release_programs_spec in Hr as (Htr1 & Hnull & Hsame).
  rewrite drop_0 in Htr1.
  set (g1 := set_programs progs'
               (set_init_count (int32 (init_count (gpu_env w) - 1)) (gpu_env w))).
  assert (Hq : command_queue g1 = command_queue (gpu_env w)) by reflexivity.
  assert (Hc : context g1 = context (gpu_env w)) by reflexivity.
  assert (Hp : programs g1 = progs') by reflexivity.
  assert (Hpc : program_count g1 = program_count (gpu_env w)) by reflexivity.
  assert (Huc : is_user_created g1 = is_user_created (gpu_env w)) by reflexivity.
  assert (Hdl : device_list g1 = device_list (gpu_env w)) by reflexivity.
  clearbody g1.
  pose proof (release_command_queue_releases (ans_release_queue a) g1) as Hrq.
  destruct (release_command_queue (ans_release_queue a) g1) as [g2 tr2] eqn:Hq2.
  apply release_command_queue_spec in Hq2 as (-> & Hq2 & _).
  pose proof (release_context_releases (ans_release_context a)
                (set_command_queue NULL g1)) as Hrc.
  destruct (release_context (ans_release_context a) (set_command_queue NULL g1))
    as [g3 tr3] eqn:Hc3.
  apply release_context_spec in Hc3 as (-> & Hc3 & _).
  cbn [snd context set_command_queue] in Hrq, Hrc.
  cbn [device_list set_context set_command_queue]. rewrite Hdl.
  unfold walkable in Hwalk. rewrite Hwalk. cbn [mbind option_bind].
  match goal with |- context [uninit_end ?g ?u ?t] =>
    pose proof (uninit_end_releases g u t) as Hend;
    destruct (uninit_end_gpu_env g u t) as [Hg _];
    destruct (uninit_end g u t) as [w' tr] end.
  cbn [fst snd] in Hend, Hg.
  exists w', tr. split; [reflexivity|]. rewrite Hg.
  cbn [program_count programs command_queue context is_user_created
       device_list set_device_list set_context set_command_queue].
  rewrite Hp, Hpc, Huc. split_and!; try done.
  - rewrite Hend, !handle_releases_app, Hrq, Hrc, Htr1, Hq, Hc.
    unfold owed_releases. change (handle_releases [free_device_list _]) with (@nil event).
    by rewrite app_nil_r.
  - intros j Hj. apply Hnull. lia.
  - intros j Hj. apply Hsame. lia.
Qed.




Lemma null_programs_kept_refl (g : GPUEnv) : null_programs_kept g g.
Proof. split; [lia|done]. Qed.

Lemma null_programs_kept_same (g g' : GPUEnv) :
  program_count g' = program_count g → programs g' = programs g →
  null_programs_kept g g'.
Proof. intros Hp Hs. unfold null_programs_kept. rewrite Hp, Hs. split; [lia|done]. Qed.

Lemma null_programs_kept_trans (a b c : GPUEnv) :
  null_programs_kept a b → null_programs_kept b c → null_programs_kept a c.
Proof.
  intros [H1 H2] [H3 H4]. split; [lia|].
  intros j Hj Hn. apply H4; [lia|]. by apply H2.
Qed.

Section ProgramFacts.

Variable name_size : Z.
Variable cstring : ptr -> option string.

Lemma compile_kernel_file_programs (a : compile_answers) (bo : option string)
    (g g' : GPUEnv) (r : av_ret) (tr : trace) :
  tables_wf g →
  compile_kernel_file cstring a bo g = Some (g', r, tr) →
  null_programs_kept g g'.
Proof.
  intros (Hp & _ & Hpc & _ & _) H. unfold compile_kernel_file in H.
  destruct (source_len_loop _ _ _ _ _) as [len|]; [|discriminate].
  cbn [mbind option_bind] in H.
  destruct (len =? 0).
  { unfold proceed in H. simplify_eq. apply null_programs_kept_refl. }
  destruct (negb (ans_malloc a)).
  { unfold fail_with in H. simplify_eq. apply null_programs_kept_refl. }
  destruct (concat_loop _ _ _ _ _) as [[kc src]|]; [|discriminate].
  cbn [mbind option_bind] in H.
  destruct (ans_program a) as [prog status].
  cbn [programs program_count set_kernel_code] in H.
  unfold arr_set in H.
  destruct (program_count g <? 0); [discriminate|].
  destruct (Z.to_nat (program_count g) <? length (programs g))%nat eqn:E2;
    [|discriminate].
  apply Nat.ltb_lt in E2. cbn [mbind option_bind] in H.
  assert (Hint : int32 (program_count g + 1) = program_count g + 1).
  { apply int32_small. unfold INT_MIN, INT_MAX, MAX_KERNEL_CODE_NUM in *. lia. }
  assert (Hkept : ∀ g1,
            (program_count g1 = program_count g
             ∨ program_count g1 = int32 (program_count g + 1)) →
            programs g1 = <[Z.to_nat (program_count g) := prog]> (programs g) →
            null_programs_kept g g1).
  { intros g1 H1 H2. split; [destruct H1 as [-> | ->]; lia|].
    intros j Hj Hn. rewrite H2, list_lookup_insert_ne by lia. exact Hn. }
  destruct (status =? CL.SUCCESS);
    [destruct (prog =? NULL); [|destruct (ans_build a =? CL.SUCCESS)]|];
    unfold fail_with in H; injection H as <- <- <-; apply Hkept;
    cbn [programs set_programs set_program_count set_kernel_code program_count];
    auto.
Qed.

Lemma init_compile_programs (a : init_answers) (u : OpenclUtils) (g g' : GPUEnv)
    (r : av_ret) (tr : trace) :
  tables_wf g →
  init_compile cstring a u g = Some (g', r, tr) →
  null_programs_kept g g'.
Proof.
  intros Hwf H. unfold init_compile in H.
  apply and_then_inv in H as [[H _]|(g1 & tr1 & tr2 & H & Hk & ->)].
  - exact (compile_kernel_file_programs _ _ _ _ _ _ Hwf H).
  - apply (null_programs_kept_trans _ g1);
      [exact (compile_kernel_file_programs _ _ _ _ _ _ Hwf H)|].
    destruct (kernel_code_count g1 <=? 0); unfold fail_with, proceed in Hk;
      injection Hk as <- <- <-; by apply null_programs_kept_same.
Qed.

Lemma tables_wf_frame (g g' : GPUEnv) :
  setup_frame g g' → tables_wf g → tables_wf g'.
Proof.
  intros (_ & _ & Hc & Hk & Hp & Hs). unfold tables_wf, pass_fragments.
  by rewrite Hc, Hk, Hp, Hs.
Qed.

Lemma step_null_programs_kept (c : call) (w w' : world) (r : av_ret) (tr : trace) :
  tables_wf (gpu_env w) →
  step name_size cstring c w = Some (w', r, tr) →
  null_programs_kept (gpu_env w) (gpu_env w').
Proof.
  intros Hwf H. destruct c as [stored|src|env nm answers|env st|ext a|a];
    cbn [step] in H.
  - destruct (av_opencl_set_option stored (openclutils w)) as [u tr0].
    simplify_eq. apply null_programs_kept_refl.
  - unfold with_gpu_env in H.
    destruct (av_opencl_register_kernel_code src (gpu_env w))
      as [[[g1 r1] tr1]|] eqn:Hr; [|discriminate].
    cbn [mbind option_bind] in H. simplify_eq. cbn [gpu_env].
    apply register_tables in Hr as [[->|(_ & _ & ->)] _];
      [apply null_programs_kept_refl|by apply null_programs_kept_same|].
    by apply tables_wf_count.
  - destruct (av_opencl_create_kernel _ _ _ _ _) as [[[[g1 env1] r1] tr1]|] eqn:Hc;
      [|discriminate].
    cbn [mbind option_bind] in H. simplify_eq. cbn [gpu_env].
    apply create_kernel_frame in Hc as [[->| ->] _];
      by apply null_programs_kept_same.
  - destruct (av_opencl_release_kernel env st (gpu_env w)) as [[g1 env1] tr1] eqn:Hc.
    simplify_eq. cbn [gpu_env].
    apply release_kernel_frame in Hc as [[->| ->] _];
      by apply null_programs_kept_same.
  - unfold av_opencl_init in H.
    destruct (init_count (gpu_env w) =? 0).
    + destruct (ensure_defaults (openclutils w)) as [u tr0].
      destruct (_ >>> _) as [[[g1 r1] tr1]|] eqn:Hi; [|discriminate].
      cbn [mbind option_bind] in H. simplify_eq. cbn [gpu_env].
      assert (Hf0 : ∀ g2,
                setup_frame (set_platform_idx (opt_platform_idx u)
                               (set_device_idx (opt_device_idx u) (gpu_env w))) g2 →
                setup_frame (gpu_env w) g2).
      { intros g2 (? & ? & ? & ? & ? & ?).
        cbn [set_platform_idx set_device_idx kernel_code_count kernel_code
             program_count programs init_count kernel_count] in *. done. }
      apply and_then_inv in Hi as [[Hi _]|(g2 & tr2 & tr3 & Hi & Hk & ->)].
      * apply init_opencl_env_sound in Hi as [Hf _]. apply Hf0 in Hf.
        destruct Hf as (_ & _ & _ & _ & Hp & Hs).
        by apply null_programs_kept_same.
      * apply init_opencl_env_sound in Hi as [Hf _]. apply Hf0 in Hf.
        apply (null_programs_kept_trans _ g2).
        -- destruct Hf as (_ & _ & _ & _ & Hp & Hs).
           by apply null_programs_kept_same.
        -- eapply init_compile_programs; [|exact Hk].
           exact (tables_wf_frame _ _ Hf Hwf).
    + destruct (init_compile _ _ _ _) as [[[g1 r1] tr1]|] eqn:Hi; [|discriminate].
      cbn [mbind option_bind] in H. simplify_eq. cbn [gpu_env].
      exact (init_compile_programs _ _ _ _ _ _ Hwf Hi).
  - destruct (av_opencl_uninit a w) as [[w1 tr1]|] eqn:Hu; [|discriminate].
    cbn [mbind option_bind] in H. simplify_eq.
    unfold av_opencl_uninit in Hu.
    destruct (negb _).
    { injection Hu as Hu. rewrite (uninit_end_result _ _ _ _ _ Hu).
      by apply null_programs_kept_same. }
    destruct (_ || _).
    { injection Hu as Hu. rewrite (uninit_end_result _ _ _ _ _ Hu).
      by apply null_programs_kept_same. }
    cbn [programs program_count set_init_count] in Hu.
    destruct (release_programs _ _ _ _) as [[progs tr1]|] eqn:Hr; [|discriminate].
    cbn [mbind option_bind] in Hu.
    apply release_programs_spec in Hr as (_ & Hnull & _).
    destruct (release_command_queue _ _) as [g2 tr2] eqn:Hq.
    destruct (release_context _ _) as [g3 tr3] eqn:Hx.
    apply release_command_queue_spec in Hq as [-> _].
    apply release_context_spec in Hx as [-> _].
    destruct (walk_device_list _) as [[]|]; [|discriminate].
    cbn [mbind option_bind] in Hu.
    injection Hu as Hu. rewrite (uninit_end_result _ _ _ _ _ Hu).
    split; [cbn; lia|]. intros j Hj _. cbn. apply Hnull. lia.
Qed.

End ProgramFacts.

(** X16: a tear-down is not undone by a later init.  [av_opencl_uninit]
    with its gate open sets the program slots below [program_count] to
    [NULL] but leaves [program_count] and the [is_compiled] marks as they
    are; so through every later run these slots stay [NULL], the count does
    not go down, and a source that was compiled before the tear-down stays
    marked and is not part of any later compile pass. *)
Theorem teardown_is_not_undone (name_size : Z) (cstring : ptr -> option string)
    (a : uninit_answers) (w w1 w2 : world) (tr : trace) (cs : list call)
    (h : list entry) :
  tables_wf (gpu_env w) →
  is_user_created (gpu_env w) = 0 →
  int32 (init_count (gpu_env w) - 1) ≤ 0 →
  kernel_count (gpu_env w) ≤ 0 →
  av_opencl_uninit a w = Some (w1, tr) →
  run name_size cstring cs w1 = Some (w2, h) →
  program_count (gpu_env w) ≤ program_count (gpu_env w2)
  ∧ (∀ j, (j < Z.to_nat (program_count (gpu_env w)))%nat →
          programs (gpu_env w2) !! j = Some NULL)
  ∧ ∀ i, compiled_at (gpu_env w) i →
         compiled_at (gpu_env w2) i ∧ i ∉ pass_fragments (gpu_env w2).
Proof.
  intros Hwf Hu Hi Hk Huninit Hrun.
  assert (Hlen : (Z.to_nat (program_count (gpu_env w))
                  ≤ length (programs (gpu_env w)))%nat).
  { destruct Hwf as (Hp & _ & _ & Hsum & Hmax). unfold MAX_KERNEL_CODE_NUM in *. lia. }
  destruct (uninit_tears_down a w Hu Hi Hk Hlen
              (uninit_open_walkable a w w1 tr Hu Hi Hk Huninit))
    as (w1' & tr' & H & _ & _ & Hpc & Hnull & _).
  rewrite Huninit in H. injection H as <- <-.
  assert (Hs1 : step name_size cstring (uninit a) w = Some (w1, RET_OK, tr)).
  { cbn [step]. by rewrite Huninit. }
  assert (Hwf1 : tables_wf (gpu_env w1)).
  { eapply tables_wf_step; [exact Hwf|].
    exact (step_tables name_size cstring _ _ _ _ _ (tables_wf_count _ Hwf) Hs1). }
  assert (Hinv : tables_wf (gpu_env w2)
                 ∧ null_programs_kept (gpu_env w1) (gpu_env w2)
                 ∧ ∀ i, compiled_at (gpu_env w) i → compiled_at (gpu_env w2) i).
  { revert Hrun.
    apply (run_invariant name_size cstring
             (fun w3 => tables_wf (gpu_env w3)
                        ∧ null_programs_kept (gpu_env w1) (gpu_env w3)
                        ∧ ∀ i, compiled_at (gpu_env w) i → compiled_at (gpu_env w3) i)).
    - intros c w3 w4 r0 tr0 (Hwf3 & Hkept & Hcomp) Hs. split_and!.
      + eapply tables_wf_step; [exact Hwf3|].
        exact (step_tables name_size cstring _ _ _ _ _ (tables_wf_count _ Hwf3) Hs).
      + apply (null_programs_kept_trans _ (gpu_env w3)); [exact Hkept|].
        exact (step_null_programs_kept name_size cstring _ _ _ _ _ Hwf3 Hs).
      + intros i Hc. apply (step_compiled_at name_size cstring _ _ _ _ _ _ Hs).
        by apply Hcomp.
    - split_and!; [exact Hwf1|apply null_programs_kept_refl|].
      intros i Hc. exact (step_compiled_at name_size cstring _ _ _ _ _ _ Hs1 Hc). }
  destruct Hinv as (_ & [Hle Hkept] & Hcomp).
  rewrite Hpc in Hle, Hkept. split_and!; [exact Hle| |].
  - intros j Hj. apply Hkept; [exact Hj|]. by apply Hnull.
  - intros i Hc. split; [by apply Hcomp|].
    apply compiled_at_not_pending. by apply Hcomp.
Qed.

Lemma teardown_is_not_undone_witness :
  tables_wf (gpu_env initialised_world)
  ∧ compiled_at (gpu_env initialised_world) 0
  ∧ av_opencl_uninit sample_uninit_answers initialised_world
    = Some (torn_down_world,
            [clReleaseProgram 21; clReleaseCommandQueue 12; clReleaseContext 11;
             free_device_list sample_device_list; av_opt_free])
  ∧ run sample_name_size sample_cstring after_teardown torn_down_world
    = Some (reinitialised_world, reinitialised_history)
  ∧ init_count (gpu_env reinitialised_world) = 1
  ∧ snd <$> reinitialised_history
    = [[av_log AV_LOG_WARNING "Same kernel code has been registered\n" []];
       [get_device_list;
        av_log AV_LOG_VERBOSE "Platform Name: %s, device id: 0x%x\n"
          [ArgStr "vendor"; ArgInt 8];
        clCreateContextFromType 7 4; clCreateCommandQueue 11 8];
       [clCreateKernel NULL "f";
        av_log AV_LOG_ERROR "Could not create OpenCL kernel: %s\n"
          [ArgErrstr (Some "INVALID PROGRAM")]]]
  ∧ program_count (gpu_env initialised_world)
    ≤ program_count (gpu_env reinitialised_world)
  ∧ (∀ j, (j < Z.to_nat (program_count (gpu_env initialised_world)))%nat →
          programs (gpu_env reinitialised_world) !! j = Some NULL)
  ∧ ∀ i, compiled_at (gpu_env initialised_world) i →
         compiled_at (gpu_env reinitialised_world) i
         ∧ i ∉ pass_fragments (gpu_env reinitialised_world).
Proof.
  assert (Hwf : tables_wf (gpu_env initialised_world)).
  { unfold tables_wf. vm_compute. split_and!; (reflexivity || discriminate). }
  assert (Hu : av_opencl_uninit sample_uninit_answers initialised_world
               = Some (torn_down_world,
                       [clReleaseProgram 21; clReleaseCommandQueue 12;
                        clReleaseContext 11; free_device_list sample_device_list;
                        av_opt_free])) by (vm_compute; reflexivity).
  assert (Hc : compiled_at (gpu_env initialised_world) 0).
  { split; [vm_compute; lia|]. eexists. split; [reflexivity|]. discriminate. }
  assert (Hrun : run sample_name_size sample_cstring after_teardown torn_down_world
                 = Some (reinitialised_world, reinitialised_history))
    by (vm_compute; reflexivity).
  split; [exact Hwf|]. split; [exact Hc|]. split; [exact Hu|].
  split; [exact Hrun|]. split; [reflexivity|]. split; [vm_compute; reflexivity|].
  apply (teardown_is_not_undone sample_name_size sample_cstring
           sample_uninit_answers initialised_world torn_down_world
           reinitialised_world
           [clReleaseProgram 21; clReleaseCommandQueue 12; clReleaseContext 11;
            free_device_list sample_device_list; av_opt_free]
           after_teardown reinitialised_history Hwf eq_refl).
  - vm_compute. discriminate.
  - vm_compute. discriminate.
  - exact Hu.
  - exact Hrun.
Defined.

(** ** Buffers: layout of the planes and bracketing of the transfers *)

Lemma plane_offset_S (plane_size : list Z) (i : nat) (sz : Z) :
  plane_size !! i = Some sz →
  plane_offset plane_size (S i) = plane_offset plane_size i + sz.
Proof.
  intros H. unfold plane_offset. rewrite (take_S_r _ _ _ H).
  generalize (take i plane_size). intros l.
  induction l as [|x l IH]; cbn [foldr app]; lia.
Qed.

Lemma plane_offset_le (plane_size : list Z) (n : nat) :
  (n ≤ length plane_size)%nat →
  (∀ k sz, (k < n)%nat → plane_size !! k = Some sz → 0 ≤ sz) →
  ∀ i j, (i ≤ j)%nat → (j ≤ n)%nat →
    plane_offset plane_size i ≤ plane_offset plane_size j.
Proof.
  intros Hlen Hpos i j Hij. induction Hij as [|j Hij IH]; intros Hj; [lia|].
  destruct (lookup_lt_is_Some_2 plane_size j ltac:(lia)) as [sz Hsz].
  rewrite (plane_offset_S _ _ _ Hsz).
  specialize (Hpos j sz ltac:(lia) Hsz). specialize (IH ltac:(lia)). lia.
Qed.

Lemma plane_offset_0 (plane_size : list Z) : plane_offset plane_size 0 = 0.
Proof. reflexivity. Qed.

Lemma sum_plane_sizes_exact (plane_size : list Z) (m : nat) :
  (m ≤ length plane_size)%nat →
  (∀ k sz, (k < m)%nat → plane_size !! k = Some sz → 0 ≤ sz) →
  plane_offset plane_size m ≤ INT_MAX →
  ∀ (n i : nat), (i + n = m)%nat →
    sum_plane_sizes plane_size i n (plane_offset plane_size i)
    = Some (plane_offset plane_size m).
Proof.
  intros Hlen Hpos Hmax. induction n as [|n IH]; intros i Hi.
  - simpl. rewrite Nat.add_0_r in Hi. by subst.
  - cbn [sum_plane_sizes].
    destruct (lookup_lt_is_Some_2 plane_size i ltac:(lia)) as [sz Hsz].
    rewrite Hsz. cbn [mbind option_bind].
    pose proof (plane_offset_le plane_size m Hlen Hpos 0 (S i) ltac:(lia) ltac:(lia)) as H0.
    pose proof (plane_offset_le plane_size m Hlen Hpos (S i) m ltac:(lia) ltac:(lia)) as H1.
    rewrite plane_offset_0 in H0.
    rewrite <- (plane_offset_S _ _ _ Hsz).
    rewrite int32_small by (unfold INT_MIN, INT_MAX in *; lia).
    apply IH. lia.
Qed.

Lemma copy_planes_layout (src_data : list ptr) (plane_size : list Z) (base : ptr) :
  ∀ (n i : nat),
    (i + n ≤ length src_data)%nat → (i + n ≤ length plane_size)%nat →
    ∃ copies,
      copy_planes src_data plane_size i n (base + plane_offset plane_size i)
      = Some copies
      ∧ length copies = n
      ∧ no_event is_map copies ∧ no_event is_unmap copies
      ∧ ∀ k src sz, (k < n)%nat →
          src_data !! (i + k)%nat = Some src →
          plane_size !! (i + k)%nat = Some sz →
          copies !! k
          = Some (memcpy (base + plane_offset plane_size (i + k)) src (size_t sz)).
Proof.
  induction n as [|n IH]; intros i Hs Hp.
  - exists []. split_and!; try done; [apply no_event_nil|apply no_event_nil|].
    intros; lia.
  - cbn [copy_planes].
    destruct (lookup_lt_is_Some_2 src_data i ltac:(lia)) as [src Hsrc].
    destruct (lookup_lt_is_Some_2 plane_size i ltac:(lia)) as [sz Hsz].
    rewrite Hsrc, Hsz. cbn [mbind option_bind].
    destruct (IH (S i) ltac:(lia) ltac:(lia)) as (copies & Hc & Hl & Hm & Hu & Hk).
    rewrite (plane_offset_S _ _ _ Hsz) in Hc.
    replace (base + plane_offset plane_size i + sz)
      with (base + (plane_offset plane_size i + sz)) by lia.
    rewrite Hc. cbn [mbind option_bind].
    eexists. split; [reflexivity|]. split_and!.
    + cbn [length]. lia.
    + by apply no_event_cons.
    + by apply no_event_cons.
    + intros k src' sz' Hlt Hs' Hp'. destruct k as [|k].
      * rewrite Nat.add_0_r in *. simplify_eq. reflexivity.
      * replace (i + S k)%nat with (S i + k)%nat in * by lia.
        cbn [lookup list_lookup]. apply Hk; [lia|done..].
Qed.

Lemma read_planes_layout (dst_data : list ptr) (plane_size : list Z) (base : ptr) :
  ∀ (n i : nat),
    (i + n ≤ length dst_data)%nat → (i + n ≤ length plane_size)%nat →
    ∃ copies,
      read_planes dst_data plane_size i n (base + plane_offset plane_size i)
      = Some copies
      ∧ length copies = n
      ∧ no_event is_map copies ∧ no_event is_unmap copies
      ∧ ∀ k dst sz, (k < n)%nat →
          dst_data !! (i + k)%nat = Some dst →
          plane_size !! (i + k)%nat = Some sz →
          copies !! k
          = Some (memcpy dst (base + plane_offset plane_size (i + k)) (size_t sz)).
Proof.
  induction n as [|n IH]; intros i Hs Hp.
  - exists []. split_and!; try done; [apply no_event_nil|apply no_event_nil|].
    intros; lia.
  - cbn [read_planes].
    destruct (lookup_lt_is_Some_2 dst_data i ltac:(lia)) as [dst Hdst].
    destruct (lookup_lt_is_Some_2 plane_size i ltac:(lia)) as [sz Hsz].
    rewrite Hdst, Hsz. cbn [mbind option_bind].
    destruct (IH (S i) ltac:(lia) ltac:(lia)) as (copies & Hc & Hl & Hm & Hu & Hk).
    rewrite (plane_offset_S _ _ _ Hsz) in Hc.
    replace (base + plane_offset plane_size i + sz)
      with (base + (plane_offset plane_size i + sz)) by lia.
    rewrite Hc. cbn [mbind option_bind].
    eexists. split; [reflexivity|]. split_and!.
    + cbn [length]. lia.
    + by apply no_event_cons.
    + by apply no_event_cons.
    + intros k dst' sz' Hlt Hs' Hp'. destruct k as [|k].
      * rewrite Nat.add_0_r in *. simplify_eq. reflexivity.
      * replace (i + S k)%nat with (S i + k)%nat in * by lia.
        cbn [lookup list_lookup]. apply Hk; [lia|done..].
Qed.

Lemma size_t_small (z : Z) : 0 ≤ z ≤ INT_MAX → size_t z = z.
Proof.
  intros H. unfold size_t. apply Z.mod_small. unfold INT_MAX in H. lia.
Qed.

Lemma uint32_small (z : Z) : 0 ≤ z ≤ INT_MAX → uint32 z = z.
Proof.
  intros H. unfold uint32. apply Z.mod_small. unfold INT_MAX in H. lia.
Qed.

(** X17: [av_opencl_buffer_write_image] packs the planes one behind the
    other: for [n] planes (at most 8) of non-negative sizes whose sum fits
    the buffer, it maps the bytes from 0 to [dst_cl_offset] plus the sum,
    copies plane [k] to the mapped address plus [dst_cl_offset] plus the
    sizes of the planes before it, in plane order, unmaps and returns 0.
    Every copy lies inside the mapped range, behind the offset. *)
Theorem write_image_packs_planes (mapped : ptr) (g : GPUEnv) (dst_cl_buf : ptr)
    (cl_buffer_size dst_cl_offset : Z) (src_data : list ptr)
    (plane_size : list Z) (n : nat) :
  (n ≤ 8)%nat →
  (n ≤ length src_data)%nat →
  (n ≤ length plane_size)%nat →
  (∀ k sz, (k < n)%nat → plane_size !! k = Some sz → 0 ≤ sz) →
  0 ≤ dst_cl_offset →
  plane_offset plane_size n + dst_cl_offset ≤ INT_MAX →
  plane_offset plane_size n ≤ cl_buffer_size →
  ∃ copies,
    av_opencl_buffer_write_image (mapped, CL.SUCCESS) CL.SUCCESS g dst_cl_buf
      cl_buffer_size dst_cl_offset src_data plane_size (Z.of_nat n)
    = Some (RET_OK,
            clEnqueueMapBuffer (command_queue g) dst_cl_buf CL.TRUE CL.MAP_WRITE 0
              (plane_offset plane_size n + dst_cl_offset)
            :: copies
            ++ [clEnqueueUnmapMemObject (command_queue g) dst_cl_buf mapped])
    ∧ length copies = n
    ∧ ∀ k src sz, (k < n)%nat →
        src_data !! k = Some src → plane_size !! k = Some sz →
        copies !! k
        = Some (memcpy (mapped + dst_cl_offset + plane_offset plane_size k) src sz)
        ∧ 0 ≤ plane_offset plane_size k
        ∧ plane_offset plane_size k + sz ≤ plane_offset plane_size n.
Proof.
  intros H8 Hs Hp Hpos Hd Hmax Hfit.
  pose proof (plane_offset_le plane_size n Hp Hpos 0 n ltac:(lia) ltac:(lia)) as H0.
  rewrite plane_offset_0 in H0.
  destruct (copy_planes_layout src_data plane_size (mapped + dst_cl_offset) n 0
              ltac:(lia) ltac:(lia)) as (copies & Hc & Hl & _ & _ & Hk).
  rewrite plane_offset_0, Z.add_0_r in Hc.
  exists copies. split; [|split; [exact Hl|]].
  - unfold av_opencl_buffer_write_image.
    rewrite uint32_small by (unfold INT_MAX; lia).
    destruct (Z.of_nat n >? 8) eqn:E; [apply Z.gtb_lt in E; lia|].
    rewrite Nat2Z.id.
    rewrite <- (plane_offset_0 plane_size) at 1.
    rewrite (sum_plane_sizes_exact plane_size n Hp Hpos ltac:(lia) n 0 eq_refl).
    cbn [mbind option_bind].
    rewrite size_t_small by lia.
    destruct (_ >? cl_buffer_size) eqn:E1; [apply Z.gtb_lt in E1; lia|].
    change (CL.SUCCESS =? CL.SUCCESS) with true. cbn match.
    rewrite Hc. cbn [mbind option_bind].
    rewrite int32_small by (unfold INT_MIN, INT_MAX in *; lia).
    rewrite size_t_small by lia. reflexivity.
  - intros k src sz Hlt Hsrc Hsz.
    pose proof (Hpos k sz Hlt Hsz) as Hsz0.
    pose proof (plane_offset_le plane_size n Hp Hpos 0 k ltac:(lia) ltac:(lia)) as Hk0.
    pose proof (plane_offset_le plane_size n Hp Hpos (S k) n ltac:(lia) ltac:(lia)) as Hk1.
    rewrite plane_offset_0 in Hk0. rewrite (plane_offset_S _ _ _ Hsz) in Hk1.
    split_and!; [|lia|lia].
    assert (Hx := Hk k src sz Hlt Hsrc Hsz). cbn [Nat.add] in Hx.
    rewrite size_t_small in Hx by lia. exact Hx.
Qed.

Lemma write_image_packs_planes_witness :
  plane_offset sample_plane_size 3 = 8
  ∧ ∃ copies,
      av_opencl_buffer_write_image (1000, CL.SUCCESS) CL.SUCCESS gpu_env0 5
        16 3 sample_planes sample_plane_size (Z.of_nat 3)
      = Some (RET_OK,
              clEnqueueMapBuffer (command_queue gpu_env0) 5 CL.TRUE CL.MAP_WRITE 0
                (plane_offset sample_plane_size 3 + 3)
              :: copies ++ [clEnqueueUnmapMemObject (command_queue gpu_env0) 5 1000])
      ∧ length copies = 3%nat
      ∧ ∀ k src sz, (k < 3)%nat →
          sample_planes !! k = Some src → sample_plane_size !! k = Some sz →
          copies !! k
          = Some (memcpy (1000 + 3 + plane_offset sample_plane_size k) src sz)
          ∧ 0 ≤ plane_offset sample_plane_size k
          ∧ plane_offset sample_plane_size k + sz ≤ plane_offset sample_plane_size 3.
Proof.
  split; [reflexivity|].
  apply (write_image_packs_planes 1000 gpu_env0 5 16 3 sample_planes
           sample_plane_size 3).
  - lia.
  - vm_compute. lia.
  - vm_compute. lia.
  - intros k sz Hk Hsz.
    destruct k as [|[|[|k]]]; vm_compute in Hsz; [| | |lia]; simplify_eq; lia.
  - lia.
  - vm_compute. discriminate.
  - vm_compute. discriminate.
Defined.

(** X18: [av_opencl_buffer_read_image] reads the planes the same packed
    way, but from the start of the buffer: it maps the bytes from 0 to the
    sum of the sizes and copies plane [k] from the mapped address plus the
    sizes of the planes before it.  These are the places
    [av_opencl_buffer_write_image] writes the planes to when its
    [dst_cl_offset] is 0: an image written there is read back plane by
    plane from where it was written. *)
Theorem read_image_reads_what_write_image_wrote (mapped mapped_w : ptr)
    (g : GPUEnv) (dst_data src_data : list ptr) (plane_size : list Z) (n : nat)
    (cl_buf : ptr) (cl_buffer_size : Z) :
  (n ≤ 8)%nat →
  (n ≤ length dst_data)%nat →
  (n ≤ length src_data)%nat →
  (n ≤ length plane_size)%nat →
  (∀ k sz, (k < n)%nat → plane_size !! k = Some sz → 0 ≤ sz) →
  plane_offset plane_size n ≤ INT_MAX →
  plane_offset plane_size n ≤ cl_buffer_size →
  ∃ copies written,
    av_opencl_buffer_read_image (mapped, CL.SUCCESS) CL.SUCCESS g dst_data
      plane_size (Z.of_nat n) cl_buf cl_buffer_size
    = Some (RET_OK,
            clEnqueueMapBuffer (command_queue g) cl_buf CL.TRUE CL.MAP_READ 0
              (plane_offset plane_size n)
            :: copies
            ++ [clEnqueueUnmapMemObject (command_queue g) cl_buf mapped])
    ∧ av_opencl_buffer_write_image (mapped_w, CL.SUCCESS) CL.SUCCESS g cl_buf
        cl_buffer_size 0 src_data plane_size (Z.of_nat n)
      = Some (RET_OK,
              clEnqueueMapBuffer (command_queue g) cl_buf CL.TRUE CL.MAP_WRITE 0
                (plane_offset plane_size n)
              :: written
              ++ [clEnqueueUnmapMemObject (command_queue g) cl_buf mapped_w])
    ∧ length copies = n
    ∧ ∀ k dst src sz, (k < n)%nat →
        dst_data !! k = Some dst → src_data !! k = Some src →
        plane_size !! k = Some sz →
        copies !! k = Some (memcpy dst (mapped + plane_offset plane_size k) sz)
        ∧ written !! k = Some (memcpy (mapped_w + plane_offset plane_size k) src sz)
        ∧ 0 ≤ plane_offset plane_size k
        ∧ plane_offset plane_size k + sz ≤ plane_offset plane_size n.
Proof.
  intros H8 Hd Hs Hp Hpos Hmax Hfit.
  pose proof (plane_offset_le plane_size n Hp Hpos 0 n ltac:(lia) ltac:(lia)) as H0.
  rewrite plane_offset_0 in H0.
  destruct (read_planes_layout dst_data plane_size mapped n 0
              ltac:(lia) ltac:(lia)) as (copies & Hc & Hl & _ & _ & Hk).
  destruct (copy_planes_layout src_data plane_size mapped_w n 0
              ltac:(lia) ltac:(lia)) as (written & Hw & _ & _ & _ & Hkw).
  rewrite plane_offset_0, Z.add_0_r in Hc, Hw.
  assert (Hsum : sum_plane_sizes plane_size 0 n 0 = Some (plane_offset plane_size n)).
  { rewrite <- (plane_offset_0 plane_size) at 1.
    exact (sum_plane_sizes_exact plane_size n Hp Hpos ltac:(lia) n 0 eq_refl). }
  assert (Hn8 : (uint32 (Z.of_nat n) >? 8) = false).
  { rewrite uint32_small by (unfold INT_MAX; lia).
    destruct (Z.of_nat n >? 8) eqn:E; [apply Z.gtb_lt in E; lia|reflexivity]. }
  assert (Hcap : (size_t (plane_offset plane_size n) >? cl_buffer_size) = false).
  { rewrite size_t_small by lia.
    destruct (_ >? cl_buffer_size) eqn:E1; [apply Z.gtb_lt in E1; lia|reflexivity]. }
  exists copies, written. split_and!.
  - unfold av_opencl_buffer_read_image.
    rewrite Hn8, Nat2Z.id, Hsum. cbn [mbind option_bind]. rewrite Hcap.
    change (CL.SUCCESS =? CL.SUCCESS) with true. cbn match.
    rewrite Hc. cbn [mbind option_bind].
    rewrite size_t_small by lia. reflexivity.
  - unfold av_opencl_buffer_write_image.
    rewrite Hn8, Nat2Z.id, Hsum. cbn [mbind option_bind]. rewrite Hcap.
    change (CL.SUCCESS =? CL.SUCCESS) with true. cbn match.
    rewrite !Z.add_0_r, Hw. cbn [mbind option_bind].
    rewrite int32_small by (unfold INT_MIN, INT_MAX in *; lia).
    rewrite size_t_small by lia. reflexivity.
  - exact Hl.
  - intros k dst src sz Hlt Hdst Hsrc Hsz.
    pose proof (Hpos k sz Hlt Hsz) as Hsz0.
    pose proof (plane_offset_le plane_size n Hp Hpos 0 k ltac:(lia) ltac:(lia)) as Hk0.
    pose proof (plane_offset_le plane_size n Hp Hpos (S k) n ltac:(lia) ltac:(lia)) as Hk1.
    rewrite plane_offset_0 in Hk0. rewrite (plane_offset_S _ _ _ Hsz) in Hk1.
    assert (Hx := Hk k dst sz Hlt Hdst Hsz).
    assert (Hy := Hkw k src sz Hlt Hsrc Hsz).
    cbn [Nat.add] in Hx, Hy.
    rewrite size_t_small in Hx, Hy by lia.
    split_and!; [exact Hx|exact Hy|lia|lia].
Qed.

Lemma read_image_reads_what_write_image_wrote_witness :
  ∃ copies written,
    av_opencl_buffer_read_image (1000, CL.SUCCESS) CL.SUCCESS gpu_env0
      [400; 500; 600] sample_plane_size (Z.of_nat 3) 5 16
    = Some (RET_OK,
            clEnqueueMapBuffer (command_queue gpu_env0) 5 CL.TRUE CL.MAP_READ 0
              (plane_offset sample_plane_size 3)
            :: copies ++ [clEnqueueUnmapMemObject (command_queue gpu_env0) 5 1000])
    ∧ av_opencl_buffer_write_image (2000, CL.SUCCESS) CL.SUCCESS gpu_env0 5 16 0
        sample_planes sample_plane_size (Z.of_nat 3)
      = Some (RET_OK,
              clEnqueueMapBuffer (command_queue gpu_env0) 5 CL.TRUE CL.MAP_WRITE 0
                (plane_offset sample_plane_size 3)
              :: written ++ [clEnqueueUnmapMemObject (command_queue gpu_env0) 5 2000])
    ∧ length copies = 3%nat
    ∧ ∀ k dst src sz, (k < 3)%nat →
        [400; 500; 600] !! k = Some dst → sample_planes !! k = Some src →
        sample_plane_size !! k = Some sz →
        copies !! k = Some (memcpy dst (1000 + plane_offset sample_plane_size k) sz)
        ∧ written !! k = Some (memcpy (2000 + plane_offset sample_plane_size k) src sz)
        ∧ 0 ≤ plane_offset sample_plane_size k
        ∧ plane_offset sample_plane_size k + sz ≤ plane_offset sample_plane_size 3.
Proof.
  apply (read_image_reads_what_write_image_wrote 1000 2000 gpu_env0
           [400; 500; 600] sample_planes sample_plane_size 3 5 16).
  - lia.
  - vm_compute. lia.
  - vm_compute. lia.
  - vm_compute. lia.
  - intros k sz Hk Hsz.
    destruct k as [|[|[|k]]]; vm_compute in Hsz; [| | |lia]; simplify_eq; lia.
  - vm_compute. discriminate.
  - vm_compute. discriminate.
Defined.

Lemma copy_planes_copies (src_data : list ptr) (plane_size : list Z) :
  ∀ (n i : nat) (temp : ptr) (tr : trace),
    copy_planes src_data plane_size i n temp = Some tr →
    Forall (fun e => is_memcpy e = true) tr.
Proof.
  induction n as [|n IH]; intros i temp tr H.
  - simpl in H. simplify_eq. constructor.
  - cbn [copy_planes] in H.
    destruct (src_data !! i) as [src|]; [|discriminate].
    cbn [mbind option_bind] in H.
    destruct (plane_size !! i) as [sz|]; [|discriminate].
    cbn [mbind option_bind] in H.
    destruct (copy_planes _ _ _ _ _) as [tr'|] eqn:Hc; [|discriminate].
    cbn [mbind option_bind] in H. simplify_eq.
    constructor; [reflexivity|exact (IH _ _ _ Hc)].
Qed.

Lemma read_planes_copies (dst_data : list ptr) (plane_size : list Z) :
  ∀ (n i : nat) (temp : ptr) (tr : trace),
    read_planes dst_data plane_size i n temp = Some tr →
    Forall (fun e => is_memcpy e = true) tr.
Proof.
  induction n as [|n IH]; intros i temp tr H.
  - simpl in H. simplify_eq. constructor.
  - cbn [read_planes] in H.
    destruct (dst_data !! i) as [dst|]; [|discriminate].
    cbn [mbind option_bind] in H.
    destruct (plane_size !! i) as [sz|]; [|discriminate].
    cbn [mbind option_bind] in H.
    destruct (read_planes _ _ _ _ _) as [tr'|] eqn:Hc; [|discriminate].
    cbn [mbind option_bind] in H. simplify_eq.
    constructor; [reflexivity|exact (IH _ _ _ Hc)].
Qed.

Lemma failure_line_log (status : cl_int) (fmt : string) :
  known_status status → status ≠ CL.SUCCESS →
  failure_line status (log_failure status fmt).
Proof.
  intros [->|[msg Hmsg]] Hne; [contradiction|].
  exists fmt, msg. split_and!; [exact Hne|exact Hmsg|].
  unfold log_failure. apply Z.eqb_neq in Hne. by rewrite Hne, Hmsg.
Qed.

(** The three shapes a transfer can take. *)
Lemma bracket_rejected (map : ptr * cl_int) (unmap : cl_int) (tr : trace) :
  tr = [] ∨ (∃ msg, tr = [av_log AV_LOG_ERROR msg []]) →
  well_bracketed map unmap AVERROR_EINVAL tr.
Proof. intros H. left. by split. Qed.

Lemma bracket_map_failed (mapped : ptr) (status unmap : cl_int) (q buf : ptr)
    (flags size : Z) (fmt : string) :
  known_status status → status ≠ CL.SUCCESS →
  well_bracketed (mapped, status) unmap AVERROR_EXTERNAL
    ([clEnqueueMapBuffer q buf CL.TRUE flags 0 size] ++ log_failure status fmt).
Proof.
  intros Hk Hst. right. left. exists q, buf, flags, size, (log_failure status fmt).
  cbn [snd]. split_and!; [exact Hst|reflexivity|reflexivity|].
  by apply failure_line_log.
Qed.

Lemma bracket_mapped (mapped : ptr) (unmap : cl_int) (q buf : ptr)
    (flags size : Z) (copies : trace) (fmt : string) :
  known_status unmap →
  Forall (fun e => is_memcpy e = true) copies →
  well_bracketed (mapped, CL.SUCCESS) unmap
    (if unmap =? CL.SUCCESS then RET_OK else AVERROR_EXTERNAL)
    ([clEnqueueMapBuffer q buf CL.TRUE flags 0 size] ++ copies
     ++ [clEnqueueUnmapMemObject q buf mapped] ++ log_failure unmap fmt).
Proof.
  intros Hk Hcopies. right. right.
  exists q, buf, flags, size, copies, (log_failure unmap fmt).
  cbn [snd fst]. split_and!; [reflexivity|reflexivity|reflexivity|exact Hcopies|].
  destruct (Z.eqb_spec unmap CL.SUCCESS) as [->|Hne].
  - left. by split.
  - right. by apply failure_line_log.
Qed.

(** X19: every transfer brackets its copies between a map and an unmap.
    For [av_opencl_buffer_write], [av_opencl_buffer_read],
    [av_opencl_buffer_write_image] and [av_opencl_buffer_read_image] alike,
    when the statuses the runtime answers are codes of the error table, the
    calls a transfer makes come in this order: the map; if it succeeded,
    copies and nothing else; then the unmap of the same buffer on the same
    queue at the address the map returned, also when that unmap then fails;
    then at most the one log line of the failing status.  0 is returned
    exactly when both the map and the unmap succeeded, nothing is copied
    or unmapped after a failed map, and a call rejected with
    [AVERROR(EINVAL)] has made no call to the runtime. *)
Theorem transfers_are_well_bracketed (map : ptr * cl_int) (unmap : cl_int)
    (g : GPUEnv) :
  known_status map.2 →
  known_status unmap →
  (∀ dst_cl_buf src_buf buf_size,
      well_bracketed map unmap
        (av_opencl_buffer_write map unmap g dst_cl_buf src_buf buf_size).1
        (av_opencl_buffer_write map unmap g dst_cl_buf src_buf buf_size).2)
  ∧ (∀ dst_buf src_cl_buf buf_size,
        well_bracketed map unmap
          (av_opencl_buffer_read map unmap g dst_buf src_cl_buf buf_size).1
          (av_opencl_buffer_read map unmap g dst_buf src_cl_buf buf_size).2)
  ∧ (∀ dst_cl_buf cl_buffer_size dst_cl_offset src_data plane_size plane_num r tr,
        av_opencl_buffer_write_image map unmap g dst_cl_buf cl_buffer_size
          dst_cl_offset src_data plane_size plane_num = Some (r, tr) →
        well_bracketed map unmap r tr)
  ∧ (∀ dst_data plane_size plane_num src_cl_buf cl_buffer_size r tr,
        av_opencl_buffer_read_image map unmap g dst_data plane_size plane_num
          src_cl_buf cl_buffer_size = Some (r, tr) →
        well_bracketed map unmap r tr).
Proof.
  destruct map as [mapped status]. cbn [snd]. intros Hmap Hunmap.
  assert (Hone : ∀ e, Forall (fun e => is_memcpy e = true) [e] ↔ is_memcpy e = true).
  { intros e. split; [by intros H%Forall_inv|intros H; by constructor]. }
  split_and!.
  - intros buf host size. unfold av_opencl_buffer_write.
    destruct (Z.eqb_spec status CL.SUCCESS) as [->|E].
    + pose proof (bracket_mapped mapped unmap (command_queue g) buf CL.MAP_WRITE
                    (size_t (1 * size)) [memcpy mapped host size]
                    "Could not unmap OpenCL buffer: %s\n" Hunmap
                    ltac:(by apply Hone)) as H.
      destruct (unmap =? CL.SUCCESS) eqn:E1; cbn [fst snd].
      * unfold log_failure in H. rewrite E1 in H. exact H.
      * rewrite <- app_assoc. exact H.
    + cbn [fst snd]. by apply bracket_map_failed.
  - intros host buf size. unfold av_opencl_buffer_read.
    destruct (Z.eqb_spec status CL.SUCCESS) as [->|E].
    + pose proof (bracket_mapped mapped unmap (command_queue g) buf CL.MAP_READ
                    size [memcpy host mapped size]
                    "Could not unmap OpenCL buffer: %s\n" Hunmap
                    ltac:(by apply Hone)) as H.
      destruct (unmap =? CL.SUCCESS) eqn:E1; cbn [fst snd].
      * unfold log_failure in H. rewrite E1 in H. exact H.
      * rewrite <- app_assoc. exact H.
    + cbn [fst snd]. by apply bracket_map_failed.
  - intros buf cap off src_data plane_size n r tr H.
    unfold av_opencl_buffer_write_image in H.
    destruct (uint32 n >? 8).
    { simplify_eq. apply bracket_rejected. by left. }
    destruct (sum_plane_sizes _ _ _ _) as [total|]; [|discriminate].
    cbn [mbind option_bind] in H.
    destruct (size_t total >? cap).
    { simplify_eq. apply bracket_rejected. right. by eexists. }
    destruct (Z.eqb_spec status CL.SUCCESS) as [->|E].
    + destruct (copy_planes _ _ _ _ _) as [copies|] eqn:Hc; [|discriminate].
      cbn [mbind option_bind] in H.
      pose proof (bracket_mapped mapped unmap (command_queue g) buf CL.MAP_WRITE
                    (size_t (int32 (total + off))) copies
                    "Could not unmap OpenCL buffer: %s\n" Hunmap
                    (copy_planes_copies _ _ _ _ _ _ Hc)) as Hb.
      destruct (unmap =? CL.SUCCESS) eqn:E1; simplify_eq.
      * unfold log_failure in Hb. rewrite E1 in Hb.
        rewrite app_nil_r in Hb. exact Hb.
      * rewrite <- !app_assoc. exact Hb.
    + simplify_eq. by apply bracket_map_failed.
  - intros dst_data plane_size n buf cap r tr H.
    unfold av_opencl_buffer_read_image in H.
    destruct (uint32 n >? 8).
    { simplify_eq. apply bracket_rejected. by left. }
    destruct (sum_plane_sizes _ _ _ _) as [total|]; [|discriminate].
    cbn [mbind option_bind] in H.
    destruct (size_t total >? cap).
    { simplify_eq. apply bracket_rejected. right. by eexists. }
    destruct (Z.eqb_spec status CL.SUCCESS) as [->|E].
    + destruct (read_planes _ _ _ _ _) as [copies|] eqn:Hc; [|discriminate].
      cbn [mbind option_bind] in H.
      pose proof (bracket_mapped mapped unmap (command_queue g) buf CL.MAP_READ
                    (size_t total) copies
                    "Could not unmap OpenCL buffer: %s\n" Hunmap
                    (read_planes_copies _ _ _ _ _ _ Hc)) as Hb.
      destruct (unmap =? CL.SUCCESS) eqn:E1; simplify_eq.
      * unfold log_failure in Hb. rewrite E1 in Hb.
        rewrite app_nil_r in Hb. exact Hb.
      * rewrite <- !app_assoc. exact Hb.
    + simplify_eq. by apply bracket_map_failed.
Qed.

(** An unmap that fails after a successful map and copy. *)
Lemma transfers_are_well_bracketed_witness :
  known_status CL.SUCCESS
  ∧ known_status CL.INVALID_MEM_OBJECT
  ∧ av_opencl_buffer_write_image (1000, CL.SUCCESS) CL.INVALID_MEM_OBJECT gpu_env0
      5 16 3 sample_planes sample_plane_size 3
    = Some (AVERROR_EXTERNAL,
            [clEnqueueMapBuffer NULL 5 1 2 0 11; memcpy 1003 100 4;
             memcpy 1007 200 2; memcpy 1009 300 2;
             clEnqueueUnmapMemObject NULL 5 1000;
             av_log AV_LOG_ERROR "Could not unmap OpenCL buffer: %s\n"
               [ArgErrstr (Some "INVALID MEM OBJECT")]])
  ∧ well_bracketed (1000, CL.SUCCESS) CL.INVALID_MEM_OBJECT AVERROR_EXTERNAL
      [clEnqueueMapBuffer NULL 5 1 2 0 11; memcpy 1003 100 4;
       memcpy 1007 200 2; memcpy 1009 300 2;
       clEnqueueUnmapMemObject NULL 5 1000;
       av_log AV_LOG_ERROR "Could not unmap OpenCL buffer: %s\n"
         [ArgErrstr (Some "INVALID MEM OBJECT")]].
Proof.
  assert (H1 : known_status CL.SUCCESS) by (by left).
  assert (H2 : known_status CL.INVALID_MEM_OBJECT)
    by (right; vm_compute; by eexists).
  assert (H : av_opencl_buffer_write_image (1000, CL.SUCCESS)
                CL.INVALID_MEM_OBJECT gpu_env0 5 16 3 sample_planes
                sample_plane_size 3
              = Some (AVERROR_EXTERNAL,
                      [clEnqueueMapBuffer NULL 5 1 2 0 11; memcpy 1003 100 4;
                       memcpy 1007 200 2; memcpy 1009 300 2;
                       clEnqueueUnmapMemObject NULL 5 1000;
                       av_log AV_LOG_ERROR "Could not unmap OpenCL buffer: %s\n"
                         [ArgErrstr (Some "INVALID MEM OBJECT")]]))
    by (vm_compute; reflexivity).
  split; [exact H1|]. split; [exact H2|]. split; [exact H|].
  exact (proj1 (proj2 (proj2 (transfers_are_well_bracketed (1000, CL.SUCCESS)
                                CL.INVALID_MEM_OBJECT gpu_env0 H1 H2)))
           5 16 3 sample_planes sample_plane_size 3 _ _ H).
Defined.

(** ** Error translator: the codes of the table *)

(** X20: [opencl_errstr] returns for every code of [opencl_err_msg] the
    string the table pairs with it, and no code occurs twice in the table:
    for these 58 codes the translation is found before the loop leaves the
    table. *)
Theorem opencl_errstr_translates_table_codes :
  NoDup (err_code <$> opencl_err_msg)
  ∧ ∀ e, e ∈ opencl_err_msg → opencl_errstr (err_code e) = Some (err_str e).
Proof.
  split.
  - apply (bool_decide_unpack (NoDup (err_code <$> opencl_err_msg))).
    vm_compute. exact I.
  - assert (H : forallb (fun e => bool_decide (opencl_errstr (err_code e)
                                               = Some (err_str e)))
                  opencl_err_msg = true) by (vm_compute; reflexivity).
    intros e He. rewrite forallb_forall in H.
    apply list_elem_of_In in He. apply H in He.
    by apply bool_decide_eq_true in He.
Qed.

(** ** Device enumeration *)

Section EnumFacts.

Import DeviceList.

Lemma free_device_nodes_defined :
  ∀ (n j : nat) (arr : list (option AVOpenCLDeviceNode)),
    (j + n ≤ length arr)%nat →
    ∃ arr', free_device_nodes (Some arr) j n = Some arr'.
Proof.
  induction n as [|n IH]; intros j arr Hlen; [by eexists|].
  cbn [free_device_nodes mbind option_bind].
  destruct (lookup_lt_is_Some_2 arr j ltac:(lia)) as [x Hx].
  rewrite Hx. cbn [mbind option_bind].
  apply IH. rewrite length_insert. lia.
Qed.

Lemma cell_freeable_defined (node : platform_mem) :
  cell_freeable (Some node) →
  ∃ arr', free_device_nodes (pm_device_node node) 0 (Z.to_nat (pm_device_num node))
          = Some arr'.
Proof.
  intros [[-> ->]|(size & ds & arr & -> & Hlen & -> & Htake)].
  - by eexists.
  - apply free_device_nodes_defined. rewrite Nat2Z.id.
    assert (length (take (length ds) arr) = length ds)
      by (rewrite Htake; apply length_fmap).
    rewrite length_take in H. lia.
Qed.

Lemma free_platform_nodes_defined :
  ∀ (n i : nat) (nodes : list (option platform_mem)),
    (i + n ≤ length nodes)%nat →
    (∀ k cell, nodes !! k = Some cell → cell_freeable cell) →
    ∃ nodes', free_platform_nodes (Some nodes) i n = Some nodes'.
Proof.
  induction n as [|n IH]; intros i nodes Hlen Hfree; [by eexists|].
  cbn [free_platform_nodes mbind option_bind].
  destruct (lookup_lt_is_Some_2 nodes i ltac:(lia)) as [cell Hcell].
  rewrite Hcell. cbn [mbind option_bind].
  destruct cell as [node|]; [|apply IH; [lia|exact Hfree]].
  destruct (cell_freeable_defined node (Hfree _ _ Hcell)) as [arr' ->].
  cbn [mbind option_bind]. apply IH; [rewrite length_insert; lia|].
  intros k cell Hk. destruct (decide (k = i)) as [->|Hne].
  - rewrite list_lookup_insert_eq in Hk by (eapply lookup_lt_Some; exact Hcell).
    by simplify_eq.
  - rewrite list_lookup_insert_ne in Hk by done. eapply Hfree; exact Hk.
Qed.

Lemma free_device_list_defined (n : Z) (nodes : list (option platform_mem)) :
  (Z.to_nat n ≤ length nodes)%nat →
  (∀ k cell, nodes !! k = Some cell → cell_freeable cell) →
  free_device_list {| lm_platform_num := n; lm_platform_node := Some nodes |}
  = Some empty_list.
Proof.
  intros Hlen Hfree. unfold free_device_list. cbn [lm_platform_node lm_platform_num].
  destruct (free_platform_nodes_defined (Z.to_nat n) 0 nodes ltac:(lia) Hfree)
    as [nodes' ->].
  reflexivity.
Qed.

Lemma arr_set_ok {A} (a : list A) (i : nat) (x : A) :
  (i < length a)%nat → arr_set a (Z.of_nat i) x = Some (<[i := x]> a).
Proof.
  intros H. unfold arr_set.
  destruct (Z.of_nat i <? 0) eqn:E; [apply Z.ltb_lt in E; lia|].
  rewrite Nat2Z.id. destruct (i <? length a)%nat eqn:E1; [reflexivity|].
  apply Nat.ltb_ge in E1. lia.
Qed.

Lemma node_lists_store (size : nat) (node : platform_mem)
    (ds : list AVOpenCLDeviceNode) (arr : list (option AVOpenCLDeviceNode))
    (x : option AVOpenCLDeviceNode) :
  pm_device_node node = Some arr → node_lists size node ds →
  node_lists size (set_pm_device_node (Some (<[length ds := x]> arr)) node) ds.
Proof.
  intros Harr (arr0 & Harr0 & Hlen & Hnum & Htake).
  rewrite Harr in Harr0. injection Harr0 as <-.
  exists (<[length ds := x]> arr). cbn [pm_device_node pm_device_num set_pm_device_node].
  split_and!; [done|by rewrite length_insert|done|].
  by rewrite take_insert_ge.
Qed.

Lemma node_lists_count (size : nat) (node : platform_mem)
    (ds : list AVOpenCLDeviceNode) (arr : list (option AVOpenCLDeviceNode))
    (d : AVOpenCLDeviceNode) :
  (length ds < size)%nat →
  pm_device_node node = Some arr → node_lists size node ds →
  node_lists size
    (set_pm_device_num (Z.of_nat (length ds) + 1)
       (set_pm_device_node (Some (<[length ds := Some d]> arr)) node))
    (ds ++ [d]).
Proof.
  intros Hlt Harr (arr0 & Harr0 & Hlen & Hnum & Htake).
  rewrite Harr in Harr0. injection Harr0 as <-.
  exists (<[length ds := Some d]> arr).
  cbn [pm_device_node pm_device_num set_pm_device_node set_pm_device_num].
  rewrite length_app. cbn [length].
  split_and!; [done|by rewrite length_insert|lia|].
  replace (length ds + 1)%nat with (S (length ds)) by lia.
  erewrite take_S_r by (apply list_lookup_insert_eq; lia).
  rewrite take_insert_ge by lia. rewrite Htake, fmap_app. reflexivity.
Qed.

Lemma failing_status_message (status : cl_int) :
  known_status status → (status =? CL.SUCCESS) = false →
  ∃ msg, opencl_errstr status = Some msg.
Proof.
  intros [->|[msg H]] E; [discriminate|]. by exists msg.
Qed.

Lemma named_devices_S (a : answers) (i j : nat) (dtype : Z) (ids : nat -> ptr)
    (k n : nat) :
  named_devices a i j dtype ids k (S n)
  = (if (device_name a i j k).1 =? CL.SUCCESS
     then [{| dn_device_name := (device_name a i j k).2; dn_device_type := dtype;
              dn_device_id := ids k |}]
     else [])
    ++ named_devices a i j dtype ids (S k) n.
Proof.
  unfold named_devices. cbn [seq omap list_omap].
  by destruct ((device_name a i j k).1 =? CL.SUCCESS).
Qed.

Lemma device_loop_lists (a : answers) (i j : nat) (dtype : Z) (ids : nat -> ptr)
    (size : nat) :
  Z.of_nat size ≤ INT_MAX →
  (∀ k, known_status (device_name a i j k).1) →
  ∀ (n k : nat) (node : platform_mem) (ds : list AVOpenCLDeviceNode),
    node_lists size node ds →
    (length ds + n ≤ size)%nat →
    ∃ node' r tr ds',
      device_loop a i j dtype ids node k n = Some (node', r, tr)
      ∧ node_lists size node' (ds ++ ds')
      ∧ (length ds' ≤ n)%nat
      ∧ (r = RET_OK ∧ ds' = named_devices a i j dtype ids k n
         ∨ r = AVERROR_ENOMEM ∧ ¬ allocations_succeed a)
      ∧ pm_platform_id node' = pm_platform_id node
      ∧ pm_platform_name node' = pm_platform_name node.
Proof.
  intros Hmax Hknown. induction n as [|n IH]; intros k node ds Hl Hn.
  - exists node, RET_OK, [], []. rewrite app_nil_r. split_and!; try done. by left.
  - pose proof Hl as (arr & Harr & Hlen & Hnum & Htake).
    cbn [device_loop]. rewrite Harr. cbn [mbind option_bind].
    rewrite named_devices_S.
    destruct (alloc_device a i j k) eqn:Ealloc.
    + pose proof (Hknown k) as Hk.
      destruct (device_name a i j k) as [status name]. cbn [fst snd] in Hk |- *.
      rewrite Hnum, arr_set_ok by lia. cbn [mbind option_bind].
      set (d := {| dn_device_name := name; dn_device_type := dtype;
                   dn_device_id := ids k |}).
      destruct (status =? CL.SUCCESS) eqn:Est.
      * cbn [pm_device_num set_pm_device_node]. rewrite Hnum.
        rewrite int32_small by (unfold INT_MIN, INT_MAX in *; lia).
        pose proof (node_lists_count size node ds arr d ltac:(lia) Harr Hl) as Hl1.
        destruct (IH (S k) _ (ds ++ [d]) Hl1)
          as (node' & r & tr & ds' & Hd & Hl' & Hle & Hr & Hid & Hnm).
        { rewrite length_app. cbn [length]. lia. }
        exists node', r, tr, (d :: ds'). rewrite <- app_assoc in Hl'.
        split_and!; try done; [cbn [length]; lia|].
        destruct Hr as [[-> ->]|Hr]; [left|right]; done.
      * destruct (failing_status_message status Hk Est) as [msg ->].
        cbn [mbind option_bind].
        pose proof (node_lists_store size node ds arr (Some d) Harr Hl) as Hl1.
        destruct (IH (S k) _ ds Hl1 ltac:(lia))
          as (node' & r & tr & ds' & Hd & Hl' & Hle & Hr & Hid & Hnm).
        rewrite Hd. cbn [mbind option_bind].
        eexists node', r, _, ds'. split_and!; try done. lia.
    + rewrite Hnum, arr_set_ok by lia. cbn [mbind option_bind].
      eexists _, AVERROR_ENOMEM, [], []. rewrite app_nil_r.
      split_and!; try done; [|cbn; lia|].
      * exact (node_lists_store size node ds arr None Harr Hl).
      * right. split; [done|]. intros (_ & _ & _ & _ & H).
        rewrite H in Ealloc. discriminate.
Qed.

Lemma named_devices_length (a : answers) (i j : nat) (dtype : Z)
    (ids : nat -> ptr) (k n : nat) :
  (length (named_devices a i j dtype ids k n) ≤ n)%nat.
Proof.
  revert k. induction n as [|n IH]; intros k; [done|].
  rewrite named_devices_S, length_app.
  specialize (IH (S k)).
  destruct (_ =? CL.SUCCESS); cbn [length]; lia.
Qed.

Lemma sum_nonneg (l : list Z) :
  (∀ k c, l !! k = Some c → 0 ≤ c) → 0 ≤ foldr Z.add 0 l.
Proof.
  induction l as [|x l IH]; intros H; cbn [foldr]; [lia|].
  pose proof (H O x eq_refl). specialize (IH (fun k c Hk => H (S k) c Hk)). lia.
Qed.

Lemma listed_from_S (a : answers) (i : nat) (counts : list Z) (j n : nat) :
  listed_from a i counts j (S n)
  = devices_of_type a i j (default 0 (counts !! j))
    ++ listed_from a i counts (S j) n.
Proof. reflexivity. Qed.

Lemma devices_of_type_0 (a : answers) (i j : nat) : devices_of_type a i j 0 = [].
Proof.
  unfold devices_of_type. destruct (device_type !! j); [|done].
  by destruct (_ =? CL.SUCCESS).
Qed.

Lemma type_loop_lists (a : answers) (i : nat) (counts : list Z) (size : nat) :
  length counts = 3%nat →
  (∀ k c, counts !! k = Some c → 0 ≤ c) →
  Z.of_nat size ≤ INT_MAX →
  device_statuses_known a →
  ∀ (n j : nat) (node : platform_mem) (ds : list AVOpenCLDeviceNode),
    (j + n = 3)%nat →
    node_lists size node ds →
    Z.of_nat (length ds) + foldr Z.add 0 (drop j counts) ≤ Z.of_nat size →
    ∃ node' r tr ds',
      type_loop a i counts node j n = Some (node', r, tr)
      ∧ node_lists size node' ds'
      ∧ (r = RET_OK ∧ ds' = ds ++ listed_from a i counts j n
         ∨ r = AVERROR_ENOMEM ∧ ¬ allocations_succeed a)
      ∧ pm_platform_id node' = pm_platform_id node
      ∧ pm_platform_name node' = pm_platform_name node.
Proof.
  intros Hc3 Hpos Hmax [Hids Hnames].
  induction n as [|n IH]; intros j node ds Hj Hl Hbudget.
  - exists node, RET_OK, [], ds. split_and!; try done. left.
    split; [done|]. unfold listed_from. cbn. by rewrite app_nil_r.
  - destruct (lookup_lt_is_Some_2 counts j ltac:(lia)) as [c Hc].
    destruct (lookup_lt_is_Some_2 device_type j) as [dtype Hdt];
      [cbn [length device_type]; lia|].
    pose proof (Hpos j c Hc) as Hc0.
    rewrite (drop_S _ _ _ Hc) in Hbudget. cbn [foldr] in Hbudget.
    assert (Hrest : 0 ≤ foldr Z.add 0 (drop (S j) counts)).
    { apply sum_nonneg. intros k x Hk. rewrite lookup_drop in Hk. eapply Hpos; exact Hk. }
    cbn [type_loop]. rewrite Hc, Hdt. cbn [mbind option_bind].
    rewrite listed_from_S, Hc. cbn [default from_option id].
    destruct (c =? 0) eqn:Ec.
    { apply Z.eqb_eq in Ec. subst c. rewrite devices_of_type_0. cbn [app].
      apply (IH (S j) node ds); [lia|done|lia]. }
    unfold av_mallocz_array.
    destruct (alloc_device_ids a i j) eqn:Ealloc; cbn [andb negb];
      [|exists node, AVERROR_ENOMEM, [], ds; split_and!; try done;
        right; split; [done|]; intros (_ & _ & _ & H & _);
        rewrite H in Ealloc; discriminate].
    destruct (0 <=? c) eqn:E0; [|apply Z.leb_gt in E0; lia]. cbn [negb].
    unfold devices_of_type. rewrite Hdt.
    pose proof (Hids i j) as Hknown.
    destruct (device_ids a i j) as [status ids]. cbn [fst snd] in Hknown |- *.
    destruct (status =? CL.SUCCESS) eqn:Est.
    + destruct (device_loop_lists a i j dtype ids size Hmax (Hnames i j)
                  (Z.to_nat c) 0 node ds Hl ltac:(lia))
        as (node1 & r & tr & ds' & Hd & Hl1 & Hle & Hr & Hid & Hnm).
      rewrite Hd. cbn [mbind option_bind].
      destruct Hr as [[-> ->] | [-> Hfail]]; cbn [ret_lt_0].
      * destruct (IH (S j) node1 (ds ++ named_devices a i j dtype ids 0 (Z.to_nat c)))
          as (node2 & r2 & tr2 & ds2 & H2 & Hl2 & Hr2 & Hid2 & Hnm2).
        -- lia.
        -- exact Hl1.
        -- rewrite length_app. lia.
        -- rewrite H2. cbn [mbind option_bind].
           eexists node2, r2, _, ds2. split_and!; try done; [|congruence..].
           destruct Hr2 as [[-> ->]|Hr2]; [left|by right].
           split; [done|]. by rewrite app_assoc.
      * eexists node1, AVERROR_ENOMEM, tr, _. split_and!; try done. by right.
    + destruct (failing_status_message status Hknown Est) as [msg ->].
      cbn [mbind option_bind app].
      destruct (IH (S j) node ds)
        as (node2 & r2 & tr2 & ds2 & H2 & Hl2 & Hr2 & Hid2 & Hnm2);
        [lia|done|lia|].
      rewrite H2. cbn [mbind option_bind].
      eexists node2, r2, _, ds2. split_and!; done.
Qed.

Lemma count_loop_sane (a : answers) (i : nat) (counts : list Z) :
  counts_sane a → counts_ok counts →
  ∃ total,
    count_loop a i counts 0 (length device_type) 0
    = Some (written_counts a i counts, total)
    ∧ counts_ok (written_counts a i counts)
    ∧ total = foldr Z.add 0 (written_counts a i counts)
    ∧ 0 ≤ total ∧ total ≤ INT_MAX.
Proof.
  intros Hsane [Hlen Hrange].
  destruct counts as [|c0 [|c1 [|c2 [|]]]]; try discriminate.
  pose proof (Hrange 0%nat c0 eq_refl) as H0.
  pose proof (Hrange 1%nat c1 eq_refl) as H1.
  pose proof (Hrange 2%nat c2 eq_refl) as H2.
  set (d0 := match device_count a i 0 with Some c => c | None => c0 end).
  set (d1 := match device_count a i 1 with Some c => c | None => c1 end).
  set (d2 := match device_count a i 2 with Some c => c | None => c2 end).
  assert (Hd0 : 0 ≤ d0 ∧ d0 ≤ MAX_DEVICE_COUNT).
  { unfold d0. destruct (device_count a i 0) eqn:E; [exact (Hsane _ _ _ E)|done]. }
  assert (Hd1 : 0 ≤ d1 ∧ d1 ≤ MAX_DEVICE_COUNT).
  { unfold d1. destruct (device_count a i 1) eqn:E; [exact (Hsane _ _ _ E)|done]. }
  assert (Hd2 : 0 ≤ d2 ∧ d2 ≤ MAX_DEVICE_COUNT).
  { unfold d2. destruct (device_count a i 2) eqn:E; [exact (Hsane _ _ _ E)|done]. }
  assert (Hm : 3 * MAX_DEVICE_COUNT ≤ INT_MAX) by (vm_compute; discriminate).
  assert (Hw : written_counts a i [c0; c1; c2] = [d0; d1; d2]) by reflexivity.
  rewrite Hw.
  exists (d0 + d1 + d2).
  split_and!.
  - cbn [count_loop length device_type lookup list_lookup mbind option_bind
         insert list_insert].
    fold d0 d1 d2.
    rewrite (int32_small (0 + d0)) by (unfold INT_MIN, INT_MAX in *; lia).
    rewrite (int32_small (0 + d0 + d1)) by (unfold INT_MIN, INT_MAX in *; lia).
    rewrite (int32_small (0 + d0 + d1 + d2)) by (unfold INT_MIN, INT_MAX in *; lia).
    reflexivity.
  - split; [reflexivity|]. intros k c Hk.
    destruct k as [|[|[|k]]]; cbn in Hk; simplify_eq; done.
  - cbn [foldr]. lia.
  - lia.
  - lia.
Qed.

Lemma counts_before_ok (a : answers) (i : nat) :
  counts_sane a → counts_ok (counts_before a i).
Proof.
  intros Hsane. induction i as [|i IH]; cbn [counts_before].
  - split; [reflexivity|]. intros k c Hk.
    destruct k as [|[|[|k]]]; cbn in Hk; simplify_eq; vm_compute; split; discriminate.
  - by destruct (count_loop_sane a i _ Hsane IH) as (total & _ & Hok & _).
Qed.

Lemma node_complete_freeable (a : answers) (ids : nat -> ptr) (i : nat)
    (node : platform_mem) :
  node_complete a ids i node → cell_freeable (Some node).
Proof. intros (_ & _ & Hl). right. by eexists _, _. Qed.

Lemma platform_loop_outcome (a : answers) (ids : nat -> ptr) :
  counts_sane a →
  device_statuses_known a →
  ∀ (n i : nat) (nodes : list (option platform_mem)),
    (i + n = length nodes)%nat →
    (∀ k, (k < i)%nat →
          ∃ node, nodes !! k = Some (Some node) ∧ node_complete a ids k node) →
    (∀ k, (i ≤ k)%nat → (k < length nodes)%nat → nodes !! k = Some None) →
    ∃ nodes' r tr,
      platform_loop a ids nodes (counts_before a i) i n = Some (nodes', r, tr)
      ∧ length nodes' = length nodes
      ∧ ((r = RET_OK
          ∧ ∀ k, (k < length nodes')%nat →
               ∃ node, nodes' !! k = Some (Some node)
                       ∧ node_complete a ids k node)
         ∨ (r = AVERROR_ENOMEM
            ∧ ¬ allocations_succeed a
            ∧ ∀ k cell, nodes' !! k = Some cell → cell_freeable cell)).
Proof.
  intros Hsane Hknown. induction n as [|n IH]; intros i nodes Hi Hdone Hrest.
  - exists nodes, RET_OK, []. split_and!; try done. left. split; [done|].
    intros k Hk. apply Hdone. lia.
  - assert (Hfree : ∀ (x : option platform_mem), cell_freeable x →
              ∀ k cell, <[i := x]> nodes !! k = Some cell → cell_freeable cell).
    { intros x Hx k cell Hk. destruct (decide (k = i)) as [->|Hne].
      - rewrite list_lookup_insert_eq in Hk by lia. by simplify_eq.
      - rewrite list_lookup_insert_ne in Hk by done.
        destruct (decide (k < i)%nat) as [Hlt|Hge].
        + destruct (Hdone k Hlt) as (node & Hn & Hf). rewrite Hn in Hk.
          simplify_eq. by eapply node_complete_freeable.
        + rewrite (Hrest k ltac:(lia)) in Hk
            by (eapply lookup_lt_Some; exact Hk).
          by simplify_eq. }
    cbn [platform_loop].
    destruct (alloc_platform a i) eqn:Ealloc.
    + destruct (count_loop_sane a i (counts_before a i) Hsane
                  (counts_before_ok a i Hsane))
        as (total & -> & Hcounts' & Htotal & Ht0 & Ht1).
      fold (counts_at a i) in Hcounts', Htotal |- *.
      cbn [mbind option_bind]. unfold av_mallocz_array.
      destruct (alloc_device_node a i) eqn:Ealloc2; cbn [andb].
      * destruct (0 <=? total) eqn:E; [|apply Z.leb_gt in E; lia].
        set (node0 := set_pm_device_node (Some (replicate (Z.to_nat total) None))
                        {| pm_platform_id := ids i; pm_platform_name := platform_name a i;
                           pm_device_num := 0; pm_device_node := None |}).
        assert (Hl0 : node_lists (Z.to_nat total) node0 []).
        { eexists. split_and!; [reflexivity|apply length_replicate|reflexivity|reflexivity]. }
        destruct (type_loop_lists a i (counts_at a i) (Z.to_nat total) (proj1 Hcounts')
                    (fun k c Hk => proj1 (proj2 Hcounts' k c Hk)) ltac:(lia) Hknown
                    3 0 node0 [] eq_refl Hl0)
          as (node' & r & tr & ds' & Ht & Hl' & Hr & Hid & Hnm).
        { rewrite drop_0. cbn [length]. lia. }
        change (length device_type) with 3%nat. rewrite Ht.
        cbn [mbind option_bind]. rewrite arr_set_ok by lia.
        cbn [mbind option_bind].
        destruct Hr as [[-> Hds] | [-> Hfail]]; cbn [ret_lt_0].
        -- destruct (IH (S i) (<[i := Some node']> nodes))
             as (nodes2 & r2 & tr2 & H2 & Hlen2 & Hr2).
           ++ rewrite length_insert. lia.
           ++ intros k Hk. destruct (decide (k = i)) as [->|Hne].
              ** exists node'. rewrite list_lookup_insert_eq by lia.
                 split; [done|]. split_and!; [by rewrite Hid|by rewrite Hnm|].
                 rewrite <- Htotal. cbn [app] in Hds. rewrite Hds in Hl'.
                 exact Hl'.
              ** rewrite list_lookup_insert_ne by done. apply Hdone. lia.
           ++ intros k Hk Hk'. rewrite length_insert in Hk'.
              rewrite list_lookup_insert_ne by lia. apply Hrest; lia.
           ++ cbn [counts_before] in H2. fold (counts_at a i) in H2.
              rewrite H2. cbn [mbind option_bind]. rewrite length_insert in Hlen2.
              eexists nodes2, r2, _. split_and!; done.
        -- eexists _, AVERROR_ENOMEM, tr. split_and!;
             [reflexivity|by rewrite length_insert|].
           right. split_and!; [done|done|]. apply Hfree. right.
           by exists (Z.to_nat total), ds'.
      * rewrite arr_set_ok by lia. cbn [mbind option_bind].
        eexists _, AVERROR_ENOMEM, []. split_and!;
          [reflexivity|by rewrite length_insert|].
        right. split_and!; [done| |apply Hfree; by left].
        intros (_ & _ & H & _). rewrite H in Ealloc2. discriminate.
    + rewrite arr_set_ok by lia. cbn [mbind option_bind].
      eexists _, AVERROR_ENOMEM, []. split_and!;
        [reflexivity|by rewrite length_insert|].
      right. split_and!; [done| |by apply Hfree].
      intros (_ & H & _). rewrite H in Ealloc. discriminate.
Qed.

Lemma list_complete_freeable (a : answers) (n : Z) (ids : nat -> ptr)
    (dl : list_mem) :
  0 ≤ n → list_complete a n ids dl → free_device_list dl = Some empty_list.
Proof.
  intros Hn (Hnum & nodes & Hnodes & Hlen & Hall).
  destruct dl as [num pn]. cbn in Hnum, Hnodes. subst num pn.
  apply free_device_list_defined; [lia|].
  intros k cell Hk.
  destruct (Hall k (lookup_lt_Some _ _ _ Hk)) as (node & Hn' & Hf).
  rewrite Hn' in Hk. simplify_eq. by eapply node_complete_freeable.
Qed.

Lemma get_device_list_outcome (a : answers) (dl : list_mem) (n : Z)
    (ids : nat -> ptr) :
  counts_sane a →
  device_statuses_known a →
  platform_count a = (CL.SUCCESS, n) →
  0 ≤ n →
  alloc_platform_ids a = true →
  platform_ids a = (CL.SUCCESS, ids) →
  alloc_platform_node a = true →
  ∃ dl' r tr,
    get_device_list a dl = Some (dl', r, tr)
    ∧ ((r = RET_OK ∧ list_complete a n ids dl')
       ∨ (r = AVERROR_ENOMEM ∧ ¬ allocations_succeed a ∧ dl' = empty_list)).
Proof.
  intros Hsane Hknown Hcount Hn Hids Hq Hnodes.
  unfold get_device_list. rewrite Hcount.
  change (CL.SUCCESS =? CL.SUCCESS) with true. cbn match.
  unfold av_mallocz_array. rewrite Hids. cbn [andb].
  destruct (0 <=? n) eqn:E; [|apply Z.leb_gt in E; lia].
  unfold build_list. rewrite Hq.
  change (CL.SUCCESS =? CL.SUCCESS) with true. cbn match.
  cbn [lm_platform_num lm_platform_node]. unfold av_mallocz_array.
  rewrite Hnodes, E. cbn [andb].
  destruct (alloc_devices_num a) eqn:Ealloc.
  - destruct (platform_loop_outcome a ids Hsane Hknown (Z.to_nat n) 0
                (replicate (Z.to_nat n) None))
      as (nodes' & r & tr & Hp & Hlen & Hr).
    + by rewrite length_replicate.
    + intros k Hk. lia.
    + intros k _ Hk. rewrite length_replicate in Hk.
      by apply lookup_replicate_2.
    + cbn [counts_before] in Hp. rewrite Hp. cbn [mbind option_bind].
      rewrite length_replicate in Hlen. unfold get_device_list_end.
      destruct Hr as [[-> Hfinal] | (-> & Hfail & Hfree)]; cbn [ret_lt_0].
      * eexists _, RET_OK, tr. split; [reflexivity|]. left. split; [done|].
        split; [reflexivity|]. exists nodes'. done.
      * unfold set_lm_platform_node. cbn [lm_platform_num].
        rewrite (free_device_list_defined n nodes' ltac:(lia) Hfree).
        cbn [mbind option_bind].
        eexists _, AVERROR_ENOMEM, tr. split; [reflexivity|]. by right.
  - cbn [mbind option_bind ret_lt_0]. unfold get_device_list_end, set_lm_platform_node.
    cbn [lm_platform_num ret_lt_0].
    rewrite (free_device_list_defined n (replicate (Z.to_nat n) None)).
    + cbn [mbind option_bind].
      eexists _, AVERROR_ENOMEM, []. split; [reflexivity|]. right.
      split_and!; [done| |done]. intros (H & _). rewrite H in Ealloc. discriminate.
    + by rewrite length_replicate.
    + intros k cell Hk. apply lookup_replicate in Hk as [-> _]. exact I.
Qed.

Lemma free_empty_list : free_device_list empty_list = Some empty_list.
Proof. reflexivity. Qed.

Lemma sample_enumeration_sane : counts_sane sample_enumeration.
Proof.
  intros i j c H. destruct i as [|i]; [destruct j as [|[|j]]|];
    cbn in H; simplify_eq; vm_compute; split; discriminate.
Qed.

Lemma sample_enumeration_known : device_statuses_known sample_enumeration.
Proof.
  split.
  - intros i j. destruct i as [|i]; [by left|].
    right. vm_compute. by eexists.
  - intros i j k. destruct i as [|i]; [destruct j as [|j]|]; try (by left).
    right. vm_compute. by eexists.
Qed.

End EnumFacts.



(** X22: the public pair over it.  Under the same conditions
    [av_opencl_get_device_list] hands out a complete list with code 0, or,
    an allocation having failed, [NULL] with [AVERROR(ENOMEM)] after a
    second, harmless [free_device_list] on the list that is empty already;
    the list handed out is released by [av_opencl_free_device_list], which
    leaves the caller's pointer [NULL]. *)
Theorem public_enumeration_returns_list_or_null (alloc_list : bool)
    (a : DeviceList.answers) (n : Z) (ids : nat -> ptr) :
  counts_sane a →
  device_statuses_known a →
  DeviceList.platform_count a = (CL.SUCCESS, n) →
  0 ≤ n →
  DeviceList.alloc_platform_ids a = true →
  DeviceList.platform_ids a = (CL.SUCCESS, ids) →
  DeviceList.alloc_platform_node a = true →
  (∃ dl tr,
      DeviceList.av_opencl_get_device_list alloc_list a = Some (Some dl, RET_OK, tr)
      ∧ alloc_list = true
      ∧ list_complete a n ids dl
      ∧ DeviceList.av_opencl_free_device_list (Some dl) = Some None)
  ∨ (∃ tr msg,
       DeviceList.av_opencl_get_device_list alloc_list a
       = Some (None, AVERROR_ENOMEM, tr ++ [av_log AV_LOG_ERROR msg []])
       ∧ (alloc_list = false ∨ ¬ allocations_succeed a)).
Proof.
  intros Hsane Hknown Hcount Hn Hids Hq Hnodes.
  unfold DeviceList.av_opencl_get_device_list.
  destruct alloc_list;
    [|right; exists [], "Could not allocate opencl device list\n";
      split; [reflexivity|by left]].
  destruct (get_device_list_outcome a empty_list n ids Hsane Hknown Hcount Hn Hids
              Hq Hnodes)
    as (dl' & r & tr & H & Hr).
  unfold empty_list in H. rewrite H. cbn [mbind option_bind].
  destruct Hr as [[-> Hf] | (-> & Hfail & ->)]; cbn [ret_lt_0].
  - left. exists dl', tr. split_and!; try done.
    unfold DeviceList.av_opencl_free_device_list.
    by rewrite (list_complete_freeable a n ids dl' Hn Hf).
  - right. rewrite free_empty_list. cbn [mbind option_bind].
    exists tr, "Could not get device list from environment\n".
    split; [reflexivity|by right].
Qed.

Lemma public_enumeration_returns_list_or_null_witness :
  DeviceList.av_opencl_get_device_list true sample_enumeration
  = Some (Some sample_enumerated, RET_OK, sample_enumeration_log)
  ∧ ((∃ dl tr,
        DeviceList.av_opencl_get_device_list true sample_enumeration
        = Some (Some dl, RET_OK, tr)
        ∧ true = true
        ∧ list_complete sample_enumeration 2 (fun i => 7 + Z.of_nat i) dl
        ∧ DeviceList.av_opencl_free_device_list (Some dl) = Some None)
     ∨ (∃ tr msg,
          DeviceList.av_opencl_get_device_list true sample_enumeration
          = Some (None, AVERROR_ENOMEM, tr ++ [av_log AV_LOG_ERROR msg []])
          ∧ (true = false ∨ ¬ allocations_succeed sample_enumeration))).
Proof.
  split; [vm_compute; reflexivity|].
  apply (public_enumeration_returns_list_or_null true sample_enumeration 2
           (fun i => 7 + Z.of_nat i) sample_enumeration_sane
           sample_enumeration_known).
  - reflexivity.
  - lia.
  - reflexivity.
  - reflexivity.
  - reflexivity.
Defined.

(** X23: a failure after the platform count is known makes
    [get_device_list] free a list that has no platform array.  When at
    least one platform was counted and either the identifiers cannot be read
    while [platform_node] is still [NULL], or the array of platform nodes
    cannot be allocated, the code jumps to [end:] with [platform_num]
    positive and [platform_node] [NULL], and [free_device_list] reads
    [platform_node[0]] through the [NULL] pointer: an access out of bounds.
    On the way there [end:] has already released [devices_num], which was
    never assigned.  [av_opencl_get_device_list], which starts from a zeroed
    list, has the same fate. *)
Theorem enumeration_failure_walks_null_list (a : DeviceList.answers)
    (dl : DeviceList.list_mem) (n : Z) :
  DeviceList.platform_count a = (CL.SUCCESS, n) →
  0 < n →
  DeviceList.alloc_platform_ids a = true →
  DeviceList.lm_platform_node dl = None →
  (DeviceList.platform_ids a).1 ≠ CL.SUCCESS
  ∨ DeviceList.alloc_platform_node a = false →
  DeviceList.get_device_list a dl = None
  ∧ DeviceList.av_opencl_get_device_list true a = None
  ∧ DeviceList.free_device_list
      {| DeviceList.lm_platform_num := n; DeviceList.lm_platform_node := None |}
    = None.
Proof.
  intros Hcount Hn Hids Hnull Hfail.
  assert (H : ∀ dl0, DeviceList.get_device_list a dl0 = None).
  { intros dl0. unfold DeviceList.get_device_list. rewrite Hcount.
    change (CL.SUCCESS =? CL.SUCCESS) with true. cbn match.
    unfold DeviceList.av_mallocz_array. rewrite Hids. cbn [andb].
    destruct (0 <=? n) eqn:E; [|apply Z.leb_gt in E; lia].
    unfold DeviceList.build_list, DeviceList.log_status.
    destruct (DeviceList.platform_ids a) as [status ids]. cbn [fst] in Hfail.
    destruct (status =? CL.SUCCESS) eqn:Es.
    - destruct Hfail as [Hfail|Hfail]; [apply Z.eqb_eq in Es; contradiction|].
      cbn [DeviceList.lm_platform_num]. unfold DeviceList.av_mallocz_array.
      rewrite Hfail. reflexivity.
    - by destruct (opencl_errstr status). }
  split; [exact (H dl)|]. split.
  - unfold DeviceList.av_opencl_get_device_list. by rewrite H.
  - unfold DeviceList.free_device_list.
    cbn [DeviceList.lm_platform_num DeviceList.lm_platform_node].
    destruct (Z.to_nat n) as [|k] eqn:Ek; [lia|]. reflexivity.
Qed.

Lemma enumeration_failure_walks_null_list_witness :
  DeviceList.get_device_list failing_enumeration empty_list = None
  ∧ DeviceList.av_opencl_get_device_list true failing_enumeration = None
  ∧ DeviceList.free_device_list
      {| DeviceList.lm_platform_num := 2; DeviceList.lm_platform_node := None |}
    = None.
Proof.
  apply (enumeration_failure_walks_null_list failing_enumeration empty_list 2).
  - reflexivity.
  - lia.
  - reflexivity.
  - reflexivity.
  - left. vm_compute. discriminate.
Defined.

(** ** Buffers and the environment *)

Lemma init_adopts_descriptor (cstring : ptr -> option string)
    (ext : AVOpenCLExternalEnv) (a : init_answers) (w w1 : world) (r : av_ret)
    (tr : trace) :
  init_count (gpu_env w) = 0 →
  is_user_created (gpu_env w) = 0 →
  av_opencl_init cstring (Some ext) a w = Some (w1, r, tr) →
  is_user_created (gpu_env w1) = 1
  ∧ context (gpu_env w1) = ext_context ext
  ∧ command_queue (gpu_env w1) = ext_command_queue ext.
Proof.
  intros Hic Hu H. unfold av_opencl_init in H. rewrite Hic in H.
  change (0 =? 0) with true in H. cbv iota in H.
  destruct (ensure_defaults (openclutils w)) as [u tr0].
  set (g0 := set_platform_idx (opt_platform_idx u)
               (set_device_idx (opt_device_idx u) (gpu_env w))) in H.
  assert (Hu0 : is_user_created g0 = 0) by exact Hu.
  destruct (init_opencl_env_adopts ext a g0 Hu0)
    as (g1 & Hadopt & E1 & _ & _ & _ & E5 & E6).
  clearbody g0.
  destruct (init_opencl_env (Some ext) a g0 >>> init_compile cstring a u)
    as [[[g2 r2] tr2]|] eqn:Hs; [|discriminate H].
  injection H as <- <- <-.
  apply and_then_inv in Hs.
  destruct Hs as [[Hs Hr]|(g1' & tr1 & tr3 & Hs1 & Hs2 & ->)].
  - rewrite Hadopt in Hs. injection Hs as <- <- <-. discriminate Hr.
  - rewrite Hadopt in Hs1. injection Hs1 as <- <-.
    apply init_compile_sound in Hs2. destruct Hs2 as (_ & _ & _ & _ & Hs & _).
    destruct Hs as (H1 & _ & _ & _ & H5 & H6).
    change (gpu_env {| gpu_env := g2; openclutils := u |}) with g2.
    rewrite H1, H5, H6. done.
Qed.

(** X24: buffers live in the adopted environment.  Once a first
    [av_opencl_init] has been given a descriptor, then, whatever is called
    afterwards, [av_opencl_buffer_create] creates its buffer in the caller's
    context and [av_opencl_buffer_write] and [av_opencl_buffer_read] map
    their buffer on the caller's command queue.  The statuses the runtime
    answers being [CL_SUCCESS] or codes of the error table,
    [av_opencl_buffer_create] stores the handle the runtime returned whether
    it reports success or not, and returns 0 exactly on success. *)
Theorem buffers_live_in_adopted_environment (name_size : Z)
    (cstring : ptr -> option string) (w w1 w2 : world)
    (ext : AVOpenCLExternalEnv) (a : init_answers) (r : av_ret) (tr : trace)
    (cs : list call) (h : list entry) :
  init_count (gpu_env w) = 0 →
  is_user_created (gpu_env w) = 0 →
  av_opencl_init cstring (Some ext) a w = Some (w1, r, tr) →
  run name_size cstring cs w1 = Some (w2, h) →
  (∀ (buf : ptr) (status : cl_int) (size flags : Z) (host_ptr : ptr),
      known_status status →
      ∃ tr',
        av_opencl_buffer_create (buf, status) (gpu_env w2) size flags host_ptr
        = (buf, if status =? CL.SUCCESS then RET_OK else AVERROR_EXTERNAL,
           clCreateBuffer (ext_context ext) flags size host_ptr :: tr')
        ∧ no_event reads_past_table tr')
  ∧ (∀ (map : ptr * cl_int) (unmap : cl_int) (cl_buf host : ptr) (size : Z),
        known_status map.2 → known_status unmap →
        ∃ tr1 tr2,
          (av_opencl_buffer_write map unmap (gpu_env w2) cl_buf host size).2
          = clEnqueueMapBuffer (ext_command_queue ext) cl_buf CL.TRUE
              CL.MAP_WRITE 0 (size_t (1 * size)) :: tr1
          ∧ (av_opencl_buffer_read map unmap (gpu_env w2) host cl_buf size).2
            = clEnqueueMapBuffer (ext_command_queue ext) cl_buf CL.TRUE
                CL.MAP_READ 0 size :: tr2
          ∧ no_event reads_past_table tr1
          ∧ no_event reads_past_table tr2).
Proof.
  intros Hic Hu Hinit Hrun.
  destruct (init_adopts_descriptor cstring ext a w w1 r tr Hic Hu Hinit)
    as (Hu1 & Hc1 & Hq1).
  destruct (user_created_kept name_size cstring cs w1 w2 h) as [Hsame _];
    [rewrite Hu1; discriminate|exact Hrun|].
  destruct Hsame as (_ & _ & _ & _ & Hc2 & Hq2).
  rewrite Hc1 in Hc2. rewrite Hq1 in Hq2. split.
  - intros buf status size flags host Hknown. unfold av_opencl_buffer_create.
    rewrite Hc2. destruct (status =? CL.SUCCESS); eexists;
      (split; [reflexivity|within_table]).
  - intros [mapped status] unmap buf host size Hmap Hunmap. cbn [snd] in Hmap.
    unfold av_opencl_buffer_write, av_opencl_buffer_read. rewrite Hq2.
    destruct (status =? CL.SUCCESS); [destruct (unmap =? CL.SUCCESS)|];
      eexists _, _; (split_and!; [reflexivity|reflexivity|within_table..]).
Qed.

Lemma buffers_live_in_adopted_environment_witness :
  init_count (gpu_env (world_after [register_kernel_code 1])) = 0
  ∧ is_user_created (gpu_env (world_after [register_kernel_code 1])) = 0
  ∧ av_opencl_init sample_cstring (Some sample_external_env) sample_init_answers
      (world_after [register_kernel_code 1])
    = Some (adopted_world, RET_OK, adoption_trace)
  ∧ run sample_name_size sample_cstring after_adoption adopted_world
    = Some (world_after (adopting_run ++ after_adoption),
            drop 2 (history_after (adopting_run ++ after_adoption)))
  ∧ av_opencl_buffer_create (61, CL.SUCCESS)
      (gpu_env (world_after (adopting_run ++ after_adoption))) 1024 1 NULL
    = (61, RET_OK, [clCreateBuffer 42 1 1024 NULL])
  ∧ (∀ (buf : ptr) (status : cl_int) (size flags : Z) (host_ptr : ptr),
        known_status status →
        ∃ tr',
          av_opencl_buffer_create (buf, status)
            (gpu_env (world_after (adopting_run ++ after_adoption)))
            size flags host_ptr
          = (buf, if status =? CL.SUCCESS then RET_OK else AVERROR_EXTERNAL,
             clCreateBuffer (ext_context sample_external_env) flags size host_ptr
             :: tr')
          ∧ no_event reads_past_table tr').
Proof.
  assert (H1 : init_count (gpu_env (world_after [register_kernel_code 1])) = 0)
    by reflexivity.
  assert (H2 : is_user_created (gpu_env (world_after [register_kernel_code 1])) = 0)
    by reflexivity.
  assert (H3 : av_opencl_init sample_cstring (Some sample_external_env)
                 sample_init_answers (world_after [register_kernel_code 1])
               = Some (adopted_world, RET_OK, adoption_trace))
    by (vm_compute; reflexivity).
  assert (H4 : run sample_name_size sample_cstring after_adoption adopted_world
               = Some (world_after (adopting_run ++ after_adoption),
                       drop 2 (history_after (adopting_run ++ after_adoption))))
    by (vm_compute; reflexivity).
  split_and!; try assumption; [vm_compute; reflexivity|].
  exact (proj1 (buffers_live_in_adopted_environment sample_name_size
                  sample_cstring (world_after [register_kernel_code 1])
                  adopted_world (world_after (adopting_run ++ after_adoption))
                  sample_external_env sample_init_answers RET_OK adoption_trace
                  after_adoption
                  (drop 2 (history_after (adopting_run ++ after_adoption)))
                  H1 H2 H3 H4)).
Defined.

(** ** A fresh source is pending, an idle init only counts *)

Lemma join_fragments_insert_other (cstring : ptr -> option string)
    (kc : list KernelCode) (j : nat) (x : KernelCode) (l : list nat) :
  j ∉ l →
  join_fragments cstring (<[j := x]> kc) l = join_fragments cstring kc l.
Proof.
  induction l as [|i l IH]; intros Hj; [reflexivity|].
  cbn [join_fragments].
  rewrite list_lookup_insert_ne by (intros ->; apply Hj; apply list_elem_of_here).
  rewrite IH by (intros H; apply Hj; by apply list_elem_of_further).
  reflexivity.
Qed.

Lemma join_fragments_snoc (cstring : ptr -> option string) (kc : list KernelCode)
    (l : list nat) (i : nat) (c : KernelCode) (joined text : string) :
  join_fragments cstring kc l = Some joined →
  kc !! i = Some c → cstring (kernel_string c) = Some text →
  join_fragments cstring kc (l ++ [i]) = Some (joined +:+ text).
Proof.
  revert joined. induction l as [|k l IH]; intros joined Hj Hc Ht.
  - simpl in Hj. injection Hj as <-. cbn [app join_fragments].
    rewrite Hc. cbn [mbind option_bind]. rewrite Ht. cbn [mbind option_bind].
    by rewrite string_app_nil_r.
  - cbn [app join_fragments] in Hj |- *.
    destruct (kc !! k) as [ck|]; [|discriminate]. cbn [mbind option_bind] in Hj |- *.
    destruct (cstring (kernel_string ck)) as [sk|]; [|discriminate].
    cbn [mbind option_bind] in Hj |- *.
    destruct (join_fragments cstring kc l) as [t|] eqn:Hl; [|discriminate].
    cbn [mbind option_bind] in Hj. injection Hj as <-.
    rewrite (IH t eq_refl Hc Ht). cbn [mbind option_bind].
    by rewrite string_app_assoc.
Qed.

(** X25: registering a pointer that is not registered yet, with room in the
    table, appends it as a pending source: the call returns 0 without a log
    line, the pointer is the last of the registered pointers, its index is
    the last of the fragments the next compile pass submits, and the text of
    that pass is the text that was pending before followed by the text of the
    new source. *)
Theorem register_makes_source_pending (cstring : ptr -> option string)
    (src : ptr) (g : GPUEnv) (pending text : string) :
  tables_wf g →
  kernel_code_count g < MAX_KERNEL_CODE_NUM →
  src ∉ registered_pointers g →
  join_fragments cstring (kernel_code g) (pass_fragments g) = Some pending →
  cstring src = Some text →
  ∃ g',
    av_opencl_register_kernel_code src g = Some (g', RET_OK, [])
    ∧ kernel_code_count g' = kernel_code_count g + 1
    ∧ registered_pointers g' = registered_pointers g ++ [src]
    ∧ pass_fragments g' = pass_fragments g ++ [Z.to_nat (kernel_code_count g)]
    ∧ join_fragments cstring (kernel_code g') (pass_fragments g')
      = Some (pending +:+ text)
    ∧ program_count g' = program_count g
    ∧ programs g' = programs g.
Proof.
  intros Hwf Hroom Hfresh Hjoin Htext.
  pose proof Hwf as (Hp & Hk & Hpc & Hsum & Hmax).
  assert (Hcount : 0 ≤ kernel_code_count g) by lia.
  unfold MAX_KERNEL_CODE_NUM in *.
  set (n := Z.to_nat (kernel_code_count g)).
  assert (Hn : (n < length (kernel_code g))%nat) by (unfold n; lia).
  assert (Hreg : av_opencl_register_kernel_code src g
                 = Some (set_kernel_code_count (int32 (kernel_code_count g + 1))
                           (set_kernel_code
                              (<[n := {| is_compiled := 0; kernel_string := src |}]>
                                 (kernel_code g)) g), RET_OK, [])).
  { unfold av_opencl_register_kernel_code.
    destruct (_ >=? _) eqn:E;
      [rewrite Z.geb_leb in E; apply Z.leb_le in E; unfold MAX_KERNEL_CODE_NUM in E; lia|].
    destruct (find_registered_defined (kernel_code g) src n 0 ltac:(lia)) as [b Hb].
    fold n. rewrite Hb. cbn [mbind option_bind]. destruct b.
    - exfalso. apply Hfresh. apply elem_of_registered_pointers.
      apply find_registered_inv in Hb as (j & c & Hj & Hc & Hs).
      exists j, c. fold n. split_and!; [lia|done|done].
    - unfold arr_set.
      destruct (kernel_code_count g <? 0) eqn:E0; [apply Z.ltb_lt in E0; lia|].
      fold n. destruct (n <? length (kernel_code g))%nat eqn:E1;
        [|apply Nat.ltb_ge in E1; lia].
      reflexivity. }
  eexists. split; [exact Hreg|].
  assert (Hstep := proj2 (register_tables src g _ _ _ Hcount Hreg)).
  cbn [kernel_code_count kernel_code program_count programs
       set_kernel_code_count set_kernel_code].
  rewrite int32_small by (unfold INT_MIN, INT_MAX; lia).
  assert (Hfrag : uncompiled_from
                    (<[n := {| is_compiled := 0; kernel_string := src |}]> (kernel_code g))
                    0 (Z.to_nat (kernel_code_count g + 1))
                  = pass_fragments g ++ [n]).
  { replace (Z.to_nat (kernel_code_count g + 1)) with (S n) by (unfold n; lia).
    rewrite uncompiled_from_snoc, uncompiled_from_insert_above by lia.
    rewrite list_lookup_insert_eq by exact Hn.
    cbn [fmap option_fmap option_map is_compiled].
    rewrite decide_True by reflexivity. reflexivity. }
  split_and!; try reflexivity.
  - destruct (registered_pointers_step _ _ _ Hstep) as [Hsame|(s & Hs & _ & Happ)].
    + exfalso. unfold registered_pointers in Hsame.
      cbn [kernel_code_count kernel_code set_kernel_code_count set_kernel_code] in Hsame.
      apply (f_equal length) in Hsame. rewrite !length_fmap, !length_take in Hsame.
      rewrite length_insert in Hsame.
      rewrite int32_small in Hsame by (unfold INT_MIN, INT_MAX; lia). lia.
    + injection Hs as <-. unfold registered_pointers in Happ |- *.
      cbn [kernel_code_count kernel_code set_kernel_code_count set_kernel_code] in Happ.
      rewrite int32_small in Happ by (unfold INT_MIN, INT_MAX; lia). exact Happ.
  - unfold pass_fragments at 1.
    cbn [kernel_code_count kernel_code set_kernel_code_count set_kernel_code].
    exact Hfrag.
  - unfold pass_fragments at 1.
    cbn [kernel_code_count kernel_code set_kernel_code_count set_kernel_code].
    rewrite Hfrag.
    apply (join_fragments_snoc cstring _ _ n
             {| is_compiled := 0; kernel_string := src |});
      [|by apply list_lookup_insert_eq|exact Htext].
    rewrite join_fragments_insert_other; [exact Hjoin|].
    intros Hin. apply pass_fragments_below_count in Hin. unfold n in Hin. lia.
Qed.

Lemma register_makes_source_pending_witness :
  tables_wf (gpu_env (world_after pending_run))
  ∧ registered_pointers (gpu_env (world_after pending_run)) = [1; 2]
  ∧ ∃ g',
      av_opencl_register_kernel_code 3 (gpu_env (world_after pending_run))
      = Some (g', RET_OK, [])
      ∧ kernel_code_count g' = kernel_code_count (gpu_env (world_after pending_run)) + 1
      ∧ registered_pointers g'
        = registered_pointers (gpu_env (world_after pending_run)) ++ [3]
      ∧ pass_fragments g'
        = pass_fragments (gpu_env (world_after pending_run))
          ++ [Z.to_nat (kernel_code_count (gpu_env (world_after pending_run)))]
      ∧ join_fragments sample_cstring (kernel_code g') (pass_fragments g')
        = Some ("kernel void g(global int *p) { p[0] = 2; }"
                +:+ "kernel void h(global int *p) { p[0] = 3; }")
      ∧ program_count g' = program_count (gpu_env (world_after pending_run))
      ∧ programs g' = programs (gpu_env (world_after pending_run)).
Proof.
  assert (Hwf : tables_wf (gpu_env (world_after pending_run))).
  { unfold tables_wf. vm_compute. split_and!; (reflexivity || discriminate). }
  split; [exact Hwf|]. split; [vm_compute; reflexivity|].
  apply (register_makes_source_pending sample_cstring 3
           (gpu_env (world_after pending_run))
           "kernel void g(global int *p) { p[0] = 2; }"
           "kernel void h(global int *p) { p[0] = 3; }" Hwf).
  - vm_compute. reflexivity.
  - vm_compute. intros H. apply list_elem_of_In in H. cbn in H. intuition discriminate.
  - vm_compute. reflexivity.
  - reflexivity.
Defined.

(** X26: an init that finds the environment initialised and nothing to
    compile only counts: with [init_count] not 0 (and below [INT_MAX]), at
    least one source registered and none pending, [av_opencl_init] returns 0,
    raises [init_count] by one, calls nothing and changes nothing else,
    whether or not a descriptor is passed. *)
Theorem init_again_only_counts (cstring : ptr -> option string)
    (ext : option AVOpenCLExternalEnv) (a : init_answers) (w : world) :
  tables_wf (gpu_env w) →
  init_count (gpu_env w) ≠ 0 →
  INT_MIN ≤ init_count (gpu_env w) →
  init_count (gpu_env w) < INT_MAX →
  0 < kernel_code_count (gpu_env w) →
  pass_fragments (gpu_env w) = [] →
  av_opencl_init cstring ext a w
  = Some ({| gpu_env := set_init_count (init_count (gpu_env w) + 1) (gpu_env w);
             openclutils := openclutils w |}, RET_OK, []).
Proof.
  intros (Hp & Hk & Hpc & Hsum & Hmax) Hi Hlo Hhi Hreg Hnone.
  unfold MAX_KERNEL_CODE_NUM in *.
  unfold av_opencl_init.
  destruct (init_count (gpu_env w) =? 0) eqn:E; [apply Z.eqb_eq in E; contradiction|].
  unfold init_compile, compile_kernel_file.
  rewrite (source_len_loop_idle cstring (kernel_code (gpu_env w))
             (Z.to_nat (kernel_code_count (gpu_env w))) 0 0)
    by (try lia; exact Hnone).
  cbn [mbind option_bind]. change (0 =? 0) with true. cbn match.
  unfold proceed, and_then. cbn [ret_lt_0].
  destruct (kernel_code_count (gpu_env w) <=? 0) eqn:E1; [apply Z.leb_le in E1; lia|].
  cbn [mbind option_bind].
  rewrite int32_small by (unfold INT_MIN, INT_MAX in *; lia).
  reflexivity.
Qed.

Lemma init_again_only_counts_witness :
  tables_wf (gpu_env initialised_world)
  ∧ init_count (gpu_env initialised_world) = 1
  ∧ pass_fragments (gpu_env initialised_world) = []
  ∧ av_opencl_init sample_cstring (Some sample_external_env) sample_build_failure
      initialised_world
    = Some ({| gpu_env := set_init_count (init_count (gpu_env initialised_world) + 1)
                            (gpu_env initialised_world);
               openclutils := openclutils initialised_world |}, RET_OK, []).
Proof.
  assert (Hwf : tables_wf (gpu_env initialised_world)).
  { unfold tables_wf. vm_compute. split_and!; (reflexivity || discriminate). }
  split; [exact Hwf|]. split; [reflexivity|]. split; [vm_compute; reflexivity|].
  apply (init_again_only_counts sample_cstring (Some sample_external_env)
           sample_build_failure initialised_world Hwf).
  - vm_compute. discriminate.
  - vm_compute. discriminate.
  - vm_compute. reflexivity.
  - vm_compute. reflexivity.
  - vm_compute. reflexivity.
Defined.

(** ** After an enumeration that failed *)

(** X27: when the array of platform identifiers cannot be allocated,
    [get_device_list] returns [AVERROR(ENOMEM)] at once, without going
    through [end:], and leaves in the list the platform count the runtime
    reported together with the [platform_node] it found.
    [av_opencl_get_device_list], whose list is zeroed, then calls
    [free_device_list] on a list that counts platforms and has no array:
    with a positive count this reads [platform_node[0]] through the [NULL]
    pointer. *)
Theorem failed_identifier_allocation_keeps_count (a : DeviceList.answers)
    (dl : DeviceList.list_mem) (n : Z) :
  DeviceList.platform_count a = (CL.SUCCESS, n) →
  DeviceList.alloc_platform_ids a = false →
  DeviceList.get_device_list a dl
  = Some ({| DeviceList.lm_platform_num := n;
             DeviceList.lm_platform_node := DeviceList.lm_platform_node dl |},
          AVERROR_ENOMEM, [])
  ∧ (0 < n → DeviceList.av_opencl_get_device_list true a = None).
Proof.
  intros Hcount Hids.
  assert (H : ∀ dl0, DeviceList.get_device_list a dl0
                     = Some ({| DeviceList.lm_platform_num := n;
                                DeviceList.lm_platform_node :=
                                  DeviceList.lm_platform_node dl0 |},
                             AVERROR_ENOMEM, [])).
  { intros dl0. unfold DeviceList.get_device_list. rewrite Hcount.
    change (CL.SUCCESS =? CL.SUCCESS) with true. cbn match.
    unfold DeviceList.av_mallocz_array. by rewrite Hids. }
  split; [exact (H dl)|]. intros Hn.
  unfold DeviceList.av_opencl_get_device_list. rewrite H.
  cbn [mbind option_bind ret_lt_0 DeviceList.lm_platform_node].
  unfold DeviceList.free_device_list.
  cbn [DeviceList.lm_platform_num DeviceList.lm_platform_node].
  destruct (Z.to_nat n) as [|k] eqn:Ek; [lia|]. reflexivity.
Qed.

Lemma failed_identifier_allocation_keeps_count_witness :
  DeviceList.get_device_list unallocated_enumeration empty_list
  = Some ({| DeviceList.lm_platform_num := 2;
             DeviceList.lm_platform_node := None |}, AVERROR_ENOMEM, [])
  ∧ DeviceList.av_opencl_get_device_list true unallocated_enumeration = None.
Proof.
  destruct (failed_identifier_allocation_keeps_count unallocated_enumeration
              empty_list 2 eq_refl eq_refl) as [H1 H2].
  split; [exact H1|]. apply H2. lia.
Defined.

(** X28: a cached device list that counts platforms and has no array is
    never repaired.  [init_opencl_env] enumerates only when [platform_num]
    is 0, so the next [av_opencl_init] without a descriptor goes on with the
    list as it is and reads [platform_node] through the [NULL] pointer,
    whether the platform is configured (with an index below the count) or
    searched for; and [av_opencl_uninit], once its gate is open, walks the
    same list in [free_device_list]. *)
Theorem counted_list_without_array_is_fatal (cstring : ptr -> option string)
    (a : init_answers) (ua : uninit_answers) (w : world) (n : Z) :
  device_list (gpu_env w) = {| platform_num := n; platform_node := [] |} →
  0 < n → n ≤ INT_MAX →
  is_user_created (gpu_env w) = 0 →
  (init_count (gpu_env w) = 0 →
   INT_MIN ≤ opt_platform_idx (ensure_defaults (openclutils w)).1 →
   opt_platform_idx (ensure_defaults (openclutils w)).1 < n →
   av_opencl_init cstring None a w = None)
  ∧ (int32 (init_count (gpu_env w) - 1) ≤ 0 → kernel_count (gpu_env w) ≤ 0 →
     av_opencl_uninit ua w = None).
Proof.
  intros Hdl Hn Hmax Hu. split.
  - intros Hic Hlo Hhi. unfold av_opencl_init. rewrite Hic.
    change (0 =? 0) with true. cbn match.
    destruct (ensure_defaults (openclutils w)) as [u tr0]. cbn [fst] in Hlo, Hhi.
    set (g := set_platform_idx (opt_platform_idx u)
                (set_device_idx (opt_device_idx u) (gpu_env w))).
    assert (Hg : init_opencl_env None a g = None); [|by rewrite Hg].
    assert (Hgl : device_list g = {| platform_num := n; platform_node := [] |})
      by exact Hdl.
    assert (Hgi : platform_idx g = opt_platform_idx u) by reflexivity.
    assert (Hgu : is_user_created g = 0) by exact Hu.
    clearbody g. unfold init_opencl_env. rewrite Hgu.
    change (0 =? 0) with true. cbn match. rewrite Hgl. cbn [platform_num].
    destruct (n =? 0) eqn:E; [apply Z.eqb_eq in E; lia|].
    assert (Hsel : select_platform g = None); [|unfold proceed, and_then at 3;
      cbn [ret_lt_0]; by rewrite Hsel].
    unfold select_platform. rewrite Hgl, Hgi. cbn [platform_num platform_node].
    destruct (opt_platform_idx u >=? 0) eqn:E1.
    + rewrite Z.geb_leb in E1. apply Z.leb_le in E1.
      rewrite int32_small by (unfold INT_MIN, INT_MAX in *; lia).
      destruct (n <? opt_platform_idx u + 1) eqn:E2; [apply Z.ltb_lt in E2; lia|].
      unfold arr_get.
      destruct (opt_platform_idx u <? 0) eqn:E3; [reflexivity|].
      by rewrite lookup_nil.
    + destruct (Z.to_nat n) as [|k] eqn:Ek; [lia|]. reflexivity.
  - intros Hi Hk. unfold av_opencl_uninit.
    cbn [is_user_created init_count kernel_count programs program_count
         set_init_count].
    rewrite Hu. change (negb (0 =? 0)) with false. cbn match.
    destruct (int32 (init_count (gpu_env w) - 1) >? 0) eqn:E1;
      [apply Z.gtb_lt in E1; lia|].
    destruct (kernel_count (gpu_env w) >? 0) eqn:E2; [apply Z.gtb_lt in E2; lia|].
    cbn [orb].
    destruct (release_programs _ _ _ _) as [[progs tr1]|]; [|reflexivity].
    cbn [mbind option_bind].
    destruct (release_command_queue _ _) as [g2 tr2] eqn:Hq.
    apply release_command_queue_spec in Hq as [-> _].
    destruct (release_context _ _) as [g3 tr3] eqn:Hx.
    apply release_context_spec in Hx as [-> _].
    cbn [device_list set_context set_command_queue set_programs set_init_count].
    rewrite Hdl. unfold walk_device_list. cbn [platform_num platform_node].
    destruct (Z.to_nat n) as [|k] eqn:Ek; [lia|]. reflexivity.
Qed.

Lemma counted_list_without_array_is_fatal_witness :
  run sample_name_size sample_cstring failed_init_run world0
  = Some (failed_init_world,
          [(register_kernel_code 1, RET_OK, []);
           (init None unallocated_answers, AVERROR_ENOMEM,
            [av_opt_set_defaults; get_device_list])])
  ∧ av_opencl_init sample_cstring None sample_init_answers failed_init_world
    = None
  ∧ av_opencl_uninit sample_uninit_answers failed_init_world = None.
Proof.
  split; [vm_compute; reflexivity|].
  destruct (counted_list_without_array_is_fatal sample_cstring
              sample_init_answers sample_uninit_answers failed_init_world 2)
    as [Hinit Huninit].
  - reflexivity.
  - lia.
  - vm_compute. discriminate.
  - reflexivity.
  - split.
    + apply Hinit; [reflexivity|vm_compute; discriminate|vm_compute; reflexivity].
    + apply Huninit; vm_compute; discriminate.
Defined.
